(** * Schengen Calc backend: request handlers over D1 and the Square gateway

    A shallow embedding of the Cloudflare Pages functions of the repository:
    - the auth API (handleUserRegistration, handleUserLogin,
      verifyUserToken, authenticateRequest),
    - the create-subscription endpoint (onRequestPost) and its simplified
      variant,
    - the Square webhook endpoint (onRequestPost and its four handlers),
    - the Square wrapper functions of square-subscription-api.js and its
      webhook stub (handleSquareWebhook),
    - the two endpoints that list the subscription plans,
    - the D1 schema the statements run against.

    JavaScript values are dynamically typed, so request bodies, gateway
    results and rows read back from D1 are all [JS.Value]s; every handler
    is a computation in a state-and-exception monad over a [World] that
    holds the database, the scripted behaviour of the collaborators and
    the console.

    Scope of the value model: a string is a sequence of code units below
    256 (the characters U+0000..U+00FF, one unit each; [toLowerCase] and
    the white space class of patterns are those of the engine on these
    units), numbers are the integers, and the text of a number that is
    written to a TEXT column is not modelled. *)

From Stdlib Require Import String Ascii ZArith List Bool Lia.
From Stdlib Require DecimalString.
From Stdlib Require Strings.Byte.
Import ListNotations.
Set Warnings "-register-all".
Local Open Scope string_scope.
Local Open Scope Z_scope.

(* ================================================================== *)
(** ** JavaScript values *)
(* ================================================================== *)

Module JS.

Inductive Value : Type :=
| Undefined
| Null
| Bool (b : bool)
| Num (z : Z)
| Str (s : string)
| Arr (items : list Value)
| Obj (props : list (string * Value)).

(** Thrown values. Every [throw] in the sources and every runtime failure
    carries an [Error] object of which only [message] is ever read. *)
Inductive Error : Type :=
| TypeError (message : string)
| PlainError (message : string).

Definition message (e : Error) : string :=
  match e with TypeError m => m | PlainError m => m end.

(** Completion of an expression: a value or a thrown error. *)
Inductive Outcome (A : Type) : Type :=
| Returns (a : A)
| Throws (e : Error).
Arguments Returns {A} a.
Arguments Throws {A} e.

Definition and_then {A B} (o : Outcome A) (k : A -> Outcome B) : Outcome B :=
  match o with Returns a => k a | Throws e => Throws e end.

(** Own property of an object literal / parsed JSON object. *)
Fixpoint own (props : list (string * Value)) (k : string) : option Value :=
  match props with
  | [] => None
  | (k', v) :: rest => if String.eqb k k' then Some v else own rest k
  end.

(** [v.k] for the property names the handlers read. None of those names
    is inherited from a prototype, except [length] on strings and arrays. *)
Definition get (v : Value) (k : string) : Outcome Value :=
  match v with
  | Undefined =>
      Throws (TypeError ("Cannot read properties of undefined (reading '" ++ k ++ "')"))
  | Null =>
      Throws (TypeError ("Cannot read properties of null (reading '" ++ k ++ "')"))
  | Obj props => Returns (match own props k with Some x => x | None => Undefined end)
  | Str s => Returns (if String.eqb k "length" then Num (Z.of_nat (String.length s)) else Undefined)
  | Arr items => Returns (if String.eqb k "length" then Num (Z.of_nat (List.length items)) else Undefined)
  | Bool _ | Num _ => Returns Undefined
  end.

(** [v?.k] *)
Definition get_opt (v : Value) (k : string) : Outcome Value :=
  match v with
  | Undefined | Null => Returns Undefined
  | _ => get v k
  end.

(** ToBoolean *)
Definition truthy (v : Value) : bool :=
  match v with
  | Undefined | Null => false
  | Bool b => b
  | Num z => negb (z =? 0)
  | Str s => negb (String.eqb s "")
  | Arr _ | Obj _ => true
  end.

(** [a || b] *)
Definition or_else (a b : Value) : Value := if truthy a then a else b.

Definition decimal (z : Z) : string :=
  DecimalString.NilZero.string_of_int (Z.to_int z).

(** ToString, as template literals, [RegExp.prototype.test] and computed
    property keys apply it. An object that carries an own [toString]
    property (never callable, in parsed JSON) cannot be converted. *)
Fixpoint ToString (v : Value) : Outcome string :=
  match v with
  | Undefined => Returns "undefined"
  | Null => Returns "null"
  | Bool true => Returns "true"
  | Bool false => Returns "false"
  | Num z => Returns (decimal z)
  | Str s => Returns s
  | Arr items =>
      (fix join (l : list Value) : Outcome string :=
         match l with
         | [] => Returns ""
         | x :: rest =>
             and_then
               (match x with
                | Undefined | Null => Returns ""
                | _ => ToString x
                end)
               (fun s =>
                  match rest with
                  | [] => Returns s
                  | _ => and_then (join rest) (fun r => Returns (s ++ "," ++ r))
                  end)
         end) items
  | Obj props =>
      match own props "toString" with
      | Some _ => Throws (TypeError "Cannot convert object to primitive value")
      | None => Returns "[object Object]"
      end
  end.

(** [a === b] against a string literal. *)
Definition strict_eq_str (v : Value) (s : string) : bool :=
  match v with Str s' => String.eqb s' s | _ => false end.

(** Folding of 'A'..'Z'. *)
Definition lower_ascii (c : ascii) : ascii :=
  let n := nat_of_ascii c in
  if andb (Nat.leb 65 n) (Nat.leb n 90) then ascii_of_nat (n + 32) else c.

(** [String.prototype.toLowerCase] on one code unit below 256: 'A'..'Z'
    and the capital letters U+00C0..U+00DE (the multiplication sign
    U+00D7, which lies among them, is no letter) move 32 up; every other
    unit stays. *)
Definition lower_unit (c : ascii) : ascii :=
  let n := nat_of_ascii c in
  if orb (andb (Nat.leb 65 n) (Nat.leb n 90))
         (andb (andb (Nat.leb 192 n) (Nat.leb n 222)) (negb (Nat.eqb n 215)))
  then ascii_of_nat (n + 32) else c.

Fixpoint toLowerCase (s : string) : string :=
  match s with
  | EmptyString => EmptyString
  | String c rest => String (lower_unit c) (toLowerCase rest)
  end.

(** Header names are compared byte-wise after folding 'A'..'Z' only. *)
Fixpoint byte_lowercase (s : string) : string :=
  match s with
  | EmptyString => EmptyString
  | String c rest => String (lower_ascii c) (byte_lowercase rest)
  end.

(** [v.toLowerCase()] : only strings have the method. *)
Definition call_toLowerCase (v : Value) : Outcome string :=
  and_then (get v "toLowerCase")
    (fun _ =>
       match v with
       | Str s => Returns (toLowerCase s)
       | _ => Throws (TypeError "toLowerCase is not a function")
       end).

(** [Array.prototype.join] over strings. *)
Fixpoint join (sep : string) (l : list string) : string :=
  match l with
  | [] => ""
  | [x] => x
  | x :: rest => x ++ sep ++ join sep rest
  end.

End JS.

Abbreviation Returns := JS.Returns.
Abbreviation Throws := JS.Throws.

(* ================================================================== *)
(** ** Regular expressions (the fragment the email pattern needs) *)
(* ================================================================== *)

Module RegExp.

Inductive t : Type :=
| Never
| Empty
| Class (p : ascii -> bool)
| Seq (r1 r2 : t)
| Alt (r1 r2 : t)
| Star (r : t).

Definition Plus (r : t) : t := Seq r (Star r).
Definition Char (c : ascii) : t := Class (Ascii.eqb c).

Fixpoint nullable (r : t) : bool :=
  match r with
  | Never => false
  | Empty => true
  | Class _ => false
  | Seq r1 r2 => nullable r1 && nullable r2
  | Alt r1 r2 => nullable r1 || nullable r2
  | Star _ => true
  end.

(** Brzozowski derivative. *)
Fixpoint deriv (c : ascii) (r : t) : t :=
  match r with
  | Never => Never
  | Empty => Never
  | Class p => if p c then Empty else Never
  | Seq r1 r2 =>
      if nullable r1
      then Alt (Seq (deriv c r1) r2) (deriv c r2)
      else Seq (deriv c r1) r2
  | Alt r1 r2 => Alt (deriv c r1) (deriv c r2)
  | Star r1 => Seq (deriv c r1) (Star r1)
  end.

(** [/^r$/.test(s)] *)
Fixpoint test_anchored (r : t) (s : string) : bool :=
  match s with
  | EmptyString => nullable r
  | String c rest => test_anchored (deriv c r) rest
  end.

(** [\s] on the code units below 256: tab, line feed, vertical tab,
    form feed, carriage return, space, and the no-break space U+00A0. *)
Definition whitespace (c : ascii) : bool :=
  let n := nat_of_ascii c in
  orb (orb (andb (Nat.leb 9 n) (Nat.leb n 13)) (Nat.eqb n 32)) (Nat.eqb n 160).

End RegExp.

(* ================================================================== *)
(** ** SQLite values and the D1 schema *)
(* ================================================================== *)

Module SQLite.

(** Storage classes. *)
Inductive Value : Type :=
| NULL
| INTEGER (z : Z)
| TEXT (s : string)
| BLOB (bytes : list Byte.byte).

Fixpoint bytes_eqb (a b : list Byte.byte) : bool :=
  match a, b with
  | [], [] => true
  | x :: a', y :: b' => Byte.eqb x y && bytes_eqb a' b'
  | _, _ => false
  end.

(** The SQL comparison [a = b] evaluating to true: NULL equals nothing,
    values of different storage classes differ. *)
Definition eqb (a b : Value) : bool :=
  match a, b with
  | INTEGER x, INTEGER y => x =? y
  | TEXT x, TEXT y => String.eqb x y
  | BLOB x, BLOB y => bytes_eqb x y
  | _, _ => false
  end.

Definition is_null (v : Value) : bool :=
  match v with NULL => true | _ => false end.

(** TEXT column affinity: a number is stored, and compared, as its text. *)
Definition text_affinity (v : Value) : Value :=
  match v with INTEGER z => TEXT (JS.decimal z) | _ => v end.

(** What the driver hands back to JavaScript for a column value. *)
Definition to_js (v : Value) : JS.Value :=
  match v with
  | NULL => JS.Null
  | INTEGER z => JS.Num z
  | TEXT s => JS.Str s
  | BLOB bytes => JS.Arr (map (fun b => JS.Num (Z.of_N (Byte.to_N b))) bytes)
  end.

(** [false] and [true] literals of SQL. *)
Definition FALSE : Value := INTEGER 0.
Definition TRUE : Value := INTEGER 1.

End SQLite.

(** CREATE TABLE users. [id] is the INTEGER PRIMARY KEY; the other columns
    hold whatever storage class was written (SQLite is dynamically typed).
    INTEGER and BOOLEAN column affinity (numeric text re-typed as a number)
    is not modelled: no statement of the handlers depends on it. *)
Module users.
Record row : Type := mk {
  id : Z;
  email : SQLite.Value;              (* TEXT NOT NULL UNIQUE *)
  first_name : SQLite.Value;         (* TEXT NOT NULL *)
  last_name : SQLite.Value;          (* TEXT NOT NULL *)
  password_hash : SQLite.Value;      (* TEXT *)
  square_customer_id : SQLite.Value; (* TEXT UNIQUE *)
  subscription_active : SQLite.Value;(* BOOLEAN DEFAULT false *)
  email_verified : SQLite.Value;     (* BOOLEAN DEFAULT false *)
  created_at : SQLite.Value;         (* TEXT NOT NULL *)
  updated_at : SQLite.Value;
  last_login_at : SQLite.Value
}.
Definition set_square_customer_id (v : SQLite.Value) (r : row) : row :=
  mk (id r) (email r) (first_name r) (last_name r) (password_hash r) v
     (subscription_active r) (email_verified r) (created_at r) (updated_at r)
     (last_login_at r).
Definition set_subscription_active (v : SQLite.Value) (r : row) : row :=
  mk (id r) (email r) (first_name r) (last_name r) (password_hash r)
     (square_customer_id r) v (email_verified r) (created_at r) (updated_at r)
     (last_login_at r).
Definition set_last_login_at (v : SQLite.Value) (r : row) : row :=
  mk (id r) (email r) (first_name r) (last_name r) (password_hash r)
     (square_customer_id r) (subscription_active r) (email_verified r)
     (created_at r) (updated_at r) v.
End users.

(** CREATE TABLE subscriptions. *)
Module subscriptions.
Record row : Type := mk {
  id : Z;
  user_id : SQLite.Value;                (* INTEGER NOT NULL, FK users(id) *)
  square_subscription_id : SQLite.Value; (* TEXT UNIQUE *)
  plan_type : SQLite.Value;              (* TEXT NOT NULL *)
  status : SQLite.Value;                 (* TEXT NOT NULL *)
  price_amount : SQLite.Value;           (* INTEGER NOT NULL *)
  currency : SQLite.Value;               (* TEXT DEFAULT 'GBP' *)
  frequency : SQLite.Value;              (* TEXT NOT NULL *)
  started_at : SQLite.Value;
  ended_at : SQLite.Value;
  created_at : SQLite.Value;             (* TEXT NOT NULL *)
  updated_at : SQLite.Value
}.
Definition set_status (v : SQLite.Value) (r : row) : row :=
  mk (id r) (user_id r) (square_subscription_id r) (plan_type r) v
     (price_amount r) (currency r) (frequency r) (started_at r) (ended_at r)
     (created_at r) (updated_at r).
Definition set_square_subscription_id (v : SQLite.Value) (r : row) : row :=
  mk (id r) (user_id r) v (plan_type r) (status r)
     (price_amount r) (currency r) (frequency r) (started_at r) (ended_at r)
     (created_at r) (updated_at r).
Definition set_updated_at (v : SQLite.Value) (r : row) : row :=
  mk (id r) (user_id r) (square_subscription_id r) (plan_type r) (status r)
     (price_amount r) (currency r) (frequency r) (started_at r) (ended_at r)
     (created_at r) v.
End subscriptions.

(** CREATE TABLE payments. *)
Module payments.
Record row : Type := mk {
  id : Z;
  user_id : SQLite.Value;           (* INTEGER NOT NULL, FK users(id) *)
  subscription_id : SQLite.Value;   (* TEXT, the Square subscription id *)
  amount : SQLite.Value;            (* INTEGER NOT NULL *)
  currency : SQLite.Value;          (* TEXT DEFAULT 'GBP' *)
  status : SQLite.Value;            (* TEXT NOT NULL *)
  square_payment_id : SQLite.Value; (* TEXT *)
  failure_reason : SQLite.Value;    (* TEXT DEFAULT NULL *)
  created_at : SQLite.Value         (* TEXT NOT NULL *)
}.
End payments.

(** CREATE TABLE user_sessions. *)
Module user_sessions.
Record row : Type := mk {
  id : Z;
  user_id : SQLite.Value;        (* INTEGER NOT NULL, FK users(id) *)
  session_token : SQLite.Value;  (* TEXT NOT NULL UNIQUE *)
  expires_at : SQLite.Value;     (* TEXT NOT NULL *)
  created_at : SQLite.Value;     (* TEXT NOT NULL *)
  last_used_at : SQLite.Value;
  ip_address : SQLite.Value;
  user_agent : SQLite.Value
}.
End user_sessions.

(* ================================================================== *)
(** ** The platform: libraries and runtime the handlers are linked with *)
(* ================================================================== *)

(** bcryptjs, jsonwebtoken, the engine's string-to-number conversion and
    the D1 driver's treatment of an [undefined] binding are not code of
    the repository; the handlers are verified for every choice of them. *)
Record Platform : Type := {
  (** [bcrypt.hash(s, rounds)] with the salt drawn from [entropy] *)
  bcrypt_hash : JS.Value -> Z -> string -> JS.Outcome string;
  (** [bcrypt.compare(s, hash)] *)
  bcrypt_compare : JS.Value -> JS.Value -> JS.Outcome bool;
  (** [jwt.sign(payload, secret, { expiresIn })] at a given instant *)
  jwt_sign : JS.Value -> string -> string -> string -> string;
  (** [ToNumber(s) < n] for a string [s] *)
  numeric_string_lt : string -> Z -> bool;
  (** whether [.bind(undefined)] stores NULL, or is refused with a
      D1_TYPE_ERROR *)
  d1_undefined_as_null : bool;
  (** SQLite's [datetime('now', '+7 days')] from [datetime('now')] *)
  datetime_plus_7_days : string -> string
}.

(* ================================================================== *)
(** ** The D1 database *)
(* ================================================================== *)

Module D1.

Record Database : Type := mk {
  tbl_users : list users.row;
  tbl_subscriptions : list subscriptions.row;
  tbl_payments : list payments.row;
  tbl_user_sessions : list user_sessions.row;
  (** sqlite_sequence: the largest rowid ever handed out, per table *)
  seq_users : Z;
  seq_subscriptions : Z;
  seq_payments : Z;
  seq_user_sessions : Z
}.

Definition set_users (t : list users.row) (seq : Z) (d : Database) : Database :=
  mk t (tbl_subscriptions d) (tbl_payments d) (tbl_user_sessions d)
     seq (seq_subscriptions d) (seq_payments d) (seq_user_sessions d).
Definition set_subscriptions (t : list subscriptions.row) (seq : Z) (d : Database) : Database :=
  mk (tbl_users d) t (tbl_payments d) (tbl_user_sessions d)
     (seq_users d) seq (seq_payments d) (seq_user_sessions d).
Definition set_payments (t : list payments.row) (seq : Z) (d : Database) : Database :=
  mk (tbl_users d) (tbl_subscriptions d) t (tbl_user_sessions d)
     (seq_users d) (seq_subscriptions d) seq (seq_user_sessions d).
Definition set_user_sessions (t : list user_sessions.row) (seq : Z) (d : Database) : Database :=
  mk (tbl_users d) (tbl_subscriptions d) (tbl_payments d) t
     (seq_users d) (seq_subscriptions d) (seq_payments d) seq.

(** AUTOINCREMENT: one more than the largest rowid that ever existed. *)
Definition next_rowid (seq : Z) (ids : list Z) : Z :=
  fold_right Z.max seq ids + 1.

Definition constraint_failed {A} (what : string) : JS.Outcome A :=
  Throws (JS.PlainError ("D1_ERROR: " ++ what ++ " constraint failed")).

(** The rows of users that [WHERE id = ?] selects. *)
Definition is_user (uid : SQLite.Value) (u : users.row) : bool :=
  SQLite.eqb (SQLite.INTEGER (users.id u)) uid.

(** FOREIGN KEY (user_id) REFERENCES users (id); D1 enforces foreign keys. *)
Definition user_exists (d : Database) (uid : SQLite.Value) : bool :=
  existsb (is_user uid) (tbl_users d).

(** INSERT INTO users (email, first_name, last_name, password_hash, created_at):
    the remaining columns take their defaults. *)
Definition insert_user (e fn ln ph created : SQLite.Value) (d : Database)
  : JS.Outcome (users.row * Database) :=
  let e := SQLite.text_affinity e in
  if SQLite.is_null e || SQLite.is_null fn || SQLite.is_null ln || SQLite.is_null created
  then constraint_failed "NOT NULL"
  else if existsb (fun u => SQLite.eqb (users.email u) e) (tbl_users d)
  then constraint_failed "UNIQUE"
  else
    let rowid := next_rowid (seq_users d) (map users.id (tbl_users d)) in
    let r := users.mk rowid e (SQLite.text_affinity fn) (SQLite.text_affinity ln)
               (SQLite.text_affinity ph) SQLite.NULL SQLite.FALSE SQLite.FALSE
               (SQLite.text_affinity created) SQLite.NULL SQLite.NULL in
    Returns (r, set_users (tbl_users d ++ [r]) rowid d).

(** INSERT INTO subscriptions (user_id, square_subscription_id, plan_type,
    status, price_amount, currency, frequency, started_at, created_at) *)
Definition insert_subscription
    (uid sq plan st price cur freq started created : SQLite.Value) (d : Database)
  : JS.Outcome Database :=
  let sq := SQLite.text_affinity sq in
  if SQLite.is_null uid || SQLite.is_null plan || SQLite.is_null st
     || SQLite.is_null price || SQLite.is_null freq || SQLite.is_null created
  then constraint_failed "NOT NULL"
  else if existsb (fun s => SQLite.eqb (subscriptions.square_subscription_id s) sq)
            (tbl_subscriptions d)
  then constraint_failed "UNIQUE"
  else if negb (user_exists d uid)
  then constraint_failed "FOREIGN KEY"
  else
    let rowid := next_rowid (seq_subscriptions d) (map subscriptions.id (tbl_subscriptions d)) in
    let r := subscriptions.mk rowid uid sq (SQLite.text_affinity plan)
               (SQLite.text_affinity st) price (SQLite.text_affinity cur)
               (SQLite.text_affinity freq) (SQLite.text_affinity started)
               SQLite.NULL (SQLite.text_affinity created) SQLite.NULL in
    Returns (set_subscriptions (tbl_subscriptions d ++ [r]) rowid d).

(** INSERT INTO payments (user_id, subscription_id, amount, currency,
    status, square_payment_id, created_at): [failure_reason] is not among
    the columns and takes its default, NULL. *)
Definition insert_payment
    (uid sub amt cur st pay created : SQLite.Value) (d : Database)
  : JS.Outcome Database :=
  if SQLite.is_null uid || SQLite.is_null amt || SQLite.is_null st
     || SQLite.is_null created
  then constraint_failed "NOT NULL"
  else if negb (user_exists d uid)
  then constraint_failed "FOREIGN KEY"
  else
    let rowid := next_rowid (seq_payments d) (map payments.id (tbl_payments d)) in
    let r := payments.mk rowid uid (SQLite.text_affinity sub) amt
               (SQLite.text_affinity cur) (SQLite.text_affinity st)
               (SQLite.text_affinity pay) SQLite.NULL
               (SQLite.text_affinity created) in
    Returns (set_payments (tbl_payments d ++ [r]) rowid d).

(** INSERT INTO user_sessions (user_id, session_token, expires_at,
    created_at [, last_used_at]) *)
Definition insert_session
    (uid tok expires created used : SQLite.Value) (d : Database)
  : JS.Outcome Database :=
  let tok := SQLite.text_affinity tok in
  if SQLite.is_null uid || SQLite.is_null tok || SQLite.is_null expires
     || SQLite.is_null created
  then constraint_failed "NOT NULL"
  else if existsb (fun s => SQLite.eqb (user_sessions.session_token s) tok)
            (tbl_user_sessions d)
  then constraint_failed "UNIQUE"
  else if negb (user_exists d uid)
  then constraint_failed "FOREIGN KEY"
  else
    let rowid := next_rowid (seq_user_sessions d) (map user_sessions.id (tbl_user_sessions d)) in
    let r := user_sessions.mk rowid uid tok (SQLite.text_affinity expires)
               (SQLite.text_affinity created) (SQLite.text_affinity used)
               SQLite.NULL SQLite.NULL in
    Returns (set_user_sessions (tbl_user_sessions d ++ [r]) rowid d).

(** UPDATE <table> SET ... WHERE <cond>: rewrite the rows that match. *)
Definition update_where {R} (cond : R -> bool) (f : R -> R) (t : list R) : list R :=
  map (fun r => if cond r then f r else r) t.

(** What the environment does to the store just before a statement of
    the request runs. *)
Inductive Event : Type :=
| Proceed
| Unavailable (message : string)
  (** the statement fails: network, timeout, storage error *)
| RivalRegistration (email first_name last_name password_hash : string)
  (** a concurrent registration commits its INSERT INTO users first *).

End D1.

(* ================================================================== *)
(** ** The Square SDK, requests, responses and the world *)
(* ================================================================== *)

Module Square.

(** The SDK calls the wrappers make, with the request object passed. *)
Inductive Call : Type :=
| ListLocations
| CreateCustomer (request : JS.Value)
| CreateSubscription (request : JS.Value).

(** How the gateway answers one call: the [result] of the API response,
    or a rejected promise. *)
Inductive Reply : Type :=
| Resolves (result : JS.Value)
| Rejects (e : JS.Error).

End Square.

(** The Headers object of a request (names normalised, one value per
    name) and what parsing the body as JSON gives: [None] when
    [JSON.parse] / [request.json()] throws a SyntaxError. *)
Record Request : Type := {
  req_headers : list (string * string);
  req_body : option JS.Value
}.

Fixpoint headers_get (hs : list (string * string)) (name : string) : option string :=
  match hs with
  | [] => None
  | (n, v) :: rest =>
      if String.eqb (JS.byte_lowercase n) (JS.byte_lowercase name) then Some v
      else headers_get rest name
  end.

(** [new Response(JSON.stringify(payload), { status, headers })]; [payload]
    is kept as the object handed to [JSON.stringify] (which leaves out
    the properties whose value is undefined). *)
Record Response : Type := {
  status : Z;
  headers : list (string * string);
  payload : JS.Value
}.

Definition content_type_json : list (string * string) :=
  [("Content-Type", "application/json")].

Record World : Type := mkWorld {
  DB : D1.Database;                     (* env.DB *)
  store_script : list D1.Event;         (* one event per statement run;
                                           once exhausted, the store proceeds *)
  square_script : list Square.Reply;    (* one reply per SDK call *)
  square_calls : list Square.Call;      (* SDK calls made so far *)
  entropy : list string;                (* salts, UUIDs, idempotency keys *)
  now_sql : string;                     (* datetime('now') *)
  now_iso : string;                     (* new Date().toISOString() *)
  JWT_SECRET : option string;           (* env.JWT_SECRET *)
  console : list string
}.

Definition with_DB (d : D1.Database) (w : World) : World :=
  mkWorld d (store_script w) (square_script w) (square_calls w) (entropy w)
          (now_sql w) (now_iso w) (JWT_SECRET w) (console w).
Definition with_store_script (s : list D1.Event) (w : World) : World :=
  mkWorld (DB w) s (square_script w) (square_calls w) (entropy w)
          (now_sql w) (now_iso w) (JWT_SECRET w) (console w).
Definition with_square (s : list Square.Reply) (calls : list Square.Call) (w : World) : World :=
  mkWorld (DB w) (store_script w) s calls (entropy w)
          (now_sql w) (now_iso w) (JWT_SECRET w) (console w).
Definition with_entropy (e : list string) (w : World) : World :=
  mkWorld (DB w) (store_script w) (square_script w) (square_calls w) e
          (now_sql w) (now_iso w) (JWT_SECRET w) (console w).
Definition with_console (c : list string) (w : World) : World :=
  mkWorld (DB w) (store_script w) (square_script w) (square_calls w) (entropy w)
          (now_sql w) (now_iso w) (JWT_SECRET w) c.

(** *** The monad of async functions: world passing with exceptions.
    A thrown error keeps the effects made before it (nothing rolls back). *)

Definition Async (A : Type) : Type := World -> JS.Outcome A * World.

Definition ret {A} (a : A) : Async A := fun w => (Returns a, w).

Definition bind {A B} (m : Async A) (k : A -> Async B) : Async B :=
  fun w =>
    match m w with
    | (JS.Returns a, w') => k a w'
    | (JS.Throws e, w') => (Throws e, w')
    end.

Definition throw {A} (e : JS.Error) : Async A := fun w => (Throws e, w).

Definition lift {A} (o : JS.Outcome A) : Async A := fun w => (o, w).

(** [try { m } catch (error) { h error }] *)
Definition try_catch {A} (m : Async A) (h : JS.Error -> Async A) : Async A :=
  fun w =>
    match m w with
    | (JS.Returns a, w') => (Returns a, w')
    | (JS.Throws e, w') => h e w'
    end.

Declare Scope async_scope.
Delimit Scope async_scope with async.
Notation "x <- m ;; k" := (bind m (fun x => k))
  (at level 61, m at next level, right associativity) : async_scope.
Notation "m ;;; k" := (bind m (fun _ => k))
  (at level 61, right associativity) : async_scope.
Local Open Scope async_scope.

(** [console.log(s)] and [console.error(label, error)]. *)
Definition console_log (s : string) : Async unit :=
  fun w => (Returns tt, with_console (console w ++ [s]) w).

Definition console_error (label : string) (e : JS.Error) : Async unit :=
  console_log (label ++ " " ++ JS.message e).

(** A template literal: the pieces are converted with ToString. *)
Fixpoint template (parts : list JS.Value) : JS.Outcome string :=
  match parts with
  | [] => Returns ""
  | p :: rest =>
      JS.and_then (JS.ToString p) (fun s =>
      JS.and_then (template rest) (fun r => Returns (s ++ r)))
  end.

(** The next piece of randomness ([crypto.randomUUID()], a bcrypt salt,
    [Date.now()] with [Math.random()]). *)
Definition draw : Async string :=
  fun w => (Returns (hd "" (entropy w)), with_entropy (tl (entropy w)) w).

(** SQLite's [datetime('now')] at the time of the request. *)
Definition clock : Async string := fun w => (Returns (now_sql w), w).

Definition request_json (request : Request) : Async JS.Value :=
  match req_body request with
  | Some v => ret v
  | None => throw (JS.PlainError "Unexpected token in JSON")
  end.

(** [fields.filter(field => !data[field])] *)
Fixpoint missing_fields (data : JS.Value) (fields : list string) : JS.Outcome (list string) :=
  match fields with
  | [] => Returns []
  | f :: rest =>
      JS.and_then (JS.get data f) (fun v =>
      JS.and_then (missing_fields data rest) (fun m =>
      Returns (if JS.truthy v then m else f :: m)))
  end.

Definition error_envelope (msg : JS.Value) : JS.Value :=
  JS.Obj [("success", JS.Bool false); ("error", msg)].

(* ================================================================== *)
(** ** The D1 client: binding parameters and running statements *)
(* ================================================================== *)

Section Driver.
Context (P : Platform).

Definition d1_type_error {A} (type : string) : JS.Outcome A :=
  Throws (JS.PlainError ("D1_TYPE_ERROR: Type '" ++ type ++ "' not supported")).

Definition byte_of (v : JS.Value) : option Byte.byte :=
  match v with
  | JS.Num z => if 0 <=? z then Byte.of_N (Z.to_N z) else None
  | _ => None
  end.

(** An array of numbers 0..255 is taken as a blob. *)
Fixpoint bytes_of (items : list JS.Value) : option (list Byte.byte) :=
  match items with
  | [] => Some []
  | x :: rest =>
      match byte_of x, bytes_of rest with
      | Some b, Some bs => Some (b :: bs)
      | _, _ => None
      end
  end.

(** [.bind(v)]: the JavaScript value as a statement parameter. A number
    is bound as the integer it is. D1 hands a number to SQLite as a REAL:
    against INTEGER values it compares as that integer, but in a TEXT
    column it is rendered with a fractional part, which [text_affinity]
    does not model. The properties of the columns of TEXT affinity are
    therefore stated for strings. *)
Definition bind_value (v : JS.Value) : JS.Outcome SQLite.Value :=
  match v with
  | JS.Num z => Returns (SQLite.INTEGER z)
  | JS.Str s => Returns (SQLite.TEXT s)
  | JS.Bool b => Returns (SQLite.INTEGER (if b then 1 else 0))
  | JS.Null => Returns SQLite.NULL
  | JS.Arr items =>
      match bytes_of items with
      | Some bs => Returns (SQLite.BLOB bs)
      | None => d1_type_error "object"
      end
  | JS.Obj _ => d1_type_error "object"
  | JS.Undefined =>
      if d1_undefined_as_null P then Returns SQLite.NULL
      else d1_type_error "undefined"
  end.

Definition param (v : JS.Value) : Async SQLite.Value := lift (bind_value v).

(** The environment's move before a statement. A rival registration
    commits if the constraints let it. *)
Definition arrive (now : string) (ev : D1.Event) (d : D1.Database)
  : JS.Outcome D1.Database :=
  match ev with
  | D1.Proceed => Returns d
  | D1.Unavailable m => Throws (JS.PlainError m)
  | D1.RivalRegistration e fn ln ph =>
      match D1.insert_user (SQLite.TEXT e) (SQLite.TEXT fn) (SQLite.TEXT ln)
              (SQLite.TEXT ph) (SQLite.TEXT now) d with
      | JS.Returns (_, d') => Returns d'
      | JS.Throws _ => Returns d
      end
  end.

(** [await stmt.run()] / [.first()]: the statement sees the database
    after the environment's move; a failing statement changes nothing. *)
Definition statement {A} (body : D1.Database -> JS.Outcome (A * D1.Database))
  : Async A :=
  fun w =>
    let w1 := with_store_script (tl (store_script w)) w in
    match arrive (now_sql w) (hd D1.Proceed (store_script w)) (DB w) with
    | JS.Throws e => (Throws e, w1)
    | JS.Returns d =>
        match body d with
        | JS.Throws e => (Throws e, with_DB d w1)
        | JS.Returns (a, d') => (Returns a, with_DB d' w1)
        end
    end.

(** A SELECT ... [.first()]: the first row, or null. *)
Definition first (rows : D1.Database -> list JS.Value) : Async JS.Value :=
  statement (fun d => Returns (hd JS.Null (rows d), d)).

(** An UPDATE or INSERT ... [.run()]. *)
Definition run (stmt : D1.Database -> JS.Outcome D1.Database) : Async unit :=
  statement (fun d => JS.and_then (stmt d) (fun d' => Returns (tt, d'))).

End Driver.

(* ================================================================== *)
(** ** square-subscription-api.js: wrappers around the Square SDK *)
(* ================================================================== *)

Module SquareApi.

(** One call through the SDK client: it is recorded, and the gateway's
    next scripted reply is its outcome (a gateway that has nothing more
    to say rejects). [initSquareClient] only reads the environment. *)
Definition sdk (call : Square.Call) : Async JS.Value :=
  fun w =>
    let w1 := with_square (tl (square_script w)) (square_calls w ++ [call]) w in
    match hd (Square.Rejects (JS.PlainError "fetch failed")) (square_script w) with
    | Square.Resolves r => (Returns r, w1)
    | Square.Rejects e => (Throws e, w1)
    end.

(** [{ success: false, error: error.message || fallback }] *)
Definition failure (error : JS.Error) (fallback : string) : JS.Value :=
  JS.Obj [("success", JS.Bool false);
          ("error", JS.or_else (JS.Str (JS.message error)) (JS.Str fallback))].

(** [locs.find(loc => loc.status === 'ACTIVE')] *)
Fixpoint find_active (locs : list JS.Value) : JS.Outcome JS.Value :=
  match locs with
  | [] => Returns JS.Undefined
  | loc :: rest =>
      JS.and_then (JS.get loc "status") (fun st =>
      if JS.strict_eq_str st "ACTIVE" then Returns loc else find_active rest)
  end.

(** [result.locations?.find(...)] *)
Definition locations_find_active (locations : JS.Value) : JS.Outcome JS.Value :=
  match locations with
  | JS.Undefined | JS.Null => Returns JS.Undefined
  | JS.Arr items => find_active items
  | _ => Throws (JS.TypeError "result.locations?.find is not a function")
  end.

Definition getSquareLocation : Async JS.Value :=
  try_catch
    (result <- SquareApi.sdk Square.ListLocations ;;
     locations <- lift (JS.get result "locations") ;;
     activeLocation <- lift (locations_find_active locations) ;;
     ret (JS.Obj [("success", JS.Bool true); ("location", activeLocation)]))
    (fun error =>
       console_error "Error fetching Square location:" error ;;;
       ret (failure error "Failed to fetch location")).

Definition createSquareCustomer (customerData : JS.Value) : Async JS.Value :=
  try_catch
    (givenName <- lift (JS.get customerData "firstName") ;;
     familyName <- lift (JS.get customerData "lastName") ;;
     emailAddress <- lift (JS.get customerData "email") ;;
     referenceId <- lift (JS.get customerData "userId") ;;
     result <- sdk (Square.CreateCustomer
                      (JS.Obj [("givenName", givenName);
                               ("familyName", familyName);
                               ("emailAddress", emailAddress);
                               ("referenceId", referenceId)])) ;;
     customer <- lift (JS.get result "customer") ;;
     ret (JS.Obj [("success", JS.Bool true); ("customer", customer)]))
    (fun error =>
       console_error "Error creating Square customer:" error ;;;
       ret (failure error "Failed to create customer")).

(** [s.split('T')[0]] *)
Fixpoint before_T (s : string) : string :=
  match s with
  | EmptyString => EmptyString
  | String c rest => if Ascii.eqb c "T"%char then EmptyString else String c (before_T rest)
  end.

Definition today : Async string := fun w => (Returns (before_T (now_iso w)), w).

Definition createSubscription (subscriptionData : JS.Value) : Async JS.Value :=
  try_catch
    (key <- draw ;;
     locationId <- lift (JS.get subscriptionData "locationId") ;;
     planId <- lift (JS.get subscriptionData "planId") ;;
     customerId <- lift (JS.get subscriptionData "customerId") ;;
     startDate <- today ;;
     taxPercentage <- lift (JS.get subscriptionData "taxPercentage") ;;
     priceOverride <- lift (JS.get subscriptionData "priceOverride") ;;
     cardId <- lift (JS.get subscriptionData "cardId") ;;
     result <- sdk (Square.CreateSubscription
                      (JS.Obj [("idempotencyKey", JS.Str ("sub_" ++ key));
                               ("locationId", locationId);
                               ("planId", planId);
                               ("customerId", customerId);
                               ("startDate", JS.Str startDate);
                               ("taxPercentage", JS.or_else taxPercentage (JS.Str "0"));
                               ("priceOverrideMoney",
                                if JS.truthy priceOverride
                                then JS.Obj [("amount", priceOverride);
                                             ("currency", JS.Str "GBP")]
                                else JS.Undefined);
                               ("cardId", cardId);
                               ("timezone", JS.Str "Europe/London")])) ;;
     subscription <- lift (JS.get result "subscription") ;;
     ret (JS.Obj [("success", JS.Bool true); ("subscription", subscription)]))
    (fun error =>
       console_error "Error creating subscription:" error ;;;
       ret (failure error "Failed to create subscription")).

End SquareApi.

(* ================================================================== *)
(** ** POST /api/create-subscription *)
(* ================================================================== *)

Module CreateSubscription.

Definition plan (planName frequency : string) (price : Z) : JS.Value :=
  JS.Obj [("planName", JS.Str planName);
          ("frequency", JS.Str frequency);
          ("price", JS.Num price)].

Definition SUBSCRIPTION_PLANS : list (string * JS.Value) :=
  [("pro-monthly", plan "Pro Plan" "MONTHLY" 299);
   ("pro-annual", plan "Pro Plan" "ANNUALLY" 2400);
   ("business-monthly", plan "Business Plan" "MONTHLY" 1000);
   ("business-annual", plan "Business Plan" "ANNUALLY" 10000)].

(** Names every object literal inherits from Object.prototype. *)
Definition Object_prototype : list string :=
  ["constructor"; "toString"; "toLocaleString"; "valueOf"; "hasOwnProperty";
   "isPrototypeOf"; "propertyIsEnumerable"; "__proto__"; "__defineGetter__";
   "__defineSetter__"; "__lookupGetter__"; "__lookupSetter__"].

(** [SUBSCRIPTION_PLANS[key]]: an own entry, else an inherited member
    (a function or the prototype object: truthy, and without any of the
    properties read from a plan, hence rendered as an empty object). *)
Definition plan_lookup (key : string) : JS.Value :=
  match JS.own SUBSCRIPTION_PLANS key with
  | Some p => p
  | None =>
      if existsb (String.eqb key) Object_prototype then JS.Obj [] else JS.Undefined
  end.

Definition requiredFields : list string :=
  ["email"; "firstName"; "lastName"; "planType"; "paymentToken"].

Definition cors_post : list (string * string) :=
  [("Content-Type", "application/json");
   ("Access-Control-Allow-Origin", "*");
   ("Access-Control-Allow-Methods", "POST, OPTIONS");
   ("Access-Control-Allow-Headers", "Content-Type")].

Definition AlreadyActive : Response :=
  {| status := 409;
     headers := content_type_json;
     payload := error_envelope (JS.Str "User already has an active subscription") |}.

(** [userId.toString()] *)
Definition call_toString (v : JS.Value) : JS.Outcome JS.Value :=
  JS.and_then (JS.get v "toString") (fun _ =>
  JS.and_then (JS.ToString v) (fun s => Returns (JS.Str s))).

(** What the handler holds once the gateway has created the subscription. *)
Record Created : Type := {
  requestData : JS.Value;
  planInfo : JS.Value;
  userId : JS.Value;
  squareCustomerId : JS.Value;
  subscription : JS.Value
}.

Section Handler.
Context (P : Platform).

(** SELECT id, square_customer_id FROM users WHERE email = ? *)
Definition select_user_by_email (e : SQLite.Value) (d : D1.Database) : list JS.Value :=
  map (fun u => JS.Obj [("id", JS.Num (users.id u));
                        ("square_customer_id", SQLite.to_js (users.square_customer_id u))])
      (filter (fun u => SQLite.eqb (users.email u) (SQLite.text_affinity e))
              (D1.tbl_users d)).

Definition subscription_object (s : subscriptions.row) : JS.Value :=
  JS.Obj [("id", JS.Num (subscriptions.id s));
          ("user_id", SQLite.to_js (subscriptions.user_id s));
          ("square_subscription_id", SQLite.to_js (subscriptions.square_subscription_id s));
          ("plan_type", SQLite.to_js (subscriptions.plan_type s));
          ("status", SQLite.to_js (subscriptions.status s));
          ("price_amount", SQLite.to_js (subscriptions.price_amount s));
          ("currency", SQLite.to_js (subscriptions.currency s));
          ("frequency", SQLite.to_js (subscriptions.frequency s));
          ("started_at", SQLite.to_js (subscriptions.started_at s));
          ("ended_at", SQLite.to_js (subscriptions.ended_at s));
          ("created_at", SQLite.to_js (subscriptions.created_at s));
          ("updated_at", SQLite.to_js (subscriptions.updated_at s))].

(** SELECT * FROM subscriptions WHERE user_id = ? AND status = ? *)
Definition select_subscription_by_status (uid st : SQLite.Value) (d : D1.Database)
  : list JS.Value :=
  map subscription_object
      (filter (fun s => SQLite.eqb (subscriptions.user_id s) uid
                        && SQLite.eqb (subscriptions.status s) (SQLite.text_affinity st))
              (D1.tbl_subscriptions d)).

(** INSERT INTO users (email, first_name, last_name, created_at)
    VALUES (?, ?, ?, datetime("now")) RETURNING id *)
Definition insert_user_returning_id (now : string) (e fn ln : SQLite.Value)
    (d : D1.Database) : JS.Outcome (JS.Value * D1.Database) :=
  JS.and_then (D1.insert_user e fn ln SQLite.NULL (SQLite.TEXT now) d)
    (fun '(r, d') => Returns (JS.Obj [("id", JS.Num (users.id r))], d')).

(** UPDATE users SET square_customer_id = ? WHERE id = ?
    ([square_customer_id] is UNIQUE). *)
Definition update_square_customer_id (c uid : SQLite.Value) (d : D1.Database)
  : JS.Outcome D1.Database :=
  let c := SQLite.text_affinity c in
  let target := D1.is_user uid in
  if existsb target (D1.tbl_users d)
     && existsb (fun u => negb (target u) && SQLite.eqb (users.square_customer_id u) c)
          (D1.tbl_users d)
  then D1.constraint_failed "UNIQUE"
  else Returns (D1.set_users
                  (D1.update_where target (users.set_square_customer_id c) (D1.tbl_users d))
                  (D1.seq_users d) d).

(** Lines 34-70: parse and validate the request, fetch the location.
    [inl] is an early response. *)
Definition validate (request : Request)
  : Async (Response + (JS.Value * JS.Value * JS.Value)) :=
  requestData <- request_json request ;;
  missing <- lift (missing_fields requestData requiredFields) ;;
  if negb (Nat.eqb (List.length missing) 0) then
    ret (inl {| status := 400;
                headers := content_type_json;
                payload := error_envelope
                  (JS.Str ("Missing required fields: " ++ JS.join ", " missing)) |})
  else
    planType <- lift (JS.get requestData "planType") ;;
    key <- lift (JS.ToString planType) ;;
    if negb (JS.truthy (plan_lookup key)) then
      msg <- lift (template [JS.Str "Invalid plan type: "; planType]) ;;
      ret (inl {| status := 400;
                  headers := content_type_json;
                  payload := error_envelope (JS.Str msg) |})
    else
      let planInfo := plan_lookup key in
      locationResult <- SquareApi.getSquareLocation ;;
      success <- lift (JS.get locationResult "success") ;;
      if negb (JS.truthy success) then
        error <- lift (JS.get locationResult "error") ;;
        msg <- lift (template [JS.Str "Failed to get Square location: "; error]) ;;
        throw (JS.PlainError msg)
      else
        location <- lift (JS.get locationResult "location") ;;
        locationId <- lift (JS.get location "id") ;;
        ret (inr (requestData, planInfo, locationId)).

(** Lines 72-99: the existing-user check. The [try] block assigns
    [userId] and may return the 409 response; its [catch] only logs, so
    execution goes on with whatever [userId] held when the error was
    thrown. The result is [userId] after the block and the early
    response, if any. *)
Definition check_existing_user (requestData : JS.Value)
  : Async (JS.Value * option Response) :=
  let on_error := fun (userId : JS.Value) (error : JS.Error) =>
    console_error "Database error checking existing user:" error ;;;
    ret (userId, None) in
  try_catch
    (email <- lift (JS.get requestData "email") ;;
     e <- param P email ;;
     existingUser <- first (select_user_by_email e) ;;
     if JS.truthy existingUser then
       userId <- lift (JS.get existingUser "id") ;;
       try_catch
         (uid <- param P userId ;;
          st <- param P (JS.Str "ACTIVE") ;;
          activeSubscription <- first (select_subscription_by_status uid st) ;;
          if JS.truthy activeSubscription
          then ret (userId, Some AlreadyActive)
          else ret (userId, None))
         (on_error userId)
     else ret (JS.Undefined, None))
    (on_error JS.Undefined).

(** Lines 101-113: create the user when none was found. *)
Definition create_user (requestData userId : JS.Value) : Async JS.Value :=
  if negb (JS.truthy userId) then
    try_catch
      (email <- lift (JS.get requestData "email") ;;
       firstName <- lift (JS.get requestData "firstName") ;;
       lastName <- lift (JS.get requestData "lastName") ;;
       e <- param P email ;;
       fn <- param P firstName ;;
       ln <- param P lastName ;;
       now <- clock ;;
       userResult <- statement (insert_user_returning_id now e fn ln) ;;
       lift (JS.get userResult "id"))
      (fun error =>
         console_error "Error creating user in database:" error ;;;
         throw (JS.PlainError "Failed to create user account"))
  else ret userId.

(** Lines 115-151: the Square customer, its id on the user row, the
    Square subscription. *)
Definition create_at_gateway (requestData planInfo locationId userId : JS.Value)
  : Async Created :=
  firstName <- lift (JS.get requestData "firstName") ;;
  lastName <- lift (JS.get requestData "lastName") ;;
  email <- lift (JS.get requestData "email") ;;
  reference <- lift (call_toString userId) ;;
  customerResult <- SquareApi.createSquareCustomer
                      (JS.Obj [("firstName", firstName); ("lastName", lastName);
                               ("email", email); ("userId", reference)]) ;;
  success <- lift (JS.get customerResult "success") ;;
  if negb (JS.truthy success) then
    error <- lift (JS.get customerResult "error") ;;
    msg <- lift (template [JS.Str "Failed to create Square customer: "; error]) ;;
    throw (JS.PlainError msg)
  else
    customer <- lift (JS.get customerResult "customer") ;;
    squareCustomerId <- lift (JS.get customer "id") ;;
    try_catch
      (c <- param P squareCustomerId ;;
       uid <- param P userId ;;
       run (update_square_customer_id c uid))
      (fun error =>
         console_error "Error updating user with Square customer ID:" error) ;;;
    planType <- lift (JS.get requestData "planType") ;;
    paymentToken <- lift (JS.get requestData "paymentToken") ;;
    price <- lift (JS.get planInfo "price") ;;
    subscriptionResult <- SquareApi.createSubscription
                            (JS.Obj [("locationId", locationId);
                                     ("planId", planType);
                                     ("customerId", squareCustomerId);
                                     ("cardId", paymentToken);
                                     ("priceOverride", price)]) ;;
    success <- lift (JS.get subscriptionResult "success") ;;
    if negb (JS.truthy success) then
      error <- lift (JS.get subscriptionResult "error") ;;
      msg <- lift (template [JS.Str "Failed to create subscription: "; error]) ;;
      throw (JS.PlainError msg)
    else
      subscription <- lift (JS.get subscriptionResult "subscription") ;;
      ret {| requestData := requestData; planInfo := planInfo; userId := userId;
             squareCustomerId := squareCustomerId; subscription := subscription |}.

(** Steps 1 to 5, lines 34-151: everything up to and including the
    creation of the subscription at the gateway. *)
Definition upto_gateway (request : Request) : Async (Response + Created) :=
  v <- validate request ;;
  match v with
  | inl early => ret (inl early)
  | inr (requestData, planInfo, locationId) =>
      chk <- check_existing_user requestData ;;
      match chk with
      | (_, Some early) => ret (inl early)
      | (userId, None) =>
          userId <- create_user requestData userId ;;
          c <- create_at_gateway requestData planInfo locationId userId ;;
          ret (inr c)
      end
  end.

(** Step 6, lines 155-168, the body of the [try]: INSERT INTO subscriptions. *)
Definition store_subscription (c : Created) : Async unit :=
  id <- lift (JS.get (subscription c) "id") ;;
  planType <- lift (JS.get (requestData c) "planType") ;;
  price <- lift (JS.get (planInfo c) "price") ;;
  frequency <- lift (JS.get (planInfo c) "frequency") ;;
  startDate <- lift (JS.get (subscription c) "startDate") ;;
  uid <- param P (userId c) ;;
  sq <- param P id ;;
  plan <- param P planType ;;
  st <- param P (JS.Str "ACTIVE") ;;
  amount <- param P price ;;
  cur <- param P (JS.Str "GBP") ;;
  freq <- param P frequency ;;
  started <- param P startDate ;;
  now <- clock ;;
  run (D1.insert_subscription uid sq plan st amount cur freq started (SQLite.TEXT now)).

(** Lines 175-202: the success response. *)
Definition respond_created (c : Created) : Async Response :=
  id <- lift (JS.get (subscription c) "id") ;;
  planType <- lift (JS.get (requestData c) "planType") ;;
  planName <- lift (JS.get (planInfo c) "planName") ;;
  frequency <- lift (JS.get (planInfo c) "frequency") ;;
  price <- lift (JS.get (planInfo c) "price") ;;
  st <- lift (JS.get (subscription c) "status") ;;
  startDate <- lift (JS.get (subscription c) "startDate") ;;
  email <- lift (JS.get (requestData c) "email") ;;
  ret {| status := 201;
         headers := cors_post;
         payload :=
           JS.Obj [("success", JS.Bool true);
                   ("message", JS.Str "Subscription created successfully");
                   ("subscription",
                    JS.Obj [("id", id); ("planType", planType);
                            ("planName", planName); ("frequency", frequency);
                            ("price", price); ("currency", JS.Str "GBP");
                            ("status", st); ("startDate", startDate)]);
                   ("user",
                    JS.Obj [("id", userId c); ("email", email);
                            ("squareCustomerId", squareCustomerId c)])] |}.

Definition internal_error (error : JS.Error) : Response :=
  {| status := 500;
     headers := [("Content-Type", "application/json");
                 ("Access-Control-Allow-Origin", "*")];
     payload := error_envelope
                  (JS.or_else (JS.Str (JS.message error))
                              (JS.Str "Internal server error")) |}.

Definition onRequestPost (request : Request) : Async Response :=
  try_catch
    (r <- upto_gateway request ;;
     match r with
     | inl early => ret early
     | inr c =>
         try_catch (store_subscription c)
           (fun error =>
              console_error "Error storing subscription in database:" error) ;;;
         respond_created c
     end)
    (fun error =>
       console_error "Error creating subscription:" error ;;;
       ret (internal_error error)).

End Handler.
End CreateSubscription.

(* ================================================================== *)
(** ** POST /api/square-webhook *)
(* ================================================================== *)

Module SquareWebhook.

Definition processed (message : string) : Response :=
  {| status := 200;
     headers := content_type_json;
     payload := JS.Obj [("success", JS.Bool true); ("message", JS.Str message)] |}.

(** The response of a handler's [catch]. *)
Definition failed (error : JS.Error) : Response :=
  {| status := 500;
     headers := content_type_json;
     payload := error_envelope (JS.Str (JS.message error)) |}.

Definition bad_request (message : string) : Response :=
  {| status := 400;
     headers := content_type_json;
     payload := error_envelope (JS.Str message) |}.

(** SELECT id FROM users WHERE square_customer_id = ? *)
Definition select_user_by_customer (c : SQLite.Value) (d : D1.Database) : list JS.Value :=
  map (fun u => JS.Obj [("id", JS.Num (users.id u))])
      (filter (fun u => SQLite.eqb (users.square_customer_id u) (SQLite.text_affinity c))
              (D1.tbl_users d)).

(** UPDATE subscriptions SET status = ?, square_subscription_id = ?
    WHERE user_id = ? AND square_subscription_id = ?
    (the handler binds the same id to both places, so no row changes
    its unique id). *)
Definition activate_subscription (st sq uid sq' : SQLite.Value) (d : D1.Database)
  : JS.Outcome D1.Database :=
  let cond := fun s => SQLite.eqb (subscriptions.user_id s) uid
                       && SQLite.eqb (subscriptions.square_subscription_id s)
                            (SQLite.text_affinity sq') in
  if existsb cond (D1.tbl_subscriptions d) && SQLite.is_null st
  then D1.constraint_failed "NOT NULL"
  else Returns (D1.set_subscriptions
                  (D1.update_where cond
                     (fun s => subscriptions.set_square_subscription_id
                                 (SQLite.text_affinity sq)
                                 (subscriptions.set_status (SQLite.text_affinity st) s))
                     (D1.tbl_subscriptions d))
                  (D1.seq_subscriptions d) d).

(** The rows [WHERE square_subscription_id = ?] selects. *)
Definition has_square_id (sq : SQLite.Value) (s : subscriptions.row) : bool :=
  SQLite.eqb (subscriptions.square_subscription_id s) (SQLite.text_affinity sq).

(** UPDATE subscriptions SET status = ?, updated_at = datetime("now")
    WHERE square_subscription_id = ? *)
Definition update_status (now : string) (st sq : SQLite.Value) (d : D1.Database)
  : JS.Outcome D1.Database :=
  if existsb (has_square_id sq) (D1.tbl_subscriptions d) && SQLite.is_null st
  then D1.constraint_failed "NOT NULL"
  else Returns (D1.set_subscriptions
                  (D1.update_where (has_square_id sq)
                     (fun s => subscriptions.set_updated_at (SQLite.TEXT now)
                                 (subscriptions.set_status (SQLite.text_affinity st) s))
                     (D1.tbl_subscriptions d))
                  (D1.seq_subscriptions d) d).

(** SELECT user_id FROM subscriptions WHERE square_subscription_id = ? *)
Definition select_owner (sq : SQLite.Value) (d : D1.Database) : list JS.Value :=
  map (fun s => JS.Obj [("user_id", SQLite.to_js (subscriptions.user_id s))])
      (filter (has_square_id sq) (D1.tbl_subscriptions d)).

(** UPDATE users SET subscription_active = <flag> WHERE id = ? *)
Definition set_subscription_active (flag uid : SQLite.Value) (d : D1.Database)
  : JS.Outcome D1.Database :=
  Returns (D1.set_users
             (D1.update_where (D1.is_user uid) (users.set_subscription_active flag)
                (D1.tbl_users d))
             (D1.seq_users d) d).

Section Handlers.
Context (P : Platform).

(** [webhookEvent.data.object.<name>] *)
Definition event_object (webhookEvent : JS.Value) (name : string) : JS.Outcome JS.Value :=
  JS.and_then (JS.get webhookEvent "data") (fun data =>
  JS.and_then (JS.get data "object") (fun object =>
  JS.get object name)).

(** The [try] block of handleSubscriptionCreatedWebhook, up to its
    [return]. *)
Definition subscription_created (webhookEvent : JS.Value) : Async unit :=
  subscription <- lift (event_object webhookEvent "subscription") ;;
  customerId <- lift (JS.get subscription "customerId") ;;
  id <- lift (JS.get subscription "id") ;;
  line <- lift (template [JS.Str "Subscription created: "; id;
                          JS.Str " for customer "; customerId]) ;;
  console_log line ;;;
  c <- param P customerId ;;
  user <- first (select_user_by_customer c) ;;
  if JS.truthy user then
    id1 <- lift (JS.get subscription "id") ;;
    userId <- lift (JS.get user "id") ;;
    id2 <- lift (JS.get subscription "id") ;;
    st <- param P (JS.Str "ACTIVE") ;;
    sq <- param P id1 ;;
    uid <- param P userId ;;
    sq' <- param P id2 ;;
    run (activate_subscription st sq uid sq') ;;;
    line <- lift (template [JS.Str "Updated subscription status for user "; userId]) ;;
    console_log line
  else ret tt.

Definition handleSubscriptionCreatedWebhook (webhookEvent : JS.Value) : Async Response :=
  try_catch
    (subscription_created webhookEvent ;;;
     ret (processed "Subscription created webhook processed"))
    (fun error =>
       console_error "Error handling subscription created webhook:" error ;;;
       ret (failed error)).

(** The [try] block of handleSubscriptionUpdatedWebhook. *)
Definition subscription_updated (webhookEvent : JS.Value) : Async unit :=
  subscription <- lift (event_object webhookEvent "subscription") ;;
  status <- lift (JS.get subscription "status") ;;
  id <- lift (JS.get subscription "id") ;;
  line <- lift (template [JS.Str "Subscription updated: "; id;
                          JS.Str " status: "; status]) ;;
  console_log line ;;;
  id <- lift (JS.get subscription "id") ;;
  st <- param P status ;;
  sq <- param P id ;;
  now <- clock ;;
  run (update_status now st sq) ;;;
  if JS.strict_eq_str status "CANCELED" || JS.strict_eq_str status "PAUSED" then
    id <- lift (JS.get subscription "id") ;;
    sq <- param P id ;;
    subscription_record <- first (select_owner sq) ;;
    if JS.truthy subscription_record then
      user_id <- lift (JS.get subscription_record "user_id") ;;
      uid <- param P user_id ;;
      run (set_subscription_active SQLite.FALSE uid)
    else ret tt
  else ret tt.

Definition handleSubscriptionUpdatedWebhook (webhookEvent : JS.Value) : Async Response :=
  try_catch
    (subscription_updated webhookEvent ;;;
     ret (processed "Subscription updated webhook processed"))
    (fun error =>
       console_error "Error handling subscription updated webhook:" error ;;;
       ret (failed error)).

(** The INSERT INTO payments of both payment handlers: the same columns
    and bindings, but for the status literal. [subscription] is the row
    object of the SELECT before it. *)
Definition log_payment (subscription invoice : JS.Value) (status_literal : string)
  : Async unit :=
  user_id <- lift (JS.get subscription "user_id") ;;
  square_subscription_id <- lift (JS.get subscription "square_subscription_id") ;;
  totalMoney <- lift (JS.get invoice "totalMoney") ;;
  amount <- lift (JS.get_opt totalMoney "amount") ;;
  totalMoney' <- lift (JS.get invoice "totalMoney") ;;
  currency <- lift (JS.get_opt totalMoney' "currency") ;;
  id <- lift (JS.get invoice "id") ;;
  uid <- param P user_id ;;
  sub <- param P square_subscription_id ;;
  amt <- param P (JS.or_else amount (JS.Num 0)) ;;
  cur <- param P (JS.or_else currency (JS.Str "GBP")) ;;
  st <- param P (JS.Str status_literal) ;;
  pay <- param P id ;;
  now <- clock ;;
  run (D1.insert_payment uid sub amt cur st pay (SQLite.TEXT now)).

(** The [try] block of handlePaymentSuccessWebhook. *)
Definition payment_success (webhookEvent : JS.Value) : Async unit :=
  invoice <- lift (event_object webhookEvent "invoice") ;;
  subscriptionId <- lift (JS.get invoice "subscriptionId") ;;
  line <- lift (template [JS.Str "Payment successful for subscription: "; subscriptionId]) ;;
  console_log line ;;;
  sq <- param P subscriptionId ;;
  subscription <- first (select_owner sq) ;;
  if JS.truthy subscription then
    user_id <- lift (JS.get subscription "user_id") ;;
    uid <- param P user_id ;;
    run (set_subscription_active SQLite.TRUE uid) ;;;
    log_payment subscription invoice "SUCCESS"
  else ret tt.

Definition handlePaymentSuccessWebhook (webhookEvent : JS.Value) : Async Response :=
  try_catch
    (payment_success webhookEvent ;;;
     ret (processed "Payment success webhook processed"))
    (fun error =>
       console_error "Error handling payment success webhook:" error ;;;
       ret (failed error)).

(** The [try] block of handlePaymentFailedWebhook. *)
Definition payment_failed (webhookEvent : JS.Value) : Async unit :=
  invoice <- lift (event_object webhookEvent "invoice") ;;
  subscriptionId <- lift (JS.get invoice "subscriptionId") ;;
  line <- lift (template [JS.Str "Payment failed for subscription: "; subscriptionId]) ;;
  console_log line ;;;
  sq <- param P subscriptionId ;;
  subscription <- first (select_owner sq) ;;
  if JS.truthy subscription then
    log_payment subscription invoice "FAILED" ;;;
    user_id <- lift (JS.get subscription "user_id") ;;
    line <- lift (template [JS.Str "Payment failure recorded for user "; user_id]) ;;
    console_log line
  else ret tt.

Definition handlePaymentFailedWebhook (webhookEvent : JS.Value) : Async Response :=
  try_catch
    (payment_failed webhookEvent ;;;
     ret (processed "Payment failure webhook processed"))
    (fun error =>
       console_error "Error handling payment failed webhook:" error ;;;
       ret (failed error)).

(** Lines 38-63: the [switch] on the event type, over what runs in each
    case. *)
Definition switch {A} (created updated payment_made payment_failed : JS.Value -> Async A)
    (unhandled : Async A) (webhookEvent : JS.Value) : Async A :=
  type <- lift (JS.get webhookEvent "type") ;;
  line <- lift (template [JS.Str "Received Square webhook: "; type]) ;;
  console_log line ;;;
  if JS.strict_eq_str type "subscription.created" then created webhookEvent
  else if JS.strict_eq_str type "subscription.updated" then updated webhookEvent
  else if JS.strict_eq_str type "invoice.payment_made" then payment_made webhookEvent
  else if JS.strict_eq_str type "invoice.payment_failed" then payment_failed webhookEvent
  else
    type' <- lift (JS.get webhookEvent "type") ;;
    line <- lift (template [JS.Str "Unhandled webhook event type: "; type']) ;;
    console_log line ;;;
    unhandled.

Definition dispatch : JS.Value -> Async Response :=
  switch handleSubscriptionCreatedWebhook handleSubscriptionUpdatedWebhook
         handlePaymentSuccessWebhook handlePaymentFailedWebhook
         (ret (processed "Webhook received but not handled")).

Definition signature_present (request : Request) : bool :=
  match headers_get (req_headers request) "x-square-signature" with
  | Some s => negb (String.eqb s "")
  | None => false
  end.

Definition onRequestPost (request : Request) : Async Response :=
  try_catch
    (if negb (signature_present request) then
       ret (bad_request "Missing webhook signature")
     else
       match req_body request with
       | None => ret (bad_request "Invalid JSON in webhook body")
       | Some webhookEvent => dispatch webhookEvent
       end)
    (fun error =>
       console_error "Error processing Square webhook:" error ;;;
       ret {| status := 500;
              headers := content_type_json;
              payload := error_envelope (JS.Str "Internal server error") |}).

(** The processing of an event proper: the same [switch] over the [try]
    blocks of the handlers, without their [catch]. *)
Definition processing : JS.Value -> Async unit :=
  switch subscription_created subscription_updated payment_success payment_failed
         (ret tt).

End Handlers.
End SquareWebhook.

(* ================================================================== *)
(** ** The user authentication API: registration and login *)
(* ================================================================== *)

Module Auth.

Definition not_space_or_at (c : ascii) : bool :=
  negb (RegExp.whitespace c || Ascii.eqb c "@"%char).

(** [/^[^\s@]+@[^\s@]+\.[^\s@]+$/] *)
Definition emailRegex : RegExp.t :=
  RegExp.Seq (RegExp.Plus (RegExp.Class not_space_or_at))
    (RegExp.Seq (RegExp.Char "@"%char)
       (RegExp.Seq (RegExp.Plus (RegExp.Class not_space_or_at))
          (RegExp.Seq (RegExp.Char "."%char)
             (RegExp.Plus (RegExp.Class not_space_or_at))))).

Definition requiredFields : list string :=
  ["email"; "firstName"; "lastName"; "password"].

Definition json_cors : list (string * string) :=
  [("Content-Type", "application/json"); ("Access-Control-Allow-Origin", "*")].

Definition reject (code : Z) (message : string) : Response :=
  {| status := code;
     headers := content_type_json;
     payload := error_envelope (JS.Str message) |}.

(** The 409 of registration. *)
Definition DuplicateEmail : Response :=
  reject 409 "User already exists with this email".

(** The 401 of login. *)
Definition InvalidCredentials : Response :=
  reject 401 "Invalid email or password".

(** The response of the outermost [catch] of both handlers. *)
Definition InternalServerError : Response :=
  reject 500 "Internal server error".

(** SELECT id FROM users WHERE email = ? *)
Definition select_id_by_email (e : SQLite.Value) (d : D1.Database) : list JS.Value :=
  map (fun u => JS.Obj [("id", JS.Num (users.id u))])
      (filter (fun u => SQLite.eqb (users.email u) (SQLite.text_affinity e))
              (D1.tbl_users d)).

(** INSERT INTO users (email, first_name, last_name, password_hash, created_at)
    VALUES (?, ?, ?, ?, datetime('now'))
    RETURNING id, email, first_name, last_name, created_at *)
Definition insert_user_returning (now : string) (e fn ln ph : SQLite.Value)
    (d : D1.Database) : JS.Outcome (JS.Value * D1.Database) :=
  JS.and_then (D1.insert_user e fn ln ph (SQLite.TEXT now) d)
    (fun '(r, d') =>
       Returns (JS.Obj [("id", JS.Num (users.id r));
                        ("email", SQLite.to_js (users.email r));
                        ("first_name", SQLite.to_js (users.first_name r));
                        ("last_name", SQLite.to_js (users.last_name r));
                        ("created_at", SQLite.to_js (users.created_at r))], d')).

(** SELECT id, email, first_name, last_name, password_hash, subscription_active
    FROM users WHERE email = ? *)
Definition select_login_by_email (e : SQLite.Value) (d : D1.Database) : list JS.Value :=
  map (fun u => JS.Obj [("id", JS.Num (users.id u));
                        ("email", SQLite.to_js (users.email u));
                        ("first_name", SQLite.to_js (users.first_name u));
                        ("last_name", SQLite.to_js (users.last_name u));
                        ("password_hash", SQLite.to_js (users.password_hash u));
                        ("subscription_active", SQLite.to_js (users.subscription_active u))])
      (filter (fun u => SQLite.eqb (users.email u) (SQLite.text_affinity e))
              (D1.tbl_users d)).

(** UPDATE users SET last_login_at = datetime("now") WHERE id = ? *)
Definition touch_last_login (now : string) (uid : SQLite.Value) (d : D1.Database)
  : JS.Outcome D1.Database :=
  Returns (D1.set_users
             (D1.update_where (D1.is_user uid)
                (users.set_last_login_at (SQLite.TEXT now)) (D1.tbl_users d))
             (D1.seq_users d) d).

(** SELECT plan_type, status, frequency FROM subscriptions
    WHERE user_id = ? AND status = "ACTIVE" *)
Definition select_active_summary (uid : SQLite.Value) (d : D1.Database) : list JS.Value :=
  map (fun s => JS.Obj [("plan_type", SQLite.to_js (subscriptions.plan_type s));
                        ("status", SQLite.to_js (subscriptions.status s));
                        ("frequency", SQLite.to_js (subscriptions.frequency s))])
      (filter (fun s => SQLite.eqb (subscriptions.user_id s) uid
                        && SQLite.eqb (subscriptions.status s) (SQLite.TEXT "ACTIVE"))
              (D1.tbl_subscriptions d)).

Section Handlers.
Context (P : Platform).

(** [v < n] for a number literal [n]: ToNumber of the left operand, NaN
    comparing false. *)
Definition less_than (v : JS.Value) (n : Z) : JS.Outcome bool :=
  match v with
  | JS.Undefined => Returns false
  | JS.Null => Returns (0 <? n)
  | JS.Bool b => Returns ((if b then 1 else 0) <? n)
  | JS.Num z => Returns (z <? n)
  | JS.Str s => Returns (numeric_string_lt P s n)
  | JS.Arr _ | JS.Obj _ =>
      JS.and_then (JS.ToString v) (fun s => Returns (numeric_string_lt P s n))
  end.

(** [env.JWT_SECRET || 'your-secret-key'] *)
Definition secret : Async string :=
  fun w =>
    (Returns (match JWT_SECRET w with
              | Some s => if String.eqb s "" then "your-secret-key" else s
              | None => "your-secret-key"
              end), w).

(** [jwt.sign({ userId, email }, secret, { expiresIn: '7d' })] *)
Definition sign_token (userId email : JS.Value) : Async string :=
  key <- secret ;;
  fun w =>
    (Returns (jwt_sign P (JS.Obj [("userId", userId); ("email", email)])
                key "7d" (now_iso w)), w).

(** The session record of both handlers: a fresh UUID stored with a
    seven day expiry; login also stamps [last_used_at]. *)
Definition create_session (userId : JS.Value) (stamp_last_used : bool) : Async string :=
  sessionToken <- draw ;;
  uid <- param P userId ;;
  tok <- param P (JS.Str sessionToken) ;;
  now <- clock ;;
  run (D1.insert_session uid tok
         (SQLite.TEXT (datetime_plus_7_days P now)) (SQLite.TEXT now)
         (if stamp_last_used then SQLite.TEXT now else SQLite.NULL)) ;;;
  ret sessionToken.

Definition handleUserRegistration (request : Request) : Async Response :=
  try_catch
    (userData <- request_json request ;;
     missing <- lift (missing_fields userData requiredFields) ;;
     if negb (Nat.eqb (List.length missing) 0) then
       ret (reject 400 ("Missing required fields: " ++ JS.join ", " missing))
     else
       email <- lift (JS.get userData "email") ;;
       text <- lift (JS.ToString email) ;;
       if negb (RegExp.test_anchored emailRegex text) then
         ret (reject 400 "Invalid email format")
       else
         password <- lift (JS.get userData "password") ;;
         len <- lift (JS.get password "length") ;;
         short <- lift (less_than len 8) ;;
         if short then
           ret (reject 400 "Password must be at least 8 characters long")
         else
           lowered <- lift (JS.call_toLowerCase email) ;;
           e <- param P (JS.Str lowered) ;;
           existingUser <- first (select_id_by_email e) ;;
           if JS.truthy existingUser then ret DuplicateEmail
           else
             salt <- draw ;;
             passwordHash <- lift (bcrypt_hash P password 12 salt) ;;
             lowered <- lift (JS.call_toLowerCase email) ;;
             firstName <- lift (JS.get userData "firstName") ;;
             lastName <- lift (JS.get userData "lastName") ;;
             e <- param P (JS.Str lowered) ;;
             fn <- param P firstName ;;
             ln <- param P lastName ;;
             ph <- param P (JS.Str passwordHash) ;;
             now <- clock ;;
             userResult <- statement (insert_user_returning now e fn ln ph) ;;
             if negb (JS.truthy userResult) then
               throw (JS.PlainError "Failed to create user")
             else
               id <- lift (JS.get userResult "id") ;;
               mail <- lift (JS.get userResult "email") ;;
               token <- sign_token id mail ;;
               sessionToken <- create_session id false ;;
               first_name <- lift (JS.get userResult "first_name") ;;
               last_name <- lift (JS.get userResult "last_name") ;;
               ret {| status := 201;
                      headers := json_cors;
                      payload :=
                        JS.Obj [("success", JS.Bool true);
                                ("message", JS.Str "User registered successfully");
                                ("user",
                                 JS.Obj [("id", id); ("email", mail);
                                         ("firstName", first_name);
                                         ("lastName", last_name);
                                         ("subscriptionActive", JS.Bool false)]);
                                ("token", JS.Str token);
                                ("sessionToken", JS.Str sessionToken)] |})
    (fun error =>
       console_error "Error during user registration:" error ;;;
       ret InternalServerError).

Definition handleUserLogin (request : Request) : Async Response :=
  try_catch
    (loginData <- request_json request ;;
     email <- lift (JS.get loginData "email") ;;
     password <- lift (JS.get loginData "password") ;;
     if negb (JS.truthy email) || negb (JS.truthy password) then
       ret (reject 400 "Email and password are required")
     else
       lowered <- lift (JS.call_toLowerCase email) ;;
       e <- param P (JS.Str lowered) ;;
       user <- first (select_login_by_email e) ;;
       if negb (JS.truthy user) then ret InvalidCredentials
       else
         password_hash <- lift (JS.get user "password_hash") ;;
         passwordValid <- lift (bcrypt_compare P password password_hash) ;;
         if negb passwordValid then ret InvalidCredentials
         else
           id <- lift (JS.get user "id") ;;
           uid <- param P id ;;
           now <- clock ;;
           run (touch_last_login now uid) ;;;
           mail <- lift (JS.get user "email") ;;
           token <- sign_token id mail ;;
           sessionToken <- create_session id true ;;
           uid <- param P id ;;
           subscription <- first (select_active_summary uid) ;;
           first_name <- lift (JS.get user "first_name") ;;
           last_name <- lift (JS.get user "last_name") ;;
           subscription_active <- lift (JS.get user "subscription_active") ;;
           summary <- (if JS.truthy subscription then
                         plan_type <- lift (JS.get subscription "plan_type") ;;
                         frequency <- lift (JS.get subscription "frequency") ;;
                         st <- lift (JS.get subscription "status") ;;
                         ret (JS.Obj [("planType", plan_type);
                                      ("frequency", frequency);
                                      ("status", st)])
                       else ret JS.Null) ;;
           ret {| status := 200;
                  headers := json_cors;
                  payload :=
                    JS.Obj [("success", JS.Bool true);
                            ("message", JS.Str "Login successful");
                            ("user",
                             JS.Obj [("id", id); ("email", mail);
                                     ("firstName", first_name);
                                     ("lastName", last_name);
                                     ("subscriptionActive", subscription_active);
                                     ("subscription", summary)]);
                            ("token", JS.Str token);
                            ("sessionToken", JS.Str sessionToken)] |})
    (fun error =>
       console_error "Error during user login:" error ;;;
       ret InternalServerError).

End Handlers.
End Auth.

(* ================================================================== *)
(** ** The auth API: verifying a token (verifyUserToken, authenticateRequest) *)
(* ================================================================== *)

(** jsonwebtoken's verification and SQLite's conversion of a text that is
    compared with an INTEGER column are not code of the repository
    either; the token functions are verified for every choice of them. *)
Record Verification : Type := {
  (** [jwt.verify(token, secret)] at a given instant: the decoded payload,
      or the error thrown for a malformed, forged or expired token *)
  jwt_verify : string -> string -> string -> JS.Outcome JS.Value;
  (** the integer a text parameter stands for when it is compared with an
      INTEGER column (NUMERIC conversion), if it is the text of one *)
  numeric_text : string -> option Z
}.

Module AuthTokens.

(** [s.substring(n)] *)
Fixpoint substring (n : nat) (s : string) : string :=
  match n, s with
  | O, _ => s
  | S n', String _ rest => substring n' rest
  | S _, EmptyString => EmptyString
  end.

(** [!authHeader || !authHeader.startsWith('Bearer ')] being false, the
    token is [authHeader.substring(7)]. *)
Definition bearer (request : Request) : option string :=
  match headers_get (req_headers request) "Authorization" with
  | Some authHeader =>
      if negb (JS.truthy (JS.Str authHeader))
         || negb (String.prefix "Bearer " authHeader)
      then None
      else Some (substring 7 authHeader)
  | None => None
  end.

Section Handlers.
Context (P : Platform) (V : Verification).

(** The rows of users that [WHERE id = ?] selects: a numeric text
    parameter is converted before it is compared with the INTEGER
    primary key. *)
Definition id_is (uid : SQLite.Value) (u : users.row) : bool :=
  match uid with
  | SQLite.TEXT s =>
      match numeric_text V s with
      | Some z => users.id u =? z
      | None => false
      end
  | _ => D1.is_user uid u
  end.

(** SELECT id, email, first_name, last_name, subscription_active
    FROM users WHERE id = ? *)
Definition select_profile_by_id (uid : SQLite.Value) (d : D1.Database) : list JS.Value :=
  map (fun u => JS.Obj [("id", JS.Num (users.id u));
                        ("email", SQLite.to_js (users.email u));
                        ("first_name", SQLite.to_js (users.first_name u));
                        ("last_name", SQLite.to_js (users.last_name u));
                        ("subscription_active", SQLite.to_js (users.subscription_active u))])
      (filter (id_is uid) (D1.tbl_users d)).

(** SELECT id, email, subscription_active FROM users WHERE id = ? *)
Definition select_identity_by_id (uid : SQLite.Value) (d : D1.Database) : list JS.Value :=
  map (fun u => JS.Obj [("id", JS.Num (users.id u));
                        ("email", SQLite.to_js (users.email u));
                        ("subscription_active", SQLite.to_js (users.subscription_active u))])
      (filter (id_is uid) (D1.tbl_users d)).

(** [jwt.verify(token, env.JWT_SECRET || 'your-secret-key')] *)
Definition decode (token : string) : Async JS.Value :=
  key <- Auth.secret ;;
  fun w => (jwt_verify V token key (now_iso w), w).

Definition verifyUserToken (request : Request) : Async Response :=
  try_catch
    (match bearer request with
     | None => ret (Auth.reject 401 "No valid authorization token provided")
     | Some token =>
         attempt <- try_catch
                      (decoded <- decode token ;; ret (inr decoded))
                      (fun _ => ret (inl (Auth.reject 401 "Invalid or expired token"))) ;;
         match attempt with
         | inl early => ret early
         | inr decoded =>
             userId <- lift (JS.get decoded "userId") ;;
             uid <- param P userId ;;
             user <- first (select_profile_by_id uid) ;;
             if negb (JS.truthy user) then ret (Auth.reject 404 "User not found")
             else
               id <- lift (JS.get user "id") ;;
               email <- lift (JS.get user "email") ;;
               first_name <- lift (JS.get user "first_name") ;;
               last_name <- lift (JS.get user "last_name") ;;
               subscription_active <- lift (JS.get user "subscription_active") ;;
               ret {| status := 200;
                      headers := Auth.json_cors;
                      payload :=
                        JS.Obj [("success", JS.Bool true);
                                ("user",
                                 JS.Obj [("id", id); ("email", email);
                                         ("firstName", first_name);
                                         ("lastName", last_name);
                                         ("subscriptionActive", subscription_active)])] |}
         end
     end)
    (fun error =>
       console_error "Error verifying token:" error ;;;
       ret Auth.InternalServerError).

(** [{ success: false, error }] *)
Definition denied (message : string) : JS.Value :=
  error_envelope (JS.Str message).

(** The middleware: the same steps, answering with a plain object; its
    [catch] neither logs nor tells the causes apart. *)
Definition authenticateRequest (request : Request) : Async JS.Value :=
  try_catch
    (match bearer request with
     | None => ret (denied "No authorization token provided")
     | Some token =>
         decoded <- decode token ;;
         userId <- lift (JS.get decoded "userId") ;;
         uid <- param P userId ;;
         user <- first (select_identity_by_id uid) ;;
         if negb (JS.truthy user) then ret (denied "User not found")
         else
           id <- lift (JS.get user "id") ;;
           email <- lift (JS.get user "email") ;;
           subscription_active <- lift (JS.get user "subscription_active") ;;
           ret (JS.Obj [("success", JS.Bool true);
                        ("user",
                         JS.Obj [("id", id); ("email", email);
                                 ("subscriptionActive", subscription_active)])])
     end)
    (fun _ => ret (denied "Invalid token")).

End Handlers.
End AuthTokens.

(* ================================================================== *)
(** ** square-subscription-api.js: the other wrappers and the webhook stub *)
(* ================================================================== *)

Module SquareClient.

(** The methods of the SDK client these wrappers call. Each resolves
    with the API response, whose [result] holds the answer, or rejects. *)
Record Client : Type := {
  listCatalog : JS.Value -> JS.Value -> Async JS.Value;
  pauseSubscription : JS.Value -> JS.Value -> Async JS.Value;
  resumeSubscription : JS.Value -> JS.Value -> Async JS.Value;
  cancelSubscription : JS.Value -> Async JS.Value;
  retrieveSubscription : JS.Value -> Async JS.Value
}.

(** [{ success: false, error: error.message }] *)
Definition failed (error : JS.Error) : JS.Value :=
  JS.Obj [("success", JS.Bool false); ("error", JS.Str (JS.message error))].

Definition succeeded : JS.Value := JS.Obj [("success", JS.Bool true)].

(** What the console prints for a value passed to [console.log] after
    the label: a string as it is, the other primitives by name or in
    decimal, an array or object abbreviated. The console never throws. *)
Definition render (v : JS.Value) : string :=
  match v with
  | JS.Undefined => "undefined"
  | JS.Null => "null"
  | JS.Bool true => "true"
  | JS.Bool false => "false"
  | JS.Num z => JS.decimal z
  | JS.Str s => s
  | JS.Arr _ => "[Array]"
  | JS.Obj _ => "[Object]"
  end.

Section Wrappers.
Context (client : Client).

Definition getSubscriptionPlans : Async JS.Value :=
  try_catch
    (response <- listCatalog client JS.Undefined (JS.Str "SUBSCRIPTION_PLAN") ;;
     result <- lift (JS.get response "result") ;;
     objects <- lift (JS.get result "objects") ;;
     ret (JS.Obj [("success", JS.Bool true);
                  ("plans", JS.or_else objects (JS.Arr []))]))
    (fun error =>
       console_error "Error fetching subscription plans:" error ;;;
       ret (SquareApi.failure error "Failed to fetch subscription plans")).

(** [updateSubscription(env, subscriptionId, action, reason = null)] *)
Definition updateSubscription (subscriptionId action reason : JS.Value) : Async JS.Value :=
  let reason := match reason with JS.Undefined => JS.Null | _ => reason end in
  try_catch
    (result <-
       (if JS.strict_eq_str action "pause" then
          date <- SquareApi.today ;;
          pauseSubscription client subscriptionId
            (JS.Obj [("pauseEffectiveDate", JS.Str date);
                     ("pauseReason", JS.or_else reason (JS.Str "CUSTOMER_CHOICE"))])
        else if JS.strict_eq_str action "resume" then
          date <- SquareApi.today ;;
          resumeSubscription client subscriptionId
            (JS.Obj [("resumeEffectiveDate", JS.Str date);
                     ("resumeReason", JS.or_else reason (JS.Str "CUSTOMER_CHOICE"))])
        else if JS.strict_eq_str action "cancel" then
          cancelSubscription client subscriptionId
        else
          msg <- lift (template [JS.Str "Invalid action: "; action]) ;;
          throw (JS.PlainError msg)) ;;
     inner <- lift (JS.get result "result") ;;
     subscription <- lift (JS.get inner "subscription") ;;
     ret (JS.Obj [("success", JS.Bool true); ("subscription", subscription)]))
    (fun error =>
       label <- lift (template [JS.Str "Error "; action; JS.Str " subscription:"]) ;;
       console_error label error ;;;
       if JS.truthy (JS.Str (JS.message error))
       then ret (JS.Obj [("success", JS.Bool false);
                         ("error", JS.Str (JS.message error))])
       else
         fallback <- lift (template [JS.Str "Failed to "; action;
                                     JS.Str " subscription"]) ;;
         ret (JS.Obj [("success", JS.Bool false); ("error", JS.Str fallback)])).

Definition getSubscription (subscriptionId : JS.Value) : Async JS.Value :=
  try_catch
    (response <- retrieveSubscription client subscriptionId ;;
     result <- lift (JS.get response "result") ;;
     subscription <- lift (JS.get result "subscription") ;;
     ret (JS.Obj [("success", JS.Bool true); ("subscription", subscription)]))
    (fun error =>
       console_error "Error retrieving subscription:" error ;;;
       ret (SquareApi.failure error "Failed to retrieve subscription")).

End Wrappers.

(** *** handleSquareWebhook and the four functions it dispatches to *)

Definition handleSubscriptionCreated (subscription : JS.Value) : Async JS.Value :=
  try_catch
    (userId <- lift (JS.get subscription "customerId") ;;
     customerId <- lift (JS.get subscription "customerId") ;;
     line <- lift (template [JS.Str "Subscription created for customer "; customerId]) ;;
     console_log line ;;;
     ret succeeded)
    (fun error =>
       console_error "Error handling subscription created:" error ;;;
       ret (failed error)).

Definition handleSubscriptionUpdated (subscription : JS.Value) : Async JS.Value :=
  try_catch
    (userId <- lift (JS.get subscription "customerId") ;;
     st <- lift (JS.get subscription "status") ;;
     status <- lift (JS.call_toLowerCase st) ;;
     id <- lift (JS.get subscription "id") ;;
     line <- lift (template [JS.Str "Subscription "; id;
                             JS.Str " updated to "; JS.Str status]) ;;
     console_log line ;;;
     ret succeeded)
    (fun error =>
       console_error "Error handling subscription updated:" error ;;;
       ret (failed error)).

Definition handlePaymentMade (invoice : JS.Value) : Async JS.Value :=
  try_catch
    (id <- lift (JS.get invoice "id") ;;
     line <- lift (template [JS.Str "Payment successful for invoice "; id]) ;;
     console_log line ;;;
     ret succeeded)
    (fun error =>
       console_error "Error handling payment made:" error ;;;
       ret (failed error)).

Definition handlePaymentFailed (invoice : JS.Value) : Async JS.Value :=
  try_catch
    (id <- lift (JS.get invoice "id") ;;
     line <- lift (template [JS.Str "Payment failed for invoice "; id]) ;;
     console_log line ;;;
     ret succeeded)
    (fun error =>
       console_error "Error handling payment failed:" error ;;;
       ret (failed error)).

(** [handleSquareWebhook(env, webhookBody, webhookSignature)]; [parsed]
    is what [JSON.parse(webhookBody)] gives, [None] when it throws. The
    signature is not looked at. *)
Definition handleSquareWebhook (parsed : option JS.Value) : Async JS.Value :=
  try_catch
    (event <- match parsed with
              | Some v => ret v
              | None => throw (JS.PlainError "Unexpected token in JSON")
              end ;;
     type <- lift (JS.get event "type") ;;
     console_log ("Square webhook received: " ++ render type) ;;;
     if JS.strict_eq_str type "subscription.created" then
       subscription <- lift (SquareWebhook.event_object event "subscription") ;;
       handleSubscriptionCreated subscription
     else if JS.strict_eq_str type "subscription.updated" then
       subscription <- lift (SquareWebhook.event_object event "subscription") ;;
       handleSubscriptionUpdated subscription
     else if JS.strict_eq_str type "invoice.payment_made" then
       invoice <- lift (SquareWebhook.event_object event "invoice") ;;
       handlePaymentMade invoice
     else if JS.strict_eq_str type "invoice.payment_failed" then
       invoice <- lift (SquareWebhook.event_object event "invoice") ;;
       handlePaymentFailed invoice
     else
       type' <- lift (JS.get event "type") ;;
       line <- lift (template [JS.Str "Unhandled webhook event: "; type']) ;;
       console_log line ;;;
       ret (JS.Obj [("success", JS.Bool true);
                    ("message", JS.Str "Event not handled")]))
    (fun error =>
       console_error "Error handling Square webhook:" error ;;;
       ret (SquareApi.failure error "Failed to handle webhook")).

End SquareClient.

(* ================================================================== *)
(** ** The plans endpoints (GET) and the simplified create-subscription *)
(* ================================================================== *)

(** The debug endpoint that lists the catalog through the SDK. *)
Module PlansDebug.

Definition onRequestGet (client : SquareClient.Client) : Async Response :=
  try_catch
    (response <- SquareClient.listCatalog client JS.Undefined
                   (JS.Str "SUBSCRIPTION_PLAN") ;;
     result <- lift (JS.get response "result") ;;
     objects <- lift (JS.get result "objects") ;;
     ret {| status := 200;
            headers := Auth.json_cors;
            payload :=
              JS.Obj [("success", JS.Bool true);
                      ("plans", JS.or_else objects (JS.Arr []));
                      ("message",
                       JS.Str "Square subscription plans fetched successfully")] |})
    (fun error =>
       ret {| status := 500;
              headers := content_type_json;
              payload := error_envelope (JS.Str (JS.message error)) |}).

End PlansDebug.

(** get-square-plans.js: the same endpoint over a direct HTTP call. *)
Module PlansDirect.

(** What [fetch] resolves with: [ok], [status], [statusText] and the
    outcome of [response.json()]. *)
Record Fetched : Type := {
  ok : bool;
  http_status : Z;
  statusText : string;
  json : JS.Outcome JS.Value
}.

Definition url : string :=
  "https://connect.squareup.com/v2/catalog/list?types=SUBSCRIPTION_PLAN".

(** [fetch] is given the URL and the request headers;
    [SQUARE_ACCESS_TOKEN] is the variable of the environment. *)
Definition onRequestGet
    (fetch : string -> list (string * string) -> Async Fetched)
    (SQUARE_ACCESS_TOKEN : JS.Value) : Async Response :=
  try_catch
    (authorization <- lift (template [JS.Str "Bearer "; SQUARE_ACCESS_TOKEN]) ;;
     response <- fetch url [("Square-Version", "2023-10-18");
                            ("Authorization", authorization);
                            ("Content-Type", "application/json")] ;;
     if negb (ok response) then
       msg <- lift (template [JS.Str "Square API error: ";
                              JS.Num (http_status response); JS.Str " ";
                              JS.Str (statusText response)]) ;;
       throw (JS.PlainError msg)
     else
       result <- lift (json response) ;;
       objects <- lift (JS.get result "objects") ;;
       ret {| status := 200;
              headers := Auth.json_cors;
              payload :=
                JS.Obj [("success", JS.Bool true);
                        ("plans", JS.or_else objects (JS.Arr []));
                        ("message",
                         JS.Str "Square subscription plans fetched successfully")] |})
    (fun error =>
       ret {| status := 500;
              headers := content_type_json;
              payload := error_envelope (JS.Str (JS.message error)) |}).

End PlansDirect.

(** The simplified create-subscription endpoint: validation only. *)
Module CreateSubscriptionSimplified.

Definition requiredFields : list string :=
  ["email"; "firstName"; "lastName"; "planType"].

Definition onRequestPost (request : Request) : Async Response :=
  try_catch
    (requestData <- request_json request ;;
     missing <- lift (missing_fields requestData requiredFields) ;;
     if negb (Nat.eqb (List.length missing) 0) then
       ret {| status := 400;
              headers := content_type_json;
              payload := error_envelope
                (JS.Str ("Missing required fields: " ++ JS.join ", " missing)) |}
     else
       ret {| status := 200;
              headers := Auth.json_cors;
              payload :=
                JS.Obj [("success", JS.Bool true);
                        ("message", JS.Str "Subscription endpoint working");
                        ("data", requestData)] |})
    (fun error =>
       ret {| status := 500;
              headers := content_type_json;
              payload := error_envelope (JS.Str (JS.message error)) |}).

End CreateSubscriptionSimplified.

(* ================================================================== *)
(** ** Notions used to state the properties *)
(* ================================================================== *)

(** The computation runs to completion (does not throw) from [w]. *)
Definition completes {A} (m : Async A) (w : World) : bool :=
  match m w with
  | (JS.Returns _, _) => true
  | (JS.Throws _, _) => false
  end.

(** Nothing interferes with the store while the request runs: every
    statement finds it available and no other request commits. *)
Definition quiet (w : World) : Prop := store_script w = [].

(** The payments ledger of [w'] is that of [w] followed by rows that all
    satisfy [ok]. *)
Definition ledger_grows (ok : payments.row -> Prop) (w w' : World) : Prop :=
  exists added,
    D1.tbl_payments (DB w') = (D1.tbl_payments (DB w) ++ added)%list /\ Forall ok added.

(** A payment row that references no subscription and gives no reason. *)
Definition unreferenced (p : payments.row) : Prop :=
  payments.subscription_id p = SQLite.NULL /\
  payments.failure_reason p = SQLite.NULL.

(** Whatever the outcome, running [m] relates the world before and the
    world after by [R]. *)
Definition keeps (R : World -> World -> Prop) {A} (m : Async A) : Prop :=
  forall w, R w (snd (m w)).

(** When [m] returns, the value satisfies [V]. *)
Definition yields {A} (m : Async A) (V : A -> Prop) : Prop :=
  forall w a w', m w = (Returns a, w') -> V a.

(** The local rows of the gateway subscription [id], their statuses, and
    the rows of the other subscriptions. *)
Definition local_subscriptions (id : string) (d : D1.Database) : list subscriptions.row :=
  filter (SquareWebhook.has_square_id (SQLite.TEXT id)) (D1.tbl_subscriptions d).

Definition local_statuses (id : string) (d : D1.Database) : list SQLite.Value :=
  map subscriptions.status (local_subscriptions id d).

Definition other_subscriptions (id : string) (d : D1.Database) : list subscriptions.row :=
  filter (fun s => negb (SquareWebhook.has_square_id (SQLite.TEXT id) s))
         (D1.tbl_subscriptions d).

(** The request carries a JSON object with these credentials. *)
Definition login_request (request : Request) (email : string) (password : JS.Value) : Prop :=
  exists loginData,
    req_body request = Some loginData /\
    JS.get loginData "email" = Returns (JS.Str email) /\ email <> "" /\
    JS.get loginData "password" = Returns password /\ JS.truthy password = true.

(** The user rows stored under the normalised form of [email]. *)
Definition registered (email : string) (d : D1.Database) : list users.row :=
  filter (fun u => SQLite.eqb (users.email u) (SQLite.TEXT (JS.toLowerCase email)))
         (D1.tbl_users d).

Definition unknown_email (email : string) (w : World) : Prop :=
  registered email (DB w) = [].

(** The email is known and bcrypt finds the password not to match the
    stored hash. *)
Definition wrong_password (P : Platform) (email : string) (password : JS.Value)
    (w : World) : Prop :=
  exists user rest,
    registered email (DB w) = user :: rest /\
    bcrypt_compare P password (SQLite.to_js (users.password_hash user)) = Returns false.

(** The request carries a JSON object with these four strings. *)
Definition registration_request (request : Request)
    (email firstName lastName password : string) : Prop :=
  exists userData,
    req_body request = Some userData /\
    JS.get userData "email" = Returns (JS.Str email) /\
    JS.get userData "firstName" = Returns (JS.Str firstName) /\
    JS.get userData "lastName" = Returns (JS.Str lastName) /\
    JS.get userData "password" = Returns (JS.Str password).

(** The validation of handleUserRegistration, on strings. *)
Definition valid_registration (email firstName lastName password : string) : Prop :=
  firstName <> "" /\ lastName <> "" /\
  RegExp.test_anchored Auth.emailRegex email = true /\
  (8 <= Z.of_nat (String.length password)).

(** [response.user.email] of a response body. *)
Definition returned_user_email (resp : Response) : JS.Outcome JS.Value :=
  JS.and_then (JS.get (payload resp) "user") (fun user => JS.get user "email").

(** No user row is ever lost between [w] and [w']. *)
Definition users_persist (w w' : World) : Prop :=
  incl (D1.tbl_users (DB w)) (D1.tbl_users (DB w')).

(** Every property of [v] can be read: [v] is neither undefined nor null. *)
Definition readable (v : JS.Value) : Prop :=
  forall k, exists x, JS.get v k = Returns x.


(** [response.subscription.id] of a response body. *)
Definition returned_subscription_id (resp : Response) : JS.Outcome JS.Value :=
  JS.and_then (JS.get (payload resp) "subscription") (fun s => JS.get s "id").

(** The number of payment rows that carry the external reference [id]. *)
Definition payments_for (id : string) (d : D1.Database) : nat :=
  List.length (filter (fun p => SQLite.eqb (payments.square_payment_id p) (SQLite.TEXT id))
                      (D1.tbl_payments d)).

(** An invoice event of the gateway: the subscription and payment
    references are strings and the total is an amount with a currency. *)
Definition invoice_event (webhookEvent : JS.Value) (subscriptionId id : string)
    (amount : Z) (currency : string) : Prop :=
  exists invoice,
    SquareWebhook.event_object webhookEvent "invoice" = Returns invoice /\
    JS.get invoice "subscriptionId" = Returns (JS.Str subscriptionId) /\
    JS.get invoice "id" = Returns (JS.Str id) /\
    JS.get invoice "totalMoney"
    = Returns (JS.Obj [("amount", JS.Num amount); ("currency", JS.Str currency)]).

(** The status of the response, when the handler returns one. *)
Definition status_of (o : JS.Outcome Response) : option Z :=
  match o with
  | JS.Returns resp => Some (status resp)
  | JS.Throws _ => None
  end.

(* ================================================================== *)
(** ** A concrete platform and concrete worlds, for the examples *)
(* ================================================================== *)

Module Scenario.

Fixpoint digits_value (s : string) (acc : Z) : option Z :=
  match s with
  | EmptyString => Some acc
  | String c rest =>
      let n := Z.of_nat (nat_of_ascii c) in
      if (48 <=? n) && (n <=? 57) then digits_value rest (10 * acc + (n - 48))
      else None
  end.

(** [t] is what [s] ends with. *)
Definition ends_with (s t : string) : bool :=
  String.eqb (substring (String.length s - String.length t) (String.length t) s) t
  && Nat.leb (String.length t) (String.length s).

(** A stand-in for the libraries: the hash of [s] is a fixed prefix, the
    salt and [s], and a hash matches the passwords it ends with; a token
    is the secret after ["jwt:"]; only strings of decimal digits are
    numeric. [undefined_as_null] is the D1 policy. *)
Definition platform (undefined_as_null : bool) : Platform := {|
  bcrypt_hash := fun v _ salt =>
    match v with
    | JS.Str s => Returns ("$2a$12$" ++ salt ++ "$" ++ s)
    | _ => Throws (JS.PlainError "Illegal arguments")
    end;
  bcrypt_compare := fun v h =>
    match v, h with
    | JS.Str s, JS.Str h => Returns (ends_with h ("$" ++ s))
    | _, _ => Throws (JS.PlainError "Illegal arguments")
    end;
  jwt_sign := fun _ secret _ _ => "jwt:" ++ secret;
  numeric_string_lt := fun s n =>
    match digits_value s 0 with Some v => v <? n | None => false end;
  d1_undefined_as_null := undefined_as_null;
  datetime_plus_7_days := fun s => s ++ " +7 days"
|}.

(** The driver stores NULL for an undefined binding ... *)
Definition lenient : Platform := platform true.
(** ... or refuses it. *)
Definition strict : Platform := platform false.

Definition empty : D1.Database := D1.mk [] [] [] [] 0 0 0 0.

(** A Square account with one active location, that creates customer C1
    and subscription S1. *)
Definition gateway : list Square.Reply :=
  [Square.Resolves
     (JS.Obj [("locations",
               JS.Arr [JS.Obj [("id", JS.Str "L1"); ("status", JS.Str "ACTIVE")]])]);
   Square.Resolves (JS.Obj [("customer", JS.Obj [("id", JS.Str "C1")])]);
   Square.Resolves
     (JS.Obj [("subscription",
               JS.Obj [("id", JS.Str "S1"); ("status", JS.Str "ACTIVE");
                       ("startDate", JS.Str "2024-01-01")])])].

Definition world (d : D1.Database) (script : list D1.Event) : World :=
  mkWorld d script gateway [] ["salt"; "uuid-1"; "uuid-2"; "key-1"]
          "2024-01-01 00:00:00" "2024-01-01T00:00:00.000Z" None [].

Definition post (fields : list (string * JS.Value)) : Request :=
  {| req_headers := [("content-type", "application/json")];
     req_body := Some (JS.Obj fields) |}.

Definition register (email : string) : Request :=
  post [("email", JS.Str email); ("firstName", JS.Str "A");
        ("lastName", JS.Str "B"); ("password", JS.Str "password1")].

Definition login (email password : string) : Request :=
  post [("email", JS.Str email); ("password", JS.Str password)].

Definition subscribe (email : string) : Request :=
  post [("email", JS.Str email); ("firstName", JS.Str "A");
        ("lastName", JS.Str "B"); ("planType", JS.Str "pro-monthly");
        ("paymentToken", JS.Str "tok")].

Definition notify (webhookEvent : JS.Value) : Request :=
  {| req_headers := [("x-square-signature", "signature")];
     req_body := Some webhookEvent |}.

Definition subscription_updated_event (id status : string) : JS.Value :=
  JS.Obj [("type", JS.Str "subscription.updated");
          ("data",
           JS.Obj [("object",
                    JS.Obj [("subscription",
                             JS.Obj [("id", JS.Str id);
                                     ("status", JS.Str status)])])])].

Definition payment_made_event (id subscriptionId : string) : JS.Value :=
  JS.Obj [("type", JS.Str "invoice.payment_made");
          ("data",
           JS.Obj [("object",
                    JS.Obj [("invoice",
                             JS.Obj [("id", JS.Str id);
                                     ("subscriptionId", JS.Str subscriptionId);
                                     ("totalMoney",
                                      JS.Obj [("amount", JS.Num 299);
                                              ("currency", JS.Str "GBP")])])])])].

(** The user a@x.com as handleUserRegistration stores it. *)
Definition alice : users.row :=
  users.mk 1 (SQLite.TEXT "a@x.com") (SQLite.TEXT "A") (SQLite.TEXT "B")
    (SQLite.TEXT "$2a$12$salt$password1") SQLite.NULL SQLite.FALSE SQLite.FALSE
    (SQLite.TEXT "2024-01-01 00:00:00") SQLite.NULL SQLite.NULL.

Definition alice_session : user_sessions.row :=
  user_sessions.mk 1 (SQLite.INTEGER 1) (SQLite.TEXT "uuid-1")
    (SQLite.TEXT "2024-01-01 00:00:00 +7 days") (SQLite.TEXT "2024-01-01 00:00:00")
    SQLite.NULL SQLite.NULL SQLite.NULL.

(** The database after a@x.com has registered ... *)
Definition registered_db : D1.Database :=
  D1.mk [alice] [] [] [alice_session] 1 0 0 1.

(** ... and her pro-monthly subscription as create-subscription stores it. *)
Definition alice_subscription : subscriptions.row :=
  subscriptions.mk 1 (SQLite.INTEGER 1) (SQLite.TEXT "S1") (SQLite.TEXT "pro-monthly")
    (SQLite.TEXT "ACTIVE") (SQLite.INTEGER 299) (SQLite.TEXT "GBP")
    (SQLite.TEXT "MONTHLY") (SQLite.TEXT "2024-01-01") SQLite.NULL
    (SQLite.TEXT "2024-01-01 00:00:00") SQLite.NULL.

(** The database after she has subscribed. *)
Definition subscribed_db : D1.Database :=
  D1.mk [users.set_square_customer_id (SQLite.TEXT "C1") alice]
        [alice_subscription] [] [alice_session] 1 1 0 1.

(** A store that fails on the fourth statement of a request. *)
Definition storage_lost : list D1.Event :=
  [D1.Proceed; D1.Proceed; D1.Proceed; D1.Unavailable "D1_ERROR: storage unavailable"].

(** A store in which a rival registration of a@x.com commits between the
    first and the second statement of a request. *)
Definition race : list D1.Event :=
  [D1.Proceed; D1.RivalRegistration "a@x.com" "R" "S" "$2a$12$other"].

End Scenario.

(* ================================================================== *)
(** ** Further notions *)
(* ================================================================== *)

(** The strings a pattern matches, declaratively. *)
Inductive matches : RegExp.t -> string -> Prop :=
| matches_empty : matches RegExp.Empty ""
| matches_class p c : p c = true -> matches (RegExp.Class p) (String c "")
| matches_seq r1 r2 s1 s2 :
    matches r1 s1 -> matches r2 s2 -> matches (RegExp.Seq r1 r2) (s1 ++ s2)
| matches_alt_l r1 r2 s : matches r1 s -> matches (RegExp.Alt r1 r2) s
| matches_alt_r r1 r2 s : matches r2 s -> matches (RegExp.Alt r1 r2) s
| matches_star_nil r : matches (RegExp.Star r) ""
| matches_star_cons r s1 s2 :
    matches r s1 -> matches (RegExp.Star r) s2 -> matches (RegExp.Star r) (s1 ++ s2).

Fixpoint all_chars (p : ascii -> bool) (s : string) : bool :=
  match s with
  | EmptyString => true
  | String c rest => p c && all_chars p rest
  end.

(** One or more characters, none of them white space or "@". *)
Definition plain (s : string) : bool :=
  negb (String.eqb s "") && all_chars Auth.not_space_or_at s.

(** The [user] object verifyUserToken answers with, for a stored row. *)
Definition profile (u : users.row) : JS.Value :=
  JS.Obj [("id", JS.Num (users.id u));
          ("email", SQLite.to_js (users.email u));
          ("firstName", SQLite.to_js (users.first_name u));
          ("lastName", SQLite.to_js (users.last_name u));
          ("subscriptionActive", SQLite.to_js (users.subscription_active u))].

(** The [user] object authenticateRequest answers with. *)
Definition identity (u : users.row) : JS.Value :=
  JS.Obj [("id", JS.Num (users.id u));
          ("email", SQLite.to_js (users.email u));
          ("subscriptionActive", SQLite.to_js (users.subscription_active u))].

(** The request bears a token that verifies, at the time and with the
    secret of [w], to a payload whose [userId] binds to [uid]. *)
Definition bears (P : Platform) (V : Verification) (request : Request) (w : World)
    (uid : SQLite.Value) : Prop :=
  exists token decoded userId,
    AuthTokens.bearer request = Some token /\
    fst (AuthTokens.decode V token w) = Returns decoded /\
    JS.get decoded "userId" = Returns userId /\
    bind_value P userId = Returns uid.

(** On a quiet store the computation leaves the database as it was, and
    the store quiet. *)
Definition reads_only (w w' : World) : Prop :=
  quiet w -> quiet w' /\ DB w' = DB w.

(** Some session row already carries [token]. *)
Definition token_in_use (token : string) (d : D1.Database) : bool :=
  existsb (fun s => SQLite.eqb (user_sessions.session_token s) (SQLite.TEXT token))
          (D1.tbl_user_sessions d).

(** The row handleUserRegistration stores for a new user. *)
Definition registered_row (id : Z) (email firstName lastName hash now : string)
  : users.row :=
  users.mk id (SQLite.TEXT email) (SQLite.TEXT firstName) (SQLite.TEXT lastName)
    (SQLite.TEXT hash) SQLite.NULL SQLite.FALSE SQLite.FALSE (SQLite.TEXT now)
    SQLite.NULL SQLite.NULL.

(** The session row both handlers store: seven days of validity from
    [now]; [used] is the last-used stamp. *)
Definition session_row (P : Platform) (id user_id : Z) (token now : string)
    (used : SQLite.Value) : user_sessions.row :=
  user_sessions.mk id (SQLite.INTEGER user_id) (SQLite.TEXT token)
    (SQLite.TEXT (datetime_plus_7_days P now)) (SQLite.TEXT now) used
    SQLite.NULL SQLite.NULL.

(** The rowid AUTOINCREMENT hands out next, per table. *)
Definition next_user_id (d : D1.Database) : Z :=
  D1.next_rowid (D1.seq_users d) (map users.id (D1.tbl_users d)).

Definition next_session_id (d : D1.Database) : Z :=
  D1.next_rowid (D1.seq_user_sessions d) (map user_sessions.id (D1.tbl_user_sessions d)).

(** [response.user.id] of a response body. *)
Definition returned_user_id (resp : Response) : JS.Outcome JS.Value :=
  JS.and_then (JS.get (payload resp) "user") (fun user => JS.get user "id").

(** The token the handlers sign for user [id] with the secret and at the
    time of [w]. *)
Definition signed_token (P : Platform) (id : Z) (email : JS.Value) (w : World) : string :=
  match fst (Auth.sign_token P (JS.Num id) email w) with
  | JS.Returns t => t
  | JS.Throws _ => ""
  end.

(** The summary of the first ACTIVE subscription of user [id] that login
    answers with, or null. *)
Definition active_summary (id : Z) (d : D1.Database) : JS.Value :=
  match filter (fun s => SQLite.eqb (subscriptions.user_id s) (SQLite.INTEGER id)
                         && SQLite.eqb (subscriptions.status s) (SQLite.TEXT "ACTIVE"))
               (D1.tbl_subscriptions d) with
  | [] => JS.Null
  | s :: _ => JS.Obj [("planType", SQLite.to_js (subscriptions.plan_type s));
                      ("frequency", SQLite.to_js (subscriptions.frequency s));
                      ("status", SQLite.to_js (subscriptions.status s))]
  end.

(** The computation leaves the subscriptions table as it was. *)
Definition subscriptions_kept (w w' : World) : Prop :=
  D1.tbl_subscriptions (DB w') = D1.tbl_subscriptions (DB w).

(** The validation of create-subscription passes: none of the required
    fields is falsy, and the plan type names a plan. *)
Definition valid_subscription_request (requestData : JS.Value) : Prop :=
  (forall field, In field CreateSubscription.requiredFields ->
     exists v, JS.get requestData field = Returns v /\ JS.truthy v = true) /\
  exists planType key,
    JS.get requestData "planType" = Returns planType /\
    JS.ToString planType = Returns key /\
    JS.truthy (CreateSubscription.plan_lookup key) = true.

(** The request carries a JSON object with these fields. *)
Definition subscription_request (request : Request)
    (email firstName lastName planType : string) (paymentToken : JS.Value) : Prop :=
  exists requestData,
    req_body request = Some requestData /\
    JS.get requestData "email" = Returns (JS.Str email) /\ email <> "" /\
    JS.get requestData "firstName" = Returns (JS.Str firstName) /\ firstName <> "" /\
    JS.get requestData "lastName" = Returns (JS.Str lastName) /\ lastName <> "" /\
    JS.get requestData "planType" = Returns (JS.Str planType) /\
    JS.get requestData "paymentToken" = Returns paymentToken /\
    JS.truthy paymentToken = true.

(** The next reply of the gateway lists locations of which [location] is
    the first active one. *)
Definition lists_location (reply : Square.Reply) (location : JS.Value) : Prop :=
  exists result locations,
    reply = Square.Resolves result /\
    JS.get result "locations" = Returns locations /\
    SquareApi.locations_find_active locations = Returns location.

(** The reply creates the customer [customerId]. *)
Definition creates_customer (reply : Square.Reply) (customerId : string) : Prop :=
  exists result customer,
    reply = Square.Resolves result /\
    JS.get result "customer" = Returns customer /\
    JS.get customer "id" = Returns (JS.Str customerId).

(** The reply creates the subscription [subscriptionId], starting on
    [startDate], in the state [st]. *)
Definition creates_subscription (reply : Square.Reply)
    (subscriptionId startDate : string) (st : JS.Value) : Prop :=
  exists result subscription,
    reply = Square.Resolves result /\
    JS.get result "subscription" = Returns subscription /\
    JS.get subscription "id" = Returns (JS.Str subscriptionId) /\
    JS.get subscription "startDate" = Returns (JS.Str startDate) /\
    JS.get subscription "status" = Returns st.

(** The user row create-subscription stores for an email it does not
    know: no password, the flags false. *)
Definition subscriber_row (id : Z) (email firstName lastName : string)
    (customer : SQLite.Value) (now : string) : users.row :=
  users.mk id (SQLite.TEXT email) (SQLite.TEXT firstName) (SQLite.TEXT lastName)
    SQLite.NULL customer SQLite.FALSE SQLite.FALSE (SQLite.TEXT now)
    SQLite.NULL SQLite.NULL.

(** The subscription row it stores. *)
Definition subscription_row (id user_id : Z) (subscriptionId planType : string)
    (price : Z) (frequency startDate now : string) : subscriptions.row :=
  subscriptions.mk id (SQLite.INTEGER user_id) (SQLite.TEXT subscriptionId)
    (SQLite.TEXT planType) (SQLite.TEXT "ACTIVE") (SQLite.INTEGER price)
    (SQLite.TEXT "GBP") (SQLite.TEXT frequency) (SQLite.TEXT startDate)
    SQLite.NULL (SQLite.TEXT now) SQLite.NULL.

Definition next_subscription_id (d : D1.Database) : Z :=
  D1.next_rowid (D1.seq_subscriptions d) (map subscriptions.id (D1.tbl_subscriptions d)).

(** The requests the wrappers hand to the SDK. *)
Definition customer_request (firstName lastName email : string) (user_id : Z) : JS.Value :=
  JS.Obj [("givenName", JS.Str firstName); ("familyName", JS.Str lastName);
          ("emailAddress", JS.Str email);
          ("referenceId", JS.Str (JS.decimal user_id))].

Definition subscription_creation_request (key : string) (locationId : JS.Value)
    (planType customerId today : string) (price : Z) (cardId : JS.Value) : JS.Value :=
  JS.Obj [("idempotencyKey", JS.Str ("sub_" ++ key));
          ("locationId", locationId);
          ("planId", JS.Str planType);
          ("customerId", JS.Str customerId);
          ("startDate", JS.Str today);
          ("taxPercentage", JS.Str "0");
          ("priceOverrideMoney",
           JS.Obj [("amount", JS.Num price); ("currency", JS.Str "GBP")]);
          ("cardId", cardId);
          ("timezone", JS.Str "Europe/London")].

(** No user other than [id] carries the gateway customer [customerId]. *)
Definition customer_unused (customerId : string) (id : Z) (d : D1.Database) : bool :=
  negb (existsb (fun u => negb (D1.is_user (SQLite.INTEGER id) u)
                          && SQLite.eqb (users.square_customer_id u)
                               (SQLite.TEXT customerId))
                (D1.tbl_users d)).

(** No local row carries the gateway subscription [subscriptionId]. *)
Definition subscription_unused (subscriptionId : string) (d : D1.Database) : bool :=
  negb (existsb (fun s => SQLite.eqb (subscriptions.square_subscription_id s)
                            (SQLite.TEXT subscriptionId))
                (D1.tbl_subscriptions d)).

(** The user rows stored under [email] as create-subscription looks it
    up: as given, not lower-cased. *)
Definition users_with_email (email : string) (d : D1.Database) : list users.row :=
  filter (fun u => SQLite.eqb (users.email u) (SQLite.TEXT email)) (D1.tbl_users d).

(** The body of the 201 response. *)
Definition created_body (subscriptionId planType planName frequency : string)
    (price : Z) (st : JS.Value) (startDate : string) (id : Z) (email customerId : string)
  : JS.Value :=
  JS.Obj [("success", JS.Bool true);
          ("message", JS.Str "Subscription created successfully");
          ("subscription",
           JS.Obj [("id", JS.Str subscriptionId);
                   ("planType", JS.Str planType);
                   ("planName", JS.Str planName);
                   ("frequency", JS.Str frequency);
                   ("price", JS.Num price);
                   ("currency", JS.Str "GBP");
                   ("status", st);
                   ("startDate", JS.Str startDate)]);
          ("user",
           JS.Obj [("id", JS.Num id); ("email", JS.Str email);
                   ("squareCustomerId", JS.Str customerId)])].

(** The subscription rows of user [id] with status ACTIVE. *)
Definition active_subscriptions (id : Z) (d : D1.Database) : list subscriptions.row :=
  filter (fun s => SQLite.eqb (subscriptions.user_id s) (SQLite.INTEGER id)
                   && SQLite.eqb (subscriptions.status s) (SQLite.TEXT "ACTIVE"))
         (D1.tbl_subscriptions d).

(** The gateway's next reply yields no location to subscribe at: the
    call is rejected, or no listed location is active. *)
Definition no_location (script : list Square.Reply) : Prop :=
  script = [] \/
  (exists e rest, script = Square.Rejects e :: rest) \/
  (exists reply rest, script = reply :: rest /\ lists_location reply JS.Undefined).

(** The user rows that carry the gateway customer [customerId]. *)
Definition users_of_customer (customerId : string) (d : D1.Database) : list users.row :=
  filter (fun u => SQLite.eqb (users.square_customer_id u) (SQLite.TEXT customerId))
         (D1.tbl_users d).

(** A subscription event of the gateway: customer and id are strings. *)
Definition subscription_event (webhookEvent : JS.Value) (customerId id : string) : Prop :=
  exists subscription,
    SquareWebhook.event_object webhookEvent "subscription" = Returns subscription /\
    JS.get subscription "customerId" = Returns (JS.Str customerId) /\
    JS.get subscription "id" = Returns (JS.Str id).

(** The payment row the payment handlers store. *)
Definition payment_row (id : Z) (user_id : SQLite.Value) (amount : Z)
    (currency status reference now : string) : payments.row :=
  payments.mk id user_id SQLite.NULL (SQLite.INTEGER amount)
    (SQLite.TEXT (if String.eqb currency "" then "GBP" else currency))
    (SQLite.TEXT status) (SQLite.TEXT reference) SQLite.NULL (SQLite.TEXT now).

Definition next_payment_id (d : D1.Database) : Z :=
  D1.next_rowid (D1.seq_payments d) (map payments.id (D1.tbl_payments d)).

(** The event is none of the four the endpoint handles. *)
Definition unhandled (type : JS.Value) : bool :=
  negb (JS.strict_eq_str type "subscription.created"
        || JS.strict_eq_str type "subscription.updated"
        || JS.strict_eq_str type "invoice.payment_made"
        || JS.strict_eq_str type "invoice.payment_failed").

(** What a wrapper resolves with: [success] true, or [success] false
    with a non-empty [error] message. *)
Definition settled (v : JS.Value) : Prop :=
  JS.get v "success" = Returns (JS.Bool true) \/
  (JS.get v "success" = Returns (JS.Bool false) /\
   exists message, JS.get v "error" = Returns (JS.Str message) /\ message <> "").

(** The promise of the wrapper never rejects. *)
Definition never_rejects (m : Async JS.Value) : Prop :=
  forall w, exists v w', m w = (Returns v, w') /\ settled v.

(** The computation changes nothing but the console. *)
Definition only_logs (w w' : World) : Prop :=
  DB w' = DB w /\ store_script w' = store_script w /\
  square_script w' = square_script w /\ square_calls w' = square_calls w /\
  entropy w' = entropy w.

(** [loc.status === 'ACTIVE'] *)
Definition is_active (loc : JS.Value) : bool :=
  match JS.get loc "status" with
  | JS.Returns st => JS.strict_eq_str st "ACTIVE"
  | JS.Throws _ => false
  end.

(** The object carries a boolean [success]. *)
Definition answers (v : JS.Value) : Prop :=
  exists b, JS.get v "success" = Returns (JS.Bool b).

(** The 200 answer of the plans endpoints for the [objects] of the
    catalog: [plans] is [objects], or the empty array when the catalog
    holds none ([objects] is missing, or falsy otherwise). *)
Definition plans_listed (objects : JS.Value) : Response :=
  {| status := 200;
     headers := Auth.json_cors;
     payload :=
       JS.Obj [("success", JS.Bool true);
               ("plans", if JS.truthy objects then objects else JS.Arr []);
               ("message", JS.Str "Square subscription plans fetched successfully")] |}.

(** Their 500 answer. *)
Definition plans_failed (message : string) : Response :=
  {| status := 500;
     headers := content_type_json;
     payload := error_envelope (JS.Str message) |}.

(** The headers get-square-plans.js sends. *)
Definition plans_headers (token : string) : list (string * string) :=
  [("Square-Version", "2023-10-18");
   ("Authorization", "Bearer " ++ token);
   ("Content-Type", "application/json")].

(** A subscription.updated event of the gateway for the subscription
    [id], with the new status. *)
Definition subscription_update (webhookEvent : JS.Value) (id status : string) : Prop :=
  exists subscription,
    SquareWebhook.event_object webhookEvent "subscription" = Returns subscription /\
    JS.get subscription "id" = Returns (JS.Str id) /\
    JS.get subscription "status" = Returns (JS.Str status).

(** The event carries an invoice of the subscription [subscriptionId]. *)
Definition invoice_of (webhookEvent : JS.Value) (subscriptionId : string) : Prop :=
  exists invoice,
    SquareWebhook.event_object webhookEvent "invoice" = Returns invoice /\
    JS.get invoice "subscriptionId" = Returns (JS.Str subscriptionId).

(** A store that was quiet stays quiet. *)
Definition stays_quiet (w w' : World) : Prop := quiet w -> quiet w'.

(** The world [w] with other session rows. *)
Definition with_sessions (t : list user_sessions.row) (seq : Z) (w : World) : World :=
  with_DB (D1.set_user_sessions t seq (DB w)) w.

(** The world [w] with other rows in its payments table. *)
Definition with_payments (t : list payments.row) (seq : Z) (w : World) : World :=
  with_DB (D1.set_payments t seq (DB w)) w.

(** A payment row without its row id. *)
Definition unnumbered (p : payments.row) : payments.row :=
  payments.mk 0 (payments.user_id p) (payments.subscription_id p) (payments.amount p)
    (payments.currency p) (payments.status p) (payments.square_payment_id p)
    (payments.failure_reason p) (payments.created_at p).

(** [w'] is [w] but for its payments table: where [w] holds [t] and the
    rows added to it since, [w'] holds [t'] and the same rows, numbered
    anew. *)
Definition mirrors (t' t : list payments.row) (w' w : World) : Prop :=
  exists added' added seq',
    w' = with_payments (t' ++ added') seq' w /\
    D1.tbl_payments (DB w) = (t ++ added)%list /\
    map unnumbered added' = map unnumbered added.

(** [m] does the same in two worlds that [R] relates: the same outcome,
    and worlds that [R] relates again. *)
Definition agrees (R : World -> World -> Prop) {A} (m : Async A) : Prop :=
  forall w' w, R w' w -> fst (m w') = fst (m w) /\ R (snd (m w')) (snd (m w)).

(** A statement that neither reads nor writes the payments table. *)
Definition beside_payments {A} (body : D1.Database -> JS.Outcome (A * D1.Database)) : Prop :=
  (forall d t seq,
     body (D1.set_payments t seq d)
     = JS.and_then (body d) (fun r => Returns (fst r, D1.set_payments t seq (snd r)))) /\
  (forall d a d', body d = Returns (a, d') -> D1.tbl_payments d' = D1.tbl_payments d).

(** The store answers the next [n] statements of the request, and no
    other request commits in between. *)
Definition undisturbed (n : nat) (w : World) : Prop :=
  Forall (eq D1.Proceed) (firstn n (store_script w)).

(* ================================================================== *)
(** ** Concrete libraries, clients and requests, for the further examples *)
(* ================================================================== *)

Module Fixture.

(** A stand-in for jsonwebtoken and for SQLite's conversion: the tokens
    [Scenario.platform] signs with the same secret are accepted and
    decode to user 1; the texts of decimal digits are the numeric ones. *)
Definition verification : Verification := {|
  jwt_verify := fun token secret _ =>
    if String.eqb token ("jwt:" ++ secret)
    then Returns (JS.Obj [("userId", JS.Num 1); ("email", JS.Str "a@x.com")])
    else Throws (JS.PlainError "invalid signature");
  numeric_text := fun s =>
    match s with
    | EmptyString => None
    | _ => Scenario.digits_value s 0
    end
|}.

(** A GET request that bears [token]. *)
Definition bearer (token : string) : Request :=
  {| req_headers := [("Authorization", "Bearer " ++ token)];
     req_body := None |}.

(** An SDK client whose catalog holds one plan and whose subscription
    calls answer for the subscription S1. *)
Definition client : SquareClient.Client :=
  let answer :=
    ret (JS.Obj [("result",
                  JS.Obj [("subscription",
                           JS.Obj [("id", JS.Str "S1");
                                   ("status", JS.Str "ACTIVE")])])]) in
  {| SquareClient.listCatalog := fun _ _ =>
       ret (JS.Obj [("result",
                     JS.Obj [("objects",
                              JS.Arr [JS.Obj [("id", JS.Str "pro-monthly")]])])]);
     SquareClient.pauseSubscription := fun _ _ => answer;
     SquareClient.resumeSubscription := fun _ _ => answer;
     SquareClient.cancelSubscription := fun _ => answer;
     SquareClient.retrieveSubscription := fun _ => answer |}.

(** A gateway that refuses the access token. *)
Definition unauthorized (_ : string) (_ : list (string * string))
  : Async PlansDirect.Fetched :=
  ret {| PlansDirect.ok := false;
         PlansDirect.http_status := 401;
         PlansDirect.statusText := "Unauthorized";
         PlansDirect.json := Throws (JS.PlainError "Unexpected end of JSON input") |}.

(** Webhook events. *)
Definition subscription_created_event (customerId id : string) : JS.Value :=
  JS.Obj [("type", JS.Str "subscription.created");
          ("data",
           JS.Obj [("object",
                    JS.Obj [("subscription",
                             JS.Obj [("id", JS.Str id);
                                     ("customerId", JS.Str customerId);
                                     ("status", JS.Str "ACTIVE")])])])].

Definition payment_failed_event (id subscriptionId : string) : JS.Value :=
  JS.Obj [("type", JS.Str "invoice.payment_failed");
          ("data",
           JS.Obj [("object",
                    JS.Obj [("invoice",
                             JS.Obj [("id", JS.Str id);
                                     ("subscriptionId", JS.Str subscriptionId);
                                     ("totalMoney",
                                      JS.Obj [("amount", JS.Num 299);
                                              ("currency", JS.Str "GBP")])])])])].

Definition customer_created_event : JS.Value :=
  JS.Obj [("type", JS.Str "customer.created")].

(** The location the gateway of [Scenario.world] lists. *)
Definition location : JS.Value :=
  JS.Obj [("id", JS.Str "L1"); ("status", JS.Str "ACTIVE")].

(** A gateway that lists the location and then declines the customer. *)
Definition declining : list Square.Reply :=
  [Square.Resolves (JS.Obj [("locations", JS.Arr [location])]);
   Square.Rejects (JS.PlainError "customer declined")].

(** The user a@x.com as create-subscription stores it. *)
Definition subscriber : users.row :=
  users.mk 1 (SQLite.TEXT "a@x.com") (SQLite.TEXT "A") (SQLite.TEXT "B")
    SQLite.NULL (SQLite.TEXT "C1") SQLite.FALSE SQLite.FALSE
    (SQLite.TEXT "2024-01-01 00:00:00") SQLite.NULL SQLite.NULL.

(** The database of [Scenario.subscribed_db] before the gateway has
    confirmed the subscription. *)
Definition pending_db : D1.Database :=
  D1.set_subscriptions
    [subscriptions.set_status (SQLite.TEXT "PENDING") Scenario.alice_subscription] 1
    Scenario.subscribed_db.

(** The database of [Scenario.subscribed_db] once a payment has been
    made: the subscription-active flag is set. *)
Definition paid_db : D1.Database :=
  D1.set_users
    [users.set_subscription_active SQLite.TRUE
       (users.set_square_customer_id (SQLite.TEXT "C1") Scenario.alice)] 1
    Scenario.subscribed_db.

(** The token [Scenario.platform] signs when no secret is configured. *)
Definition token : string := "jwt:your-secret-key".

(** A gateway that lists the location and creates customer C2 and
    subscription S2. *)
Definition second_gateway : list Square.Reply :=
  [Square.Resolves (JS.Obj [("locations", JS.Arr [location])]);
   Square.Resolves (JS.Obj [("customer", JS.Obj [("id", JS.Str "C2")])]);
   Square.Resolves
     (JS.Obj [("subscription",
               JS.Obj [("id", JS.Str "S2"); ("status", JS.Str "ACTIVE");
                       ("startDate", JS.Str "2024-02-01")])])].

(** A store that answers the first statement of a request and fails on
    the second. *)
Definition lookup_lost : list D1.Event :=
  [D1.Proceed; D1.Unavailable "D1_ERROR: storage unavailable"].

(** The database after a@x.com has subscribed without ever registering:
    the user row holds no password hash. *)
Definition subscriber_db : D1.Database :=
  D1.mk [subscriber] [Scenario.alice_subscription] [] [] 1 1 0 0.

(** A login request whose password is a JSON number. *)
Definition login_with_number (email : string) (password : Z) : Request :=
  Scenario.post [("email", JS.Str email); ("password", JS.Num password)].

(** An SDK client whose catalog holds no object. *)
Definition empty_catalog : SquareClient.Client :=
  {| SquareClient.listCatalog := fun _ _ => ret (JS.Obj [("result", JS.Obj [])]);
     SquareClient.pauseSubscription := SquareClient.pauseSubscription client;
     SquareClient.resumeSubscription := SquareClient.resumeSubscription client;
     SquareClient.cancelSubscription := SquareClient.cancelSubscription client;
     SquareClient.retrieveSubscription := SquareClient.retrieveSubscription client |}.

(** A gateway that answers the direct call with one plan. *)
Definition one_plan (_ : string) (_ : list (string * string))
  : Async PlansDirect.Fetched :=
  ret {| PlansDirect.ok := true;
         PlansDirect.http_status := 200;
         PlansDirect.statusText := "OK";
         PlansDirect.json :=
           Returns (JS.Obj [("objects",
                             JS.Arr [JS.Obj [("id", JS.Str "pro-monthly")]])]) |}.

End Fixture.


(* ================================================================== *)
(** ** Reasoning about async computations *)
(* ================================================================== *)

Section Frames.
Variable R : World -> World -> Prop.
Hypothesis R_refl : forall w, R w w.
Hypothesis R_trans : forall a b c, R a b -> R b c -> R a c.

Lemma keeps_ret {A} (a : A) : keeps R (ret a).
Proof. intros w. apply R_refl. Qed.

Lemma keeps_throw {A} (e : JS.Error) : keeps R (@throw A e).
Proof. intros w. apply R_refl. Qed.

Lemma keeps_lift {A} (o : JS.Outcome A) : keeps R (lift o).
Proof. intros w. apply R_refl. Qed.

Lemma keeps_bind_val {A B} (m : Async A) (k : A -> Async B) (V : A -> Prop) :
  keeps R m -> yields m V -> (forall a, V a -> keeps R (k a)) ->
  keeps R (bind m k).
Proof.
  intros Hm HV Hk w. unfold bind.
  specialize (Hm w). destruct (m w) as [[a | e] w1] eqn:E; cbn in *.
  - eapply R_trans; [exact Hm |]. apply Hk. eapply HV; eassumption.
  - exact Hm.
Qed.

Lemma keeps_bind {A B} (m : Async A) (k : A -> Async B) :
  keeps R m -> (forall a, keeps R (k a)) -> keeps R (bind m k).
Proof.
  intros Hm Hk. apply keeps_bind_val with (V := fun _ => True); auto.
  intros w a w' _. exact I.
Qed.

Lemma keeps_try_catch {A} (m : Async A) (h : JS.Error -> Async A) :
  keeps R m -> (forall e, keeps R (h e)) -> keeps R (try_catch m h).
Proof.
  intros Hm Hh w. unfold try_catch.
  specialize (Hm w). destruct (m w) as [[a | e] w1] eqn:E; cbn in *.
  - exact Hm.
  - eapply R_trans; [exact Hm |]. apply Hh.
Qed.

End Frames.

Lemma yields_lift {A} (o : JS.Outcome A) (V : A -> Prop) :
  (forall a, o = Returns a -> V a) -> yields (lift o) V.
Proof. intros H w a w' E. unfold lift in E. inversion E. auto. Qed.

(** *** The ledger relation *)

Lemma ledger_refl ok w : ledger_grows ok w w.
Proof. exists []. rewrite app_nil_r. auto. Qed.

Lemma ledger_trans ok a b c :
  ledger_grows ok a b -> ledger_grows ok b c -> ledger_grows ok a c.
Proof.
  intros (x & Hx & Fx) (y & Hy & Fy). exists (x ++ y)%list.
  rewrite Hy, Hx, app_assoc. split; [reflexivity | apply Forall_app; auto].
Qed.

Lemma ledger_same ok w w' :
  D1.tbl_payments (DB w') = D1.tbl_payments (DB w) -> ledger_grows ok w w'.
Proof. intros E. exists []. rewrite app_nil_r. auto. Qed.

Lemma arrive_payments now ev d d' :
  arrive now ev d = Returns d' -> D1.tbl_payments d' = D1.tbl_payments d.
Proof.
  destruct ev as [| m | e fn ln ph]; cbn; intros H; inversion H; auto.
  unfold D1.insert_user in *.
  repeat match goal with
         | H : context [if ?b then _ else _] |- _ => destruct b
         end; cbn in *; inversion H; reflexivity.
Qed.

(** A statement whose body leaves the payments alone keeps the ledger. *)
Lemma keeps_statement ok {A} (body : D1.Database -> JS.Outcome (A * D1.Database)) :
  (forall d a d', body d = Returns (a, d') -> D1.tbl_payments d' = D1.tbl_payments d) ->
  keeps (ledger_grows ok) (statement body).
Proof.
  intros Hb w. unfold statement.
  destruct (arrive _ _ _) as [d | e] eqn:Ea; cbn.
  - apply arrive_payments in Ea.
    destruct (body d) as [[a d'] | e] eqn:Eb; cbn; apply ledger_same; cbn.
    + rewrite (Hb _ _ _ Eb). exact Ea.
    + exact Ea.
  - apply ledger_same. reflexivity.
Qed.

Lemma keeps_first ok rows : keeps (ledger_grows ok) (first rows).
Proof.
  apply keeps_statement. intros d a d' H. inversion H. reflexivity.
Qed.

Lemma keeps_console_log ok s : keeps (ledger_grows ok) (console_log s).
Proof. intros w. apply ledger_same. reflexivity. Qed.

Lemma keeps_run_payments_untouched ok (stmt : D1.Database -> JS.Outcome D1.Database) :
  (forall d d', stmt d = Returns d' -> D1.tbl_payments d' = D1.tbl_payments d) ->
  keeps (ledger_grows ok) (run stmt).
Proof.
  intros H. apply keeps_statement. intros d a d' E.
  destruct (stmt d) as [d1 | e] eqn:Es; cbn in E; inversion E; subst. eauto.
Qed.

(** The INSERT INTO payments adds one row; bound to a NULL subscription
    reference, the row is [unreferenced]. *)
Lemma keeps_insert_payment uid amt cur st pay created :
  keeps (ledger_grows unreferenced)
        (run (D1.insert_payment uid SQLite.NULL amt cur st pay created)).
Proof.
  intros w. unfold run, statement.
  destruct (arrive _ _ _) as [d | e] eqn:Ea; cbn.
  - apply arrive_payments in Ea. unfold D1.insert_payment.
    destruct (_ || _); [cbn; apply ledger_same; exact Ea |].
    destruct (negb _); cbn; [apply ledger_same; exact Ea |].
    eexists [_]. cbn. rewrite Ea. split; [reflexivity |].
    constructor; [| constructor]. split; reflexivity.
  - apply ledger_same. reflexivity.
Qed.

Section LedgerRules.
Context (ok : payments.row -> Prop).

Lemma ledger_bind {A B} (m : Async A) (k : A -> Async B) :
  keeps (ledger_grows ok) m -> (forall a, keeps (ledger_grows ok) (k a)) ->
  keeps (ledger_grows ok) (bind m k).
Proof. apply keeps_bind, ledger_trans. Qed.

Lemma ledger_bind_val {A B} (m : Async A) (k : A -> Async B) (V : A -> Prop) :
  keeps (ledger_grows ok) m -> yields m V ->
  (forall a, V a -> keeps (ledger_grows ok) (k a)) ->
  keeps (ledger_grows ok) (bind m k).
Proof. apply keeps_bind_val, ledger_trans. Qed.

Lemma ledger_try_catch {A} (m : Async A) (h : JS.Error -> Async A) :
  keeps (ledger_grows ok) m -> (forall e, keeps (ledger_grows ok) (h e)) ->
  keeps (ledger_grows ok) (try_catch m h).
Proof. apply keeps_try_catch, ledger_trans. Qed.

Lemma ledger_lift {A} (o : JS.Outcome A) : keeps (ledger_grows ok) (lift o).
Proof. apply keeps_lift, ledger_refl. Qed.

Lemma ledger_ret {A} (a : A) : keeps (ledger_grows ok) (ret a).
Proof. apply keeps_ret, ledger_refl. Qed.

Lemma ledger_console_error label e : keeps (ledger_grows ok) (console_error label e).
Proof. apply keeps_console_log. Qed.

End LedgerRules.

(** Walks a computation made of binds over pure steps, logging, reads
    and the given leaves. *)
Ltac ledger_walk :=
  repeat (intros;
    match goal with
    | |- keeps _ (bind (first _) _) => fail 1
    | |- keeps _ (bind _ _) => apply ledger_bind
    | |- keeps _ (try_catch _ _) => apply ledger_try_catch
    | |- keeps _ (lift _) => apply ledger_lift
    | |- keeps _ (param _ _) => apply ledger_lift
    | |- keeps _ (ret _) => apply ledger_ret
    | |- keeps _ (console_log _) => apply keeps_console_log
    | |- keeps _ (console_error _ _) => apply ledger_console_error
    | |- keeps _ clock => intros ?; apply ledger_refl
    | |- keeps _ (first _) => apply keeps_first
    | |- keeps _ (if ?b then _ else _) => destruct b
    end).

Section PaymentLedger.
Context (P : Platform).

Lemma bind_undefined_null v :
  bind_value P JS.Undefined = Returns v -> v = SQLite.NULL.
Proof.
  cbn. destruct (d1_undefined_as_null P); intros H; inversion H; reflexivity.
Qed.

(** The row object of [SELECT user_id FROM subscriptions ...] has the one
    property [user_id]. *)
Lemma select_owner_shape sq :
  yields (first (SquareWebhook.select_owner sq))
         (fun v => JS.get v "square_subscription_id" = Returns JS.Undefined
                   \/ v = JS.Null).
Proof.
  intros w a w' H. unfold first, statement in H.
  destruct (arrive _ _ _) as [d | e]; cbn in H; inversion H; subst.
  unfold SquareWebhook.select_owner.
  destruct (filter _ _); cbn; auto.
Qed.

Lemma ledger_bind_returns ok {A B} (a : A) (k : A -> Async B) :
  keeps (ledger_grows ok) (k a) -> keeps (ledger_grows ok) (bind (lift (Returns a)) k).
Proof. intros H w. exact (H w). Qed.

Lemma ledger_bind_undefined ok {B} (k : SQLite.Value -> Async B) :
  keeps (ledger_grows ok) (k SQLite.NULL) ->
  keeps (ledger_grows ok) (bind (param P JS.Undefined) k).
Proof.
  intros H. apply ledger_bind_val with (V := fun v => v = SQLite.NULL).
  - apply ledger_lift.
  - apply yields_lift, bind_undefined_null.
  - intros v ->. exact H.
Qed.

Lemma keeps_log_payment subscription invoice lit :
  JS.get subscription "square_subscription_id" = Returns JS.Undefined
  \/ subscription = JS.Null ->
  keeps (ledger_grows unreferenced)
        (SquareWebhook.log_payment P subscription invoice lit).
Proof.
  intros [Hs | ->]; unfold SquareWebhook.log_payment.
  - rewrite Hs.
    repeat (intros;
      match goal with
      | |- keeps _ (bind (lift (JS.Returns _)) _) => apply ledger_bind_returns
      | |- keeps _ (bind (param _ JS.Undefined) _) => apply ledger_bind_undefined
      | |- keeps _ (bind _ _) => apply ledger_bind
      | |- keeps _ (lift _) => apply ledger_lift
      | |- keeps _ (param _ _) => apply ledger_lift
      | |- keeps _ clock => intros ?; apply ledger_refl
      | |- keeps _ (run _) => apply keeps_insert_payment
      end).
  - intros w. cbn. apply ledger_refl.
Qed.

Lemma keeps_set_subscription_active ok flag uid :
  keeps (ledger_grows ok) (run (SquareWebhook.set_subscription_active flag uid)).
Proof.
  apply keeps_run_payments_untouched. intros d d' H. inversion H. reflexivity.
Qed.

Ltac payment_walk :=
  repeat (intros;
    match goal with
    | |- keeps _ (bind (first (SquareWebhook.select_owner _)) _) =>
        apply ledger_bind_val with (1 := keeps_first _ _) (2 := select_owner_shape _)
    | |- keeps _ (run (SquareWebhook.set_subscription_active _ _)) =>
        apply keeps_set_subscription_active
    | H : _ \/ _ |- keeps _ (SquareWebhook.log_payment _ _ _ _) =>
        apply keeps_log_payment, H
    | |- _ => progress ledger_walk
    end).

(** C10. Every payment row that handlePaymentSuccessWebhook or
    handlePaymentFailedWebhook adds to the ledger has a NULL subscription
    reference and a NULL failure reason, for every event, world and
    platform: the row object of the SELECT has only [user_id], so the
    [square_subscription_id] read from it is undefined, and the INSERT
    does not name the failure_reason column. Earlier rows are untouched. *)
Theorem payment_rows_unreferenced (ev : JS.Value) (w : World) :
  ledger_grows unreferenced w (snd (SquareWebhook.handlePaymentSuccessWebhook P ev w))
  /\ ledger_grows unreferenced w (snd (SquareWebhook.handlePaymentFailedWebhook P ev w)).
Proof.
  split; revert w.
  - change (keeps (ledger_grows unreferenced)
              (SquareWebhook.handlePaymentSuccessWebhook P ev)).
    unfold SquareWebhook.handlePaymentSuccessWebhook, SquareWebhook.payment_success.
    payment_walk.
  - change (keeps (ledger_grows unreferenced)
              (SquareWebhook.handlePaymentFailedWebhook P ev)).
    unfold SquareWebhook.handlePaymentFailedWebhook, SquareWebhook.payment_failed.
    payment_walk.
Qed.

End PaymentLedger.

(* ================================================================== *)
(** ** The webhook endpoint: which status answers which request *)
(* ================================================================== *)

Section WebhookStatus.
Context (P : Platform).

(** A handler made of a [try] block that ends in the 200 response and a
    [catch] that answers 500: the status tells whether the block threw. *)
Lemma guarded_status (block : Async unit) (message label : string) (w : World) :
  exists resp w',
    try_catch (block ;;; ret (SquareWebhook.processed message))
      (fun error => console_error label error ;;; ret (SquareWebhook.failed error)) w
    = (Returns resp, w')
    /\ status resp = if completes block w then 200 else 500.
Proof.
  unfold try_catch, bind, completes.
  destruct (block w) as [[[] | e] w1]; cbn; do 2 eexists; split; reflexivity.
Qed.

(** C4, as the code has it. The webhook endpoint always answers: with
    400 when the signature header is missing or empty or the body is not
    well-formed JSON; otherwise with 200 when the processing of the event
    runs to completion and with 500 when it throws. *)
Theorem webhook_status (request : Request) (w : World) :
  exists resp w',
    SquareWebhook.onRequestPost P request w = (Returns resp, w') /\
    status resp =
      match SquareWebhook.signature_present request, req_body request with
      | true, Some webhookEvent =>
          if completes (SquareWebhook.processing P webhookEvent) w then 200 else 500
      | _, _ => 400
      end.
Proof.
  assert (done : forall (r : Response) (w1 : World) (n : Z),
             status r = n ->
             exists resp w', (Returns r, w1) = (Returns resp, w') /\ status resp = n)
    by (intros; do 2 eexists; split; [reflexivity | assumption]).
  unfold SquareWebhook.onRequestPost.
  destruct (SquareWebhook.signature_present request); cbn; [| apply done; reflexivity].
  destruct (req_body request) as [ev |]; cbn; [| apply done; reflexivity].
  unfold SquareWebhook.dispatch, SquareWebhook.processing, SquareWebhook.switch.
  unfold try_catch at 1. unfold completes, bind at 1 2 3 4 5 6.
  unfold lift.
  destruct (JS.get ev "type") as [type | e]; cbn; [| apply done; reflexivity].
  destruct (JS.ToString type) as [s | e] eqn:Etype; cbn; [| apply done; reflexivity].
  repeat match goal with
         | |- context [if JS.strict_eq_str type ?s then _ else _] =>
             destruct (JS.strict_eq_str type s)
         end.
  - edestruct guarded_status as (resp & w' & E & S); unfold completes in S;
      unfold SquareWebhook.handleSubscriptionCreatedWebhook; rewrite E.
    do 2 eexists; split; [reflexivity |]. rewrite S.
    destruct (SquareWebhook.subscription_created _ _ _) as [[] ?]; reflexivity.
  - edestruct guarded_status as (resp & w' & E & S); unfold completes in S;
      unfold SquareWebhook.handleSubscriptionUpdatedWebhook; rewrite E.
    do 2 eexists; split; [reflexivity |]. rewrite S.
    destruct (SquareWebhook.subscription_updated _ _ _) as [[] ?]; reflexivity.
  - edestruct guarded_status as (resp & w' & E & S); unfold completes in S;
      unfold SquareWebhook.handlePaymentSuccessWebhook; rewrite E.
    do 2 eexists; split; [reflexivity |]. rewrite S.
    destruct (SquareWebhook.payment_success _ _ _) as [[] ?]; reflexivity.
  - edestruct guarded_status as (resp & w' & E & S); unfold completes in S;
      unfold SquareWebhook.handlePaymentFailedWebhook; rewrite E.
    do 2 eexists; split; [reflexivity |]. rewrite S.
    destruct (SquareWebhook.payment_failed _ _ _) as [[] ?]; reflexivity.
  - cbn. rewrite Etype. cbn. apply done; reflexivity.
Qed.

End WebhookStatus.

(* ================================================================== *)
(** ** Running a handler against a quiet store *)
(* ================================================================== *)

Lemma with_DB_same w : with_DB (DB w) w = w.
Proof. destruct w; reflexivity. Qed.

Lemma quiet_with_DB d w : quiet w -> quiet (with_DB d w).
Proof. exact (fun H => H). Qed.

Lemma quiet_with_console c w : quiet w -> quiet (with_console c w).
Proof. exact (fun H => H). Qed.

Lemma quiet_with_entropy c w : quiet w -> quiet (with_entropy c w).
Proof. exact (fun H => H). Qed.

Lemma quiet_with_square s c w : quiet w -> quiet (with_square s c w).
Proof. exact (fun H => H). Qed.

Lemma statement_quiet {A} (body : D1.Database -> JS.Outcome (A * D1.Database)) w :
  quiet w ->
  statement body w =
    match body (DB w) with
    | JS.Returns (a, d') => (Returns a, with_DB d' w)
    | JS.Throws e => (Throws e, w)
    end.
Proof.
  unfold quiet, statement. destruct w as [d ss sq calls en ns ni sec con]; cbn.
  intros ->. cbn. destruct (body d) as [[a d'] | e]; reflexivity.
Qed.

Lemma first_quiet rows w :
  quiet w -> first rows w = (Returns (hd JS.Null (rows (DB w))), w).
Proof.
  intros H. unfold first. rewrite statement_quiet by exact H.
  rewrite with_DB_same. reflexivity.
Qed.

Lemma run_quiet stmt w :
  quiet w ->
  run stmt w =
    match stmt (DB w) with
    | JS.Returns d' => (Returns tt, with_DB d' w)
    | JS.Throws e => (Throws e, w)
    end.
Proof.
  intros H. unfold run. rewrite statement_quiet by exact H.
  destruct (stmt (DB w)); reflexivity.
Qed.

(** Equations that move a computation one step forward. *)
Lemma bind_lift {A B} (a : A) (k : A -> Async B) w :
  bind (lift (Returns a)) k w = k a w.
Proof. reflexivity. Qed.

Lemma bind_lift_throws {A B} (e : JS.Error) (k : A -> Async B) w :
  bind (lift (Throws e)) k w = (Throws e, w).
Proof. reflexivity. Qed.

Lemma bind_ret {A B} (a : A) (k : A -> Async B) w : bind (ret a) k w = k a w.
Proof. reflexivity. Qed.

Lemma bind_console_log {B} s (k : unit -> Async B) w :
  bind (console_log s) k w = k tt (with_console (console w ++ [s]) w).
Proof. reflexivity. Qed.

Lemma bind_clock {B} (k : string -> Async B) w : bind clock k w = k (now_sql w) w.
Proof. reflexivity. Qed.

Lemma bind_draw {B} (k : string -> Async B) w :
  bind draw k w = k (hd "" (entropy w)) (with_entropy (tl (entropy w)) w).
Proof. reflexivity. Qed.

Lemma bind_first_quiet {B} rows (k : JS.Value -> Async B) w :
  quiet w -> bind (first rows) k w = k (hd JS.Null (rows (DB w))) w.
Proof. intros H. unfold bind. rewrite first_quiet by exact H. reflexivity. Qed.

Lemma bind_run_quiet {B} stmt (k : unit -> Async B) w d' :
  quiet w -> stmt (DB w) = Returns d' ->
  bind (run stmt) k w = k tt (with_DB d' w).
Proof. intros H E. unfold bind. rewrite run_quiet, E by exact H. reflexivity. Qed.

Lemma bind_run_quiet_throws {B} stmt (k : unit -> Async B) w e :
  quiet w -> stmt (DB w) = Throws e ->
  bind (run stmt) k w = (Throws e, w).
Proof. intros H E. unfold bind. rewrite run_quiet, E by exact H. reflexivity. Qed.

Lemma bind_param {B} P v x (k : SQLite.Value -> Async B) w :
  bind_value P v = Returns x -> bind (param P v) k w = k x w.
Proof. intros E. unfold bind, param, lift. rewrite E. reflexivity. Qed.

(** What was read from a column binds back to the same value. *)
Lemma bytes_of_to_js bytes :
  bytes_of (map (fun b => JS.Num (Z.of_N (Byte.to_N b))) bytes) = Some bytes.
Proof.
  induction bytes as [| b bs IH]; cbn; [reflexivity |].
  rewrite IH. destruct (Z.leb_spec 0 (Z.of_N (Byte.to_N b))); [| lia].
  rewrite N2Z.id, Byte.of_to_N. reflexivity.
Qed.

Lemma bind_value_to_js P v : bind_value P (SQLite.to_js v) = Returns v.
Proof.
  destruct v; cbn; try reflexivity. rewrite bytes_of_to_js. reflexivity.
Qed.

(** UPDATE ... WHERE over lists. *)
Lemma filter_update_where {R} (c : R -> bool) (f : R -> R) (t : list R) :
  (forall r, c (f r) = c r) ->
  filter c (D1.update_where c f t) = map f (filter c t).
Proof.
  intros Hc. unfold D1.update_where.
  induction t as [| r t IH]; cbn; [reflexivity |].
  destruct (c r) eqn:E; cbn.
  - rewrite Hc, E. cbn. rewrite IH. reflexivity.
  - rewrite E. exact IH.
Qed.

Lemma filter_update_where_others {R} (c : R -> bool) (f : R -> R) (t : list R) :
  (forall r, c (f r) = c r) ->
  filter (fun r => negb (c r)) (D1.update_where c f t) = filter (fun r => negb (c r)) t.
Proof.
  intros Hc. unfold D1.update_where.
  induction t as [| r t IH]; cbn; [reflexivity |].
  destruct (c r) eqn:E; cbn.
  - rewrite Hc, E. cbn. exact IH.
  - rewrite E. cbn. rewrite IH. reflexivity.
Qed.

Lemma in_update_where {R} (c : R -> bool) (f : R -> R) (t : list R) (r' : R) :
  In r' (D1.update_where c f t) ->
  exists r, In r t /\ r' = if c r then f r else r.
Proof.
  unfold D1.update_where. rewrite in_map_iff. intros (r & E & I). eauto.
Qed.

(* ================================================================== *)
(** ** subscription.updated *)
(* ================================================================== *)

Section SubscriptionUpdated.
Context (P : Platform).

Lemma has_square_id_set sq now v s :
  SquareWebhook.has_square_id sq
    (subscriptions.set_updated_at now (subscriptions.set_status v s))
  = SquareWebhook.has_square_id sq s.
Proof. reflexivity. Qed.

Lemma update_status_text now st sq d :
  SquareWebhook.update_status now (SQLite.TEXT st) sq d =
  Returns (D1.set_subscriptions
             (D1.update_where (SquareWebhook.has_square_id sq)
                (fun s => subscriptions.set_updated_at (SQLite.TEXT now)
                            (subscriptions.set_status (SQLite.TEXT st) s))
                (D1.tbl_subscriptions d))
             (D1.seq_subscriptions d) d).
Proof.
  unfold SquareWebhook.update_status. cbn [SQLite.is_null].
  rewrite Bool.andb_false_r. reflexivity.
Qed.

(** The [try] block on a quiet store: it completes, the rows of the
    subscription are rewritten, and on CANCELED or PAUSED the rows of the
    owner (the user of the first local row) are rewritten too. *)
Lemma subscription_updated_quiet
    (webhookEvent subscription : JS.Value) (id status : string) (w : World) :
  SquareWebhook.event_object webhookEvent "subscription" = Returns subscription ->
  JS.get subscription "id" = Returns (JS.Str id) ->
  JS.get subscription "status" = Returns (JS.Str status) ->
  quiet w ->
  exists w' now,
    SquareWebhook.subscription_updated P webhookEvent w = (Returns tt, w') /\
    D1.tbl_subscriptions (DB w') =
      D1.update_where (SquareWebhook.has_square_id (SQLite.TEXT id))
        (fun s => subscriptions.set_updated_at now
                    (subscriptions.set_status (SQLite.TEXT status) s))
        (D1.tbl_subscriptions (DB w)) /\
    D1.tbl_users (DB w') =
      match String.eqb status "CANCELED" || String.eqb status "PAUSED",
            local_subscriptions id (DB w) with
      | true, owner :: _ =>
          D1.update_where (D1.is_user (subscriptions.user_id owner))
            (users.set_subscription_active SQLite.FALSE) (D1.tbl_users (DB w))
      | _, _ => D1.tbl_users (DB w)
      end.
Proof.
  intros Hobj Hid Hst Hq.
  unfold SquareWebhook.subscription_updated.
  rewrite Hobj, bind_lift, Hst, bind_lift, Hid, bind_lift.
  cbn [template JS.ToString JS.and_then]. rewrite bind_lift, bind_console_log.
  rewrite bind_lift.
  rewrite (bind_param P _ (SQLite.TEXT status)) by reflexivity.
  rewrite (bind_param P _ (SQLite.TEXT id)) by reflexivity.
  rewrite bind_clock.
  erewrite bind_run_quiet; [| exact Hq | apply update_status_text].
  cbn [JS.strict_eq_str].
  match goal with |- context [with_DB ?d (with_console ?c w)] =>
    set (w2 := with_DB d (with_console c w)) end.
  assert (Hq2 : quiet w2) by exact Hq.
  destruct (String.eqb status "CANCELED" || String.eqb status "PAUSED").
  - rewrite bind_lift.
    rewrite (bind_param P _ (SQLite.TEXT id)) by reflexivity.
    rewrite bind_first_quiet by exact Hq2.
    unfold SquareWebhook.select_owner.
    replace (filter _ (D1.tbl_subscriptions (DB w2)))
      with (map (fun s => subscriptions.set_updated_at (SQLite.TEXT (now_sql w))
                            (subscriptions.set_status (SQLite.TEXT status) s))
                (local_subscriptions id (DB w)))
      by (symmetry; apply (filter_update_where _ _ (D1.tbl_subscriptions (DB w)));
          intros; reflexivity).
    destruct (local_subscriptions id (DB w)) as [| owner rest].
    + eexists _, (SQLite.TEXT (now_sql w)).
      cbn. split; [reflexivity |]. destruct w; split; reflexivity.
    + eexists _, (SQLite.TEXT (now_sql w)).
      cbn [map hd JS.truthy JS.get JS.own String.eqb Ascii.eqb Bool.eqb].
      rewrite bind_lift.
      rewrite (bind_param P _ _ _ _ (bind_value_to_js P _)).
      rewrite run_quiet by exact Hq2. cbn.
      split; [reflexivity |]. destruct w; split; reflexivity.
  - eexists _, (SQLite.TEXT (now_sql w)).
    cbn. split; [reflexivity |].
    destruct w; split; reflexivity.
Qed.

(** C9. For a subscription.updated event that carries the id and the
    status of a subscription as strings, on a quiet store the handler
    answers 200 and every local row of that gateway subscription has the
    status of the event, the rows of other subscriptions being untouched;
    when the status is CANCELED or PAUSED, the subscription-active flag
    of the owning user (the user of the first such row) is false. *)
Theorem subscription_updated_applied
    (webhookEvent subscription : JS.Value) (id status : string) (w : World) :
  SquareWebhook.event_object webhookEvent "subscription" = Returns subscription ->
  JS.get subscription "id" = Returns (JS.Str id) ->
  JS.get subscription "status" = Returns (JS.Str status) ->
  quiet w ->
  exists w',
    SquareWebhook.handleSubscriptionUpdatedWebhook P webhookEvent w
    = (Returns (SquareWebhook.processed "Subscription updated webhook processed"), w') /\
    local_statuses id (DB w') = map (fun _ => SQLite.TEXT status) (local_statuses id (DB w)) /\
    other_subscriptions id (DB w') = other_subscriptions id (DB w) /\
    (status = "CANCELED" \/ status = "PAUSED" ->
     forall owner u,
       hd_error (local_subscriptions id (DB w)) = Some owner ->
       In u (D1.tbl_users (DB w')) ->
       D1.is_user (subscriptions.user_id owner) u = true ->
       users.subscription_active u = SQLite.FALSE).
Proof.
  intros Hobj Hid Hst Hq.
  destruct (subscription_updated_quiet _ _ _ _ _ Hobj Hid Hst Hq)
    as (w' & now & Hrun & Hsubs & Husers).
  exists w'. split; [| split; [| split]].
  - unfold SquareWebhook.handleSubscriptionUpdatedWebhook, try_catch, bind.
    rewrite Hrun. reflexivity.
  - unfold local_statuses, local_subscriptions. rewrite Hsubs.
    rewrite filter_update_where by reflexivity.
    rewrite !map_map. reflexivity.
  - unfold other_subscriptions. rewrite Hsubs.
    apply filter_update_where_others. reflexivity.
  - intros Hcp owner u Hown Hin Hu.
    assert (E : String.eqb status "CANCELED" || String.eqb status "PAUSED" = true)
      by (destruct Hcp as [-> | ->]; reflexivity).
    rewrite E in Husers.
    destruct (local_subscriptions id (DB w)) as [| o rest]; [discriminate |].
    cbn in Hown. inversion Hown; subst o.
    rewrite Husers in Hin. apply in_update_where in Hin.
    destruct Hin as (u0 & _ & ->).
    destruct (D1.is_user (subscriptions.user_id owner) u0) eqn:E0.
    + reflexivity.
    + rewrite E0 in Hu. discriminate.
Qed.

End SubscriptionUpdated.

(* ================================================================== *)
(** ** Login *)
(* ================================================================== *)

Lemma truthy_nonempty s : s <> "" -> JS.truthy (JS.Str s) = true.
Proof.
  intros H. cbn. destruct (String.eqb_spec s ""); [contradiction | reflexivity].
Qed.

Section Login.
Context (P : Platform).

Lemma select_login_registered email d :
  Auth.select_login_by_email (SQLite.TEXT (JS.toLowerCase email)) d =
  map (fun u => JS.Obj [("id", JS.Num (users.id u));
                        ("email", SQLite.to_js (users.email u));
                        ("first_name", SQLite.to_js (users.first_name u));
                        ("last_name", SQLite.to_js (users.last_name u));
                        ("password_hash", SQLite.to_js (users.password_hash u));
                        ("subscription_active", SQLite.to_js (users.subscription_active u))])
      (registered email d).
Proof. reflexivity. Qed.

(** The two 401 answers of the login are one response. A login attempt
    with an unknown email and a login attempt with a known email for
    which [bcrypt.compare] resolves to false receive the same response,
    401 with the message "Invalid email or password". A comparison that
    rejects instead is not among these cases. *)
Lemma login_failures_indistinguishable
    (request1 request2 : Request) (email1 email2 : string)
    (password1 password2 : JS.Value) (w1 w2 : World) :
  login_request request1 email1 password1 -> quiet w1 -> unknown_email email1 w1 ->
  login_request request2 email2 password2 -> quiet w2 ->
  wrong_password P email2 password2 w2 ->
  fst (Auth.handleUserLogin P request1 w1) = Returns Auth.InvalidCredentials /\
  fst (Auth.handleUserLogin P request2 w2) = fst (Auth.handleUserLogin P request1 w1).
Proof.
  intros (data1 & Hb1 & He1 & Hn1 & Hp1 & Ht1) Hq1 Hu1
         (data2 & Hb2 & He2 & Hn2 & Hp2 & Ht2) Hq2 (user & rest & Hr2 & Hc2).
  assert (R1 : fst (Auth.handleUserLogin P request1 w1) = Returns Auth.InvalidCredentials).
  { unfold Auth.handleUserLogin, try_catch.
    unfold request_json. rewrite Hb1. cbv iota. rewrite bind_ret, He1, bind_lift, Hp1, bind_lift.
    rewrite truthy_nonempty, Ht1 by assumption. cbn [negb orb].
    cbn [JS.call_toLowerCase JS.get JS.and_then String.eqb]. 
    rewrite bind_lift.
    rewrite (bind_param P _ (SQLite.TEXT (JS.toLowerCase email1))) by reflexivity.
    rewrite bind_first_quiet by exact Hq1.
    rewrite select_login_registered, Hu1. reflexivity. }
  split; [exact R1 |]. rewrite R1.
  unfold Auth.handleUserLogin, try_catch.
  unfold request_json. rewrite Hb2. cbv iota. rewrite bind_ret, He2, bind_lift, Hp2, bind_lift.
  rewrite truthy_nonempty, Ht2 by assumption. cbn [negb orb].
  cbn [JS.call_toLowerCase JS.get JS.and_then String.eqb]. 
  rewrite bind_lift.
  rewrite (bind_param P _ (SQLite.TEXT (JS.toLowerCase email2))) by reflexivity.
  rewrite bind_first_quiet by exact Hq2.
  rewrite select_login_registered, Hr2.
  cbn [map hd JS.truthy negb JS.get JS.own String.eqb Ascii.eqb Bool.eqb].
  rewrite bind_lift, Hc2. reflexivity.
Qed.

End Login.

(* ================================================================== *)
(** ** Registration *)
(* ================================================================== *)

Lemma users_persist_refl w : users_persist w w.
Proof. apply incl_refl. Qed.

Lemma users_persist_trans a b c :
  users_persist a b -> users_persist b c -> users_persist a c.
Proof. apply incl_tran. Qed.

Lemma insert_user_appends e fn ln ph created d r d' :
  D1.insert_user e fn ln ph created d = Returns (r, d') ->
  D1.tbl_users d' = (D1.tbl_users d ++ [r])%list /\
  users.email r = SQLite.text_affinity e /\
  D1.tbl_subscriptions d' = D1.tbl_subscriptions d /\
  D1.tbl_payments d' = D1.tbl_payments d.
Proof.
  unfold D1.insert_user.
  destruct (_ || _); [discriminate |].
  destruct (existsb _ _); [discriminate |].
  intros H. inversion H; subst. cbn. auto.
Qed.

Lemma arrive_users now ev d d' :
  arrive now ev d = Returns d' -> incl (D1.tbl_users d) (D1.tbl_users d').
Proof.
  destruct ev as [| m | e fn ln ph]; unfold arrive; intros H.
  - inversion H; subst. apply incl_refl.
  - discriminate.
  - destruct (D1.insert_user _ _ _ _ _ d) as [[r d1] | err] eqn:E;
      inversion H; subst; [| apply incl_refl].
    apply insert_user_appends in E. destruct E as (-> & _).
    apply incl_appl, incl_refl.
Qed.

Lemma statement_returns {A} (body : D1.Database -> JS.Outcome (A * D1.Database)) w a w' :
  statement body w = (Returns a, w') ->
  exists d, incl (D1.tbl_users (DB w)) (D1.tbl_users d) /\
            body d = Returns (a, DB w').
Proof.
  unfold statement.
  destruct (arrive _ _ _) as [d | e] eqn:Ea; [| discriminate].
  destruct (body d) as [[a1 d1] | e] eqn:Eb; [| discriminate].
  intros H. inversion H; subst. exists d. split.
  - eapply arrive_users, Ea.
  - destruct w; exact Eb.
Qed.

Lemma keeps_statement_users {A} (body : D1.Database -> JS.Outcome (A * D1.Database)) :
  (forall d a d', body d = Returns (a, d') -> incl (D1.tbl_users d) (D1.tbl_users d')) ->
  keeps users_persist (statement body).
Proof.
  intros Hb w. unfold statement, users_persist.
  destruct (arrive _ _ _) as [d | e] eqn:Ea; cbn.
  - apply arrive_users in Ea.
    destruct (body d) as [[a d'] | e] eqn:Eb; destruct w; cbn in *.
    + eapply incl_tran; [exact Ea | eapply Hb, Eb].
    + exact Ea.
  - destruct w; apply incl_refl.
Qed.

Lemma bind_returns {A B} (m : Async A) (k : A -> Async B) w b w' :
  bind m k w = (Returns b, w') ->
  exists a w1, m w = (Returns a, w1) /\ k a w1 = (Returns b, w').
Proof.
  unfold bind. destruct (m w) as [[a | e] w1]; [eauto | discriminate].
Qed.

Lemma lift_returns {A} (o : JS.Outcome A) w a w' :
  lift o w = (Returns a, w') -> o = Returns a /\ w' = w.
Proof. unfold lift. intros H. inversion H. auto. Qed.

(** An early [return]: the response is the one handed to [ret]. *)
Ltac returned H :=
  unfold ret in H; inversion H; subst; cbn in *.

Section Registration.
Context (P : Platform).

Lemma keeps_create_session userId stamp :
  keeps users_persist (Auth.create_session P userId stamp).
Proof.
  unfold Auth.create_session.
  repeat (intros;
    match goal with
    | |- keeps _ (bind _ _) => apply (keeps_bind _ users_persist_trans)
    | |- keeps _ (param _ _) => apply (keeps_lift _ users_persist_refl)
    | |- keeps _ (ret _) => apply (keeps_ret _ users_persist_refl)
    | |- keeps _ draw => intros ?; destruct w; apply incl_refl
    | |- keeps _ clock => intros ?; apply incl_refl
    end).
  apply keeps_statement_users. intros d0 u0 d1 H.
  unfold D1.insert_session in H.
  repeat match type of H with
         | context [if ?b then _ else _] => destruct b; cbn in H; try discriminate
         end;
    inversion H; subst; cbn; apply incl_refl.
Qed.

Lemma registration_created request email firstName lastName password w resp w' :
  registration_request request email firstName lastName password ->
  Auth.handleUserRegistration P request w = (Returns resp, w') ->
  status resp = 201 ->
  returned_user_email resp = Returns (JS.Str (JS.toLowerCase email)) /\
  exists r, In r (D1.tbl_users (DB w')) /\
            users.email r = SQLite.TEXT (JS.toLowerCase email).
Proof.
  intros (userData & Hb & He & Hf & Hl & Hp) H S.
  unfold Auth.handleUserRegistration, try_catch in H.
  unfold request_json in H. rewrite Hb in H. cbv iota in H. rewrite bind_ret in H.
  match type of H with
  | (let (_, _) := ?m in _) = _ => destruct m as [[r0 | e0] w0] eqn:Hbody
  end; [| cbn in H; inversion H; subst; discriminate].
  inversion H; subst r0 w0; clear H.
  apply bind_returns in Hbody. destruct Hbody as (missing & w1 & Hm & H).
  apply lift_returns in Hm. destruct Hm as [Hm ->].
  destruct (negb _); [returned H; discriminate |].
  rewrite He, bind_lift in H. cbn [JS.ToString] in H. rewrite bind_lift in H.
  destruct (negb _); [returned H; discriminate |].
  rewrite Hp, bind_lift in H.
  cbn [JS.get String.eqb Ascii.eqb Bool.eqb] in H. rewrite bind_lift in H.
  cbn [Auth.less_than] in H. rewrite bind_lift in H.
  destruct (_ <? 8); [returned H; discriminate |].
  cbn [JS.call_toLowerCase JS.get JS.and_then] in H. rewrite bind_lift in H.
  rewrite (bind_param P _ (SQLite.TEXT (JS.toLowerCase email))) in H by reflexivity.
  apply bind_returns in H. destruct H as (existingUser & w2 & _ & H).
  destruct (JS.truthy existingUser); [returned H; discriminate |].
  rewrite bind_draw in H.
  apply bind_returns in H. destruct H as (passwordHash & w3 & Hh & H).
  apply lift_returns in Hh. destruct Hh as [_ ->].
  rewrite bind_lift, Hf, bind_lift, Hl, bind_lift in H.
  rewrite (bind_param P _ (SQLite.TEXT (JS.toLowerCase email))) in H by reflexivity.
  rewrite (bind_param P _ (SQLite.TEXT firstName)) in H by reflexivity.
  rewrite (bind_param P _ (SQLite.TEXT lastName)) in H by reflexivity.
  rewrite (bind_param P _ (SQLite.TEXT passwordHash)) in H by reflexivity.
  rewrite bind_clock in H.
  apply bind_returns in H. destruct H as (userResult & w4 & Hins & H).
  apply statement_returns in Hins. destruct Hins as (d & _ & Hins).
  unfold Auth.insert_user_returning in Hins.
  destruct (D1.insert_user _ _ _ _ _ d) as [[r d'] | e] eqn:Einsert;
    [| discriminate].
  cbn [JS.and_then] in Hins. inversion Hins as [[Hres Hdb]]. clear Hins.
  apply insert_user_appends in Einsert. destruct Einsert as (Htbl & Hmail & _).
  cbn [SQLite.text_affinity] in Hmail.
  subst userResult. cbn [JS.truthy negb] in H.
  cbn [JS.get JS.own String.eqb Ascii.eqb Bool.eqb] in H.
  rewrite !bind_lift in H.
  apply bind_returns in H. destruct H as (token & w5 & Htok & H).
  assert (w5 = w4) as -> by (cbv in Htok; inversion Htok; reflexivity).
  apply bind_returns in H. destruct H as (sessionToken & w6 & Hsess & H).
  pose proof (keeps_create_session (JS.Num (users.id r)) false w4) as K.
  rewrite Hsess in K. clear Hsess.
  rewrite !bind_lift in H. returned H.
  split.
  - unfold returned_user_email. cbn. rewrite Hmail. reflexivity.
  - exists r. split; [| exact Hmail].
    apply K. rewrite Htbl.
    apply in_or_app. right. left. reflexivity.
Qed.

Lemma filter_inhabited {R} (c : R -> bool) (t : list R) (r : R) :
  In r t -> c r = true -> exists x rest, filter c t = x :: rest.
Proof.
  intros I C. assert (F : In r (filter c t)) by (apply filter_In; auto).
  destruct (filter c t); [contradiction | eauto].
Qed.

Lemma valid_registration_nonempty email firstName lastName password :
  valid_registration email firstName lastName password ->
  email <> "" /\ password <> "".
Proof.
  intros (_ & _ & Hre & Hlen). split; intros ->; [discriminate | cbn in Hlen; lia].
Qed.

Lemma no_missing_fields userData email firstName lastName password :
  JS.get userData "email" = Returns (JS.Str email) ->
  JS.get userData "firstName" = Returns (JS.Str firstName) ->
  JS.get userData "lastName" = Returns (JS.Str lastName) ->
  JS.get userData "password" = Returns (JS.Str password) ->
  valid_registration email firstName lastName password ->
  missing_fields userData Auth.requiredFields = Returns [].
Proof.
  intros He Hf Hl Hp V.
  destruct (valid_registration_nonempty _ _ _ _ V) as [Ne Np].
  destruct V as (Nf & Nl & _).
  unfold Auth.requiredFields, missing_fields.
  rewrite He, Hf, Hl, Hp. cbn [JS.and_then].
  rewrite !truthy_nonempty by assumption. reflexivity.
Qed.

(** A registration whose normalised email is already stored is refused
    by the pre-check. *)
Lemma registration_duplicate request email firstName lastName password w r :
  registration_request request email firstName lastName password ->
  valid_registration email firstName lastName password ->
  quiet w ->
  In r (D1.tbl_users (DB w)) ->
  users.email r = SQLite.TEXT (JS.toLowerCase email) ->
  fst (Auth.handleUserRegistration P request w) = Returns Auth.DuplicateEmail.
Proof.
  intros (userData & Hb & He & Hf & Hl & Hp) V Hq Hin Hmail.
  pose proof (no_missing_fields _ _ _ _ _ He Hf Hl Hp V) as Hm.
  destruct V as (_ & _ & Hre & Hlen).
  unfold Auth.handleUserRegistration, try_catch.
  unfold request_json. rewrite Hb. cbv iota. rewrite bind_ret.
  rewrite Hm, bind_lift. cbn [List.length Nat.eqb negb].
  rewrite He, bind_lift. cbn [JS.ToString]. rewrite bind_lift, Hre. cbn [negb].
  rewrite Hp, bind_lift.
  cbn [JS.get String.eqb Ascii.eqb Bool.eqb]. rewrite bind_lift.
  cbn [Auth.less_than]. rewrite bind_lift.
  destruct (Z.ltb_spec (Z.of_nat (String.length password)) 8); [lia |].
  cbn [JS.call_toLowerCase JS.get JS.and_then]. rewrite bind_lift.
  rewrite (bind_param P _ (SQLite.TEXT (JS.toLowerCase email))) by reflexivity.
  rewrite bind_first_quiet by exact Hq.
  unfold Auth.select_id_by_email. cbn [SQLite.text_affinity].
  destruct (filter_inhabited
              (fun u => SQLite.eqb (users.email u) (SQLite.TEXT (JS.toLowerCase email)))
              _ r Hin) as (x & rest & ->).
  { rewrite Hmail. cbn. apply String.eqb_refl. }
  reflexivity.
Qed.

(** C8. For every registration answered 201, the email of the returned
    user is the input email lower-cased; and a later registration (valid
    on its own) whose email lower-cases to the same string is answered
    409 DuplicateEmail, in every world that has lost no user row. *)
Theorem registration_normalises_email
    (request : Request) (email firstName lastName password : string)
    (w w' : World) (resp : Response) :
  registration_request request email firstName lastName password ->
  Auth.handleUserRegistration P request w = (Returns resp, w') ->
  status resp = 201 ->
  returned_user_email resp = Returns (JS.Str (JS.toLowerCase email)) /\
  forall request2 email2 firstName2 lastName2 password2 w2,
    registration_request request2 email2 firstName2 lastName2 password2 ->
    valid_registration email2 firstName2 lastName2 password2 ->
    JS.toLowerCase email2 = JS.toLowerCase email ->
    users_persist w' w2 -> quiet w2 ->
    fst (Auth.handleUserRegistration P request2 w2) = Returns Auth.DuplicateEmail.
Proof.
  intros Hreq H S.
  destruct (registration_created _ _ _ _ _ _ _ _ Hreq H S) as (Hmail & r & Hin & Hr).
  split; [exact Hmail |].
  intros request2 email2 firstName2 lastName2 password2 w2 Hreq2 V2 Hsame Hkeep Hq.
  eapply registration_duplicate; eauto.
  rewrite Hsame. exact Hr.
Qed.

(** *** The race between the pre-check and the insert *)

Lemma statement_proceed {A} (body : D1.Database -> JS.Outcome (A * D1.Database)) w rest :
  store_script w = D1.Proceed :: rest ->
  statement body w =
    match body (DB w) with
    | JS.Returns (a, d') => (Returns a, with_DB d' (with_store_script rest w))
    | JS.Throws e => (Throws e, with_store_script rest w)
    end.
Proof.
  unfold statement. destruct w as [d ss sq calls en ns ni sec con]; cbn.
  intros ->. cbn. destruct (body d) as [[a d'] | e]; reflexivity.
Qed.

Lemma filter_nil_existsb {R} (c : R -> bool) (t : list R) :
  filter c t = [] -> existsb c t = false.
Proof.
  induction t as [| r t IH]; cbn; [reflexivity |].
  destruct (c r); [discriminate | exact IH].
Qed.

(** C3, as the code has it. When a concurrent registration of the same
    lower-cased email commits after the pre-check of a valid registration
    has passed, the store rejects the insert on the unique constraint and
    the handler answers with its generic 500 "Internal server error",
    not with DuplicateEmail; the only row added is the rival's. *)
Theorem registration_race_internal_error
    (request : Request) (email firstName lastName password : string) (w : World)
    (rival_first rival_last rival_hash hash : string) (rest : list D1.Event) :
  registration_request request email firstName lastName password ->
  valid_registration email firstName lastName password ->
  unknown_email email w ->
  store_script w =
    D1.Proceed
    :: D1.RivalRegistration (JS.toLowerCase email) rival_first rival_last rival_hash
    :: rest ->
  bcrypt_hash P (JS.Str password) 12 (hd "" (entropy w)) = Returns hash ->
  exists w' rival,
    Auth.handleUserRegistration P request w = (Returns Auth.InternalServerError, w') /\
    D1.tbl_users (DB w') = (D1.tbl_users (DB w) ++ [rival])%list /\
    users.email rival = SQLite.TEXT (JS.toLowerCase email) /\
    users.first_name rival = SQLite.TEXT rival_first.
Proof.
  intros (userData & Hb & He & Hf & Hl & Hp) V Hu Hs Hh.
  pose proof (no_missing_fields _ _ _ _ _ He Hf Hl Hp V) as Hm.
  destruct V as (_ & _ & Hre & Hlen).
  unfold Auth.handleUserRegistration, try_catch.
  unfold request_json. rewrite Hb. cbv iota. rewrite bind_ret.
  rewrite Hm, bind_lift. cbn [List.length Nat.eqb negb].
  rewrite He, bind_lift. cbn [JS.ToString]. rewrite bind_lift, Hre. cbn [negb].
  rewrite Hp, bind_lift.
  cbn [JS.get String.eqb Ascii.eqb Bool.eqb]. rewrite bind_lift.
  cbn [Auth.less_than]. rewrite bind_lift.
  destruct (Z.ltb_spec (Z.of_nat (String.length password)) 8); [lia |].
  cbn [JS.call_toLowerCase JS.get JS.and_then]. rewrite bind_lift.
  rewrite (bind_param P _ (SQLite.TEXT (JS.toLowerCase email))) by reflexivity.
  unfold bind at 1. unfold first. rewrite (statement_proceed _ _ _ Hs).
  unfold Auth.select_id_by_email at 1. cbn [SQLite.text_affinity].
  fold (registered email (DB w)). rewrite Hu. cbn [map hd JS.truthy].
  rewrite bind_draw.
  change (entropy (with_DB _ (with_store_script _ w))) with (entropy w).
  rewrite Hh, bind_lift, bind_lift, Hf, bind_lift, Hl, bind_lift.
  rewrite (bind_param P _ (SQLite.TEXT (JS.toLowerCase email))) by reflexivity.
  rewrite (bind_param P _ (SQLite.TEXT firstName)) by reflexivity.
  rewrite (bind_param P _ (SQLite.TEXT lastName)) by reflexivity.
  rewrite (bind_param P _ (SQLite.TEXT hash)) by reflexivity.
  rewrite bind_clock. unfold bind at 1. unfold statement.
  destruct w as [d ss sq calls en ns ni sec con]. cbn in Hs, Hu, Hh |- *. subst ss.
  cbn [hd tl arrive].
  unfold unknown_email, registered in Hu. cbn [DB] in Hu.
  rewrite (filter_nil_existsb _ _ Hu). cbv iota.
  unfold Auth.insert_user_returning, D1.insert_user.
  cbn [SQLite.text_affinity SQLite.is_null orb D1.tbl_users D1.set_users].
  rewrite existsb_app. cbn [existsb SQLite.eqb users.email].
  rewrite String.eqb_refl, Bool.orb_true_r. cbn.
  do 2 eexists. split; [reflexivity |]. cbn. auto.
Qed.

End Registration.

(* ================================================================== *)
(** ** Create subscription *)
(* ================================================================== *)

(** Peels the leading pure steps off a run [H : m w = (outcome, w')],
    splitting on each step that may throw and on each branch. *)
Ltac peel H :=
  repeat
    match type of H with
    | bind (lift ?o) _ _ = _ =>
        let E := fresh "E" in
        destruct o eqn:E;
        [rewrite bind_lift in H | rewrite bind_lift_throws in H; try discriminate H]
    | bind (param _ _) _ _ = _ => unfold param at 1 in H
    | bind (ret _) _ _ = _ => rewrite bind_ret in H
    | bind clock _ _ = _ => rewrite bind_clock in H
    | bind draw _ _ = _ => rewrite bind_draw in H
    | bind (console_log _) _ _ = _ => rewrite bind_console_log in H
    | bind (throw _) _ _ = _ => discriminate H
    | (if ?b then _ else _) _ = _ =>
        let E := fresh "E" in destruct b eqn:E
    | throw _ _ = (JS.Returns _, _) => discriminate H
    end.

Lemma truthy_readable v : JS.truthy v = true -> readable v.
Proof. intros T k. destruct v; try discriminate; cbn; eauto. Qed.

Lemma get_readable v k x : JS.get v k = Returns x -> readable v.
Proof. intros G k'. destruct v; try discriminate; cbn; eauto. Qed.

Lemma getSquareLocation_effect w :
  let w1 := snd (SquareApi.getSquareLocation w) in
  DB w1 = DB w /\ store_script w1 = store_script w /\
  square_calls w1 = (square_calls w ++ [Square.ListLocations])%list.
Proof.
  unfold SquareApi.getSquareLocation, try_catch, bind, SquareApi.sdk, lift.
  destruct (hd _ (square_script w)) as [result | e]; cbn.
  - destruct (JS.get result "locations") as [locations | e]; cbn; auto.
    destruct (SquareApi.locations_find_active locations); cbn; auto.
  - auto.
Qed.

Section CreateSubscriptionProofs.
Context (P : Platform).

(** What a request that passes validation has done and holds. *)
Lemma validate_passed request w requestData planInfo locationId w1 :
  CreateSubscription.validate request w
  = (Returns (inr (requestData, planInfo, locationId)), w1) ->
  DB w1 = DB w /\ store_script w1 = store_script w /\
  square_calls w1 = (square_calls w ++ [Square.ListLocations])%list /\
  readable requestData /\ readable planInfo.
Proof.
  unfold CreateSubscription.validate, request_json. intros H.
  destruct (req_body request) as [data |]; [| discriminate H].
  peel H; try solve [inversion H].
  apply bind_returns in H. destruct H as (locationResult & w0 & Hloc & H).
  pose proof (getSquareLocation_effect w) as Hw. rewrite Hloc in Hw. cbn in Hw.
  peel H; try solve [inversion H].
  unfold ret in H. inversion H; subst.
  destruct Hw as (? & ? & ?). repeat split; try assumption.
  - eapply get_readable; eassumption.
  - apply truthy_readable. apply Bool.negb_false_iff. assumption.
Qed.


Lemma create_at_gateway_holds requestData planInfo locationId userId w c w' :
  CreateSubscription.create_at_gateway P requestData planInfo locationId userId w
  = (Returns c, w') ->
  CreateSubscription.requestData c = requestData /\
  CreateSubscription.planInfo c = planInfo.
Proof.
  unfold CreateSubscription.create_at_gateway. intros H.
  peel H.
  apply bind_returns in H. destruct H as (customerResult & w0 & _ & H).
  peel H.
  apply bind_returns in H. destruct H as (u & w2 & _ & H).
  peel H.
  apply bind_returns in H. destruct H as (subscriptionResult & w3 & _ & H).
  peel H.
  unfold ret in H. inversion H; subst. split; reflexivity.
Qed.

(** Steps 1 to 5 hand on a request object and a plan that can be read. *)
Lemma upto_gateway_readable request w c w1 :
  CreateSubscription.upto_gateway P request w = (Returns (inr c), w1) ->
  readable (CreateSubscription.requestData c) /\
  readable (CreateSubscription.planInfo c).
Proof.
  unfold CreateSubscription.upto_gateway. intros H.
  apply bind_returns in H. destruct H as (v & w0 & Hval & H).
  destruct v as [early | [[requestData planInfo] locationId]];
    [unfold ret in H; inversion H |].
  apply validate_passed in Hval. destruct Hval as (_ & _ & _ & Hrd & Hpi).
  apply bind_returns in H. destruct H as ([userId [early |]] & w2 & _ & H);
    [unfold ret in H; inversion H |].
  apply bind_returns in H. destruct H as (userId' & w3 & _ & H).
  apply bind_returns in H. destruct H as (c' & w4 & Hc & H).
  unfold ret in H. inversion H; subst.
  apply create_at_gateway_holds in Hc. destruct Hc as [-> ->]. auto.
Qed.

Lemma arrive_subscriptions now ev d d' :
  arrive now ev d = Returns d' -> D1.tbl_subscriptions d' = D1.tbl_subscriptions d.
Proof.
  destruct ev as [| m | e fn ln ph]; unfold arrive; intros H.
  - inversion H; reflexivity.
  - discriminate.
  - destruct (D1.insert_user _ _ _ _ _ d) as [[r d1] | err] eqn:E;
      inversion H; subst; [| reflexivity].
    apply insert_user_appends in E. tauto.
Qed.

(** A step 6 that throws has stored nothing. *)
Lemma store_subscription_throws c w e w' :
  CreateSubscription.store_subscription P c w = (Throws e, w') ->
  D1.tbl_subscriptions (DB w') = D1.tbl_subscriptions (DB w).
Proof.
  unfold CreateSubscription.store_subscription. intros H.
  peel H; try solve [inversion H; reflexivity].
  unfold run, statement in H. cbn [JS.and_then] in H.
  destruct (arrive _ _ _) as [d | err] eqn:Ea.
  - apply arrive_subscriptions in Ea.
    destruct (D1.insert_subscription _ _ _ _ _ _ _ _ _ d) as [d1 | err];
      cbn in H; inversion H; subst. destruct w; exact Ea.
  - inversion H; subst. destruct w; reflexivity.
Qed.

(** C1, as the code has it. When the gateway has created the
    subscription (steps 1 to 5 return it) and storing the local row
    (step 6) throws, the operation reports success all the same: 201 with
    [success: true] and the gateway subscription id in the body; the error
    is swallowed and no subscription row is stored. *)
Theorem unstored_subscription_reported_created
    (request : Request) (w w1 w2 : World) (c : CreateSubscription.Created)
    (e : JS.Error) (id : JS.Value) :
  CreateSubscription.upto_gateway P request w = (Returns (inr c), w1) ->
  JS.get (CreateSubscription.subscription c) "id" = Returns id ->
  CreateSubscription.store_subscription P c w1 = (Throws e, w2) ->
  exists resp w',
    CreateSubscription.onRequestPost P request w = (Returns resp, w') /\
    status resp = 201 /\
    JS.get (payload resp) "success" = Returns (JS.Bool true) /\
    returned_subscription_id resp = Returns id /\
    D1.tbl_subscriptions (DB w') = D1.tbl_subscriptions (DB w1).
Proof.
  intros Hupto Hid Hstore.
  destruct (upto_gateway_readable _ _ _ _ Hupto) as (Hrd & Hpi).
  pose proof (get_readable _ _ _ Hid) as Hsub.
  pose proof (store_subscription_throws _ _ _ _ Hstore) as Hsame.
  unfold CreateSubscription.onRequestPost, try_catch.
  unfold bind at 1. rewrite Hupto.
  unfold bind at 1. rewrite Hstore.
  unfold console_error, console_log.
  unfold CreateSubscription.respond_created.
  rewrite Hid, bind_lift.
  destruct (Hrd "planType") as (planType & ->). rewrite bind_lift.
  destruct (Hpi "planName") as (planName & ->). rewrite bind_lift.
  destruct (Hpi "frequency") as (frequency & ->). rewrite bind_lift.
  destruct (Hpi "price") as (price & ->). rewrite bind_lift.
  destruct (Hsub "status") as (st & ->). rewrite bind_lift.
  destruct (Hsub "startDate") as (startDate & ->). rewrite bind_lift.
  destruct (Hrd "email") as (email & ->). rewrite bind_lift.
  do 2 eexists. split; [reflexivity |].
  repeat split. destruct w2; exact Hsame.
Qed.

End CreateSubscriptionProofs.

(* ================================================================== *)
(** ** Foreign keys under updates *)
(* ================================================================== *)

Lemma user_exists_integer d uid :
  D1.user_exists d uid = true -> exists z, uid = SQLite.INTEGER z.
Proof.
  unfold D1.user_exists, D1.is_user. intros H.
  apply existsb_exists in H. destruct H as (u & _ & E).
  destruct uid; try discriminate. eauto.
Qed.

Lemma user_exists_update_where d uid c f :
  (forall u, users.id (f u) = users.id u) ->
  existsb (D1.is_user uid) (D1.update_where c f (D1.tbl_users d))
  = D1.user_exists d uid.
Proof.
  intros Hid. unfold D1.user_exists, D1.update_where.
  induction (D1.tbl_users d) as [| u t IH]; cbn; [reflexivity |].
  rewrite IH. f_equal. unfold D1.is_user. destruct (c u); [rewrite Hid |]; reflexivity.
Qed.


(* ================================================================== *)
(** ** The theorems at concrete inputs *)
(* ================================================================== *)

(** The email pattern, the string conversion and the plan catalogue on
    a few inputs. *)
Example emailRegex_examples :
  map (RegExp.test_anchored Auth.emailRegex)
      ["a@x.com"; "A.b-c@d.e.f"; "a@x..c"; "a@x"; "a b@x.com"; "a@@x.com"; "@x.com";
       "a@.com"; ""]
  = [true; true; true; false; false; false; false; false; false].
Proof. reflexivity. Qed.

Example ToString_examples :
  map JS.ToString
      [JS.Arr [JS.Str "a"; JS.Null; JS.Num 5; JS.Arr [JS.Bool true]; JS.Obj []];
       JS.Num (-12); JS.Undefined; JS.Obj [("toString", JS.Num 1)]]
  = [Returns "a,,5,true,[object Object]"; Returns "-12"; Returns "undefined";
     Throws (JS.TypeError "Cannot convert object to primitive value")].
Proof. reflexivity. Qed.

Example plan_lookup_examples :
  map (fun k => JS.truthy (CreateSubscription.plan_lookup k))
      ["pro-monthly"; "business-annual"; "gold"; "constructor"]
  = [true; true; false; true] /\
  JS.get (CreateSubscription.plan_lookup "pro-monthly") "price" = Returns (JS.Num 299).
Proof. split; reflexivity. Qed.

(** The scenario of the specification, request after request (the
    gateway answers afresh each time). *)
Example specification_scenario :
  let P := Scenario.lenient in
  let fresh := with_square Scenario.gateway [] in
  let r1 := Auth.handleUserRegistration P (Scenario.register "a@x.com")
              (Scenario.world Scenario.empty []) in
  let r2 := Auth.handleUserLogin P (Scenario.login "a@x.com" "password1") (snd r1) in
  let r3 := Auth.handleUserLogin P (Scenario.login "a@x.com" "wrong") (snd r2) in
  let r4 := CreateSubscription.onRequestPost P (Scenario.subscribe "a@x.com")
              (fresh (snd r3)) in
  let r5 := CreateSubscription.onRequestPost P (Scenario.subscribe "a@x.com")
              (fresh (snd r4)) in
  let r6 := SquareWebhook.onRequestPost P
              (Scenario.notify (Scenario.subscription_updated_event "S1" "CANCELED"))
              (snd r5) in
  map status_of [fst r1; fst r2; fst r3; fst r4; fst r5; fst r6]
  = [Some 201; Some 200; Some 401; Some 201; Some 409; Some 200] /\
  local_statuses "S1" (DB (snd r4)) = [SQLite.TEXT "ACTIVE"] /\
  local_statuses "S1" (DB (snd r6)) = [SQLite.TEXT "CANCELED"] /\
  map users.subscription_active (D1.tbl_users (DB (snd r6))) = [SQLite.FALSE].
Proof. vm_compute. repeat split; reflexivity. Qed.

(** The databases of the scenario are what the handlers produce. *)
Example scenario_registered :
  DB (snd (Auth.handleUserRegistration Scenario.lenient (Scenario.register "a@x.com")
             (Scenario.world Scenario.empty [])))
  = Scenario.registered_db.
Proof. vm_compute. reflexivity. Qed.

Example scenario_subscribed :
  DB (snd (CreateSubscription.onRequestPost Scenario.lenient (Scenario.subscribe "a@x.com")
             (Scenario.world Scenario.registered_db [])))
  = Scenario.subscribed_db.
Proof. vm_compute. reflexivity. Qed.

Lemma subscription_updated_applied_witness :
  exists w',
    SquareWebhook.handleSubscriptionUpdatedWebhook Scenario.lenient
      (Scenario.subscription_updated_event "S1" "CANCELED")
      (Scenario.world Scenario.subscribed_db [])
    = (Returns (SquareWebhook.processed "Subscription updated webhook processed"), w') /\
    local_statuses "S1" (DB w') = [SQLite.TEXT "CANCELED"] /\
    other_subscriptions "S1" (DB w') = [] /\
    ("CANCELED" = "CANCELED" \/ "CANCELED" = "PAUSED" ->
     forall owner u,
       hd_error (local_subscriptions "S1" Scenario.subscribed_db) = Some owner ->
       In u (D1.tbl_users (DB w')) ->
       D1.is_user (subscriptions.user_id owner) u = true ->
       users.subscription_active u = SQLite.FALSE).
Proof.
  exact (subscription_updated_applied Scenario.lenient
           (Scenario.subscription_updated_event "S1" "CANCELED")
           (JS.Obj [("id", JS.Str "S1"); ("status", JS.Str "CANCELED")])
           "S1" "CANCELED" (Scenario.world Scenario.subscribed_db [])
           eq_refl eq_refl eq_refl eq_refl).
Defined.


Lemma login_failures_indistinguishable_witness :
  fst (Auth.handleUserLogin Scenario.lenient (Scenario.login "nobody@x.com" "password1")
         (Scenario.world Scenario.registered_db []))
  = Returns Auth.InvalidCredentials /\
  fst (Auth.handleUserLogin Scenario.lenient (Scenario.login "a@x.com" "wrong")
         (Scenario.world Scenario.registered_db []))
  = fst (Auth.handleUserLogin Scenario.lenient (Scenario.login "nobody@x.com" "password1")
           (Scenario.world Scenario.registered_db [])).
Proof.
  apply (login_failures_indistinguishable Scenario.lenient
           (Scenario.login "nobody@x.com" "password1") (Scenario.login "a@x.com" "wrong")
           "nobody@x.com" "a@x.com" (JS.Str "password1") (JS.Str "wrong")).
  - eexists. repeat split; try reflexivity. discriminate.
  - reflexivity.
  - reflexivity.
  - eexists. repeat split; try reflexivity. discriminate.
  - reflexivity.
  - do 2 eexists. split; reflexivity.
Defined.

Lemma registration_normalises_email_witness :
  JS.and_then
    (fst (Auth.handleUserRegistration Scenario.lenient (Scenario.register "A@x.COM")
            (Scenario.world Scenario.empty [])))
    returned_user_email
  = Returns (JS.Str "a@x.com") /\
  fst (Auth.handleUserRegistration Scenario.lenient (Scenario.register "A@X.com")
         (Scenario.world Scenario.registered_db []))
  = Returns Auth.DuplicateEmail.
Proof.
  destruct (Auth.handleUserRegistration Scenario.lenient (Scenario.register "A@x.COM")
              (Scenario.world Scenario.empty [])) as [[resp | e] w'] eqn:Hrun;
    [| vm_compute in Hrun; discriminate Hrun].
  assert (Hw : status resp = 201 /\ DB w' = Scenario.registered_db)
    by (vm_compute in Hrun; inversion Hrun; split; reflexivity).
  destruct Hw as [S Hdb].
  destruct (registration_normalises_email Scenario.lenient
              (Scenario.register "A@x.COM") "A@x.COM" "A" "B" "password1"
              (Scenario.world Scenario.empty []) w' resp
              ltac:(eexists; repeat split; reflexivity) Hrun S)
    as [Hmail Hdup].
  split; [exact Hmail |].
  apply (Hdup (Scenario.register "A@X.com") "A@X.com" "A" "B" "password1").
  - eexists. repeat split; reflexivity.
  - repeat split; discriminate.
  - reflexivity.
  - unfold users_persist. rewrite Hdb. apply incl_refl.
  - reflexivity.
Defined.

Lemma registration_race_internal_error_witness :
  exists w' rival,
    Auth.handleUserRegistration Scenario.lenient (Scenario.register "A@x.com")
      (Scenario.world Scenario.empty Scenario.race)
    = (Returns Auth.InternalServerError, w') /\
    D1.tbl_users (DB w') = [rival] /\
    users.email rival = SQLite.TEXT "a@x.com" /\
    users.first_name rival = SQLite.TEXT "R".
Proof.
  apply (registration_race_internal_error Scenario.lenient
           (Scenario.register "A@x.com") "A@x.com" "A" "B" "password1"
           (Scenario.world Scenario.empty Scenario.race)
           "R" "S" "$2a$12$other" "$2a$12$salt$password1" []).
  - eexists. repeat split; reflexivity.
  - repeat split; discriminate.
  - reflexivity.
  - reflexivity.
  - reflexivity.
Defined.



Lemma unstored_subscription_reported_created_witness :
  exists resp w',
    CreateSubscription.onRequestPost Scenario.lenient (Scenario.subscribe "a@x.com")
      (Scenario.world Scenario.empty Scenario.storage_lost)
    = (Returns resp, w') /\
    status resp = 201 /\
    JS.get (payload resp) "success" = Returns (JS.Bool true) /\
    returned_subscription_id resp = Returns (JS.Str "S1") /\
    D1.tbl_subscriptions (DB w') = [].
Proof.
  destruct (CreateSubscription.upto_gateway Scenario.lenient (Scenario.subscribe "a@x.com")
              (Scenario.world Scenario.empty Scenario.storage_lost))
    as [[[early | c] | e] w1] eqn:Hupto;
    try (vm_compute in Hupto; discriminate Hupto).
  assert (Hc : CreateSubscription.subscription c
               = JS.Obj [("id", JS.Str "S1"); ("status", JS.Str "ACTIVE");
                         ("startDate", JS.Str "2024-01-01")]
               /\ D1.tbl_subscriptions (DB w1) = []
               /\ store_script w1 = [D1.Unavailable "D1_ERROR: storage unavailable"])
    by (vm_compute in Hupto; inversion Hupto; repeat split; reflexivity).
  destruct Hc as (Hsub & Hnone & Hscript).
  destruct (CreateSubscription.store_subscription Scenario.lenient c w1)
    as [[[] | e] w2] eqn:Hstore.
  - exfalso. unfold CreateSubscription.store_subscription in Hstore.
    peel Hstore.
    unfold run, statement in Hstore. rewrite Hscript in Hstore. discriminate Hstore.
  - destruct (unstored_subscription_reported_created Scenario.lenient
                (Scenario.subscribe "a@x.com")
                (Scenario.world Scenario.empty Scenario.storage_lost)
                w1 w2 c e (JS.Str "S1") Hupto)
      as (resp & w' & H).
    + rewrite Hsub. reflexivity.
    + exact Hstore.
    + exists resp, w'. rewrite Hnone in H. exact H.
Defined.


(* ---------------------------------------------------------------- *)
(** *** Where the code differs from its specification *)
(* ---------------------------------------------------------------- *)

(** C1 fails: the gateway has created subscription S1 (third SDK call),
    the INSERT INTO subscriptions then fails, and the answer is 201
    success, not an error; no row is stored, the failure is only logged. *)
Lemma storage_failure_reported_as_success :
  let run := CreateSubscription.onRequestPost Scenario.lenient
               (Scenario.subscribe "a@x.com")
               (Scenario.world Scenario.empty Scenario.storage_lost) in
  status_of (fst run) = Some 201 /\
  JS.and_then (fst run) (fun resp => JS.get (payload resp) "success")
  = Returns (JS.Bool true) /\
  List.length (square_calls (snd run)) = 3%nat /\
  D1.tbl_subscriptions (DB (snd run)) = [] /\
  console (snd run)
  = ["Error storing subscription in database: D1_ERROR: storage unavailable"].
Proof. vm_compute. repeat split; reflexivity. Qed.


(** C3 fails: a rival registration of a@x.com commits after the
    pre-check; the insert is rejected on the unique constraint and the
    answer is the generic 500, not the 409 of DuplicateEmail. *)
Lemma unique_violation_is_internal_error :
  let run := Auth.handleUserRegistration Scenario.lenient (Scenario.register "A@x.com")
               (Scenario.world Scenario.empty Scenario.race) in
  fst run = Returns Auth.InternalServerError /\
  status_of (fst run) = Some 500 /\
  map users.email (D1.tbl_users (DB (snd run))) = [SQLite.TEXT "a@x.com"] /\
  console (snd run)
  = ["Error during user registration: D1_ERROR: UNIQUE constraint failed"].
Proof. vm_compute. repeat split; reflexivity. Qed.

(** C4 fails: the signature is present and the body is well-formed
    JSON, the store is unavailable when the event is processed, and the
    answer is 500, not 200. *)
Lemma webhook_failure_answers_500 :
  let request := Scenario.notify (Scenario.subscription_updated_event "S1" "CANCELED") in
  SquareWebhook.signature_present request = true /\
  req_body request <> None /\
  status_of (fst (SquareWebhook.onRequestPost Scenario.lenient request
                    (Scenario.world Scenario.subscribed_db
                       [D1.Unavailable "D1_ERROR: storage unavailable"])))
  = Some 500.
Proof. vm_compute. repeat split; try reflexivity. discriminate. Qed.

(** C7. The code does not normalise the email in create-subscription:
    a@x.com is registered, a subscription is requested for A@x.com, and
    the lookup (bound to the email as given) finds nobody: a second user
    row is inserted under A@x.com, the existing row is left without the
    subscription, and the response names the new user. *)
Theorem subscription_email_not_normalised :
  let run := CreateSubscription.onRequestPost Scenario.lenient
               (Scenario.subscribe "A@x.com")
               (Scenario.world Scenario.registered_db []) in
  status_of (fst run) = Some 201 /\
  map (fun u => (users.id u, users.email u)) (D1.tbl_users (DB (snd run)))
  = [(1, SQLite.TEXT "a@x.com"); (2, SQLite.TEXT "A@x.com")] /\
  map subscriptions.user_id (D1.tbl_subscriptions (DB (snd run)))
  = [SQLite.INTEGER 2].
Proof. vm_compute. repeat split; reflexivity. Qed.

(* ================================================================== *)
(** ** The email pattern *)
(* ================================================================== *)

Lemma append_nil_r (s : string) : s ++ "" = s.
Proof. induction s as [| c s IH]; cbn; [reflexivity | rewrite IH; reflexivity]. Qed.

Lemma append_assoc (a b c : string) : (a ++ b) ++ c = a ++ (b ++ c).
Proof. induction a as [| x a IH]; cbn; [reflexivity | rewrite IH; reflexivity]. Qed.

Lemma append_eq_nil (a b : string) : a ++ b = "" -> a = "" /\ b = "".
Proof. destruct a; cbn; [auto | discriminate]. Qed.

Lemma nullable_matches r : RegExp.nullable r = true <-> matches r "".
Proof.
  induction r as [| | p | r1 IH1 r2 IH2 | r1 IH1 r2 IH2 | r IH]; cbn.
  - split; [discriminate | intros H; inversion H].
  - split; [constructor | reflexivity].
  - split; [discriminate | intros H; inversion H].
  - rewrite Bool.andb_true_iff, IH1, IH2. split.
    + intros [H1 H2]. exact (matches_seq _ _ "" "" H1 H2).
    + intros H. inversion H as [| | ? ? s1 s2 H1 H2 | | | |]; subst.
      match goal with E : _ ++ _ = "" |- _ =>
        apply append_eq_nil in E; destruct E as [-> ->] end.
      auto.
  - rewrite Bool.orb_true_iff, IH1, IH2. split.
    + intros [H | H]; [apply matches_alt_l | apply matches_alt_r]; exact H.
    + intros H. inversion H; subst; auto.
  - split; [constructor | reflexivity].
Qed.

(** A match of [Star r] against a non-empty string starts with a
    non-empty match of [r]. *)
Lemma matches_star_head r c s :
  matches (RegExp.Star r) (String c s) ->
  exists s1 s2, s = s1 ++ s2 /\ matches r (String c s1) /\ matches (RegExp.Star r) s2.
Proof.
  intros H. remember (RegExp.Star r) as r' eqn:Er. remember (String c s) as t eqn:Et.
  revert c s Et.
  induction H as [| | | | | | r0 s1 s2 H1 _ H2 IH2];
    try solve [intros; congruence]; intros c s Et.
  inversion Er; subst r0.
  destruct s1 as [| c1 s1]; cbn in Et.
  - apply IH2; [reflexivity | exact Et].
  - inversion Et; subst. exists s1, s2. auto.
Qed.

Lemma deriv_matches r : forall c s,
  matches (RegExp.deriv c r) s <-> matches r (String c s).
Proof.
  induction r as [| | p | r1 IH1 r2 IH2 | r1 IH1 r2 IH2 | r IH]; intros c s; cbn.
  - split; intros H; inversion H.
  - split; intros H; inversion H.
  - destruct (p c) eqn:E; split; intros H; inversion H; subst.
    + constructor. exact E.
    + constructor.
    + congruence.
  - assert (Hseq : matches (RegExp.Seq (RegExp.deriv c r1) r2) s ->
                   matches (RegExp.Seq r1 r2) (String c s)).
    { intros H. inversion H as [| | ? ? s1 s2 H1 H2 | | | |]; subst.
      apply IH1 in H1. exact (matches_seq _ _ (String c s1) s2 H1 H2). }
    assert (Hback : matches (RegExp.Seq r1 r2) (String c s) ->
                    matches (RegExp.Seq (RegExp.deriv c r1) r2) s
                    \/ (matches r1 "" /\ matches (RegExp.deriv c r2) s)).
    { intros H. inversion H as [| | ? ? s1 s2 H1 H2 | | | |]; subst.
      match goal with E : _ ++ _ = String c s |- _ => rename E into E0 end.
      destruct s1 as [| c1 s1]; cbn in E0.
      - right. subst s2. split; [exact H1 | apply IH2; exact H2].
      - inversion E0; subst. left. constructor; [apply IH1; exact H1 | exact H2]. }
    destruct (RegExp.nullable r1) eqn:N.
    + split.
      * intros H. inversion H; subst; [auto |].
        apply nullable_matches in N.
        match goal with H : matches (RegExp.deriv c r2) s |- _ => apply IH2 in H;
          exact (matches_seq _ _ "" _ N H) end.
      * intros H. destruct (Hback H) as [H' | [_ H']];
          [apply matches_alt_l | apply matches_alt_r]; exact H'.
    + split; [exact Hseq |].
      intros H. destruct (Hback H) as [H' | [H' _]]; [exact H' |].
      apply nullable_matches in H'. congruence.
  - split; intros H; inversion H; subst.
    + apply matches_alt_l, IH1. assumption.
    + apply matches_alt_r, IH2. assumption.
    + apply matches_alt_l, IH1. assumption.
    + apply matches_alt_r, IH2. assumption.
  - split.
    + intros H. inversion H as [| | ? ? s1 s2 H1 H2 | | | |]; subst.
      apply IH in H1. exact (matches_star_cons _ (String c s1) s2 H1 H2).
    + intros H. apply matches_star_head in H.
      destruct H as (s1 & s2 & -> & H1 & H2).
      constructor; [apply IH; exact H1 | exact H2].
Qed.

(** The matcher decides the declarative relation. *)
Lemma test_anchored_matches s : forall r,
  RegExp.test_anchored r s = true <-> matches r s.
Proof.
  induction s as [| c s IH]; intros r; cbn.
  - apply nullable_matches.
  - rewrite IH. apply deriv_matches.
Qed.

Lemma matches_star_class p s :
  matches (RegExp.Star (RegExp.Class p)) s <-> all_chars p s = true.
Proof.
  split.
  - intros H. remember (RegExp.Star (RegExp.Class p)) as r eqn:Er.
    induction H as [| | | | | | r0 s1 s2 H1 _ H2 IH2]; try congruence.
    + reflexivity.
    + inversion Er; subst r0. inversion H1; subst. cbn.
      rewrite IH2 by reflexivity. rewrite Bool.andb_true_r. assumption.
  - induction s as [| c s IH]; cbn; intros H.
    + constructor.
    + apply Bool.andb_true_iff in H. destruct H as [Hc Hs].
      apply (matches_star_cons _ (String c "") s); [constructor; exact Hc | auto].
Qed.

Lemma matches_plain s :
  matches (RegExp.Plus (RegExp.Class Auth.not_space_or_at)) s <-> plain s = true.
Proof.
  unfold RegExp.Plus, plain. split.
  - intros H. inversion H as [| | ? ? s1 s2 H1 H2 | | | |]; subst.
    inversion H1; subst. apply matches_star_class in H2. cbn.
    rewrite H2, Bool.andb_true_r. assumption.
  - destruct s as [| c s]; cbn; [discriminate |].
    intros H. apply Bool.andb_true_iff in H. destruct H as [Hc Hs].
    apply (matches_seq _ _ (String c "") s); [constructor; exact Hc |].
    apply matches_star_class. exact Hs.
Qed.

Lemma matches_char c s : matches (RegExp.Char c) s <-> s = String c "".
Proof.
  unfold RegExp.Char. split.
  - intros H. inversion H; subst.
    match goal with H : Ascii.eqb _ _ = true |- _ => apply Ascii.eqb_eq in H; subst end.
    reflexivity.
  - intros ->. constructor. apply Ascii.eqb_refl.
Qed.

(** X1. The email pattern of handleUserRegistration accepts exactly the
    strings [local@domain.tld] in which each of the three parts is
    non-empty and free of white space and of "@". *)
Theorem emailRegex_accepts (s : string) :
  RegExp.test_anchored Auth.emailRegex s = true <->
  exists local domain tld,
    s = local ++ "@" ++ domain ++ "." ++ tld /\
    plain local = true /\ plain domain = true /\ plain tld = true.
Proof.
  rewrite test_anchored_matches. unfold Auth.emailRegex. split.
  - intros H.
    inversion H as [| | ? ? l s1 Hl H1 | | | |]; subst; clear H.
    inversion H1 as [| | ? ? a s2 Ha H2 | | | |]; subst; clear H1.
    inversion H2 as [| | ? ? d s3 Hd H3 | | | |]; subst; clear H2.
    inversion H3 as [| | ? ? o t Ho Ht | | | |]; subst; clear H3.
    apply matches_char in Ha, Ho. subst a o.
    apply matches_plain in Hl, Hd, Ht.
    exists l, d, t. auto.
  - intros (l & d & t & -> & Hl & Hd & Ht).
    apply matches_plain in Hl, Hd, Ht.
    constructor; [exact Hl |].
    apply (matches_seq _ _ "@" (d ++ "." ++ t)); [apply matches_char; reflexivity |].
    constructor; [exact Hd |].
    apply (matches_seq _ _ "." t); [apply matches_char; reflexivity | exact Ht].
Qed.

(* ================================================================== *)
(** ** Verifying a token *)
(* ================================================================== *)

(** A SELECT that returns: the row object read, from the database the
    statement saw, which is the database it leaves. *)
Lemma first_returns rows w a w' :
  first rows w = (Returns a, w') ->
  a = hd JS.Null (rows (DB w')) /\
  (quiet w -> w' = w).
Proof.
  unfold first. intros H. split.
  - apply statement_returns in H. destruct H as (d & _ & H).
    inversion H. reflexivity.
  - intros Hq. rewrite statement_quiet in H by exact Hq.
    inversion H. apply with_DB_same.
Qed.

Lemma first_quiet_world rows w : quiet w -> snd (first rows w) = w.
Proof. intros Hq. rewrite first_quiet by exact Hq. reflexivity. Qed.

(** *** Computations that only read *)

Lemma reads_only_refl w : reads_only w w.
Proof. intros Hq. auto. Qed.

Lemma reads_only_trans a b c : reads_only a b -> reads_only b c -> reads_only a c.
Proof.
  intros H1 H2 Hq. destruct (H1 Hq) as [Hq1 E1]. destruct (H2 Hq1) as [Hq2 E2].
  split; [exact Hq2 | congruence].
Qed.

Lemma reads_only_same w w' :
  store_script w' = store_script w -> DB w' = DB w -> reads_only w w'.
Proof. intros Hs Hd Hq. split; [unfold quiet in *; congruence | exact Hd]. Qed.

Lemma keeps_reads_first rows : keeps reads_only (first rows).
Proof.
  intros w Hq. rewrite first_quiet by exact Hq. cbn. auto.
Qed.

Lemma keeps_reads_console_log s : keeps reads_only (console_log s).
Proof. intros w. apply reads_only_same; reflexivity. Qed.

Lemma keeps_reads_sdk call : keeps reads_only (SquareApi.sdk call).
Proof.
  intros w. unfold SquareApi.sdk.
  destruct (hd _ (square_script w)); apply reads_only_same; reflexivity.
Qed.

(** Walks a computation made of binds, branches and steps that do not
    write. *)
Ltac reads_walk :=
  repeat (intros;
    match goal with
    | |- keeps _ (bind _ _) => apply (keeps_bind _ reads_only_trans)
    | |- keeps _ (try_catch _ _) => apply (keeps_try_catch _ reads_only_trans)
    | |- keeps _ (lift _) => apply (keeps_lift _ reads_only_refl)
    | |- keeps _ (param _ _) => apply (keeps_lift _ reads_only_refl)
    | |- keeps _ (ret _) => apply (keeps_ret _ reads_only_refl)
    | |- keeps _ (throw _) => apply (keeps_throw _ reads_only_refl)
    | |- keeps _ (console_log _) => apply keeps_reads_console_log
    | |- keeps _ (console_error _ _) => apply keeps_reads_console_log
    | |- keeps _ (first _) => apply keeps_reads_first
    | |- keeps _ (SquareApi.sdk _) => apply keeps_reads_sdk
    | |- keeps _ clock => intros ?; apply reads_only_refl
    | |- keeps _ SquareApi.today => intros ?; apply reads_only_refl
    | |- keeps _ draw => intros ?; apply reads_only_same; reflexivity
    | |- keeps _ (if ?b then _ else _) => destruct b
    | |- keeps _ (match ?x with _ => _ end) => destruct x
    end).

Section TokenProofs.
Context (P : Platform) (V : Verification).

Lemma decode_run token w :
  AuthTokens.decode V token w = (fst (AuthTokens.decode V token w), w).
Proof. reflexivity. Qed.

Lemma keeps_reads_decode token : keeps reads_only (AuthTokens.decode V token).
Proof. intros w. apply reads_only_refl. Qed.

(** X2. verifyUserToken answers 200 only to a request that bears a
    token which jwt.verify accepts and whose userId selects a stored
    user, and the body then carries that user's stored profile; on a
    quiet store it leaves the database as it was, whatever it answers. *)
Theorem verifyUserToken_sound (request : Request) (w : World) :
  (quiet w -> DB (snd (AuthTokens.verifyUserToken P V request w)) = DB w) /\
  (forall resp w',
     AuthTokens.verifyUserToken P V request w = (Returns resp, w') ->
     status resp = 200 ->
     exists uid u,
       bears P V request w uid /\
       In u (D1.tbl_users (DB w')) /\
       AuthTokens.id_is V uid u = true /\
       JS.get (payload resp) "user" = Returns (profile u)).
Proof.
  split.
  - intros Hq.
    assert (K : keeps reads_only (AuthTokens.verifyUserToken P V request)).
    { unfold AuthTokens.verifyUserToken. reads_walk; apply keeps_reads_decode. }
    apply (K w Hq).
  - intros resp w' H S.
    unfold AuthTokens.verifyUserToken in H. unfold try_catch at 1 in H.
    destruct (AuthTokens.bearer request) as [token |] eqn:Hb;
      [| returned H; discriminate].
    match type of H with
    | (let (_, _) := ?m in _) = _ => destruct m as [[r0 | e0] w0] eqn:Hbody
    end; [| cbn in H; inversion H; subst; discriminate].
    inversion H; subst r0 w0; clear H.
    apply bind_returns in Hbody. destruct Hbody as (attempt & w1 & Hat & H).
    unfold try_catch, bind in Hat. rewrite decode_run in Hat.
    destruct (fst (AuthTokens.decode V token w)) as [decoded | e] eqn:Hdec;
      unfold ret in Hat; inversion Hat; subst attempt w1; clear Hat;
      [| returned H; discriminate].
    peel H; try solve [returned H; discriminate].
    apply bind_returns in H. destruct H as (user & w4 & Hsel & H).
    apply first_returns in Hsel. destruct Hsel as [Huser _].
    destruct (negb (JS.truthy user)) eqn:Ht; [returned H; discriminate |].
    unfold AuthTokens.select_profile_by_id in Huser.
    destruct (filter _ (D1.tbl_users (DB w4))) as [| u rest] eqn:Hf;
      [subst user; discriminate |].
    subst user. cbn [map hd] in H.
    cbn [JS.get JS.own String.eqb Ascii.eqb Bool.eqb] in H.
    rewrite !bind_lift in H. returned H.
    match goal with
    | Hf : filter (AuthTokens.id_is V ?uid) _ = _ |- _ =>
        assert (Hin : In u (filter (AuthTokens.id_is V uid) (D1.tbl_users (DB w'))))
          by (rewrite Hf; left; reflexivity);
        apply filter_In in Hin; destruct Hin as [Hin Hid];
        exists uid, u
    end.
    split; [| auto].
    exists token, decoded. eexists. repeat split; eassumption.
Qed.

(** X3. authenticateRequest and verifyUserToken agree: both always
    answer, the middleware reports success exactly when the endpoint
    answers 200, and then both describe the same stored user; neither
    leaves the database different from the other. *)
Theorem authenticateRequest_agrees (request : Request) (w : World) :
  exists answer w1 resp w2,
    AuthTokens.authenticateRequest P V request w = (Returns answer, w1) /\
    AuthTokens.verifyUserToken P V request w = (Returns resp, w2) /\
    DB w1 = DB w2 /\
    ((status resp = 200 /\
      exists u, answer = JS.Obj [("success", JS.Bool true); ("user", identity u)] /\
                JS.get (payload resp) "user" = Returns (profile u))
     \/
     (status resp <> 200 /\ exists message, answer = AuthTokens.denied message)).
Proof.
  assert (no : forall (message : string) (r : Response) (w1 w2 : World),
             status r <> 200 -> DB w1 = DB w2 ->
             exists answer w1' resp w2',
               (Returns (AuthTokens.denied message), w1) = (Returns answer, w1') /\
               (Returns r, w2) = (Returns resp, w2') /\
               DB w1' = DB w2' /\
               ((status resp = 200 /\
                 exists u, answer = JS.Obj [("success", JS.Bool true); ("user", identity u)] /\
                           JS.get (payload resp) "user" = Returns (profile u))
                \/
                (status resp <> 200 /\ exists m, answer = AuthTokens.denied m))).
  { intros message r w1 w2 S E. exists (AuthTokens.denied message), w1, r, w2.
    repeat split; try assumption. right. split; [exact S | eauto]. }
  unfold AuthTokens.authenticateRequest, AuthTokens.verifyUserToken.
  destruct (AuthTokens.bearer request) as [token |];
    [| apply no; [discriminate | reflexivity]].
  unfold try_catch, bind.
  set (o := fst (AuthTokens.decode V token w)).
  change (AuthTokens.decode V token w) with (o, w).
  destruct o as [decoded | e]; [| apply no; [discriminate | reflexivity]].
  cbn [ret]. unfold param, lift.
  destruct (JS.get decoded "userId") as [userId | e];
    [| apply no; [discriminate | reflexivity]].
  destruct (bind_value P userId) as [uid | e];
    [| apply no; [discriminate | reflexivity]].
  unfold first, statement.
  destruct (arrive _ _ _) as [d | e]; [| apply no; [discriminate | reflexivity]].
  cbn [JS.and_then].
  unfold AuthTokens.select_identity_by_id, AuthTokens.select_profile_by_id.
  destruct (filter (AuthTokens.id_is V uid) (D1.tbl_users d)) as [| u rest];
    [apply no; [discriminate | reflexivity] |].
  cbn. do 4 eexists. split; [reflexivity |]. split; [reflexivity |].
  split; [reflexivity |]. left. split; [reflexivity |].
  exists u. split; reflexivity.
Qed.

End TokenProofs.

(* ================================================================== *)
(** ** Registration and login on a quiet store *)
(* ================================================================== *)

Lemma bind_of_run {A B} (m : Async A) (k : A -> Async B) w a w' :
  m w = (Returns a, w') -> bind m k w = k a w'.
Proof. intros E. unfold bind. rewrite E. reflexivity. Qed.

Lemma bind_of_throw {A B} (m : Async A) (k : A -> Async B) w e w' :
  m w = (Throws e, w') -> bind m k w = (Throws e, w').
Proof. intros E. unfold bind. rewrite E. reflexivity. Qed.

Lemma user_exists_in d u :
  In u (D1.tbl_users d) -> D1.user_exists d (SQLite.INTEGER (users.id u)) = true.
Proof.
  intros H. unfold D1.user_exists. apply existsb_exists. exists u.
  split; [exact H |]. cbn. apply Z.eqb_refl.
Qed.

Lemma bind_statement_quiet {A B} (body : D1.Database -> JS.Outcome (A * D1.Database))
    (k : A -> Async B) w a d' :
  quiet w -> body (DB w) = Returns (a, d') ->
  bind (statement body) k w = k a (with_DB d' w).
Proof.
  intros Hq E. apply bind_of_run. rewrite statement_quiet, E by exact Hq. reflexivity.
Qed.

Lemma sign_token_run P id email w :
  Auth.sign_token P (JS.Num id) email w = (Returns (signed_token P id email w), w).
Proof. reflexivity. Qed.

Section AuthRuns.
Context (P : Platform).

(** The session record, on a quiet store, for an existing user and an
    unused token. *)
Lemma create_session_quiet id stamp w token more :
  quiet w ->
  entropy w = token :: more ->
  token_in_use token (DB w) = false ->
  D1.user_exists (DB w) (SQLite.INTEGER id) = true ->
  Auth.create_session P (JS.Num id) stamp w =
  (Returns token,
   with_DB (D1.set_user_sessions
              (D1.tbl_user_sessions (DB w) ++
               [session_row P (next_session_id (DB w)) id token (now_sql w)
                  (if stamp then SQLite.TEXT (now_sql w) else SQLite.NULL)])
              (next_session_id (DB w)) (DB w))
           (with_entropy more w)).
Proof.
  intros Hq He Hu Hfk. unfold Auth.create_session.
  rewrite bind_draw, He. cbn [hd tl].
  rewrite (bind_param P _ (SQLite.INTEGER id)) by reflexivity.
  rewrite (bind_param P _ (SQLite.TEXT token)) by reflexivity.
  rewrite bind_clock.
  erewrite bind_run_quiet; [reflexivity | exact Hq |].
  unfold D1.insert_session. cbn [SQLite.text_affinity SQLite.is_null orb].
  unfold token_in_use in Hu. cbn [DB with_entropy]. rewrite Hu.
  rewrite Hfk. cbn [negb]. unfold session_row, next_session_id.
  destruct stamp; reflexivity.
Qed.

(** A valid registration of an unknown email, on a quiet store. *)
Lemma registration_quiet request email firstName lastName password w
    salt token more hash :
  registration_request request email firstName lastName password ->
  valid_registration email firstName lastName password ->
  quiet w -> unknown_email email w ->
  entropy w = salt :: token :: more ->
  bcrypt_hash P (JS.Str password) 12 salt = Returns hash ->
  token_in_use token (DB w) = false ->
  let id := next_user_id (DB w) in
  let user := registered_row id (JS.toLowerCase email) firstName lastName hash (now_sql w) in
  let d1 := D1.set_users (D1.tbl_users (DB w) ++ [user]) id (DB w) in
  let d2 := D1.set_user_sessions
              (D1.tbl_user_sessions (DB w) ++
               [session_row P (next_session_id (DB w)) id token (now_sql w) SQLite.NULL])
              (next_session_id (DB w)) d1 in
  Auth.handleUserRegistration P request w =
  (Returns {| status := 201;
              headers := Auth.json_cors;
              payload :=
                JS.Obj [("success", JS.Bool true);
                        ("message", JS.Str "User registered successfully");
                        ("user",
                         JS.Obj [("id", JS.Num id);
                                 ("email", JS.Str (JS.toLowerCase email));
                                 ("firstName", JS.Str firstName);
                                 ("lastName", JS.Str lastName);
                                 ("subscriptionActive", JS.Bool false)]);
                        ("token",
                         JS.Str (signed_token P id (JS.Str (JS.toLowerCase email)) w));
                        ("sessionToken", JS.Str token)] |},
   with_DB d2 (with_entropy more w)).
Proof.
  intros (userData & Hb & He & Hf & Hl & Hp) V Hq Hu Hen Hh Htok.
  pose proof (no_missing_fields _ _ _ _ _ He Hf Hl Hp V) as Hm.
  destruct V as (_ & _ & Hre & Hlen).
  unfold Auth.handleUserRegistration, try_catch.
  unfold request_json. rewrite Hb. cbv iota. rewrite bind_ret.
  rewrite Hm, bind_lift. cbn [List.length Nat.eqb negb].
  rewrite He, bind_lift. cbn [JS.ToString]. rewrite bind_lift, Hre. cbn [negb].
  rewrite Hp, bind_lift.
  cbn [JS.get String.eqb Ascii.eqb Bool.eqb]. rewrite bind_lift.
  cbn [Auth.less_than]. rewrite bind_lift.
  destruct (Z.ltb_spec (Z.of_nat (String.length password)) 8); [lia |].
  cbn [JS.call_toLowerCase JS.get JS.and_then]. rewrite bind_lift.
  rewrite (bind_param P _ (SQLite.TEXT (JS.toLowerCase email))) by reflexivity.
  rewrite bind_first_quiet by exact Hq.
  unfold Auth.select_id_by_email at 1. cbn [SQLite.text_affinity].
  fold (registered email (DB w)). rewrite Hu. cbn [map hd JS.truthy].
  rewrite bind_draw, Hen. cbn [hd tl].
  rewrite Hh, bind_lift, bind_lift, Hf, bind_lift, Hl, bind_lift.
  rewrite (bind_param P _ (SQLite.TEXT (JS.toLowerCase email))) by reflexivity.
  rewrite (bind_param P _ (SQLite.TEXT firstName)) by reflexivity.
  rewrite (bind_param P _ (SQLite.TEXT lastName)) by reflexivity.
  rewrite (bind_param P _ (SQLite.TEXT hash)) by reflexivity.
  rewrite bind_clock.
  set (w0 := with_entropy (token :: more) w).
  assert (Hq0 : quiet w0) by exact Hq.
  erewrite bind_statement_quiet; [| exact Hq0 |].
  2:{ unfold Auth.insert_user_returning, D1.insert_user.
      cbn [SQLite.text_affinity SQLite.is_null orb].
      unfold unknown_email, registered in Hu.
      change (DB w0) with (DB w).
      rewrite (filter_nil_existsb _ _ Hu). cbn [JS.and_then]. reflexivity. }
  cbn [JS.truthy negb JS.get JS.own String.eqb Ascii.eqb Bool.eqb users.id users.email
       users.first_name users.last_name SQLite.to_js].
  rewrite !bind_lift.
  erewrite bind_of_run; [| apply sign_token_run].
  erewrite bind_of_run.
  2:{ apply create_session_quiet with (more := more).
      - exact Hq.
      - reflexivity.
      - exact Htok.
      - unfold D1.user_exists. cbn. rewrite existsb_app. cbn.
        rewrite Z.eqb_refl. apply Bool.orb_true_r. }
  rewrite !bind_lift. unfold ret.
  destruct w; reflexivity.
Qed.

(** A login with the right password, on a quiet store. *)
Lemma login_quiet request email password w user rest token more :
  login_request request email password ->
  quiet w ->
  registered email (DB w) = user :: rest ->
  bcrypt_compare P password (SQLite.to_js (users.password_hash user)) = Returns true ->
  entropy w = token :: more ->
  token_in_use token (DB w) = false ->
  let id := users.id user in
  let d1 := D1.set_users
              (D1.update_where (D1.is_user (SQLite.INTEGER id))
                 (users.set_last_login_at (SQLite.TEXT (now_sql w)))
                 (D1.tbl_users (DB w)))
              (D1.seq_users (DB w)) (DB w) in
  let d2 := D1.set_user_sessions
              (D1.tbl_user_sessions (DB w) ++
               [session_row P (next_session_id (DB w)) id token (now_sql w)
                  (SQLite.TEXT (now_sql w))])
              (next_session_id (DB w)) d1 in
  Auth.handleUserLogin P request w =
  (Returns {| status := 200;
              headers := Auth.json_cors;
              payload :=
                JS.Obj [("success", JS.Bool true);
                        ("message", JS.Str "Login successful");
                        ("user",
                         JS.Obj [("id", JS.Num id);
                                 ("email", SQLite.to_js (users.email user));
                                 ("firstName", SQLite.to_js (users.first_name user));
                                 ("lastName", SQLite.to_js (users.last_name user));
                                 ("subscriptionActive",
                                  SQLite.to_js (users.subscription_active user));
                                 ("subscription", active_summary id (DB w))]);
                        ("token",
                         JS.Str (signed_token P id (SQLite.to_js (users.email user)) w));
                        ("sessionToken", JS.Str token)] |},
   with_DB d2 (with_entropy more w)).
Proof.
  intros (data & Hb & He & Hn & Hp & Ht) Hq Hr Hc Hen Htok.
  assert (Hin : In user (D1.tbl_users (DB w))).
  { assert (I : In user (registered email (DB w))) by (rewrite Hr; left; reflexivity).
    apply filter_In in I. tauto. }
  unfold Auth.handleUserLogin, try_catch.
  unfold request_json. rewrite Hb. cbv iota. rewrite bind_ret, He, bind_lift, Hp, bind_lift.
  rewrite truthy_nonempty, Ht by assumption. cbn [negb orb].
  cbn [JS.call_toLowerCase JS.get JS.and_then String.eqb].
  rewrite bind_lift.
  rewrite (bind_param P _ (SQLite.TEXT (JS.toLowerCase email))) by reflexivity.
  rewrite bind_first_quiet by exact Hq.
  rewrite select_login_registered, Hr.
  cbn [map hd JS.truthy negb JS.get JS.own String.eqb Ascii.eqb Bool.eqb].
  rewrite bind_lift, Hc, bind_lift. cbn [negb].
  rewrite bind_lift.
  rewrite (bind_param P _ (SQLite.INTEGER (users.id user))) by reflexivity.
  rewrite bind_clock.
  erewrite bind_run_quiet; [| exact Hq | reflexivity].
  rewrite bind_lift.
  erewrite bind_of_run; [| apply sign_token_run].
  erewrite bind_of_run.
  2:{ apply create_session_quiet with (more := more).
      - exact Hq.
      - exact Hen.
      - exact Htok.
      - unfold D1.user_exists. cbn [DB with_DB D1.tbl_users D1.set_users].
        rewrite user_exists_update_where by reflexivity.
        apply user_exists_in. exact Hin. }
  rewrite (bind_param P _ (SQLite.INTEGER (users.id user))) by reflexivity.
  rewrite bind_first_quiet by exact Hq.
  rewrite !bind_lift.
  unfold Auth.select_active_summary, active_summary.
  cbn [DB with_DB with_entropy D1.tbl_subscriptions D1.set_user_sessions D1.set_users].
  destruct (filter _ (D1.tbl_subscriptions (DB w))) as [| s more'];
    cbn [map hd JS.truthy JS.get JS.own String.eqb Ascii.eqb Bool.eqb];
    rewrite ?bind_lift, ?bind_ret; unfold ret; destruct w; reflexivity.
Qed.

(** X4. A valid registration of an unknown email on a quiet store is
    answered 201 and stores exactly one user row (the email lower-cased,
    the names as given, the bcrypt hash of the password, no gateway
    customer, the flags false) and one session row for that user (the
    drawn token, valid seven days, never used); subscriptions and
    payments are untouched, and the body carries the new id, the session
    token and the signed token. *)
Theorem registration_stores_user
    (request : Request) (email firstName lastName password : string) (w : World)
    (salt token : string) (more : list string) (hash : string) :
  registration_request request email firstName lastName password ->
  valid_registration email firstName lastName password ->
  quiet w -> unknown_email email w ->
  entropy w = salt :: token :: more ->
  bcrypt_hash P (JS.Str password) 12 salt = Returns hash ->
  token_in_use token (DB w) = false ->
  exists resp w',
    Auth.handleUserRegistration P request w = (Returns resp, w') /\
    status resp = 201 /\
    D1.tbl_users (DB w') =
      (D1.tbl_users (DB w) ++
       [registered_row (next_user_id (DB w)) (JS.toLowerCase email) firstName lastName
          hash (now_sql w)])%list /\
    D1.tbl_user_sessions (DB w') =
      (D1.tbl_user_sessions (DB w) ++
       [session_row P (next_session_id (DB w)) (next_user_id (DB w)) token (now_sql w)
          SQLite.NULL])%list /\
    D1.tbl_subscriptions (DB w') = D1.tbl_subscriptions (DB w) /\
    D1.tbl_payments (DB w') = D1.tbl_payments (DB w) /\
    returned_user_id resp = Returns (JS.Num (next_user_id (DB w))) /\
    JS.get (payload resp) "sessionToken" = Returns (JS.Str token) /\
    JS.get (payload resp) "token" =
      Returns (JS.Str (signed_token P (next_user_id (DB w))
                         (JS.Str (JS.toLowerCase email)) w)).
Proof.
  intros Hreq V Hq Hu Hen Hh Htok.
  pose proof (registration_quiet _ _ _ _ _ _ _ _ _ _ Hreq V Hq Hu Hen Hh Htok) as Hrun.
  cbv zeta in Hrun. rewrite Hrun.
  do 2 eexists. split; [reflexivity |].
  repeat split.
Qed.

(** X5. A login with the right password on a quiet store is answered
    200, stamps the last login of the user, stores one session row for
    that user (the drawn token, valid seven days, last used now) and
    changes nothing else; the body carries the stored profile, the
    summary of the first ACTIVE subscription (null when there is none)
    and the session token. *)
Theorem login_opens_session
    (request : Request) (email : string) (password : JS.Value) (w : World)
    (user : users.row) (rest : list users.row) (token : string) (more : list string) :
  login_request request email password ->
  quiet w ->
  registered email (DB w) = user :: rest ->
  bcrypt_compare P password (SQLite.to_js (users.password_hash user)) = Returns true ->
  entropy w = token :: more ->
  token_in_use token (DB w) = false ->
  exists resp w',
    Auth.handleUserLogin P request w = (Returns resp, w') /\
    status resp = 200 /\
    D1.tbl_users (DB w') =
      D1.update_where (D1.is_user (SQLite.INTEGER (users.id user)))
        (users.set_last_login_at (SQLite.TEXT (now_sql w))) (D1.tbl_users (DB w)) /\
    D1.tbl_user_sessions (DB w') =
      (D1.tbl_user_sessions (DB w) ++
       [session_row P (next_session_id (DB w)) (users.id user) token (now_sql w)
          (SQLite.TEXT (now_sql w))])%list /\
    D1.tbl_subscriptions (DB w') = D1.tbl_subscriptions (DB w) /\
    D1.tbl_payments (DB w') = D1.tbl_payments (DB w) /\
    JS.get (payload resp) "user" =
      Returns (JS.Obj [("id", JS.Num (users.id user));
                       ("email", SQLite.to_js (users.email user));
                       ("firstName", SQLite.to_js (users.first_name user));
                       ("lastName", SQLite.to_js (users.last_name user));
                       ("subscriptionActive",
                        SQLite.to_js (users.subscription_active user));
                       ("subscription", active_summary (users.id user) (DB w))]) /\
    JS.get (payload resp) "sessionToken" = Returns (JS.Str token).
Proof.
  intros Hreq Hq Hr Hc Hen Htok.
  pose proof (login_quiet _ _ _ _ _ _ _ _ Hreq Hq Hr Hc Hen Htok) as Hrun.
  cbv zeta in Hrun. rewrite Hrun.
  do 2 eexists. split; [reflexivity |].
  repeat split.
Qed.

(** X6. Registration followed by login: after a valid registration of
    an unknown email on a quiet store, a login with the same password and
    any spelling of the email that lower-cases to the same string is
    answered 200 for the user that was just created, provided bcrypt
    accepts the password against the hash it produced and the two
    session tokens drawn are new. *)
Theorem registered_user_can_log_in
    (request request2 : Request) (email email2 firstName lastName password : string)
    (w : World) (salt token token2 : string) (more : list string) (hash : string) :
  registration_request request email firstName lastName password ->
  valid_registration email firstName lastName password ->
  quiet w -> unknown_email email w ->
  entropy w = salt :: token :: token2 :: more ->
  bcrypt_hash P (JS.Str password) 12 salt = Returns hash ->
  bcrypt_compare P (JS.Str password) (JS.Str hash) = Returns true ->
  token_in_use token (DB w) = false ->
  token_in_use token2 (DB w) = false ->
  token <> token2 ->
  login_request request2 email2 (JS.Str password) ->
  JS.toLowerCase email2 = JS.toLowerCase email ->
  let r1 := Auth.handleUserRegistration P request w in
  let r2 := Auth.handleUserLogin P request2 (snd r1) in
  exists resp1 resp2,
    fst r1 = Returns resp1 /\ status resp1 = 201 /\
    fst r2 = Returns resp2 /\ status resp2 = 200 /\
    returned_user_id resp2 = returned_user_id resp1 /\
    returned_user_email resp2 = Returns (JS.Str (JS.toLowerCase email)).
Proof.
  intros Hreq V Hq Hu Hen Hh Hc Htok Htok2 Hne Hreq2 Hsame r1 r2.
  pose proof (registration_quiet _ _ _ _ _ _ _ _ _ _ Hreq V Hq Hu Hen Hh Htok) as Hrun.
  cbv zeta in Hrun. subst r2 r1. rewrite Hrun. cbn [fst snd].
  match goal with |- context [Auth.handleUserLogin P request2 ?x] => set (w1 := x) end.
  pose proof (login_quiet request2 email2 (JS.Str password) w1
                (registered_row (next_user_id (DB w)) (JS.toLowerCase email) firstName
                   lastName hash (now_sql w)) [] token2 more Hreq2) as Hlog.
  cbv zeta in Hlog. rewrite Hlog.
  - do 2 eexists.
    split; [reflexivity |]. split; [reflexivity |].
    split; [reflexivity |]. split; [reflexivity |].
    split; reflexivity.
  - exact Hq.
  - unfold registered. subst w1.
    cbn [DB with_DB with_entropy D1.tbl_users D1.set_user_sessions D1.set_users].
    rewrite filter_app, Hsame. fold (registered email (DB w)). rewrite Hu.
    cbn. rewrite String.eqb_refl. reflexivity.
  - exact Hc.
  - reflexivity.
  - unfold token_in_use in *. subst w1.
    cbn [DB with_DB with_entropy D1.tbl_user_sessions D1.set_user_sessions D1.set_users].
    rewrite existsb_app, Htok2. cbn.
    destruct (String.eqb_spec token token2); [contradiction | reflexivity].
Qed.

(** X7. Login is insensitive to the case of the email: two login
    requests that carry the same password and emails that lower-case to
    the same string receive the same response and leave the same world,
    in every world. *)
Theorem login_email_case_insensitive
    (request1 request2 : Request) (email1 email2 : string) (password : JS.Value)
    (w : World) :
  login_request request1 email1 password ->
  login_request request2 email2 password ->
  JS.toLowerCase email1 = JS.toLowerCase email2 ->
  Auth.handleUserLogin P request1 w = Auth.handleUserLogin P request2 w.
Proof.
  intros (data1 & Hb1 & He1 & Hn1 & Hp1 & Ht1) (data2 & Hb2 & He2 & Hn2 & Hp2 & Ht2) Hsame.
  unfold Auth.handleUserLogin, try_catch, request_json.
  rewrite Hb1, Hb2. cbv iota. rewrite !bind_ret.
  rewrite He1, He2, !bind_lift, Hp1, Hp2, !bind_lift.
  rewrite !truthy_nonempty, Ht1 by assumption. cbn [negb orb].
  cbn [JS.call_toLowerCase JS.get JS.and_then String.eqb].
  rewrite !bind_lift, Hsame. reflexivity.
Qed.

Lemma valid_registration_dec email firstName lastName password :
  valid_registration email firstName lastName password \/
  ~ valid_registration email firstName lastName password.
Proof.
  unfold valid_registration.
  destruct (string_dec firstName ""); [right; tauto |].
  destruct (string_dec lastName ""); [right; tauto |].
  destruct (RegExp.test_anchored Auth.emailRegex email);
    [| right; intros (_ & _ & ? & _); discriminate].
  destruct (Z_le_dec 8 (Z.of_nat (String.length password))); [left | right]; tauto.
Qed.

(** Input that fails the validation is answered 400 at once. *)
Lemma registration_invalid request email firstName lastName password w :
  registration_request request email firstName lastName password ->
  ~ valid_registration email firstName lastName password ->
  exists message,
    Auth.handleUserRegistration P request w = (Returns (Auth.reject 400 message), w).
Proof.
  intros (userData & Hb & He & Hf & Hl & Hp) NV.
  unfold Auth.handleUserRegistration, try_catch.
  unfold request_json. rewrite Hb. cbv iota. rewrite bind_ret.
  unfold Auth.requiredFields, missing_fields.
  rewrite He, Hf, Hl, Hp. cbn [JS.and_then].
  destruct email as [| c0 email0]; [cbn; eauto |].
  destruct firstName as [| c1 firstName0];
    [destruct lastName, password; cbn; eauto |].
  destruct lastName as [| c2 lastName0]; [destruct password; cbn; eauto |].
  destruct password as [| c3 password0]; [cbn; eauto |].
  cbn [JS.truthy String.eqb negb]. rewrite bind_lift. cbn [List.length Nat.eqb negb].
  rewrite bind_lift. cbn [JS.ToString]. rewrite bind_lift.
  destruct (RegExp.test_anchored Auth.emailRegex (String c0 email0)) eqn:Hre;
    [| cbn; eauto].
  cbn [negb]. rewrite bind_lift.
  cbn [JS.get String.eqb Ascii.eqb Bool.eqb]. rewrite bind_lift.
  cbn [Auth.less_than]. rewrite bind_lift.
  destruct (Z.ltb_spec (Z.of_nat (String.length (String c3 password0))) 8);
    [cbn; eauto |].
  exfalso. apply NV. repeat split; try discriminate; assumption.
Qed.

(** Input that passes the validation is never answered 400. *)
Lemma registration_valid request email firstName lastName password w :
  registration_request request email firstName lastName password ->
  valid_registration email firstName lastName password ->
  exists resp w',
    Auth.handleUserRegistration P request w = (Returns resp, w') /\
    (status resp = 201 \/ status resp = 409 \/ status resp = 500).
Proof.
  intros (userData & Hb & He & Hf & Hl & Hp) V.
  pose proof (no_missing_fields _ _ _ _ _ He Hf Hl Hp V) as Hm.
  destruct V as (_ & _ & Hre & Hlen).
  unfold Auth.handleUserRegistration, try_catch.
  unfold request_json. rewrite Hb. cbv iota. rewrite bind_ret.
  rewrite Hm, bind_lift. cbn [List.length Nat.eqb negb].
  rewrite He, bind_lift. cbn [JS.ToString]. rewrite bind_lift, Hre. cbn [negb].
  rewrite Hp, bind_lift.
  cbn [JS.get String.eqb Ascii.eqb Bool.eqb]. rewrite bind_lift.
  cbn [Auth.less_than]. rewrite bind_lift.
  destruct (Z.ltb_spec (Z.of_nat (String.length password)) 8) as [| _]; [lia |].
  match goal with
  | |- context [let (_, _) := ?m in _] => destruct m as [[resp | e] w'] eqn:H
  end.
  - exists resp, w'. split; [reflexivity |].
    peel H.
    apply bind_returns in H. destruct H as (existingUser & w2 & _ & H).
    destruct (JS.truthy existingUser); [returned H; auto |].
    peel H.
    apply bind_returns in H. destruct H as (userResult & w4 & _ & H).
    peel H.
    apply bind_returns in H. destruct H as (token & w5 & _ & H).
    apply bind_returns in H. destruct H as (sessionToken & w6 & _ & H).
    peel H. returned H. auto.
  - do 2 eexists. split; [reflexivity |]. auto.
Qed.

(** X8. handleUserRegistration always answers, with 201, 400, 409 or
    500; it answers 400 exactly when the input fails the validation (a
    name missing, an email the pattern rejects, a password shorter than
    eight characters), and then nothing has happened: the world is the
    one before the request. *)
Theorem registration_validation
    (request : Request) (email firstName lastName password : string) (w : World) :
  registration_request request email firstName lastName password ->
  exists resp w',
    Auth.handleUserRegistration P request w = (Returns resp, w') /\
    (status resp = 400 <-> ~ valid_registration email firstName lastName password) /\
    (status resp = 400 -> w' = w) /\
    (status resp = 201 \/ status resp = 400 \/ status resp = 409 \/ status resp = 500).
Proof.
  intros Hreq.
  destruct (valid_registration_dec email firstName lastName password) as [V | NV].
  - destruct (registration_valid _ _ _ _ _ w Hreq V) as (resp & w' & Hrun & S).
    exists resp, w'. split; [exact Hrun |].
    split; [| split].
    + split; [intros E | intros NV; contradiction].
      destruct S as [S | [S | S]]; rewrite S in E; discriminate.
    + intros E. destruct S as [S | [S | S]]; rewrite S in E; discriminate.
    + tauto.
  - destruct (registration_invalid _ _ _ _ _ w Hreq NV) as (message & Hrun).
    do 2 eexists. split; [exact Hrun |].
    split; [| split].
    + split; [intros _; exact NV | reflexivity].
    + reflexivity.
    + right. left. reflexivity.
Qed.

End AuthRuns.

(* ================================================================== *)
(** ** From login to verification *)
(* ================================================================== *)

(** The primary key: at most one row per id. *)
Lemma filter_by_id (t : list users.row) (u : users.row) :
  NoDup (map users.id t) -> In u t ->
  filter (D1.is_user (SQLite.INTEGER (users.id u))) t = [u].
Proof.
  induction t as [| x t IH]; cbn [map filter]; intros N I; [contradiction |].
  inversion N as [| ? ? Hx Nt]; subst.
  unfold D1.is_user at 1. cbn [SQLite.eqb].
  destruct I as [-> | I].
  - rewrite Z.eqb_refl. f_equal.
    clear IH N. induction t as [| y t IH]; cbn [filter]; [reflexivity |].
    unfold D1.is_user at 1. cbn [SQLite.eqb].
    destruct (Z.eqb_spec (users.id y) (users.id u)) as [E |].
    + exfalso. apply Hx. cbn. left. exact E.
    + apply IH.
      * intros I. apply Hx. right. exact I.
      * inversion Nt; assumption.
  - destruct (Z.eqb_spec (users.id x) (users.id u)) as [E |].
    + exfalso. apply Hx. rewrite E. apply in_map. exact I.
    + apply IH; assumption.
Qed.

Lemma prefix_append (p t : string) : String.prefix p (p ++ t) = true.
Proof.
  induction p as [| c p IH]; cbn; [destruct t; reflexivity |].
  destruct (ascii_dec c c); [exact IH | contradiction].
Qed.

Lemma substring_append (p t : string) :
  AuthTokens.substring (String.length p) (p ++ t) = t.
Proof. induction p as [| c p IH]; cbn; [destruct t; reflexivity | exact IH]. Qed.

(** A request whose Authorization header is "Bearer " followed by [t]
    bears the token [t]. *)
Lemma bearer_of (request : Request) (t : string) :
  headers_get (req_headers request) "Authorization" = Some ("Bearer " ++ t) ->
  AuthTokens.bearer request = Some t.
Proof.
  intros H. unfold AuthTokens.bearer. rewrite H.
  rewrite prefix_append. cbn [JS.truthy String.eqb append negb orb].
  reflexivity.
Qed.

Section LoginThenVerify.
Context (P : Platform) (V : Verification).

(** X9. The token a successful login hands out is accepted by
    verifyUserToken: presented as a Bearer token after the login, it is
    answered 200 with the profile of the user who logged in, provided
    jwt.verify accepts the token jwt.sign produced and gives back its
    userId, and user ids are unique. *)
Theorem login_token_verifies
    (request request2 : Request) (email : string) (password : JS.Value) (w : World)
    (user : users.row) (rest : list users.row) (token : string) (more : list string)
    (decoded : JS.Value) :
  login_request request email password ->
  quiet w ->
  registered email (DB w) = user :: rest ->
  bcrypt_compare P password (SQLite.to_js (users.password_hash user)) = Returns true ->
  entropy w = token :: more ->
  token_in_use token (DB w) = false ->
  NoDup (map users.id (D1.tbl_users (DB w))) ->
  let signed := signed_token P (users.id user) (SQLite.to_js (users.email user)) w in
  fst (AuthTokens.decode V signed w) = Returns decoded ->
  JS.get decoded "userId" = Returns (JS.Num (users.id user)) ->
  headers_get (req_headers request2) "Authorization" = Some ("Bearer " ++ signed) ->
  let r1 := Auth.handleUserLogin P request w in
  let r2 := AuthTokens.verifyUserToken P V request2 (snd r1) in
  exists resp1 resp2,
    fst r1 = Returns resp1 /\ status resp1 = 200 /\
    JS.get (payload resp1) "token" = Returns (JS.Str signed) /\
    fst r2 = Returns resp2 /\ status resp2 = 200 /\
    JS.get (payload resp2) "user" = Returns (profile user) /\
    DB (snd r2) = DB (snd r1).
Proof.
  intros Hreq Hq Hr Hc Hen Htok Hnd signed Hdec Hid Hhdr r1 r2.
  pose proof (login_quiet P _ _ _ _ _ _ _ _ Hreq Hq Hr Hc Hen Htok) as Hrun.
  cbv zeta in Hrun. subst r2 r1. rewrite Hrun. cbn [fst snd].
  match goal with
  | |- context [AuthTokens.verifyUserToken P V request2 ?x] => set (w1 := x)
  end.
  assert (Hq1 : quiet w1) by exact Hq.
  assert (Hin : In user (D1.tbl_users (DB w))).
  { assert (I : In user (registered email (DB w))) by (rewrite Hr; left; reflexivity).
    apply filter_In in I. tauto. }
  assert (Hver : AuthTokens.verifyUserToken P V request2 w1 =
                 (Returns {| status := 200;
                             headers := Auth.json_cors;
                             payload := JS.Obj [("success", JS.Bool true);
                                                ("user", profile user)] |}, w1)).
  { unfold AuthTokens.verifyUserToken. rewrite (bearer_of _ _ Hhdr).
    unfold try_catch. unfold bind at 1. unfold bind at 1.
    change (AuthTokens.decode V signed w1) with (fst (AuthTokens.decode V signed w), w1).
    rewrite Hdec. cbn [ret]. rewrite Hid, bind_lift.
    rewrite (bind_param P _ (SQLite.INTEGER (users.id user))) by reflexivity.
    rewrite bind_first_quiet by exact Hq1.
    unfold AuthTokens.select_profile_by_id.
    change (AuthTokens.id_is V (SQLite.INTEGER (users.id user)))
      with (D1.is_user (SQLite.INTEGER (users.id user))).
    subst w1.
    cbn [DB with_DB with_entropy D1.tbl_users D1.set_user_sessions D1.set_users].
    rewrite filter_update_where by reflexivity.
    rewrite (filter_by_id _ _ Hnd Hin).
    cbn [map hd JS.truthy negb JS.get JS.own String.eqb Ascii.eqb Bool.eqb].
    rewrite !bind_lift. reflexivity. }
  rewrite Hver. do 2 eexists.
  repeat split.
Qed.

End LoginThenVerify.

(* ================================================================== *)
(** ** Create subscription: what is written, and when *)
(* ================================================================== *)

Lemma subscriptions_kept_refl w : subscriptions_kept w w.
Proof. reflexivity. Qed.

Lemma subscriptions_kept_trans a b c :
  subscriptions_kept a b -> subscriptions_kept b c -> subscriptions_kept a c.
Proof. unfold subscriptions_kept. congruence. Qed.

Lemma keeps_subscriptions_statement {A}
    (body : D1.Database -> JS.Outcome (A * D1.Database)) :
  (forall d a d', body d = Returns (a, d') ->
     D1.tbl_subscriptions d' = D1.tbl_subscriptions d) ->
  keeps subscriptions_kept (statement body).
Proof.
  intros Hb w. unfold statement, subscriptions_kept.
  destruct (arrive _ _ _) as [d | e] eqn:Ea; cbn.
  - apply arrive_subscriptions in Ea.
    destruct (body d) as [[a d'] | e] eqn:Eb; destruct w; cbn in *.
    + rewrite (Hb _ _ _ Eb). exact Ea.
    + exact Ea.
  - destruct w; reflexivity.
Qed.

Lemma keeps_subscriptions_first rows : keeps subscriptions_kept (first rows).
Proof.
  apply keeps_subscriptions_statement. intros d a d' H. inversion H. reflexivity.
Qed.

Lemma keeps_subscriptions_sdk call : keeps subscriptions_kept (SquareApi.sdk call).
Proof.
  intros w. unfold SquareApi.sdk. destruct (hd _ (square_script w)); reflexivity.
Qed.

Lemma keeps_subscriptions_run (stmt : D1.Database -> JS.Outcome D1.Database) :
  (forall d d', stmt d = Returns d' ->
     D1.tbl_subscriptions d' = D1.tbl_subscriptions d) ->
  keeps subscriptions_kept (run stmt).
Proof.
  intros H. apply keeps_subscriptions_statement. intros d a d' E.
  destruct (stmt d) as [d1 | e] eqn:Es; cbn in E; inversion E; subst. eauto.
Qed.

Ltac subscriptions_walk :=
  repeat (intros;
    match goal with
    | |- keeps _ (bind _ _) => apply (keeps_bind _ subscriptions_kept_trans)
    | |- keeps _ (try_catch _ _) => apply (keeps_try_catch _ subscriptions_kept_trans)
    | |- keeps _ (lift _) => apply (keeps_lift _ subscriptions_kept_refl)
    | |- keeps _ (param _ _) => apply (keeps_lift _ subscriptions_kept_refl)
    | |- keeps _ (ret _) => apply (keeps_ret _ subscriptions_kept_refl)
    | |- keeps _ (throw _) => apply (keeps_throw _ subscriptions_kept_refl)
    | |- keeps _ (console_log _) => intros ?; reflexivity
    | |- keeps _ (console_error _ _) => intros ?; reflexivity
    | |- keeps _ (first _) => apply keeps_subscriptions_first
    | |- keeps _ (SquareApi.sdk _) => apply keeps_subscriptions_sdk
    | |- keeps _ clock => intros ?; reflexivity
    | |- keeps _ SquareApi.today => intros ?; reflexivity
    | |- keeps _ draw => intros ?; reflexivity
    | |- keeps _ (if ?b then _ else _) => destruct b
    | |- keeps _ (match ?x with _ => _ end) => destruct x
    end).

(** AUTOINCREMENT hands out an id above every id in the table. *)
Lemma next_rowid_above seq ids z : In z ids -> z < D1.next_rowid seq ids.
Proof.
  unfold D1.next_rowid. induction ids as [| x ids IH]; cbn; [contradiction |].
  intros [-> | I]; [lia |]. specialize (IH I). lia.
Qed.

Lemma next_user_id_fresh d u :
  In u (D1.tbl_users d) -> D1.is_user (SQLite.INTEGER (next_user_id d)) u = false.
Proof.
  intros I. unfold D1.is_user. cbn.
  assert (users.id u < next_user_id d)
    by (apply next_rowid_above, in_map; exact I).
  apply Z.eqb_neq. lia.
Qed.

Lemma update_where_fresh {R} (c : R -> bool) (f : R -> R) (t : list R) (x : R) :
  (forall r, In r t -> c r = false) ->
  D1.update_where c f (t ++ [x]) = (t ++ [if c x then f x else x])%list.
Proof.
  intros H. unfold D1.update_where. rewrite map_app. cbn. f_equal.
  induction t as [| r t IH]; cbn; [reflexivity |].
  rewrite (H r (or_introl eq_refl)). f_equal. apply IH.
  intros r' I. apply H. right. exact I.
Qed.

Lemma existsb_false_fresh {R} (c g : R -> bool) (t : list R) :
  (forall r, In r t -> c r = false) ->
  existsb (fun r => negb (c r) && g r) t = existsb g t.
Proof.
  intros H. induction t as [| r t IH]; cbn; [reflexivity |].
  rewrite (H r (or_introl eq_refl)). cbn. f_equal. apply IH.
  intros r' I. apply H. right. exact I.
Qed.

Section CreateSubscriptionMore.
Context (P : Platform).

Lemma keeps_subscriptions_upto_gateway request :
  keeps subscriptions_kept (CreateSubscription.upto_gateway P request).
Proof.
  unfold CreateSubscription.upto_gateway, CreateSubscription.validate,
    CreateSubscription.check_existing_user, CreateSubscription.create_user,
    CreateSubscription.create_at_gateway, request_json,
    SquareApi.getSquareLocation, SquareApi.createSquareCustomer,
    SquareApi.createSubscription.
  subscriptions_walk.
  - apply keeps_subscriptions_statement. intros d r d' H.
    unfold CreateSubscription.insert_user_returning_id in H.
    destruct (D1.insert_user _ _ _ _ _ d) as [[u d1] | e] eqn:E; [| discriminate].
    cbn in H. inversion H; subst. apply insert_user_appends in E. tauto.
  - intros uid. apply keeps_subscriptions_run. intros d d' H.
    unfold CreateSubscription.update_square_customer_id in H.
    destruct (_ && _); [discriminate |]. inversion H. reflexivity.
Qed.

(** Step 6 adds at most the one row. *)
Lemma store_subscription_adds c w :
  exists added,
    D1.tbl_subscriptions (DB (snd (CreateSubscription.store_subscription P c w)))
    = (D1.tbl_subscriptions (DB w) ++ added)%list /\
    (List.length added <= 1)%nat.
Proof.
  destruct (CreateSubscription.store_subscription P c w) as [[[] | e] w'] eqn:H.
  - cbn [snd]. unfold CreateSubscription.store_subscription in H.
    peel H.
    unfold run, statement in H.
    destruct (arrive _ _ _) as [d | err] eqn:Ea; [| discriminate].
    apply arrive_subscriptions in Ea.
    destruct (D1.insert_subscription _ _ _ _ _ _ _ _ _ d) as [d1 | err] eqn:Ei;
      cbn in H; inversion H; subst.
    unfold D1.insert_subscription in Ei.
    repeat match type of Ei with
           | context [if ?b then _ else _] => destruct b; try discriminate
           end.
    inversion Ei; subst. destruct w. cbn in *. rewrite Ea.
    eexists [_]. split; [reflexivity | cbn; lia].
  - cbn [snd]. exists []. rewrite (store_subscription_throws P _ _ _ _ H), app_nil_r.
    split; [reflexivity | cbn; lia].
Qed.

(** The success response can be built from everything steps 1 to 6
    handed on. *)
Lemma respond_created_returns c w :
  readable (CreateSubscription.requestData c) ->
  readable (CreateSubscription.planInfo c) ->
  readable (CreateSubscription.subscription c) ->
  exists resp,
    CreateSubscription.respond_created c w = (Returns resp, w) /\ status resp = 201.
Proof.
  intros Hrd Hpi Hsub. unfold CreateSubscription.respond_created.
  destruct (Hsub "id") as (id & ->). rewrite bind_lift.
  destruct (Hrd "planType") as (planType & ->). rewrite bind_lift.
  destruct (Hpi "planName") as (planName & ->). rewrite bind_lift.
  destruct (Hpi "frequency") as (frequency & ->). rewrite bind_lift.
  destruct (Hpi "price") as (price & ->). rewrite bind_lift.
  destruct (Hsub "status") as (st & ->). rewrite bind_lift.
  destruct (Hsub "startDate") as (startDate & ->). rewrite bind_lift.
  destruct (Hrd "email") as (email & ->). rewrite bind_lift.
  eexists. split; reflexivity.
Qed.

(** Building the response changes nothing. *)
Lemma respond_created_world c w :
  snd (CreateSubscription.respond_created c w) = w.
Proof.
  unfold CreateSubscription.respond_created.
  repeat match goal with
         | |- context [bind (lift ?o) _ _] =>
             destruct o; [rewrite bind_lift | rewrite bind_lift_throws; reflexivity]
         end.
  reflexivity.
Qed.

Lemma store_subscription_returned c w w' :
  CreateSubscription.store_subscription P c w = (Returns tt, w') ->
  readable (CreateSubscription.subscription c).
Proof.
  unfold CreateSubscription.store_subscription. intros H.
  destruct (JS.get (CreateSubscription.subscription c) "id") as [id | e] eqn:E;
    [| discriminate].
  eapply get_readable, E.
Qed.

(** X10. The create-subscription endpoint always answers, and it writes
    a local subscription row only together with a 201: whenever the
    status is not 201 the subscriptions table is exactly as before, and
    in every case at most one row is appended to it, the earlier rows
    staying in place. *)
Theorem subscription_row_only_with_201 (request : Request) (w : World) :
  exists resp w',
    CreateSubscription.onRequestPost P request w = (Returns resp, w') /\
    (status resp <> 201 ->
     D1.tbl_subscriptions (DB w') = D1.tbl_subscriptions (DB w)) /\
    exists added,
      D1.tbl_subscriptions (DB w') = (D1.tbl_subscriptions (DB w) ++ added)%list /\
      (List.length added <= 1)%nat.
Proof.
  assert (same : forall (r : Response) (w1 : World),
             D1.tbl_subscriptions (DB w1) = D1.tbl_subscriptions (DB w) ->
             exists resp w',
               (Returns r, w1) = (Returns resp, w') /\
               (status resp <> 201 ->
                D1.tbl_subscriptions (DB w') = D1.tbl_subscriptions (DB w)) /\
               exists added,
                 D1.tbl_subscriptions (DB w')
                 = (D1.tbl_subscriptions (DB w) ++ added)%list /\
                 (List.length added <= 1)%nat).
  { intros r w1 E. exists r, w1. split; [reflexivity |]. split; [auto |].
    exists []. rewrite app_nil_r. split; [exact E | cbn; lia]. }
  pose proof (keeps_subscriptions_upto_gateway request w) as K.
  unfold subscriptions_kept in K.
  unfold CreateSubscription.onRequestPost, try_catch at 1.
  unfold bind at 1.
  destruct (CreateSubscription.upto_gateway P request w) as [[[early | c] | e] w1] eqn:Hup;
    cbn [snd] in K.
  - apply same. exact K.
  - destruct (upto_gateway_readable P _ _ _ _ Hup) as (Hrd & Hpi).
    unfold bind at 1. unfold try_catch at 1.
    destruct (CreateSubscription.store_subscription P c w1) as [[[] | e] w2] eqn:Hst.
    + destruct (respond_created_returns c w2 Hrd Hpi
                  (store_subscription_returned _ _ _ Hst)) as (resp & -> & S).
      exists resp, w2. split; [reflexivity |]. split; [intros N; contradiction |].
      destruct (store_subscription_adds c w1) as (added & Ha & Hl).
      rewrite Hst in Ha. cbn [snd] in Ha. rewrite K in Ha. eauto.
    + apply store_subscription_throws in Hst.
      unfold console_error, console_log.
      match goal with
      | |- context [CreateSubscription.respond_created c ?x] =>
          pose proof (respond_created_world c x) as Hw;
          destruct (CreateSubscription.respond_created c x) as [[resp | err] w3]
      end; cbn [snd] in Hw; subst w3.
      * apply same. cbn. rewrite Hst. exact K.
      * cbn. apply same. cbn. rewrite Hst. exact K.
  - cbn. apply same. cbn. exact K.
Qed.

(** *** Validation *)

Lemma try_catch_returns {A} (m : Async A) (h : JS.Error -> Async A) w a w' :
  try_catch m h w = (Returns a, w') ->
  m w = (Returns a, w') \/ exists e w1, m w = (Throws e, w1) /\ h e w1 = (Returns a, w').
Proof.
  unfold try_catch. destruct (m w) as [[x | e] w1]; intros H.
  - left. exact H.
  - right. eauto.
Qed.

(** The only early response of the existing-user check is the 409. *)
Lemma check_existing_user_early requestData w userId early w' :
  CreateSubscription.check_existing_user P requestData w
  = (Returns (userId, Some early), w') ->
  early = CreateSubscription.AlreadyActive.
Proof.
  unfold CreateSubscription.check_existing_user. intros H.
  apply try_catch_returns in H. destruct H as [H | (e & w1 & _ & H)].
  - peel H.
    apply bind_returns in H. destruct H as (existingUser & w2 & _ & H).
    destruct (JS.truthy existingUser); [| unfold ret in H; inversion H].
    peel H.
    apply try_catch_returns in H. destruct H as [H | (e & w3 & _ & H)].
    + peel H.
      apply bind_returns in H. destruct H as (activeSubscription & w4 & _ & H).
      destruct (JS.truthy activeSubscription); unfold ret in H; inversion H.
      reflexivity.
    + cbv in H. inversion H.
  - cbv in H. inversion H.
Qed.

(** Which fields the validation lists. *)
Lemma missing_fields_readable (data : JS.Value) (fields : list string) :
  readable data ->
  exists missing,
    missing_fields data fields = Returns missing /\
    (missing = [] <->
     forall field, In field fields ->
       exists v, JS.get data field = Returns v /\ JS.truthy v = true).
Proof.
  intros Hrd. induction fields as [| f fields (missing & IH & Hiff)]; cbn [missing_fields].
  - exists []. split; [reflexivity |]. split; [intros _ field [] | reflexivity].
  - destruct (Hrd f) as (v & Hv). rewrite Hv, IH. cbn [JS.and_then].
    eexists. split; [reflexivity |].
    destruct (JS.truthy v) eqn:T.
    + rewrite Hiff. split.
      * intros H field [<- | I]; [eauto | auto].
      * intros H field I. apply H. right. exact I.
    + split; [discriminate |].
      intros H. destruct (H f (or_introl eq_refl)) as (v' & Hv' & T').
      congruence.
Qed.

Lemma validate_cases request requestData w :
  req_body request = Some requestData ->
  readable requestData ->
  (forall planType, JS.get requestData "planType" = Returns planType ->
     exists key, JS.ToString planType = Returns key) ->
  (~ valid_subscription_request requestData /\
   exists message,
     CreateSubscription.validate request w
     = (Returns (inl {| status := 400;
                        headers := content_type_json;
                        payload := error_envelope (JS.Str message) |}), w))
  \/
  (valid_subscription_request requestData /\
   forall early w', CreateSubscription.validate request w <> (Returns (inl early), w')).
Proof.
  intros Hb Hrd Hconv.
  destruct (missing_fields_readable requestData CreateSubscription.requiredFields Hrd)
    as (missing & Hm & Hiff).
  destruct (Hrd "planType") as (planType & Hpt).
  destruct (Hconv _ Hpt) as (key & Hkey).
  unfold CreateSubscription.validate, request_json. rewrite Hb. rewrite bind_ret.
  rewrite Hm, bind_lift.
  destruct missing as [| f missing].
  - cbn [List.length Nat.eqb negb]. rewrite Hpt, bind_lift, Hkey, bind_lift.
    destruct (JS.truthy (CreateSubscription.plan_lookup key)) eqn:T; cbn [negb].
    + right. split.
      * split; [apply Hiff; reflexivity |]. exists planType, key. auto.
      * intros early w' H.
        apply bind_returns in H. destruct H as (locationResult & w0 & _ & H).
        peel H; try solve [inversion H].
    + left. split.
      * intros (_ & planType' & key' & Hpt' & Hkey' & T').
        rewrite Hpt in Hpt'. inversion Hpt'; subst planType'.
        rewrite Hkey in Hkey'. inversion Hkey'; subst key'. congruence.
      * cbn [template JS.ToString JS.and_then]. rewrite Hkey.
        cbn [JS.and_then]. rewrite bind_lift. eexists. reflexivity.
  - left. split.
    + intros (V & _). apply Hiff in V. discriminate.
    + cbn [List.length Nat.eqb negb]. eexists. reflexivity.
Qed.

(** X11. Validation of create-subscription. For a request whose body
    is a JSON object (with a plan type that converts to a property
    name), the endpoint answers 400 exactly when a required field is
    missing or falsy or the plan type names no plan; it then has done
    nothing, the world (database, gateway, console) being the one before
    the request. Otherwise it answers 201, 409 or 500. *)
Theorem create_subscription_validation
    (request : Request) (requestData : JS.Value) (w : World) :
  req_body request = Some requestData ->
  readable requestData ->
  (forall planType, JS.get requestData "planType" = Returns planType ->
     exists key, JS.ToString planType = Returns key) ->
  exists resp w',
    CreateSubscription.onRequestPost P request w = (Returns resp, w') /\
    (status resp = 400 <-> ~ valid_subscription_request requestData) /\
    (status resp = 400 -> w' = w) /\
    (status resp = 201 \/ status resp = 400 \/ status resp = 409 \/ status resp = 500).
Proof.
  intros Hb Hrd Hconv.
  destruct (validate_cases request requestData w Hb Hrd Hconv)
    as [(NV & message & Hval) | (V & Hval)].
  - unfold CreateSubscription.onRequestPost, try_catch, CreateSubscription.upto_gateway.
    unfold bind at 1. unfold bind at 1. rewrite Hval. cbn [ret].
    do 2 eexists. split; [reflexivity |]. cbn [status].
    split; [tauto |]. split; [reflexivity | tauto].
  - assert (other : forall (r : Response) (w1 : World),
               status r = 201 \/ status r = 409 \/ status r = 500 ->
               exists resp w',
                 (Returns r, w1) = (Returns resp, w') /\
                 (status resp = 400 <-> ~ valid_subscription_request requestData) /\
                 (status resp = 400 -> w' = w) /\
                 (status resp = 201 \/ status resp = 400 \/ status resp = 409
                  \/ status resp = 500)).
    { intros r w1 S. exists r, w1. split; [reflexivity |].
      split; [| split].
      - split; [intros E | intros NV; contradiction].
        destruct S as [S | [S | S]]; rewrite S in E; discriminate.
      - intros E. destruct S as [S | [S | S]]; rewrite S in E; discriminate.
      - tauto. }
    unfold CreateSubscription.onRequestPost, try_catch at 1.
    unfold bind at 1.
    destruct (CreateSubscription.upto_gateway P request w) as [[[early | c] | e] w1] eqn:Hup.
    + apply other. right. left.
      unfold CreateSubscription.upto_gateway in Hup.
      apply bind_returns in Hup. destruct Hup as (v & w0 & Hv & H).
      destruct v as [early0 | [[rd planInfo] locationId]];
        [exfalso; exact (Hval _ _ Hv) |].
      apply bind_returns in H. destruct H as ([userId [early1 |]] & w2 & Hchk & H).
      * apply check_existing_user_early in Hchk. subst early1.
        unfold ret in H. inversion H. reflexivity.
      * apply bind_returns in H. destruct H as (userId' & w3 & _ & H).
        apply bind_returns in H. destruct H as (c' & w4 & _ & H).
        unfold ret in H. inversion H.
    + destruct (upto_gateway_readable P _ _ _ _ Hup) as (Hrd' & Hpi).
      unfold bind at 1.
      destruct (try_catch (CreateSubscription.store_subscription P c) _ w1)
        as [[[] | e] w2]; [| cbn; apply other; tauto].
      pose proof (respond_created_world c w2) as Hw.
      destruct (CreateSubscription.respond_created c w2) as [[resp | err] w3] eqn:Hre;
        [| cbn; apply other; tauto].
      apply other. left. clear Hw.
      unfold CreateSubscription.respond_created in Hre. peel Hre.
      unfold ret in Hre. inversion Hre. reflexivity.
    + cbn. apply other. tauto.
Qed.

(** *** The gateway wrappers against a scripted gateway *)

Lemma getSquareLocation_resolves w result rest locations location :
  square_script w = Square.Resolves result :: rest ->
  JS.get result "locations" = Returns locations ->
  SquareApi.locations_find_active locations = Returns location ->
  SquareApi.getSquareLocation w =
  (Returns (JS.Obj [("success", JS.Bool true); ("location", location)]),
   with_square rest (square_calls w ++ [Square.ListLocations]) w).
Proof.
  intros Hs Hl Hf. unfold SquareApi.getSquareLocation, try_catch.
  unfold bind at 1. unfold SquareApi.sdk. rewrite Hs. cbn [hd tl].
  rewrite Hl, bind_lift, Hf, bind_lift. reflexivity.
Qed.

Lemma createSquareCustomer_resolves w result rest customer firstName lastName email userId :
  square_script w = Square.Resolves result :: rest ->
  JS.get result "customer" = Returns customer ->
  SquareApi.createSquareCustomer
    (JS.Obj [("firstName", firstName); ("lastName", lastName);
             ("email", email); ("userId", userId)]) w =
  (Returns (JS.Obj [("success", JS.Bool true); ("customer", customer)]),
   with_square rest
     (square_calls w ++
      [Square.CreateCustomer
         (JS.Obj [("givenName", firstName); ("familyName", lastName);
                  ("emailAddress", email); ("referenceId", userId)])]) w).
Proof.
  intros Hs Hc. unfold SquareApi.createSquareCustomer, try_catch.
  cbn [JS.get JS.own String.eqb Ascii.eqb Bool.eqb]. rewrite !bind_lift.
  unfold bind at 1. unfold SquareApi.sdk. rewrite Hs. cbn [hd tl].
  rewrite Hc, bind_lift. reflexivity.
Qed.

Lemma createSquareCustomer_rejects w e rest firstName lastName email userId :
  square_script w = Square.Rejects e :: rest ->
  SquareApi.createSquareCustomer
    (JS.Obj [("firstName", firstName); ("lastName", lastName);
             ("email", email); ("userId", userId)]) w =
  (Returns (SquareApi.failure e "Failed to create customer"),
   with_console (console w ++ ["Error creating Square customer: " ++ JS.message e])
     (with_square rest
        (square_calls w ++
         [Square.CreateCustomer
            (JS.Obj [("givenName", firstName); ("familyName", lastName);
                     ("emailAddress", email); ("referenceId", userId)])]) w)).
Proof.
  intros Hs. unfold SquareApi.createSquareCustomer, try_catch.
  cbn [JS.get JS.own String.eqb Ascii.eqb Bool.eqb]. rewrite !bind_lift.
  unfold bind at 1. unfold SquareApi.sdk. rewrite Hs. cbn [hd tl].
  reflexivity.
Qed.

Lemma createSubscription_resolves w result rest subscription key more
    locationId planId customerId cardId price :
  square_script w = Square.Resolves result :: rest ->
  entropy w = key :: more ->
  JS.get result "subscription" = Returns subscription ->
  price <> 0 ->
  SquareApi.createSubscription
    (JS.Obj [("locationId", locationId); ("planId", planId);
             ("customerId", customerId); ("cardId", cardId);
             ("priceOverride", JS.Num price)]) w =
  (Returns (JS.Obj [("success", JS.Bool true); ("subscription", subscription)]),
   with_square rest
     (square_calls w ++
      [Square.CreateSubscription
         (JS.Obj [("idempotencyKey", JS.Str ("sub_" ++ key));
                  ("locationId", locationId);
                  ("planId", planId);
                  ("customerId", customerId);
                  ("startDate", JS.Str (SquareApi.before_T (now_iso w)));
                  ("taxPercentage", JS.Str "0");
                  ("priceOverrideMoney",
                   JS.Obj [("amount", JS.Num price); ("currency", JS.Str "GBP")]);
                  ("cardId", cardId);
                  ("timezone", JS.Str "Europe/London")])])
     (with_entropy more w)).
Proof.
  intros Hs He Hr Hp. unfold SquareApi.createSubscription, try_catch.
  rewrite bind_draw, He. cbn [hd tl].
  cbn [JS.get JS.own String.eqb Ascii.eqb Bool.eqb]. rewrite !bind_lift.
  unfold bind at 1. unfold SquareApi.today.
  rewrite !bind_lift.
  unfold bind at 1. unfold SquareApi.sdk.
  cbn [square_script with_entropy]. rewrite Hs. cbn [hd tl].
  rewrite Hr, bind_lift. unfold ret.
  cbn [JS.or_else JS.truthy].
  destruct (Z.eqb_spec price 0); [contradiction |].
  reflexivity.
Qed.

(** *** From the gateway customer to the response *)

Lemma plan_shape planType planInfo :
  JS.own CreateSubscription.SUBSCRIPTION_PLANS planType = Some planInfo ->
  CreateSubscription.plan_lookup planType = planInfo /\
  exists planName frequency price,
    planInfo = CreateSubscription.plan planName frequency price /\ price <> 0.
Proof.
  intros H. split; [unfold CreateSubscription.plan_lookup; rewrite H; reflexivity |].
  unfold CreateSubscription.SUBSCRIPTION_PLANS in H. cbn [JS.own] in H.
  repeat match type of H with
         | (if ?b then _ else _) = _ => destruct b
         end; inversion H; do 3 eexists; (split; [reflexivity | discriminate]).
Qed.

Lemma try_catch_of_run {A} (m : Async A) (h : JS.Error -> Async A) w a w' :
  m w = (Returns a, w') -> try_catch m h w = (Returns a, w').
Proof. intros E. unfold try_catch. rewrite E. reflexivity. Qed.

(** Steps 3 to 5 for a user [id] that exists, against a gateway that
    creates the customer and the subscription, on a quiet store. *)
Lemma create_at_gateway_quiet
    requestData email firstName lastName planType paymentToken
    planName frequency price locationId id w
    reply1 reply2 rest customerId subscriptionId startDate st key more :
  JS.get requestData "email" = Returns (JS.Str email) ->
  JS.get requestData "firstName" = Returns (JS.Str firstName) ->
  JS.get requestData "lastName" = Returns (JS.Str lastName) ->
  JS.get requestData "planType" = Returns (JS.Str planType) ->
  JS.get requestData "paymentToken" = Returns paymentToken ->
  price <> 0 ->
  quiet w ->
  square_script w = reply1 :: reply2 :: rest ->
  creates_customer reply1 customerId ->
  creates_subscription reply2 subscriptionId startDate st ->
  customer_unused customerId id (DB w) = true ->
  entropy w = key :: more ->
  exists subscription w',
    CreateSubscription.create_at_gateway P requestData
      (CreateSubscription.plan planName frequency price) locationId (JS.Num id) w
    = (Returns {| CreateSubscription.requestData := requestData;
                  CreateSubscription.planInfo :=
                    CreateSubscription.plan planName frequency price;
                  CreateSubscription.userId := JS.Num id;
                  CreateSubscription.squareCustomerId := JS.Str customerId;
                  CreateSubscription.subscription := subscription |}, w') /\
    JS.get subscription "id" = Returns (JS.Str subscriptionId) /\
    JS.get subscription "startDate" = Returns (JS.Str startDate) /\
    JS.get subscription "status" = Returns st /\
    quiet w' /\ now_sql w' = now_sql w /\
    DB w' = D1.set_users
              (D1.update_where (D1.is_user (SQLite.INTEGER id))
                 (users.set_square_customer_id (SQLite.TEXT customerId))
                 (D1.tbl_users (DB w)))
              (D1.seq_users (DB w)) (DB w) /\
    square_calls w' =
      (square_calls w ++
       [Square.CreateCustomer (customer_request firstName lastName email id);
        Square.CreateSubscription
          (subscription_creation_request key locationId planType customerId
             (SquareApi.before_T (now_iso w)) price paymentToken)])%list.
Proof.
  intros He Hf Hl Hpt Htok Hprice Hq Hs
         (result1 & customer & -> & Hcust & Hcid)
         (result2 & subscription & -> & Hsub & Hsid & Hstart & Hst)
         Hcu Hen.
  unfold CreateSubscription.create_at_gateway.
  rewrite Hf, bind_lift, Hl, bind_lift, He, bind_lift.
  unfold CreateSubscription.call_toString.
  cbn [JS.get JS.and_then JS.ToString]. rewrite bind_lift.
  erewrite bind_of_run; [| eapply createSquareCustomer_resolves; eassumption].
  cbn [JS.get JS.own String.eqb Ascii.eqb Bool.eqb]. rewrite bind_lift.
  cbn [JS.truthy negb]. rewrite bind_lift, Hcid, bind_lift.
  match goal with |- context [with_square ?s ?c w] => set (w1 := with_square s c w) end.
  assert (Hq1 : quiet w1) by exact Hq.
  erewrite bind_of_run.
  2:{ apply try_catch_of_run.
      rewrite (bind_param P _ (SQLite.TEXT customerId)) by reflexivity.
      rewrite (bind_param P _ (SQLite.INTEGER id)) by reflexivity.
      rewrite run_quiet by exact Hq1.
      unfold CreateSubscription.update_square_customer_id.
      cbn [SQLite.text_affinity].
      unfold customer_unused in Hcu. apply Bool.negb_true_iff in Hcu.
      change (DB w1) with (DB w). rewrite Hcu, Bool.andb_false_r. reflexivity. }
  rewrite Hpt, bind_lift, Htok, bind_lift.
  cbn [CreateSubscription.plan JS.get JS.own String.eqb Ascii.eqb Bool.eqb].
  rewrite bind_lift.
  erewrite bind_of_run.
  2:{ eapply createSubscription_resolves; [reflexivity | exact Hen | exact Hsub | exact Hprice]. }
  cbn [JS.get JS.own String.eqb Ascii.eqb Bool.eqb]. rewrite bind_lift.
  cbn [JS.truthy negb]. rewrite bind_lift.
  do 2 eexists. split; [reflexivity |].
  split; [exact Hsid |]. split; [exact Hstart |]. split; [exact Hst |].
  split; [exact Hq |]. split; [reflexivity |]. split; [reflexivity |].
  subst w1. cbn. rewrite <- app_assoc. reflexivity.
Qed.

(** Step 6 on a quiet store, when the constraints let the row in. *)
Lemma store_subscription_quiet c id planType planName frequency price
    subscriptionId startDate w :
  CreateSubscription.userId c = JS.Num id ->
  JS.get (CreateSubscription.requestData c) "planType" = Returns (JS.Str planType) ->
  CreateSubscription.planInfo c = CreateSubscription.plan planName frequency price ->
  JS.get (CreateSubscription.subscription c) "id" = Returns (JS.Str subscriptionId) ->
  JS.get (CreateSubscription.subscription c) "startDate" = Returns (JS.Str startDate) ->
  quiet w ->
  D1.user_exists (DB w) (SQLite.INTEGER id) = true ->
  subscription_unused subscriptionId (DB w) = true ->
  CreateSubscription.store_subscription P c w =
  (Returns tt,
   with_DB (D1.set_subscriptions
              (D1.tbl_subscriptions (DB w) ++
               [subscription_row (next_subscription_id (DB w)) id subscriptionId planType
                  price frequency startDate (now_sql w)])
              (next_subscription_id (DB w)) (DB w)) w).
Proof.
  intros Hid Hpt Hpi Hsid Hstart Hq Hfk Hsu.
  unfold CreateSubscription.store_subscription.
  rewrite Hsid, bind_lift, Hpt, bind_lift, Hpi.
  cbn [CreateSubscription.plan JS.get JS.own String.eqb Ascii.eqb Bool.eqb].
  rewrite !bind_lift, Hstart, bind_lift, Hid.
  rewrite (bind_param P _ (SQLite.INTEGER id)) by reflexivity.
  rewrite (bind_param P _ (SQLite.TEXT subscriptionId)) by reflexivity.
  rewrite (bind_param P _ (SQLite.TEXT planType)) by reflexivity.
  rewrite (bind_param P _ (SQLite.TEXT "ACTIVE")) by reflexivity.
  rewrite (bind_param P _ (SQLite.INTEGER price)) by reflexivity.
  rewrite (bind_param P _ (SQLite.TEXT "GBP")) by reflexivity.
  rewrite (bind_param P _ (SQLite.TEXT frequency)) by reflexivity.
  rewrite (bind_param P _ (SQLite.TEXT startDate)) by reflexivity.
  rewrite bind_clock, run_quiet by exact Hq.
  unfold D1.insert_subscription. cbn [SQLite.text_affinity SQLite.is_null orb].
  unfold subscription_unused in Hsu. apply Bool.negb_true_iff in Hsu.
  rewrite Hsu, Hfk. reflexivity.
Qed.

(** Steps 6 and 7, once steps 1 to 5 have returned. *)
Lemma finish_created request w w3 requestData email planType planName frequency price
    id customerId subscription subscriptionId startDate st :
  CreateSubscription.upto_gateway P request w
  = (Returns (inr {| CreateSubscription.requestData := requestData;
                     CreateSubscription.planInfo :=
                       CreateSubscription.plan planName frequency price;
                     CreateSubscription.userId := JS.Num id;
                     CreateSubscription.squareCustomerId := JS.Str customerId;
                     CreateSubscription.subscription := subscription |}), w3) ->
  JS.get requestData "email" = Returns (JS.Str email) ->
  JS.get requestData "planType" = Returns (JS.Str planType) ->
  JS.get subscription "id" = Returns (JS.Str subscriptionId) ->
  JS.get subscription "startDate" = Returns (JS.Str startDate) ->
  JS.get subscription "status" = Returns st ->
  quiet w3 ->
  D1.user_exists (DB w3) (SQLite.INTEGER id) = true ->
  subscription_unused subscriptionId (DB w3) = true ->
  CreateSubscription.onRequestPost P request w =
  (Returns {| status := 201;
              headers := CreateSubscription.cors_post;
              payload := created_body subscriptionId planType planName frequency price
                           st startDate id email customerId |},
   with_DB (D1.set_subscriptions
              (D1.tbl_subscriptions (DB w3) ++
               [subscription_row (next_subscription_id (DB w3)) id subscriptionId planType
                  price frequency startDate (now_sql w3)])
              (next_subscription_id (DB w3)) (DB w3)) w3).
Proof.
  intros Hup He Hpt Hsid Hstart Hst Hq Hfk Hsu.
  unfold CreateSubscription.onRequestPost.
  apply try_catch_of_run.
  erewrite bind_of_run; [| exact Hup]. cbv iota.
  erewrite bind_of_run.
  2:{ apply try_catch_of_run.
      eapply store_subscription_quiet with (planName := planName);
        try reflexivity; eassumption. }
  unfold CreateSubscription.respond_created.
  cbn [CreateSubscription.subscription CreateSubscription.requestData
       CreateSubscription.planInfo CreateSubscription.userId
       CreateSubscription.squareCustomerId].
  rewrite Hsid, bind_lift, Hpt, bind_lift.
  cbn [CreateSubscription.plan JS.get JS.own String.eqb Ascii.eqb Bool.eqb].
  rewrite !bind_lift, Hst, bind_lift, Hstart, bind_lift, He, bind_lift.
  reflexivity.
Qed.

(** Lines 34-70 for a complete request, a catalogued plan and a gateway
    with an active location. *)
Lemma validate_passes request email firstName lastName planType paymentToken
    planInfo requestData reply rest location locationId w :
  req_body request = Some requestData ->
  JS.get requestData "email" = Returns (JS.Str email) -> email <> "" ->
  JS.get requestData "firstName" = Returns (JS.Str firstName) -> firstName <> "" ->
  JS.get requestData "lastName" = Returns (JS.Str lastName) -> lastName <> "" ->
  JS.get requestData "planType" = Returns (JS.Str planType) ->
  JS.get requestData "paymentToken" = Returns paymentToken ->
  JS.truthy paymentToken = true ->
  JS.own CreateSubscription.SUBSCRIPTION_PLANS planType = Some planInfo ->
  square_script w = reply :: rest ->
  lists_location reply location ->
  JS.get location "id" = Returns locationId ->
  CreateSubscription.validate request w =
  (Returns (inr (requestData, planInfo, locationId)),
   with_square rest (square_calls w ++ [Square.ListLocations]) w).
Proof.
  intros Hb He Ne Hf Nf Hl Nl Hpt Htok Ttok Hplan Hs
         (result & locations & -> & Hlocs & Hfind) Hloc.
  destruct (plan_shape _ _ Hplan) as (Hlook & planName & frequency & price & -> & _).
  assert (Npt : planType <> "").
  { intros ->. cbv in Hplan. discriminate. }
  unfold CreateSubscription.validate, request_json. rewrite Hb, bind_ret.
  unfold CreateSubscription.requiredFields, missing_fields.
  rewrite He, Hf, Hl, Hpt, Htok. cbn [JS.and_then].
  rewrite !truthy_nonempty, Ttok by assumption.
  rewrite bind_lift. cbn [List.length Nat.eqb negb].
  rewrite bind_lift. cbn [JS.ToString]. rewrite bind_lift, Hlook.
  cbn [CreateSubscription.plan JS.truthy negb].
  erewrite bind_of_run; [| eapply getSquareLocation_resolves; eassumption].
  cbn [JS.get JS.own String.eqb Ascii.eqb Bool.eqb]. rewrite bind_lift.
  cbn [JS.truthy negb]. rewrite bind_lift, Hloc, bind_lift. reflexivity.
Qed.

(** X12. A complete request for a catalogued plan and an email that is
    not stored (as given), on a quiet store and against a gateway that
    has an active location and creates the customer and the
    subscription, is answered 201. One user row is stored, with the
    email as given, no password, the gateway customer id and the
    subscription-active flag false; one subscription row is stored for
    it, ACTIVE, at the catalogue price in GBP; and the gateway has been
    called three times: locations, customer, subscription. *)
Theorem new_subscriber_created
    (request : Request) (email firstName lastName planType : string)
    (paymentToken : JS.Value) (planName frequency : string) (price : Z) (w : World)
    (reply1 reply2 reply3 : Square.Reply) (rest : list Square.Reply)
    (location locationId : JS.Value) (customerId subscriptionId startDate : string)
    (st : JS.Value) (key : string) (more : list string) :
  subscription_request request email firstName lastName planType paymentToken ->
  JS.own CreateSubscription.SUBSCRIPTION_PLANS planType
  = Some (CreateSubscription.plan planName frequency price) ->
  quiet w ->
  users_with_email email (DB w) = [] ->
  square_script w = reply1 :: reply2 :: reply3 :: rest ->
  lists_location reply1 location ->
  JS.get location "id" = Returns locationId ->
  creates_customer reply2 customerId ->
  creates_subscription reply3 subscriptionId startDate st ->
  customer_unused customerId (next_user_id (DB w)) (DB w) = true ->
  subscription_unused subscriptionId (DB w) = true ->
  entropy w = key :: more ->
  exists w',
    CreateSubscription.onRequestPost P request w =
    (Returns {| status := 201;
                headers := CreateSubscription.cors_post;
                payload := created_body subscriptionId planType planName frequency price
                             st startDate (next_user_id (DB w)) email customerId |},
     w') /\
    D1.tbl_users (DB w') =
      (D1.tbl_users (DB w) ++
       [subscriber_row (next_user_id (DB w)) email firstName lastName
          (SQLite.TEXT customerId) (now_sql w)])%list /\
    D1.tbl_subscriptions (DB w') =
      (D1.tbl_subscriptions (DB w) ++
       [subscription_row (next_subscription_id (DB w)) (next_user_id (DB w))
          subscriptionId planType price frequency startDate (now_sql w)])%list /\
    D1.tbl_payments (DB w') = D1.tbl_payments (DB w) /\
    D1.tbl_user_sessions (DB w') = D1.tbl_user_sessions (DB w) /\
    square_calls w' =
      (square_calls w ++
       [Square.ListLocations;
        Square.CreateCustomer
          (customer_request firstName lastName email (next_user_id (DB w)));
        Square.CreateSubscription
          (subscription_creation_request key locationId planType customerId
             (SquareApi.before_T (now_iso w)) price paymentToken)])%list.
Proof.
  intros (requestData & Hb & He & Ne & Hf & Nf & Hl & Nl & Hpt & Htok & Ttok)
         Hplan Hq Hnew Hs Hloc Hlid Hcust Hsub Hcu Hsu Hen.
  destruct (plan_shape _ _ Hplan) as (_ & planName' & frequency' & price' & E & Hprice).
  inversion E; subst planName' frequency' price'. clear E.
  set (id := next_user_id (DB w)) in *.
  set (w1 := with_square (reply2 :: reply3 :: rest)
               (square_calls w ++ [Square.ListLocations]) w).
  set (d2 := D1.set_users
               (D1.tbl_users (DB w) ++
                [subscriber_row id email firstName lastName SQLite.NULL (now_sql w)])
               id (DB w)).
  set (w2 := with_DB d2 w1).
  assert (Hq2 : quiet w2) by exact Hq.
  assert (Hcu2 : customer_unused customerId id (DB w2) = true).
  { unfold customer_unused in *. subst w2 d2. cbn [DB with_DB D1.tbl_users D1.set_users].
    rewrite existsb_app. cbn [existsb].
    apply Bool.negb_true_iff in Hcu. rewrite Hcu. cbn.
    unfold D1.is_user. cbn. rewrite Z.eqb_refl. reflexivity. }
  destruct (create_at_gateway_quiet requestData email firstName lastName planType
              paymentToken planName frequency price locationId id w2
              reply2 reply3 rest customerId subscriptionId startDate st key more
              He Hf Hl Hpt Htok Hprice Hq2 eq_refl Hcust Hsub Hcu2 Hen)
    as (subscription & w3 & Hgw & Hsid & Hstart & Hst & Hq3 & Hnow3 & Hdb3 & Hcalls3).
  assert (Hup : CreateSubscription.upto_gateway P request w
                = (Returns (inr {| CreateSubscription.requestData := requestData;
                                   CreateSubscription.planInfo :=
                                     CreateSubscription.plan planName frequency price;
                                   CreateSubscription.userId := JS.Num id;
                                   CreateSubscription.squareCustomerId := JS.Str customerId;
                                   CreateSubscription.subscription := subscription |}),
                   w3)).
  { unfold CreateSubscription.upto_gateway.
    erewrite bind_of_run;
      [| eapply validate_passes with (location := location); eassumption].
    cbv iota. fold w1.
    assert (Hq1 : quiet w1) by exact Hq.
    erewrite bind_of_run.
    2:{ unfold CreateSubscription.check_existing_user. apply try_catch_of_run.
        rewrite He, bind_lift.
        rewrite (bind_param P _ (SQLite.TEXT email)) by reflexivity.
        rewrite bind_first_quiet by exact Hq1.
        unfold CreateSubscription.select_user_by_email. cbn [SQLite.text_affinity].
        change (filter _ (D1.tbl_users (DB w1))) with (users_with_email email (DB w)).
        rewrite Hnew. reflexivity. }
    cbv iota.
    erewrite bind_of_run.
    2:{ unfold CreateSubscription.create_user. cbn [JS.truthy negb].
        apply try_catch_of_run.
        rewrite He, bind_lift, Hf, bind_lift, Hl, bind_lift.
        rewrite (bind_param P _ (SQLite.TEXT email)) by reflexivity.
        rewrite (bind_param P _ (SQLite.TEXT firstName)) by reflexivity.
        rewrite (bind_param P _ (SQLite.TEXT lastName)) by reflexivity.
        rewrite bind_clock.
        erewrite bind_statement_quiet; [| exact Hq1 |].
        2:{ unfold CreateSubscription.insert_user_returning_id, D1.insert_user.
            cbn [SQLite.text_affinity SQLite.is_null orb].
            unfold users_with_email in Hnew. change (DB w1) with (DB w).
            rewrite (filter_nil_existsb _ _ Hnew). cbn [JS.and_then]. reflexivity. }
        cbn [JS.get JS.own String.eqb Ascii.eqb Bool.eqb users.id]. reflexivity. }
    erewrite bind_of_run; [| exact Hgw]. reflexivity. }
  assert (Hfk3 : D1.user_exists (DB w3) (SQLite.INTEGER id) = true).
  { rewrite Hdb3. unfold D1.user_exists. cbn [D1.tbl_users D1.set_users].
    rewrite user_exists_update_where by reflexivity.
    unfold D1.user_exists. subst w2 d2. cbn [DB with_DB D1.tbl_users D1.set_users].
    rewrite existsb_app. cbn. rewrite Z.eqb_refl. apply Bool.orb_true_r. }
  assert (Hsu3 : subscription_unused subscriptionId (DB w3) = true).
  { rewrite Hdb3. exact Hsu. }
  rewrite (finish_created request w w3 requestData email planType planName frequency
             price id customerId subscription subscriptionId startDate st
             Hup He Hpt Hsid Hstart Hst Hq3 Hfk3 Hsu3).
  eexists. split; [reflexivity |].
  cbn [DB with_DB D1.tbl_users D1.tbl_subscriptions D1.tbl_payments
       D1.tbl_user_sessions D1.set_subscriptions square_calls].
  rewrite Hdb3, Hnow3, Hcalls3. unfold next_subscription_id.
  cbn [D1.tbl_users D1.tbl_subscriptions D1.tbl_payments D1.tbl_user_sessions
       D1.set_users D1.seq_subscriptions].
  split; [| split; [| split; [| split]]].
  - subst w2 d2. cbn [DB with_DB D1.tbl_users D1.set_users].
    rewrite update_where_fresh by (intros r I; apply next_user_id_fresh; exact I).
    unfold D1.is_user. cbn. rewrite Z.eqb_refl. reflexivity.
  - reflexivity.
  - reflexivity.
  - reflexivity.
  - subst w2 w1. cbn. rewrite <- app_assoc. reflexivity.
Qed.

(** X13. A complete request for an email that is already stored, for a
    user (of non-zero id) without ACTIVE subscription, stores no user
    row: the existing user is subscribed. A new gateway customer is
    created all the same, and its id replaces whatever gateway customer
    id the user row held. *)
Theorem returning_subscriber_created
    (request : Request) (email firstName lastName planType : string)
    (paymentToken : JS.Value) (planName frequency : string) (price : Z) (w : World)
    (user : users.row) (others : list users.row)
    (reply1 reply2 reply3 : Square.Reply) (rest : list Square.Reply)
    (location locationId : JS.Value) (customerId subscriptionId startDate : string)
    (st : JS.Value) (key : string) (more : list string) :
  subscription_request request email firstName lastName planType paymentToken ->
  JS.own CreateSubscription.SUBSCRIPTION_PLANS planType
  = Some (CreateSubscription.plan planName frequency price) ->
  quiet w ->
  users_with_email email (DB w) = user :: others ->
  users.id user <> 0 ->
  active_subscriptions (users.id user) (DB w) = [] ->
  square_script w = reply1 :: reply2 :: reply3 :: rest ->
  lists_location reply1 location ->
  JS.get location "id" = Returns locationId ->
  creates_customer reply2 customerId ->
  creates_subscription reply3 subscriptionId startDate st ->
  customer_unused customerId (users.id user) (DB w) = true ->
  subscription_unused subscriptionId (DB w) = true ->
  entropy w = key :: more ->
  exists w',
    CreateSubscription.onRequestPost P request w =
    (Returns {| status := 201;
                headers := CreateSubscription.cors_post;
                payload := created_body subscriptionId planType planName frequency price
                             st startDate (users.id user) email customerId |},
     w') /\
    D1.tbl_users (DB w') =
      D1.update_where (D1.is_user (SQLite.INTEGER (users.id user)))
        (users.set_square_customer_id (SQLite.TEXT customerId)) (D1.tbl_users (DB w)) /\
    D1.tbl_subscriptions (DB w') =
      (D1.tbl_subscriptions (DB w) ++
       [subscription_row (next_subscription_id (DB w)) (users.id user)
          subscriptionId planType price frequency startDate (now_sql w)])%list /\
    square_calls w' =
      (square_calls w ++
       [Square.ListLocations;
        Square.CreateCustomer
          (customer_request firstName lastName email (users.id user));
        Square.CreateSubscription
          (subscription_creation_request key locationId planType customerId
             (SquareApi.before_T (now_iso w)) price paymentToken)])%list.
Proof.
  intros (requestData & Hb & He & Ne & Hf & Nf & Hl & Nl & Hpt & Htok & Ttok)
         Hplan Hq Hold Hid Hnone Hs Hloc Hlid Hcust Hsub Hcu Hsu Hen.
  destruct (plan_shape _ _ Hplan) as (_ & planName' & frequency' & price' & E & Hprice).
  inversion E; subst planName' frequency' price'. clear E.
  set (id := users.id user) in *.
  set (w1 := with_square (reply2 :: reply3 :: rest)
               (square_calls w ++ [Square.ListLocations]) w).
  assert (Hq1 : quiet w1) by exact Hq.
  assert (Hin : In user (D1.tbl_users (DB w))).
  { assert (I : In user (users_with_email email (DB w))) by (rewrite Hold; left; reflexivity).
    apply filter_In in I. tauto. }
  destruct (create_at_gateway_quiet requestData email firstName lastName planType
              paymentToken planName frequency price locationId id w1
              reply2 reply3 rest customerId subscriptionId startDate st key more
              He Hf Hl Hpt Htok Hprice Hq1 eq_refl Hcust Hsub Hcu Hen)
    as (subscription & w3 & Hgw & Hsid & Hstart & Hst & Hq3 & Hnow3 & Hdb3 & Hcalls3).
  assert (Hup : CreateSubscription.upto_gateway P request w
                = (Returns (inr {| CreateSubscription.requestData := requestData;
                                   CreateSubscription.planInfo :=
                                     CreateSubscription.plan planName frequency price;
                                   CreateSubscription.userId := JS.Num id;
                                   CreateSubscription.squareCustomerId := JS.Str customerId;
                                   CreateSubscription.subscription := subscription |}),
                   w3)).
  { unfold CreateSubscription.upto_gateway.
    erewrite bind_of_run;
      [| eapply validate_passes with (location := location); eassumption].
    cbv iota. fold w1.
    erewrite bind_of_run.
    2:{ unfold CreateSubscription.check_existing_user. apply try_catch_of_run.
        rewrite He, bind_lift.
        rewrite (bind_param P _ (SQLite.TEXT email)) by reflexivity.
        rewrite bind_first_quiet by exact Hq1.
        unfold CreateSubscription.select_user_by_email. cbn [SQLite.text_affinity].
        change (filter _ (D1.tbl_users (DB w1))) with (users_with_email email (DB w)).
        rewrite Hold.
        cbn [map hd JS.truthy JS.get JS.own String.eqb Ascii.eqb Bool.eqb].
        rewrite bind_lift. apply try_catch_of_run.
        rewrite (bind_param P _ (SQLite.INTEGER id)) by reflexivity.
        rewrite (bind_param P _ (SQLite.TEXT "ACTIVE")) by reflexivity.
        rewrite bind_first_quiet by exact Hq1.
        unfold CreateSubscription.select_subscription_by_status.
        cbn [SQLite.text_affinity].
        change (filter _ (D1.tbl_subscriptions (DB w1)))
          with (active_subscriptions id (DB w)).
        rewrite Hnone. reflexivity. }
    cbv iota.
    erewrite bind_of_run.
    2:{ unfold CreateSubscription.create_user. cbn [JS.truthy].
        assert (E0 : (users.id user =? 0) = false) by (apply Z.eqb_neq; exact Hid).
        rewrite E0. reflexivity. }
    erewrite bind_of_run; [| exact Hgw]. reflexivity. }
  assert (Hfk3 : D1.user_exists (DB w3) (SQLite.INTEGER id) = true).
  { rewrite Hdb3. unfold D1.user_exists. cbn [D1.tbl_users D1.set_users].
    rewrite user_exists_update_where by reflexivity.
    apply user_exists_in. exact Hin. }
  assert (Hsu3 : subscription_unused subscriptionId (DB w3) = true).
  { rewrite Hdb3. exact Hsu. }
  rewrite (finish_created request w w3 requestData email planType planName frequency
             price id customerId subscription subscriptionId startDate st
             Hup He Hpt Hsid Hstart Hst Hq3 Hfk3 Hsu3).
  eexists. split; [reflexivity |].
  cbn [DB with_DB D1.tbl_users D1.tbl_subscriptions D1.tbl_payments
       D1.tbl_user_sessions D1.set_subscriptions square_calls].
  rewrite Hdb3, Hnow3, Hcalls3. unfold next_subscription_id.
  cbn [D1.tbl_users D1.tbl_subscriptions D1.set_users D1.seq_subscriptions].
  split; [reflexivity |]. split; [reflexivity |].
  subst w1. cbn. rewrite <- app_assoc. reflexivity.
Qed.

Lemma template_two prefix s :
  template [JS.Str prefix; JS.Str s] = Returns (prefix ++ s ++ "").
Proof. reflexivity. Qed.

(** X14. Nothing is rolled back: when the gateway rejects the creation
    of the customer, the request of a new email is answered 500, yet the
    user row inserted just before stays in the database (without gateway
    customer id and without subscription). *)
Theorem customer_failure_leaves_user
    (request : Request) (email firstName lastName planType : string)
    (paymentToken : JS.Value) (planName frequency : string) (price : Z) (w : World)
    (reply1 : Square.Reply) (e : JS.Error) (rest : list Square.Reply)
    (location locationId : JS.Value) :
  subscription_request request email firstName lastName planType paymentToken ->
  JS.own CreateSubscription.SUBSCRIPTION_PLANS planType
  = Some (CreateSubscription.plan planName frequency price) ->
  quiet w ->
  users_with_email email (DB w) = [] ->
  square_script w = reply1 :: Square.Rejects e :: rest ->
  lists_location reply1 location ->
  JS.get location "id" = Returns locationId ->
  exists resp w',
    CreateSubscription.onRequestPost P request w = (Returns resp, w') /\
    status resp = 500 /\
    JS.get (payload resp) "success" = Returns (JS.Bool false) /\
    D1.tbl_users (DB w') =
      (D1.tbl_users (DB w) ++
       [subscriber_row (next_user_id (DB w)) email firstName lastName SQLite.NULL
          (now_sql w)])%list /\
    D1.tbl_subscriptions (DB w') = D1.tbl_subscriptions (DB w) /\
    square_calls w' =
      (square_calls w ++
       [Square.ListLocations;
        Square.CreateCustomer
          (customer_request firstName lastName email (next_user_id (DB w)))])%list.
Proof.
  intros (requestData & Hb & He & Ne & Hf & Nf & Hl & Nl & Hpt & Htok & Ttok)
         Hplan Hq Hnew Hs Hloc Hlid.
  set (id := next_user_id (DB w)) in *.
  set (w1 := with_square (Square.Rejects e :: rest)
               (square_calls w ++ [Square.ListLocations]) w).
  assert (Hq1 : quiet w1) by exact Hq.
  unfold CreateSubscription.onRequestPost, try_catch at 1.
  unfold bind at 1. unfold CreateSubscription.upto_gateway.
  erewrite bind_of_run;
    [| eapply validate_passes with (location := location); eassumption].
  cbv iota. fold w1.
  erewrite bind_of_run.
  2:{ unfold CreateSubscription.check_existing_user. apply try_catch_of_run.
      rewrite He, bind_lift.
      rewrite (bind_param P _ (SQLite.TEXT email)) by reflexivity.
      rewrite bind_first_quiet by exact Hq1.
      unfold CreateSubscription.select_user_by_email. cbn [SQLite.text_affinity].
      change (filter _ (D1.tbl_users (DB w1))) with (users_with_email email (DB w)).
      rewrite Hnew. reflexivity. }
  cbv iota.
  erewrite bind_of_run.
  2:{ unfold CreateSubscription.create_user. cbn [JS.truthy negb].
      apply try_catch_of_run.
      rewrite He, bind_lift, Hf, bind_lift, Hl, bind_lift.
      rewrite (bind_param P _ (SQLite.TEXT email)) by reflexivity.
      rewrite (bind_param P _ (SQLite.TEXT firstName)) by reflexivity.
      rewrite (bind_param P _ (SQLite.TEXT lastName)) by reflexivity.
      rewrite bind_clock.
      erewrite bind_statement_quiet; [| exact Hq1 |].
      2:{ unfold CreateSubscription.insert_user_returning_id, D1.insert_user.
          cbn [SQLite.text_affinity SQLite.is_null orb].
          unfold users_with_email in Hnew. change (DB w1) with (DB w).
          rewrite (filter_nil_existsb _ _ Hnew). cbn [JS.and_then]. reflexivity. }
      cbn [JS.get JS.own String.eqb Ascii.eqb Bool.eqb users.id]. reflexivity. }
  unfold bind at 1. unfold CreateSubscription.create_at_gateway.
  rewrite Hf, bind_lift, Hl, bind_lift, He, bind_lift.
  unfold CreateSubscription.call_toString.
  cbn [JS.get JS.and_then JS.ToString]. rewrite bind_lift.
  erewrite bind_of_run; [| eapply createSquareCustomer_rejects; reflexivity].
  unfold SquareApi.failure.
  cbn [JS.get JS.own String.eqb Ascii.eqb Bool.eqb]. rewrite bind_lift.
  cbn [JS.truthy negb]. rewrite bind_lift.
  unfold JS.or_else.
  destruct (JS.truthy (JS.Str (JS.message e)));
    rewrite template_two, bind_lift;
    unfold throw, console_error, console_log, bind, ret;
    do 2 eexists; (split; [reflexivity |]);
    cbn [DB square_calls with_console with_DB with_square D1.tbl_users
         D1.tbl_subscriptions D1.set_users status payload
         CreateSubscription.internal_error];
    (split; [reflexivity |]); (split; [reflexivity |]);
    (split; [reflexivity |]); (split; [reflexivity |]);
    subst w1; cbn [square_calls with_square];
    rewrite <- app_assoc; reflexivity.
Qed.

(** X15. Without a location nothing is attempted: when the gateway
    rejects the listing of locations, or lists no active location, a
    complete request for a catalogued plan is answered 500, in every
    world; the database has not been read or written, no randomness has
    been drawn, and the listing is the only call the gateway has seen. *)
Theorem no_location_nothing_done
    (request : Request) (email firstName lastName planType : string)
    (paymentToken : JS.Value) (planInfo : JS.Value) (w : World) :
  subscription_request request email firstName lastName planType paymentToken ->
  JS.own CreateSubscription.SUBSCRIPTION_PLANS planType = Some planInfo ->
  no_location (square_script w) ->
  exists resp w',
    CreateSubscription.onRequestPost P request w = (Returns resp, w') /\
    status resp = 500 /\
    JS.get (payload resp) "success" = Returns (JS.Bool false) /\
    DB w' = DB w /\ store_script w' = store_script w /\ entropy w' = entropy w /\
    square_calls w' = (square_calls w ++ [Square.ListLocations])%list.
Proof.
  intros (requestData & Hb & He & Ne & Hf & Nf & Hl & Nl & Hpt & Htok & Ttok)
         Hplan Hno.
  destruct (plan_shape _ _ Hplan) as (Hlook & planName & frequency & price & -> & _).
  assert (Npt : planType <> "").
  { intros ->. cbv in Hplan. discriminate. }
  unfold CreateSubscription.onRequestPost, try_catch at 1.
  unfold bind at 1. unfold CreateSubscription.upto_gateway.
  unfold bind at 1.
  unfold CreateSubscription.validate, request_json. rewrite Hb, bind_ret.
  unfold CreateSubscription.requiredFields, missing_fields.
  rewrite He, Hf, Hl, Hpt, Htok. cbn [JS.and_then].
  rewrite !truthy_nonempty, Ttok by assumption.
  rewrite bind_lift. cbn [List.length Nat.eqb negb].
  rewrite bind_lift. cbn [JS.ToString]. rewrite bind_lift, Hlook.
  cbn [CreateSubscription.plan JS.truthy negb].
  unfold bind at 1.
  unfold SquareApi.getSquareLocation, try_catch, SquareApi.sdk.
  unfold bind at 1.
  assert (done : forall (r : Response) (w1 : World),
             status r = 500 ->
             JS.get (payload r) "success" = Returns (JS.Bool false) ->
             DB w1 = DB w -> store_script w1 = store_script w ->
             entropy w1 = entropy w ->
             square_calls w1 = (square_calls w ++ [Square.ListLocations])%list ->
             exists resp w',
               (Returns r, w1) = (Returns resp, w') /\
               status resp = 500 /\
               JS.get (payload resp) "success" = Returns (JS.Bool false) /\
               DB w' = DB w /\ store_script w' = store_script w /\
               entropy w' = entropy w /\
               square_calls w' = (square_calls w ++ [Square.ListLocations])%list).
  { intros r w1 ? ? ? ? ? ?. exists r, w1. repeat split; assumption. }
  destruct Hno as [Hs | [(e & rest & Hs) | (reply & rest & Hs & result & locations
                                            & -> & Hlocs & Hfind)]];
    rewrite Hs; cbn [hd tl].
  - cbn. apply done; reflexivity.
  - unfold SquareApi.failure, JS.or_else.
    destruct (JS.truthy (JS.Str (JS.message e))); cbn; apply done; reflexivity.
  - rewrite Hlocs, bind_lift, Hfind, bind_lift. cbn. apply done; reflexivity.
Qed.

End CreateSubscriptionMore.

(* ================================================================== *)
(** ** The webhook endpoint: what each event does *)
(* ================================================================== *)

Lemma update_where_ext {R} (c : R -> bool) (f g : R -> R) (t : list R) :
  (forall r, c r = true -> f r = g r) ->
  D1.update_where c f t = D1.update_where c g t.
Proof.
  intros H. unfold D1.update_where. apply map_ext_in. intros r _.
  destruct (c r) eqn:E; [apply H; exact E | reflexivity].
Qed.

Lemma eqb_text a s : SQLite.eqb a (SQLite.TEXT s) = true -> a = SQLite.TEXT s.
Proof.
  destruct a; cbn; try discriminate. intros H. apply String.eqb_eq in H. congruence.
Qed.

Section WebhookEffects.
Context (P : Platform).

(** X16. A request the webhook endpoint does not process leaves
    everything but the console untouched, in every world: without
    signature or with a malformed body it is answered 400, with an event
    type other than the four handled ones it is answered 200 "Webhook
    received but not handled"; the database and the store are as before
    in each case. *)
Theorem unprocessed_webhook_untouched (request : Request) (w : World) :
  (SquareWebhook.signature_present request = false \/ req_body request = None \/
   exists webhookEvent type text,
     req_body request = Some webhookEvent /\
     JS.get webhookEvent "type" = Returns type /\
     JS.ToString type = Returns text /\
     unhandled type = true) ->
  exists resp w',
    SquareWebhook.onRequestPost P request w = (Returns resp, w') /\
    (status resp = 400 \/
     resp = SquareWebhook.processed "Webhook received but not handled") /\
    (status resp = 400 <->
     SquareWebhook.signature_present request = false \/ req_body request = None) /\
    DB w' = DB w /\ store_script w' = store_script w /\
    square_calls w' = square_calls w /\ entropy w' = entropy w.
Proof.
  intros H. unfold SquareWebhook.onRequestPost, try_catch.
  destruct (SquareWebhook.signature_present request) eqn:Hsig; cbn [negb].
  - destruct (req_body request) as [ev |] eqn:Hb.
    + destruct H as [H | [H | (ev' & type & text & Hb' & Ht & Hs & Hu)]];
        try discriminate.
      inversion Hb'; subst ev'.
      unfold SquareWebhook.dispatch, SquareWebhook.switch.
      rewrite Ht, bind_lift. cbn [template JS.ToString JS.and_then].
      rewrite Hs. cbn [JS.and_then]. rewrite bind_lift, bind_console_log.
      unfold unhandled in Hu. apply Bool.negb_true_iff in Hu.
      repeat (apply Bool.orb_false_iff in Hu; destruct Hu as [Hu ?]).
      repeat match goal with E : JS.strict_eq_str _ _ = false |- _ => rewrite E; clear E end.
      rewrite bind_lift. cbn [template JS.ToString JS.and_then].
      rewrite Hs. cbn [JS.and_then]. rewrite bind_lift, bind_console_log.
      cbn [ret]. do 2 eexists. split; [reflexivity |].
      split; [right; reflexivity |].
      split; [| repeat split].
      split; [discriminate | intros [? | ?]; discriminate].
    + cbn. do 2 eexists. split; [reflexivity |].
      split; [left; reflexivity |]. split; [| repeat split].
      split; auto.
  - cbn. do 2 eexists. split; [reflexivity |].
    split; [left; reflexivity |]. split; [| repeat split].
    split; auto.
Qed.

(** X17. subscription.created. On a quiet store the handler answers
    200 and inserts nothing. When no user carries the customer of the
    event, the database is unchanged; otherwise the rows of the event's
    subscription that belong to the first such user get the status
    ACTIVE, every other row and every other table staying as it was. *)
Theorem subscription_created_applied
    (webhookEvent : JS.Value) (customerId id : string) (w : World) :
  subscription_event webhookEvent customerId id ->
  quiet w ->
  exists w',
    SquareWebhook.handleSubscriptionCreatedWebhook P webhookEvent w
    = (Returns (SquareWebhook.processed "Subscription created webhook processed"), w') /\
    D1.tbl_subscriptions (DB w') =
      match users_of_customer customerId (DB w) with
      | [] => D1.tbl_subscriptions (DB w)
      | owner :: _ =>
          D1.update_where
            (fun s => SQLite.eqb (subscriptions.user_id s) (SQLite.INTEGER (users.id owner))
                      && SquareWebhook.has_square_id (SQLite.TEXT id) s)
            (subscriptions.set_status (SQLite.TEXT "ACTIVE"))
            (D1.tbl_subscriptions (DB w))
      end /\
    D1.tbl_users (DB w') = D1.tbl_users (DB w) /\
    D1.tbl_payments (DB w') = D1.tbl_payments (DB w) /\
    D1.tbl_user_sessions (DB w') = D1.tbl_user_sessions (DB w).
Proof.
  intros (subscription & Hobj & Hcid & Hid) Hq.
  unfold SquareWebhook.handleSubscriptionCreatedWebhook, try_catch.
  unfold bind at 1. unfold SquareWebhook.subscription_created.
  rewrite Hobj, bind_lift, Hcid, bind_lift, Hid, bind_lift.
  cbn [template JS.ToString JS.and_then]. rewrite bind_lift, bind_console_log.
  rewrite (bind_param P _ (SQLite.TEXT customerId)) by reflexivity.
  match goal with |- context [with_console ?c w] => set (w0 := with_console c w) end.
  assert (Hq0 : quiet w0) by exact Hq.
  rewrite bind_first_quiet by exact Hq0.
  unfold SquareWebhook.select_user_by_customer. cbn [SQLite.text_affinity].
  change (filter _ (D1.tbl_users (DB w0))) with (users_of_customer customerId (DB w)).
  destruct (users_of_customer customerId (DB w)) as [| owner others].
  - cbn. eexists. split; [reflexivity |]. repeat split.
  - cbn [map hd JS.truthy JS.get JS.own String.eqb Ascii.eqb Bool.eqb].
    rewrite !bind_lift.
    rewrite (bind_param P _ (SQLite.TEXT "ACTIVE")) by reflexivity.
    rewrite (bind_param P _ (SQLite.TEXT id)) by reflexivity.
    rewrite (bind_param P _ (SQLite.INTEGER (users.id owner))) by reflexivity.
    rewrite (bind_param P _ (SQLite.TEXT id)) by reflexivity.
    erewrite bind_run_quiet; [| exact Hq0 |].
    2:{ unfold SquareWebhook.activate_subscription. cbn [SQLite.is_null].
        rewrite Bool.andb_false_r. reflexivity. }
    cbn [template JS.ToString JS.and_then]. rewrite bind_lift. cbn.
    eexists. split; [reflexivity |]. repeat split.
    cbn [SQLite.text_affinity].
    apply update_where_ext. intros s Hs.
    apply Bool.andb_true_iff in Hs. destruct Hs as [_ Hs].
    apply eqb_text in Hs. destruct s; cbn in *. subst. reflexivity.
Qed.

(** *** The payment handlers *)

(** The INSERT INTO payments of both handlers, on a quiet store, for the
    row object of the owner's SELECT. *)
Lemma log_payment_quiet invoice id amount currency uid lit w :
  JS.get invoice "id" = Returns (JS.Str id) ->
  JS.get invoice "totalMoney"
  = Returns (JS.Obj [("amount", JS.Num amount); ("currency", JS.Str currency)]) ->
  quiet w ->
  D1.user_exists (DB w) uid = true ->
  SquareWebhook.log_payment P (JS.Obj [("user_id", SQLite.to_js uid)]) invoice lit w =
  if d1_undefined_as_null P
  then (Returns tt,
        with_DB (D1.set_payments
                   (D1.tbl_payments (DB w) ++
                    [payment_row (next_payment_id (DB w)) uid amount currency lit id
                       (now_sql w)])
                   (next_payment_id (DB w)) (DB w)) w)
  else (Throws (JS.PlainError "D1_TYPE_ERROR: Type 'undefined' not supported"), w).
Proof.
  intros Hid Htm Hq Hfk.
  destruct (user_exists_integer _ _ Hfk) as (z & ->).
  unfold SquareWebhook.log_payment.
  cbn [JS.get JS.own String.eqb Ascii.eqb Bool.eqb SQLite.to_js].
  rewrite !bind_lift, Htm, bind_lift.
  cbn [JS.get_opt JS.get JS.own String.eqb Ascii.eqb Bool.eqb].
  rewrite !bind_lift.
  cbn [JS.get_opt JS.get JS.own String.eqb Ascii.eqb Bool.eqb].
  rewrite bind_lift, Hid, bind_lift.
  rewrite (bind_param P _ (SQLite.INTEGER z)) by reflexivity.
  unfold param at 1. unfold bind_value at 1.
  destruct (d1_undefined_as_null P).
  - rewrite bind_lift.
    assert (Hamt : bind_value P (JS.or_else (JS.Num amount) (JS.Num 0))
                   = Returns (SQLite.INTEGER amount)).
    { unfold JS.or_else. cbn [JS.truthy].
      destruct (Z.eqb_spec amount 0) as [-> |]; reflexivity. }
    assert (Hcur : bind_value P (JS.or_else (JS.Str currency) (JS.Str "GBP"))
                   = Returns (SQLite.TEXT (if String.eqb currency "" then "GBP"
                                           else currency))).
    { unfold JS.or_else. cbn [JS.truthy]. destruct (String.eqb currency ""); reflexivity. }
    rewrite (bind_param P _ _ _ _ Hamt), (bind_param P _ _ _ _ Hcur).
    rewrite (bind_param P _ (SQLite.TEXT lit)) by reflexivity.
    rewrite (bind_param P _ (SQLite.TEXT id)) by reflexivity.
    rewrite bind_clock, run_quiet by exact Hq.
    unfold D1.insert_payment. rewrite Hfk.
    cbn [SQLite.is_null orb negb SQLite.text_affinity]. reflexivity.
  - reflexivity.
Qed.

(** X18. invoice.payment_made, for an invoice of a subscription with a
    local row whose owner exists, on a quiet store: the subscription-
    active flag of the owner is set to true in every case. When the
    driver stores NULL for an undefined binding, one SUCCESS payment row
    is appended (the amount and payment reference of the invoice, the
    currency or GBP, no subscription reference) and the answer is 200;
    when it refuses undefined, no payment row is written and the answer
    is 500, the flag staying set. *)
Theorem payment_made_effects
    (webhookEvent : JS.Value) (subscriptionId id : string) (amount : Z)
    (currency : string) (w : World) (owner : subscriptions.row)
    (rest : list subscriptions.row) :
  invoice_event webhookEvent subscriptionId id amount currency ->
  quiet w ->
  local_subscriptions subscriptionId (DB w) = owner :: rest ->
  D1.user_exists (DB w) (subscriptions.user_id owner) = true ->
  exists resp w',
    SquareWebhook.handlePaymentSuccessWebhook P webhookEvent w = (Returns resp, w') /\
    status resp = (if d1_undefined_as_null P then 200 else 500) /\
    D1.tbl_users (DB w') =
      D1.update_where (D1.is_user (subscriptions.user_id owner))
        (users.set_subscription_active SQLite.TRUE) (D1.tbl_users (DB w)) /\
    D1.tbl_subscriptions (DB w') = D1.tbl_subscriptions (DB w) /\
    D1.tbl_payments (DB w') =
      (D1.tbl_payments (DB w) ++
       if d1_undefined_as_null P
       then [payment_row (next_payment_id (DB w)) (subscriptions.user_id owner) amount
               currency "SUCCESS" id (now_sql w)]
       else [])%list.
Proof.
  intros (invoice & Hobj & Hsid & Hid & Htm) Hq Hrows Hfk.
  unfold SquareWebhook.handlePaymentSuccessWebhook, try_catch.
  unfold bind at 1. unfold SquareWebhook.payment_success.
  rewrite Hobj, bind_lift, Hsid, bind_lift.
  cbn [template JS.ToString JS.and_then]. rewrite bind_lift, bind_console_log.
  rewrite (bind_param P _ (SQLite.TEXT subscriptionId)) by reflexivity.
  match goal with |- context [with_console ?c w] => set (w0 := with_console c w) end.
  assert (Hq0 : quiet w0) by exact Hq.
  rewrite bind_first_quiet by exact Hq0.
  unfold SquareWebhook.select_owner.
  change (filter _ (D1.tbl_subscriptions (DB w0)))
    with (local_subscriptions subscriptionId (DB w)).
  rewrite Hrows.
  cbn [map hd JS.truthy JS.get JS.own String.eqb Ascii.eqb Bool.eqb].
  rewrite bind_lift.
  rewrite (bind_param P _ _ _ _ (bind_value_to_js P _)).
  erewrite bind_run_quiet; [| exact Hq0 | reflexivity].
  match goal with |- context [with_DB ?d w0] => set (w2 := with_DB d w0) end.
  assert (Hq2 : quiet w2) by exact Hq.
  assert (Hfk2 : D1.user_exists (DB w2) (subscriptions.user_id owner) = true).
  { subst w2 w0. unfold D1.user_exists at 1.
    cbn [DB with_DB with_console D1.tbl_users D1.set_users].
    rewrite user_exists_update_where by reflexivity. exact Hfk. }
  rewrite (log_payment_quiet invoice id amount currency _ "SUCCESS" w2 Hid Htm Hq2 Hfk2).
  destruct (d1_undefined_as_null P); cbn.
  - do 2 eexists. split; [reflexivity |]. repeat split.
  - do 2 eexists. split; [reflexivity |]. repeat split.
    rewrite app_nil_r. reflexivity.
Qed.

(** X19. invoice.payment_failed, under the same conditions, never
    touches the users or the subscriptions: access is not suspended.
    When the driver stores NULL for an undefined binding, one FAILED
    payment row is appended and the answer is 200; otherwise nothing is
    written at all and the answer is 500. *)
Theorem payment_failed_effects
    (webhookEvent : JS.Value) (subscriptionId id : string) (amount : Z)
    (currency : string) (w : World) (owner : subscriptions.row)
    (rest : list subscriptions.row) :
  invoice_event webhookEvent subscriptionId id amount currency ->
  quiet w ->
  local_subscriptions subscriptionId (DB w) = owner :: rest ->
  D1.user_exists (DB w) (subscriptions.user_id owner) = true ->
  exists resp w',
    SquareWebhook.handlePaymentFailedWebhook P webhookEvent w = (Returns resp, w') /\
    status resp = (if d1_undefined_as_null P then 200 else 500) /\
    D1.tbl_users (DB w') = D1.tbl_users (DB w) /\
    D1.tbl_subscriptions (DB w') = D1.tbl_subscriptions (DB w) /\
    D1.tbl_payments (DB w') =
      (D1.tbl_payments (DB w) ++
       if d1_undefined_as_null P
       then [payment_row (next_payment_id (DB w)) (subscriptions.user_id owner) amount
               currency "FAILED" id (now_sql w)]
       else [])%list.
Proof.
  intros (invoice & Hobj & Hsid & Hid & Htm) Hq Hrows Hfk.
  destruct (user_exists_integer _ _ Hfk) as (z & Hz).
  unfold SquareWebhook.handlePaymentFailedWebhook, try_catch.
  unfold bind at 1. unfold SquareWebhook.payment_failed.
  rewrite Hobj, bind_lift, Hsid, bind_lift.
  cbn [template JS.ToString JS.and_then]. rewrite bind_lift, bind_console_log.
  rewrite (bind_param P _ (SQLite.TEXT subscriptionId)) by reflexivity.
  match goal with |- context [with_console ?c w] => set (w0 := with_console c w) end.
  assert (Hq0 : quiet w0) by exact Hq.
  rewrite bind_first_quiet by exact Hq0.
  unfold SquareWebhook.select_owner.
  change (filter _ (D1.tbl_subscriptions (DB w0)))
    with (local_subscriptions subscriptionId (DB w)).
  rewrite Hrows.
  cbn [map hd JS.truthy].
  unfold bind at 1.
  rewrite (log_payment_quiet invoice id amount currency _ "FAILED" w0 Hid Htm Hq0 Hfk).
  destruct (d1_undefined_as_null P).
  - cbn [JS.get JS.own String.eqb Ascii.eqb Bool.eqb]. rewrite bind_lift.
    rewrite Hz. cbn [SQLite.to_js template JS.ToString JS.and_then].
    rewrite bind_lift. cbn.
    do 2 eexists. split; [reflexivity |]. repeat split.
  - cbn. do 2 eexists. split; [reflexivity |]. repeat split.
    rewrite app_nil_r. reflexivity.
Qed.

End WebhookEffects.

(* ================================================================== *)
(** ** The Square wrappers *)
(* ================================================================== *)

Lemma failure_settled error fallback :
  fallback <> "" -> settled (SquareApi.failure error fallback).
Proof.
  intros N. right. split; [reflexivity |].
  unfold SquareApi.failure, JS.or_else. cbn [JS.truthy JS.get JS.own String.eqb
    Ascii.eqb Bool.eqb].
  destruct (String.eqb_spec (JS.message error) "") as [E | E]; cbn [negb];
    eexists; (split; [reflexivity | assumption]).
Qed.

(** A [try] block that can only return an object with [success: true],
    under a [catch] that logs and returns the failure object. *)
Lemma guarded_never_rejects (body : Async JS.Value) (label fallback : string) :
  yields body (fun v => JS.get v "success" = Returns (JS.Bool true)) ->
  fallback <> "" ->
  never_rejects
    (try_catch body
       (fun error => console_error label error ;;; ret (SquareApi.failure error fallback))).
Proof.
  intros Hy N w. unfold try_catch.
  destruct (body w) as [[v | e] w1] eqn:E.
  - exists v, w1. split; [reflexivity |]. left. eapply Hy, E.
  - do 2 eexists. split; [reflexivity |]. apply failure_settled, N.
Qed.

(** The value a computation returns when it ends in [ret v] after steps
    that may only throw. *)
Ltac returned_success H :=
  repeat
    (peel H;
     match type of H with
     | bind _ _ _ = (JS.Returns _, _) =>
         let a := fresh "a" in let w0 := fresh "w" in let E := fresh "E" in
         apply bind_returns in H; destruct H as (a & w0 & E & H)
     end);
  peel H; unfold ret in H; inversion H; reflexivity.

(** X20. The wrappers around the gateway never reject: whatever the
    gateway or the SDK does, getSquareLocation, createSquareCustomer,
    createSubscription, getSubscriptionPlans and getSubscription resolve
    with an object whose [success] is true, or false with a non-empty
    error message. *)
Theorem wrappers_never_reject :
  never_rejects SquareApi.getSquareLocation /\
  (forall customerData, never_rejects (SquareApi.createSquareCustomer customerData)) /\
  (forall subscriptionData, never_rejects (SquareApi.createSubscription subscriptionData)) /\
  (forall client, never_rejects (SquareClient.getSubscriptionPlans client)) /\
  (forall client subscriptionId,
     never_rejects (SquareClient.getSubscription client subscriptionId)).
Proof.
  repeat split; intros;
    apply guarded_never_rejects; try discriminate;
    intros w v w' H; returned_success H.
Qed.

(** X21. updateSubscription with an action given as a string never
    rejects either; and for an action other than pause, resume and
    cancel it reports the failure "Invalid action: ..." without calling
    the SDK at all: the outcome is the same for every client, and only
    the console has changed. *)
Theorem updateSubscription_settles
    (client : SquareClient.Client) (subscriptionId reason : JS.Value) (action : string)
    (w : World) :
  exists v w',
    SquareClient.updateSubscription client subscriptionId (JS.Str action) reason w
    = (Returns v, w') /\
    settled v /\
    (action <> "pause" -> action <> "resume" -> action <> "cancel" ->
     v = JS.Obj [("success", JS.Bool false);
                 ("error", JS.Str ("Invalid action: " ++ action))] /\
     only_logs w w').
Proof.
  unfold SquareClient.updateSubscription. cbn [JS.strict_eq_str].
  unfold try_catch.
  match goal with
  | |- context [let (_, _) := ?m in _] => destruct m as [[v | e] w1] eqn:H
  end.
  - exists v, w1. split; [reflexivity |]. split.
    + left.
      apply bind_returns in H. destruct H as (result & w0 & _ & H).
      peel H. unfold ret in H. inversion H. reflexivity.
    + intros N1 N2 N3.
      apply bind_returns in H. destruct H as (result & w0 & H & _).
      destruct (String.eqb_spec action "pause"); [contradiction |].
      destruct (String.eqb_spec action "resume"); [contradiction |].
      destruct (String.eqb_spec action "cancel"); [contradiction |].
      cbn in H. discriminate.
  - cbn [template JS.ToString JS.and_then]. rewrite bind_lift.
    unfold console_error. rewrite bind_console_log.
    destruct (JS.truthy (JS.Str (JS.message e))) eqn:T.
    + do 2 eexists. split; [reflexivity |]. split.
      * right. split; [reflexivity |]. eexists. split; [reflexivity |].
        intros E. rewrite E in T. discriminate.
      * intros N1 N2 N3.
        destruct (String.eqb_spec action "pause"); [contradiction |].
        destruct (String.eqb_spec action "resume"); [contradiction |].
        destruct (String.eqb_spec action "cancel"); [contradiction |].
        cbn in H. inversion H; subst. cbn [JS.message]. rewrite append_nil_r.
        split; [reflexivity |]. repeat split.
    + rewrite bind_lift. do 2 eexists. split; [reflexivity |]. split.
      * right. split; [reflexivity |]. eexists. split; [reflexivity |]. discriminate.
      * intros N1 N2 N3.
        destruct (String.eqb_spec action "pause"); [contradiction |].
        destruct (String.eqb_spec action "resume"); [contradiction |].
        destruct (String.eqb_spec action "cancel"); [contradiction |].
        cbn in H. inversion H; subst. discriminate.
Qed.

(** *** handleSquareWebhook *)

Lemma only_logs_refl w : only_logs w w.
Proof. repeat split. Qed.

Lemma only_logs_trans a b c : only_logs a b -> only_logs b c -> only_logs a c.
Proof.
  unfold only_logs. intros (? & ? & ? & ? & ?) (? & ? & ? & ? & ?).
  repeat split; congruence.
Qed.

Ltac logs_walk :=
  repeat (intros;
    match goal with
    | |- keeps _ (bind _ _) => apply (keeps_bind _ only_logs_trans)
    | |- keeps _ (try_catch _ _) => apply (keeps_try_catch _ only_logs_trans)
    | |- keeps _ (lift _) => apply (keeps_lift _ only_logs_refl)
    | |- keeps _ (ret _) => apply (keeps_ret _ only_logs_refl)
    | |- keeps _ (throw _) => apply (keeps_throw _ only_logs_refl)
    | |- keeps _ (console_log _) => intros ?; repeat split
    | |- keeps _ (console_error _ _) => intros ?; repeat split
    | |- keeps _ (if ?b then _ else _) => destruct b
    | |- keeps _ (match ?x with _ => _ end) => destruct x
    end).

(** One of the four functions handleSquareWebhook dispatches to. *)
Lemma stub_answers (body : Async JS.Value) (label : string) :
  keeps only_logs body ->
  yields body answers ->
  forall w, exists v w',
    try_catch body
      (fun error => console_error label error ;;; ret (SquareClient.failed error)) w
    = (Returns v, w') /\ answers v /\ only_logs w w'.
Proof.
  intros K Y w. unfold try_catch. specialize (K w).
  destruct (body w) as [[v | e] w1] eqn:E; cbn [snd] in K.
  - exists v, w1. split; [reflexivity |]. split; [eapply Y, E | exact K].
  - do 2 eexists. split; [reflexivity |]. split; [exists false; reflexivity |].
    eapply only_logs_trans; [exact K | repeat split].
Qed.

Lemma stubs_answer :
  (forall x w, exists v w',
     SquareClient.handleSubscriptionCreated x w = (Returns v, w') /\
     answers v /\ only_logs w w') /\
  (forall x w, exists v w',
     SquareClient.handleSubscriptionUpdated x w = (Returns v, w') /\
     answers v /\ only_logs w w') /\
  (forall x w, exists v w',
     SquareClient.handlePaymentMade x w = (Returns v, w') /\
     answers v /\ only_logs w w') /\
  (forall x w, exists v w',
     SquareClient.handlePaymentFailed x w = (Returns v, w') /\
     answers v /\ only_logs w w').
Proof.
  repeat split; intros x;
    (apply stub_answers;
     [logs_walk
     | intros w v w' H; peel H; unfold ret in H; inversion H;
       exists true; reflexivity]).
Qed.

(** X22. handleSquareWebhook is a stub: for every body and in every
    world it resolves with an object that carries a boolean [success],
    and it changes nothing but the console; the database, the store and
    the gateway are never touched. An event of a type it does not know
    is reported as a success, "Event not handled". *)
Theorem handleSquareWebhook_only_logs (parsed : option JS.Value) (w : World) :
  exists v w',
    SquareClient.handleSquareWebhook parsed w = (Returns v, w') /\
    answers v /\ only_logs w w' /\
    (forall event type text,
       parsed = Some event -> JS.get event "type" = Returns type ->
       JS.ToString type = Returns text -> unhandled type = true ->
       v = JS.Obj [("success", JS.Bool true); ("message", JS.Str "Event not handled")]).
Proof.
  destruct stubs_answer as (Hc & Hu & Hm & Hf).
  assert (bad : forall (e : JS.Error) (w1 : World),
             only_logs w w1 ->
             (forall event type text,
                parsed = Some event -> JS.get event "type" = Returns type ->
                JS.ToString type = Returns text -> unhandled type = true -> False) ->
             exists v w',
               (console_error "Error handling Square webhook:" e ;;;
                ret (SquareApi.failure e "Failed to handle webhook")) w1 = (Returns v, w') /\
               answers v /\ only_logs w w' /\
               (forall event type text,
                  parsed = Some event -> JS.get event "type" = Returns type ->
                  JS.ToString type = Returns text -> unhandled type = true ->
                  v = JS.Obj [("success", JS.Bool true);
                              ("message", JS.Str "Event not handled")])).
  { intros e w1 L No. do 2 eexists. split; [reflexivity |].
    split; [exists false; reflexivity |].
    split; [eapply only_logs_trans; [exact L | repeat split] |].
    intros event type text E1 E2 E3 E4. exfalso. eauto. }
  assert (via : forall (h : JS.Value -> Async JS.Value) (x : JS.Value) (w1 : World),
             (forall x w, exists v w', h x w = (Returns v, w') /\ answers v /\ only_logs w w') ->
             only_logs w w1 ->
             (forall event type text,
                parsed = Some event -> JS.get event "type" = Returns type ->
                JS.ToString type = Returns text -> unhandled type = true -> False) ->
             exists v w',
               (let (o, w') := h x w1 in
                match o with
                | JS.Returns a => (Returns a, w')
                | JS.Throws e =>
                    (console_error "Error handling Square webhook:" e ;;;
                     ret (SquareApi.failure e "Failed to handle webhook")) w'
                end) = (Returns v, w') /\
               answers v /\ only_logs w w' /\
               (forall event type text,
                  parsed = Some event -> JS.get event "type" = Returns type ->
                  JS.ToString type = Returns text -> unhandled type = true ->
                  v = JS.Obj [("success", JS.Bool true);
                              ("message", JS.Str "Event not handled")])).
  { intros h x w1 Hh L No. destruct (Hh x w1) as (v & w2 & -> & A & L2).
    exists v, w2. split; [reflexivity |]. split; [exact A |].
    split; [eapply only_logs_trans; eassumption |].
    intros event type text E1 E2 E3 E4. exfalso. eauto. }
  unfold SquareClient.handleSquareWebhook. unfold try_catch at 1.
  destruct parsed as [event |].
  2:{ cbn [bind throw]. apply bad; [apply only_logs_refl |].
      intros ? ? ? E. discriminate. }
  rewrite bind_ret.
  destruct (JS.get event "type") as [type | e] eqn:Ht.
  2:{ rewrite bind_lift_throws. apply bad; [apply only_logs_refl |].
      intros ? ? ? E1 E2. inversion E1; subst. congruence. }
  rewrite bind_lift, bind_console_log.
  match goal with |- context [with_console ?c w] => set (w0 := with_console c w) end.
  assert (L0 : only_logs w w0) by (repeat split).
  assert (handled : forall s, JS.strict_eq_str type s = true ->
            In s ["subscription.created"; "subscription.updated";
                  "invoice.payment_made"; "invoice.payment_failed"] ->
            forall event' type' text,
              Some event = Some event' -> JS.get event' "type" = Returns type' ->
              JS.ToString type' = Returns text -> unhandled type' = true -> False).
  { intros s Hs Hin event' type' text E1 E2 E3 E4.
    inversion E1; subst event'. rewrite Ht in E2. inversion E2; subst type'.
    unfold unhandled in E4. apply Bool.negb_true_iff in E4.
    repeat (apply Bool.orb_false_iff in E4; destruct E4 as [E4 ?]).
    cbn in Hin. intuition (subst; congruence). }
  destruct (JS.strict_eq_str type "subscription.created") eqn:T1.
  { destruct (SquareWebhook.event_object event "subscription") as [x | e];
      [rewrite bind_lift; apply via; [exact Hc | exact L0 |]
      | rewrite bind_lift_throws; apply bad; [exact L0 |]];
      apply (handled _ T1); cbn; tauto. }
  destruct (JS.strict_eq_str type "subscription.updated") eqn:T2.
  { destruct (SquareWebhook.event_object event "subscription") as [x | e];
      [rewrite bind_lift; apply via; [exact Hu | exact L0 |]
      | rewrite bind_lift_throws; apply bad; [exact L0 |]];
      apply (handled _ T2); cbn; tauto. }
  destruct (JS.strict_eq_str type "invoice.payment_made") eqn:T3.
  { destruct (SquareWebhook.event_object event "invoice") as [x | e];
      [rewrite bind_lift; apply via; [exact Hm | exact L0 |]
      | rewrite bind_lift_throws; apply bad; [exact L0 |]];
      apply (handled _ T3); cbn; tauto. }
  destruct (JS.strict_eq_str type "invoice.payment_failed") eqn:T4.
  { destruct (SquareWebhook.event_object event "invoice") as [x | e];
      [rewrite bind_lift; apply via; [exact Hf | exact L0 |]
      | rewrite bind_lift_throws; apply bad; [exact L0 |]];
      apply (handled _ T4); cbn; tauto. }
  rewrite bind_lift. cbn [template JS.and_then].
  destruct (JS.ToString type) as [text | e] eqn:Hs; cbn [JS.and_then JS.ToString].
  - rewrite bind_lift, bind_console_log. cbn [ret].
    do 2 eexists. split; [reflexivity |].
    split; [exists true; reflexivity |]. split; [repeat split |].
    intros. reflexivity.
  - rewrite bind_lift_throws. apply bad; [exact L0 |].
    intros event' type' text E1 E2 E3 E4.
    inversion E1; subst event'. rewrite Ht in E2. inversion E2; subst type'. congruence.
Qed.

(* ================================================================== *)
(** ** The plans endpoints and the simplified create-subscription *)
(* ================================================================== *)

(** X23. Both plans endpoints always answer, with one of two
    responses: 200 with [success] true and, under [plans], the objects
    value of the catalog answer, or the empty array when that value is
    missing or falsy; or 500 with [success] false and an error message.
    Whenever the listing resolves and the objects of its result can be
    read (for the direct endpoint: an ok HTTP answer whose JSON body
    parses), the answer is that 200 and nothing else has happened. For
    the direct endpoint a gateway answer that is not ok gives 500 with
    the message "Square API error: <status> <statusText>". *)
Theorem plans_endpoints_answer :
  (forall client w, exists resp w',
     PlansDebug.onRequestGet client w = (Returns resp, w') /\
     ((exists objects, resp = plans_listed objects) \/
      (exists message, resp = plans_failed message)) /\
     (forall response w1 result objects,
        SquareClient.listCatalog client JS.Undefined (JS.Str "SUBSCRIPTION_PLAN") w
        = (Returns response, w1) ->
        JS.get response "result" = Returns result ->
        JS.get result "objects" = Returns objects ->
        resp = plans_listed objects /\ w' = w1)) /\
  (forall fetch token w, exists resp w',
     PlansDirect.onRequestGet fetch (JS.Str token) w = (Returns resp, w') /\
     ((exists objects, resp = plans_listed objects) \/
      (exists message, resp = plans_failed message)) /\
     (forall r w1,
        fetch PlansDirect.url (plans_headers token) w = (Returns r, w1) ->
        w' = w1 /\
        (PlansDirect.ok r = false ->
         resp = plans_failed
                  ("Square API error: " ++ JS.decimal (PlansDirect.http_status r)
                   ++ " " ++ PlansDirect.statusText r)) /\
        (forall result objects,
           PlansDirect.ok r = true ->
           PlansDirect.json r = Returns result ->
           JS.get result "objects" = Returns objects ->
           resp = plans_listed objects))).
Proof.
  split.
  - intros client w. unfold PlansDebug.onRequestGet, try_catch, bind.
    destruct (SquareClient.listCatalog client JS.Undefined (JS.Str "SUBSCRIPTION_PLAN") w)
      as [[response | e] w1].
    + unfold lift.
      destruct (JS.get response "result") as [result | e] eqn:Hr.
      * destruct (JS.get result "objects") as [objects | e] eqn:Ho.
        -- exists (plans_listed objects), w1. split; [reflexivity |].
           split; [left; eauto |].
           intros response' w1' result' objects' E1 E2 E3.
           inversion E1; subst response' w1'.
           assert (result' = result) by congruence. subst result'.
           assert (objects' = objects) by congruence. subst objects'. auto.
        -- do 2 eexists. split; [reflexivity |].
           split; [right; eexists; reflexivity |].
           intros response' w1' result' objects' E1 E2 E3.
           inversion E1; subst response' w1'.
           assert (result' = result) by congruence. subst result'. congruence.
      * do 2 eexists. split; [reflexivity |].
        split; [right; eexists; reflexivity |].
        intros response' w1' result' objects' E1 E2 E3.
        inversion E1; subst response' w1'. congruence.
    + do 2 eexists. split; [reflexivity |].
      split; [right; eexists; reflexivity |].
      intros response' w1' result' objects' E1. discriminate.
  - intros fetch token w. unfold PlansDirect.onRequestGet, try_catch.
    cbn [template JS.ToString JS.and_then]. rewrite bind_lift, append_nil_r.
    fold (plans_headers token).
    unfold bind at 1.
    destruct (fetch PlansDirect.url (plans_headers token) w) as [[r | e] w1].
    + destruct (PlansDirect.ok r) eqn:Hok; cbn [negb].
      * unfold bind, lift.
        destruct (PlansDirect.json r) as [result | e] eqn:Hj.
        -- destruct (JS.get result "objects") as [objects | e] eqn:Ho.
           ++ exists (plans_listed objects), w1. split; [reflexivity |].
              split; [left; eauto |].
              intros r' w1' E. inversion E; subst r' w1'.
              split; [reflexivity |]. split; [congruence |].
              intros result' objects' _ E2 E3.
              assert (result' = result) by congruence. subst result'.
              assert (objects' = objects) by congruence. subst objects'.
              reflexivity.
           ++ do 2 eexists. split; [reflexivity |].
              split; [right; eexists; reflexivity |].
              intros r' w1' E. inversion E; subst r' w1'.
              split; [reflexivity |]. split; [congruence |].
              intros result' objects' _ E2 E3.
              assert (result' = result) by congruence. subst result'. congruence.
        -- do 2 eexists. split; [reflexivity |].
           split; [right; eexists; reflexivity |].
           intros r' w1' E. inversion E; subst r' w1'.
           split; [reflexivity |]. split; [congruence |].
           intros result' objects' _ E2. congruence.
      * cbn [template JS.ToString JS.and_then]. rewrite bind_lift.
        cbn [throw ret]. do 2 eexists. split; [reflexivity |].
        split; [right; eexists; reflexivity |].
        intros r' w1' E. inversion E; subst r' w1'.
        split; [reflexivity |]. split.
        -- intros _. unfold plans_failed. cbn [JS.message].
           rewrite append_nil_r. reflexivity.
        -- intros result' objects' Hyes. congruence.
    + do 2 eexists. split; [reflexivity |].
      split; [right; eexists; reflexivity |].
      intros r' w1' E. discriminate.
Qed.

Lemma onRequestPost_early P request w early w1 :
  CreateSubscription.validate request w = (Returns (inl early), w1) ->
  CreateSubscription.onRequestPost P request w = (Returns early, w1).
Proof.
  intros H. unfold CreateSubscription.onRequestPost, try_catch,
    CreateSubscription.upto_gateway.
  unfold bind at 1. unfold bind at 1. rewrite H. reflexivity.
Qed.

(** X24. The simplified create-subscription endpoint only validates:
    it never changes the world. A body that is not JSON is answered 500;
    a JSON object is answered 400 exactly when one of email, firstName,
    lastName and planType is missing or falsy, and 200 with the object
    echoed otherwise. Whatever it rejects with 400, the full endpoint
    rejects with 400 as well, without doing anything. *)
Theorem simplified_endpoint_validates (request : Request) (w : World) :
  exists resp,
    CreateSubscriptionSimplified.onRequestPost request w = (Returns resp, w) /\
    (req_body request = None -> status resp = 500) /\
    (forall requestData,
       req_body request = Some requestData -> readable requestData ->
       (status resp = 400 \/
        (status resp = 200 /\ JS.get (payload resp) "data" = Returns requestData)) /\
       (status resp = 400 <->
        ~ forall field, In field CreateSubscriptionSimplified.requiredFields ->
            exists v, JS.get requestData field = Returns v /\ JS.truthy v = true) /\
       (status resp = 400 ->
        forall P, exists early,
          CreateSubscription.onRequestPost P request w = (Returns early, w) /\
          status early = 400)).
Proof.
  unfold CreateSubscriptionSimplified.onRequestPost, try_catch, request_json.
  destruct (req_body request) as [requestData |] eqn:Hb.
  2:{ cbn. eexists. split; [reflexivity |]. split; [reflexivity |].
      intros ? E. discriminate. }
  rewrite bind_ret.
  destruct (missing_fields requestData CreateSubscriptionSimplified.requiredFields)
    as [missing | e] eqn:Hm.
  2:{ cbn. eexists. split; [reflexivity |]. split; [discriminate |].
      intros data E Hrd. inversion E; subst data.
      destruct (missing_fields_readable requestData
                  CreateSubscriptionSimplified.requiredFields Hrd) as (m & Hm' & _).
      congruence. }
  rewrite bind_lift.
  destruct missing as [| f missing]; cbn [List.length Nat.eqb negb ret].
  - eexists. split; [reflexivity |]. split; [discriminate |].
    intros data E Hrd. inversion E; subst data. cbn [status payload].
    destruct (missing_fields_readable requestData
                CreateSubscriptionSimplified.requiredFields Hrd) as (m & Hm' & Hiff).
    rewrite Hm in Hm'. inversion Hm'; subst m.
    split; [right; split; reflexivity |].
    split; [| discriminate].
    split; [discriminate |]. intros N. exfalso. apply N, Hiff. reflexivity.
  - eexists. split; [reflexivity |]. split; [discriminate |].
    intros data E Hrd. inversion E; subst data. cbn [status payload].
    destruct (missing_fields_readable requestData
                CreateSubscriptionSimplified.requiredFields Hrd) as (m & Hm' & Hiff).
    rewrite Hm in Hm'. inversion Hm'; subst m.
    split; [left; reflexivity |].
    split.
    + split; [| reflexivity]. intros _ V. apply Hiff in V. discriminate.
    + intros _ P.
      destruct (missing_fields_readable requestData
                  CreateSubscription.requiredFields Hrd) as (m5 & Hm5 & Hiff5).
      destruct m5 as [| f5 m5].
      * exfalso.
        assert (V4 : forall field,
                   In field CreateSubscriptionSimplified.requiredFields ->
                   exists v, JS.get requestData field = Returns v /\ JS.truthy v = true).
        { intros field I. apply Hiff5; [reflexivity |].
          cbn in I |- *. tauto. }
        apply Hiff in V4. discriminate.
      * eexists. split.
        -- apply onRequestPost_early.
           unfold CreateSubscription.validate, request_json.
           rewrite Hb, bind_ret, Hm5, bind_lift. reflexivity.
        -- reflexivity.
Qed.

(* ================================================================== *)
(** ** Which location getSquareLocation picks *)
(* ================================================================== *)

Lemma find_active_find (items : list JS.Value) :
  Forall readable items ->
  SquareApi.find_active items =
  Returns (match find is_active items with Some loc => loc | None => JS.Undefined end).
Proof.
  induction 1 as [| loc items Hloc _ IH]; cbn [SquareApi.find_active find];
    [reflexivity |].
  unfold is_active at 1. destruct (Hloc "status") as (st & ->). cbn [JS.and_then].
  destruct (JS.strict_eq_str st "ACTIVE"); [reflexivity | exact IH].
Qed.

(** X25. When the gateway lists locations (an array of objects),
    getSquareLocation reports success with the first location whose
    status is ACTIVE, in the order of the list; when none is active, or
    when the answer has no list, it still reports success, with no
    location. One call is made to the gateway in each case. *)
Theorem getSquareLocation_first_active
    (w : World) (result locations : JS.Value) (rest : list Square.Reply) :
  square_script w = Square.Resolves result :: rest ->
  JS.get result "locations" = Returns locations ->
  (locations = JS.Undefined \/ exists items, locations = JS.Arr items /\ Forall readable items) ->
  SquareApi.getSquareLocation w =
  (Returns (JS.Obj [("success", JS.Bool true);
                    ("location",
                     match locations with
                     | JS.Arr items =>
                         match find is_active items with
                         | Some loc => loc
                         | None => JS.Undefined
                         end
                     | _ => JS.Undefined
                     end)]),
   with_square rest (square_calls w ++ [Square.ListLocations]) w).
Proof.
  intros Hs Hl [-> | (items & -> & Hrd)].
  - apply (getSquareLocation_resolves w result rest JS.Undefined JS.Undefined Hs Hl).
    reflexivity.
  - apply (getSquareLocation_resolves w result rest (JS.Arr items) _ Hs Hl).
    cbn [SquareApi.locations_find_active]. apply find_active_find, Hrd.
Qed.

(* ================================================================== *)
(** ** Further edge cases of the webhook and of the auth API *)
(* ================================================================== *)

Section WebhookEdges.
Context (P : Platform).

(** X26. A payment event for a subscription without local row is
    acknowledged and dropped: on a quiet store both payment handlers
    answer 200 and write nothing, so the payment is recorded nowhere. *)
Theorem unknown_subscription_payment_dropped
    (webhookEvent : JS.Value) (subscriptionId : string) (w : World) :
  invoice_of webhookEvent subscriptionId ->
  quiet w ->
  local_subscriptions subscriptionId (DB w) = [] ->
  exists w1 w2,
    SquareWebhook.handlePaymentSuccessWebhook P webhookEvent w
    = (Returns (SquareWebhook.processed "Payment success webhook processed"), w1) /\
    SquareWebhook.handlePaymentFailedWebhook P webhookEvent w
    = (Returns (SquareWebhook.processed "Payment failure webhook processed"), w2) /\
    DB w1 = DB w /\ DB w2 = DB w.
Proof.
  intros (invoice & Hobj & Hsid) Hq Hrows.
  unfold SquareWebhook.handlePaymentSuccessWebhook,
    SquareWebhook.handlePaymentFailedWebhook, try_catch.
  unfold bind at 1. unfold bind at 2.
  unfold SquareWebhook.payment_success, SquareWebhook.payment_failed.
  rewrite Hobj, !bind_lift, Hsid, !bind_lift.
  cbn [template JS.ToString JS.and_then]. rewrite !bind_lift, !bind_console_log.
  rewrite !(bind_param P _ (SQLite.TEXT subscriptionId)) by reflexivity.
  rewrite !bind_first_quiet by exact Hq.
  unfold SquareWebhook.select_owner.
  change (filter (SquareWebhook.has_square_id (SQLite.TEXT subscriptionId))
            (D1.tbl_subscriptions (DB w)))
    with (local_subscriptions subscriptionId (DB w)).
  cbn [DB with_console].
  change (filter (SquareWebhook.has_square_id (SQLite.TEXT subscriptionId))
            (D1.tbl_subscriptions (DB w)))
    with (local_subscriptions subscriptionId (DB w)).
  rewrite Hrows. cbn.
  do 2 eexists. repeat split.
Qed.

End WebhookEdges.

(** *** Nothing wakes a quiet store *)

Lemma stays_quiet_refl w : stays_quiet w w.
Proof. exact (fun H => H). Qed.

Lemma stays_quiet_trans a b c : stays_quiet a b -> stays_quiet b c -> stays_quiet a c.
Proof. unfold stays_quiet. auto. Qed.

Lemma keeps_quiet_statement {A} (body : D1.Database -> JS.Outcome (A * D1.Database)) :
  keeps stays_quiet (statement body).
Proof.
  intros w Hq. unfold statement, quiet in *.
  destruct (arrive _ _ _) as [d | e]; [destruct (body d) as [[a d'] | e] |];
    cbn; rewrite Hq; reflexivity.
Qed.

Lemma keeps_quiet_sdk call : keeps stays_quiet (SquareApi.sdk call).
Proof.
  intros w Hq. unfold SquareApi.sdk. destruct (hd _ (square_script w)); exact Hq.
Qed.

Ltac quiet_walk :=
  repeat (intros;
    match goal with
    | |- keeps _ (bind _ _) => apply (keeps_bind _ stays_quiet_trans)
    | |- keeps _ (try_catch _ _) => apply (keeps_try_catch _ stays_quiet_trans)
    | |- keeps _ (lift _) => apply (keeps_lift _ stays_quiet_refl)
    | |- keeps _ (param _ _) => apply (keeps_lift _ stays_quiet_refl)
    | |- keeps _ (ret _) => apply (keeps_ret _ stays_quiet_refl)
    | |- keeps _ (throw _) => apply (keeps_throw _ stays_quiet_refl)
    | |- keeps _ (console_log _) => intros ? Hq; exact Hq
    | |- keeps _ (console_error _ _) => intros ? Hq; exact Hq
    | |- keeps _ (first _) => apply keeps_quiet_statement
    | |- keeps _ (run _) => apply keeps_quiet_statement
    | |- keeps _ (statement _) => apply keeps_quiet_statement
    | |- keeps _ (SquareApi.sdk _) => apply keeps_quiet_sdk
    | |- keeps _ clock => intros ? Hq; exact Hq
    | |- keeps _ draw => intros ? Hq; exact Hq
    | |- keeps _ (if ?b then _ else _) => destruct b
    | |- keeps _ (match ?x with _ => _ end) => destruct x
    end).

Section SubscriptionResumed.
Context (P : Platform).

Lemma keeps_quiet_subscription_updated webhookEvent :
  keeps stays_quiet (SquareWebhook.handleSubscriptionUpdatedWebhook P webhookEvent).
Proof.
  unfold SquareWebhook.handleSubscriptionUpdatedWebhook, SquareWebhook.subscription_updated.
  quiet_walk.
Qed.

(** The handler on a quiet store, for an event with string id and
    status. *)
Lemma subscription_updated_run webhookEvent id status w :
  subscription_update webhookEvent id status ->
  quiet w ->
  let w' := snd (SquareWebhook.handleSubscriptionUpdatedWebhook P webhookEvent w) in
  fst (SquareWebhook.handleSubscriptionUpdatedWebhook P webhookEvent w)
  = Returns (SquareWebhook.processed "Subscription updated webhook processed") /\
  quiet w' /\
  local_statuses id (DB w') = map (fun _ => SQLite.TEXT status) (local_statuses id (DB w)) /\
  D1.tbl_users (DB w') =
    match String.eqb status "CANCELED" || String.eqb status "PAUSED",
          local_subscriptions id (DB w) with
    | true, owner :: _ =>
        D1.update_where (D1.is_user (subscriptions.user_id owner))
          (users.set_subscription_active SQLite.FALSE) (D1.tbl_users (DB w))
    | _, _ => D1.tbl_users (DB w)
    end.
Proof.
  intros (subscription & Hobj & Hid & Hst) Hq w'.
  pose proof (keeps_quiet_subscription_updated webhookEvent w Hq) as Hq'.
  fold w' in Hq'.
  destruct (subscription_updated_quiet P _ _ _ _ _ Hobj Hid Hst Hq)
    as (w1 & now & Hrun & Hsubs & Husers).
  assert (E : SquareWebhook.handleSubscriptionUpdatedWebhook P webhookEvent w
              = (Returns (SquareWebhook.processed "Subscription updated webhook processed"),
                 w1)).
  { unfold SquareWebhook.handleSubscriptionUpdatedWebhook, try_catch, bind.
    rewrite Hrun. reflexivity. }
  subst w'. rewrite E in *. cbn [fst snd] in *.
  split; [reflexivity |]. split; [exact Hq' |]. split; [| exact Husers].
  unfold local_statuses, local_subscriptions. rewrite Hsubs.
  rewrite filter_update_where by reflexivity.
  rewrite !map_map. reflexivity.
Qed.

(** X27. A resumed subscription stays without access. After a
    subscription.updated event with status CANCELED or PAUSED, a second
    one for the same subscription with any other status (ACTIVE, say)
    sets the status of its rows, but the subscription-active flag of the
    owner, cleared by the first event, is not set again. *)
Theorem resumed_subscription_stays_inactive
    (event1 event2 : JS.Value) (id status1 status2 : string) (w : World)
    (owner : subscriptions.row) (rest : list subscriptions.row) :
  subscription_update event1 id status1 ->
  status1 = "CANCELED" \/ status1 = "PAUSED" ->
  subscription_update event2 id status2 ->
  status2 <> "CANCELED" -> status2 <> "PAUSED" ->
  quiet w ->
  local_subscriptions id (DB w) = owner :: rest ->
  let r1 := SquareWebhook.handleSubscriptionUpdatedWebhook P event1 w in
  let r2 := SquareWebhook.handleSubscriptionUpdatedWebhook P event2 (snd r1) in
  status_of (fst r1) = Some 200 /\ status_of (fst r2) = Some 200 /\
  local_statuses id (DB (snd r2))
  = map (fun _ => SQLite.TEXT status2) (local_statuses id (DB w)) /\
  D1.tbl_users (DB (snd r2)) =
    D1.update_where (D1.is_user (subscriptions.user_id owner))
      (users.set_subscription_active SQLite.FALSE) (D1.tbl_users (DB w)).
Proof.
  intros H1 Hcp H2 Nc Np Hq Hrows r1 r2.
  destruct (subscription_updated_run event1 id status1 w H1 Hq)
    as (Hr1 & Hq1 & Hst1 & Hu1).
  fold r1 in Hr1, Hq1, Hst1, Hu1.
  destruct (subscription_updated_run event2 id status2 (snd r1) H2 Hq1)
    as (Hr2 & _ & Hst2 & Hu2).
  fold r2 in Hr2, Hst2, Hu2.
  rewrite Hr1, Hr2. split; [reflexivity |]. split; [reflexivity |]. split.
  - rewrite Hst2, Hst1, map_map. reflexivity.
  - assert (E1 : String.eqb status1 "CANCELED" || String.eqb status1 "PAUSED" = true)
      by (destruct Hcp as [-> | ->]; reflexivity).
    assert (E2 : String.eqb status2 "CANCELED" || String.eqb status2 "PAUSED" = false).
    { apply Bool.orb_false_iff. split; apply String.eqb_neq; assumption. }
    rewrite E2 in Hu2. rewrite E1, Hrows in Hu1. rewrite Hu2. exact Hu1.
Qed.

End SubscriptionResumed.
(** *** Rejected credentials *)

Section AuthEdges.
Context (P : Platform).

(** X28. A rejection by the auth API leaves no trace: on a quiet
    store, a registration answered 400 or 409 and a login answered 400
    or 401 leave the world exactly as it was (no row, no stamp, no
    session, no randomness drawn, nothing logged). *)
Theorem rejected_credentials_leave_no_trace
    (request : Request) (w : World) (resp : Response) (w' : World) :
  quiet w ->
  (Auth.handleUserRegistration P request w = (Returns resp, w') /\
   (status resp = 400 \/ status resp = 409)) \/
  (Auth.handleUserLogin P request w = (Returns resp, w') /\
   (status resp = 400 \/ status resp = 401)) ->
  w' = w.
Proof.
  intros Hq [[H S] | [H S]].
  - unfold Auth.handleUserRegistration in H. apply try_catch_returns in H.
    destruct H as [H | (e & w1 & _ & H)].
    2:{ unfold console_error in H. rewrite bind_console_log in H.
        unfold ret in H. inversion H; subst resp.
        destruct S; discriminate. }
    unfold request_json in H. destruct (req_body request) as [userData |];
      [| discriminate H].
    peel H; try solve [unfold ret in H; inversion H; reflexivity].
    apply bind_returns in H. destruct H as (existingUser & w2 & Hsel & H).
    apply first_returns in Hsel. destruct Hsel as [_ Hw]. specialize (Hw Hq). subst w2.
    peel H; try solve [unfold ret in H; inversion H; reflexivity].
    apply bind_returns in H. destruct H as (userResult & w4 & _ & H).
    peel H.
    apply bind_returns in H. destruct H as (token & w5 & _ & H).
    apply bind_returns in H. destruct H as (sessionToken & w6 & _ & H).
    peel H. unfold ret in H. inversion H; subst resp. destruct S; discriminate.
  - unfold Auth.handleUserLogin in H. apply try_catch_returns in H.
    destruct H as [H | (e & w1 & _ & H)].
    2:{ unfold console_error in H. rewrite bind_console_log in H.
        unfold ret in H. inversion H; subst resp.
        destruct S; discriminate. }
    unfold request_json in H. destruct (req_body request) as [loginData |];
      [| discriminate H].
    peel H; try solve [unfold ret in H; inversion H; reflexivity].
    apply bind_returns in H. destruct H as (user & w2 & Hsel & H).
    apply first_returns in Hsel. destruct Hsel as [_ Hw]. specialize (Hw Hq). subst w2.
    peel H; try solve [unfold ret in H; inversion H; reflexivity].
    apply bind_returns in H. destruct H as (u1 & w3 & _ & H).
    peel H.
    apply bind_returns in H. destruct H as (token & w5 & _ & H).
    apply bind_returns in H. destruct H as (sessionToken & w6 & _ & H).
    peel H.
    apply bind_returns in H. destruct H as (subscription & w7 & _ & H).
    peel H.
    apply bind_returns in H. destruct H as (summary & w8 & _ & H).
    unfold ret in H. inversion H; subst resp. destruct S; discriminate.
Qed.

End AuthEdges.
(** *** Tokens and sessions *)

Lemma arrive_sessions now ev t seq d :
  arrive now ev (D1.set_user_sessions t seq d)
  = JS.and_then (arrive now ev d) (fun d' => Returns (D1.set_user_sessions t seq d')).
Proof.
  destruct ev as [| m | e fn ln ph]; cbn; try reflexivity.
  unfold D1.insert_user. cbn.
  repeat match goal with
         | |- context [if ?b then _ else _] => destruct b
         end; reflexivity.
Qed.

Section TokensAndSessions.
Context (P : Platform) (V : Verification).

(** X29. Verifying a token never consults the sessions: in every
    world, verifyUserToken and authenticateRequest answer the same
    whatever rows the user_sessions table holds; a token is accepted
    although no session of its user is stored. *)
Theorem verification_ignores_sessions
    (request : Request) (w : World) (sessions : list user_sessions.row) (seq : Z) :
  fst (AuthTokens.verifyUserToken P V request (with_sessions sessions seq w))
  = fst (AuthTokens.verifyUserToken P V request w) /\
  fst (AuthTokens.authenticateRequest P V request (with_sessions sessions seq w))
  = fst (AuthTokens.authenticateRequest P V request w).
Proof.
  unfold AuthTokens.authenticateRequest, AuthTokens.verifyUserToken.
  destruct (AuthTokens.bearer request) as [token |]; [| split; reflexivity].
  unfold try_catch, bind.
  set (o := fst (AuthTokens.decode V token w)).
  change (AuthTokens.decode V token (with_sessions sessions seq w))
    with (o, with_sessions sessions seq w).
  change (AuthTokens.decode V token w) with (o, w).
  destruct o as [decoded | e]; [| split; reflexivity].
  cbn [ret]. unfold param, lift.
  destruct (JS.get decoded "userId") as [userId | e]; [| split; reflexivity].
  destruct (bind_value P userId) as [uid | e]; [| split; reflexivity].
  unfold first, statement.
  change (now_sql (with_sessions sessions seq w)) with (now_sql w).
  change (store_script (with_sessions sessions seq w)) with (store_script w).
  change (DB (with_sessions sessions seq w))
    with (D1.set_user_sessions sessions seq (DB w)).
  rewrite arrive_sessions.
  destruct (arrive _ _ _) as [d | e]; [| split; reflexivity].
  cbn [JS.and_then].
  unfold AuthTokens.select_identity_by_id, AuthTokens.select_profile_by_id.
  cbn [D1.tbl_users D1.set_user_sessions].
  destruct (filter (AuthTokens.id_is V uid) (D1.tbl_users d)) as [| u rest];
    split; reflexivity.
Qed.

End TokensAndSessions.

(* ================================================================== *)
(** ** The payment-made handler and the payments already stored *)
(* ================================================================== *)

Lemma arrive_beside_payments now ev t seq d :
  arrive now ev (D1.set_payments t seq d)
  = JS.and_then (arrive now ev d) (fun d' => Returns (D1.set_payments t seq d')).
Proof.
  destruct ev as [| m | e fn ln ph]; cbn; try reflexivity.
  unfold D1.insert_user. cbn.
  repeat match goal with
         | |- context [if ?b then _ else _] => destruct b
         end; reflexivity.
Qed.

Section Agreement.
Context (R : World -> World -> Prop).

Lemma agrees_ret {A} (a : A) : agrees R (ret a).
Proof. intros w' w H. split; [reflexivity | exact H]. Qed.

Lemma agrees_lift {A} (o : JS.Outcome A) : agrees R (lift o).
Proof. intros w' w H. split; [reflexivity | exact H]. Qed.

Lemma agrees_bind {A B} (m : Async A) (k : A -> Async B) :
  agrees R m -> (forall a, agrees R (k a)) -> agrees R (bind m k).
Proof.
  intros Hm Hk w' w H. unfold bind. specialize (Hm w' w H).
  destruct (m w') as [o' x'], (m w) as [o x]. cbn in Hm. destruct Hm as [-> Hx].
  destruct o as [a | e]; [apply Hk; exact Hx | split; [reflexivity | exact Hx]].
Qed.

Lemma agrees_try_catch {A} (m : Async A) (h : JS.Error -> Async A) :
  agrees R m -> (forall e, agrees R (h e)) -> agrees R (try_catch m h).
Proof.
  intros Hm Hh w' w H. unfold try_catch. specialize (Hm w' w H).
  destruct (m w') as [o' x'], (m w) as [o x]. cbn in Hm. destruct Hm as [-> Hx].
  destruct o as [a | e]; [split; [reflexivity | exact Hx] | apply Hh; exact Hx].
Qed.

End Agreement.

Section StoredPayments.
Context (P : Platform) (t' t : list payments.row).

Lemma mirrors_console_log s : agrees (mirrors t' t) (console_log s).
Proof.
  intros w' w (added' & added & seq' & -> & Ht & Hsame).
  split; [reflexivity |]. exists added', added, seq'. auto.
Qed.

Lemma mirrors_console_error label e : agrees (mirrors t' t) (console_error label e).
Proof. apply mirrors_console_log. Qed.

Lemma mirrors_clock : agrees (mirrors t' t) clock.
Proof.
  intros w' w (added' & added & seq' & -> & Ht & Hsame).
  split; [reflexivity |]. exists added', added, seq'. auto.
Qed.

Lemma mirrors_statement {A} (body : D1.Database -> JS.Outcome (A * D1.Database)) :
  beside_payments body -> agrees (mirrors t' t) (statement body).
Proof.
  intros [Hc Hp] w' w (added' & added & seq' & -> & Ht & Hsame).
  unfold statement.
  change (now_sql (with_payments (t' ++ added') seq' w)) with (now_sql w).
  change (store_script (with_payments (t' ++ added') seq' w)) with (store_script w).
  change (DB (with_payments (t' ++ added') seq' w))
    with (D1.set_payments (t' ++ added') seq' (DB w)).
  rewrite arrive_beside_payments.
  destruct (arrive _ _ (DB w)) as [d | e] eqn:Ea; cbn [JS.and_then].
  - apply arrive_payments in Ea. rewrite Hc.
    destruct (body d) as [[a d'] | e] eqn:Eb; cbn [JS.and_then fst snd].
    + split; [reflexivity |]. exists added', added, seq'.
      split; [reflexivity |]. split; [| exact Hsame].
      cbn. rewrite (Hp _ _ _ Eb), Ea. exact Ht.
    + split; [reflexivity |]. exists added', added, seq'.
      split; [reflexivity |]. split; [| exact Hsame].
      cbn. rewrite Ea. exact Ht.
  - split; [reflexivity |]. exists added', added, seq'.
    split; [reflexivity |]. split; [exact Ht | exact Hsame].
Qed.

Lemma mirrors_first rows :
  (forall d x seq, rows (D1.set_payments x seq d) = rows d) ->
  agrees (mirrors t' t) (first rows).
Proof.
  intros H. apply mirrors_statement. split.
  - intros d x seq. rewrite H. reflexivity.
  - intros d a d' E. inversion E. reflexivity.
Qed.

(** The INSERT INTO payments is decided by its bindings and the users
    table; the row it adds differs by its row id only. *)
Lemma mirrors_insert_payment uid sub amt cur st pay created :
  agrees (mirrors t' t) (run (D1.insert_payment uid sub amt cur st pay created)).
Proof.
  intros w' w (added' & added & seq' & -> & Ht & Hsame).
  unfold run, statement.
  change (now_sql (with_payments (t' ++ added') seq' w)) with (now_sql w).
  change (store_script (with_payments (t' ++ added') seq' w)) with (store_script w).
  change (DB (with_payments (t' ++ added') seq' w))
    with (D1.set_payments (t' ++ added') seq' (DB w)).
  rewrite arrive_beside_payments.
  destruct (arrive _ _ (DB w)) as [d | e] eqn:Ea; cbn [JS.and_then].
  - apply arrive_payments in Ea.
    unfold D1.insert_payment.
    change (D1.user_exists (D1.set_payments (t' ++ added') seq' d) uid)
      with (D1.user_exists d uid).
    destruct (SQLite.is_null uid || SQLite.is_null amt || SQLite.is_null st
              || SQLite.is_null created); cbn [JS.and_then D1.constraint_failed].
    + split; [reflexivity |]. exists added', added, seq'.
      split; [reflexivity |]. split; [| exact Hsame]. cbn. rewrite Ea. exact Ht.
    + destruct (negb (D1.user_exists d uid)); cbn [JS.and_then D1.constraint_failed].
      * split; [reflexivity |]. exists added', added, seq'.
        split; [reflexivity |]. split; [| exact Hsame]. cbn. rewrite Ea. exact Ht.
      * split; [reflexivity |].
        match goal with
        | |- context [D1.set_payments (_ ++ [?r']) ?s' (D1.set_payments _ _ d)] =>
            match goal with
            | |- context [D1.set_payments (D1.tbl_payments d ++ [?r]) _ d] =>
                exists (added' ++ [r'])%list, (added ++ [r])%list, s'
            end
        end.
        split; [| split].
        -- cbn. rewrite <- app_assoc. reflexivity.
        -- cbn. rewrite Ea, Ht, <- app_assoc. reflexivity.
        -- rewrite !map_app, Hsame. reflexivity.
  - split; [reflexivity |]. exists added', added, seq'.
    split; [reflexivity |]. split; [exact Ht | exact Hsame].
Qed.

Lemma mirrors_param v : agrees (mirrors t' t) (param P v).
Proof. apply agrees_lift. Qed.

Lemma mirrors_set_subscription_active flag uid :
  agrees (mirrors t' t) (run (SquareWebhook.set_subscription_active flag uid)).
Proof.
  apply mirrors_statement. split.
  - intros d x seq. reflexivity.
  - intros d a d' E. cbn in E. inversion E. reflexivity.
Qed.

Lemma mirrors_log_payment subscription invoice literal :
  agrees (mirrors t' t) (SquareWebhook.log_payment P subscription invoice literal).
Proof.
  unfold SquareWebhook.log_payment.
  repeat (apply agrees_bind; [first [apply agrees_lift | apply mirrors_param
                                    | apply mirrors_clock] | intros ?]).
  apply mirrors_insert_payment.
Qed.

Lemma mirrors_payment_success webhookEvent :
  agrees (mirrors t' t) (SquareWebhook.handlePaymentSuccessWebhook P webhookEvent).
Proof.
  unfold SquareWebhook.handlePaymentSuccessWebhook, SquareWebhook.payment_success.
  apply agrees_try_catch.
  - apply agrees_bind; [| intros ?; apply agrees_ret].
    repeat (apply agrees_bind; [first [apply agrees_lift | apply mirrors_param
                                      | apply mirrors_console_log] | intros ?]).
    apply agrees_bind; [apply mirrors_first; reflexivity | intros subscription].
    destruct (JS.truthy subscription); [| apply agrees_ret].
    repeat (apply agrees_bind; [first [apply agrees_lift | apply mirrors_param] | intros ?]).
    apply agrees_bind; [apply mirrors_set_subscription_active | intros _].
    apply mirrors_log_payment.
  - intros e. apply agrees_bind; [apply mirrors_console_error | intros _; apply agrees_ret].
Qed.

Lemma mirrors_run_subscriptions (stmt : D1.Database -> JS.Outcome D1.Database) :
  (forall d x seq,
     stmt (D1.set_payments x seq d)
     = JS.and_then (stmt d) (fun d' => Returns (D1.set_payments x seq d'))) ->
  (forall d d', stmt d = Returns d' -> D1.tbl_payments d' = D1.tbl_payments d) ->
  agrees (mirrors t' t) (run stmt).
Proof.
  intros Hc Hp. apply mirrors_statement. split.
  - intros d x seq. rewrite Hc. destruct (stmt d); reflexivity.
  - intros d a d' E. destruct (stmt d) as [d1 | e] eqn:Es; cbn in E; inversion E; subst.
    eauto.
Qed.

Lemma mirrors_activate_subscription st sq uid sq' :
  agrees (mirrors t' t) (run (SquareWebhook.activate_subscription st sq uid sq')).
Proof.
  apply mirrors_run_subscriptions.
  - intros d x seq. unfold SquareWebhook.activate_subscription.
    cbn [D1.tbl_subscriptions D1.set_payments D1.seq_subscriptions].
    destruct (existsb _ _ && _); reflexivity.
  - intros d d'. unfold SquareWebhook.activate_subscription.
    destruct (existsb _ _ && _); intros E; inversion E; reflexivity.
Qed.

Lemma mirrors_update_status now st sq :
  agrees (mirrors t' t) (run (SquareWebhook.update_status now st sq)).
Proof.
  apply mirrors_run_subscriptions.
  - intros d x seq. unfold SquareWebhook.update_status.
    cbn [D1.tbl_subscriptions D1.set_payments D1.seq_subscriptions].
    destruct (existsb _ _ && _); reflexivity.
  - intros d d'. unfold SquareWebhook.update_status.
    destruct (existsb _ _ && _); intros E; inversion E; reflexivity.
Qed.

Ltac mirrors_walk :=
  repeat first
    [ apply agrees_ret
    | apply agrees_lift
    | apply mirrors_param
    | apply mirrors_clock
    | apply mirrors_console_log
    | apply mirrors_console_error
    | apply mirrors_payment_success
    | apply mirrors_log_payment
    | apply mirrors_set_subscription_active
    | apply mirrors_activate_subscription
    | apply mirrors_update_status
    | apply mirrors_first; reflexivity
    | apply agrees_bind; [| intros ?]
    | apply agrees_try_catch; [| intros ?]
    | match goal with
      | |- agrees _ (if ?b then _ else _) => destruct b
      | |- agrees _ (match ?o with Some _ => _ | None => _ end) => destruct o
      end ].

Lemma mirrors_onRequestPost request :
  agrees (mirrors t' t) (SquareWebhook.onRequestPost P request).
Proof.
  unfold SquareWebhook.onRequestPost, SquareWebhook.dispatch, SquareWebhook.switch,
    SquareWebhook.handleSubscriptionCreatedWebhook, SquareWebhook.subscription_created,
    SquareWebhook.handleSubscriptionUpdatedWebhook, SquareWebhook.subscription_updated,
    SquareWebhook.handlePaymentFailedWebhook, SquareWebhook.payment_failed.
  mirrors_walk.
Qed.

End StoredPayments.

(** C2. The payment-made handler does not dedupe: it has no lookup on
    the external payment reference and never consults the payments
    table. Whatever payment rows are stored, among them rows that carry
    the reference of the event, the handler gives the same answer, has
    the same effect on everything else, and adds to the payments table
    the rows it adds to any other, numbered after the rows it finds. So
    does the endpoint on every request. *)
Theorem payment_made_ignores_stored_payments
    (P : Platform) (webhookEvent : JS.Value) (request : Request) (w : World)
    (stored : list payments.row) (seq : Z) :
  let handler := SquareWebhook.handlePaymentSuccessWebhook P webhookEvent in
  let endpoint := SquareWebhook.onRequestPost P request in
  (fst (handler (with_payments stored seq w)) = fst (handler w) /\
   mirrors stored (D1.tbl_payments (DB w))
     (snd (handler (with_payments stored seq w))) (snd (handler w))) /\
  (fst (endpoint (with_payments stored seq w)) = fst (endpoint w) /\
   mirrors stored (D1.tbl_payments (DB w))
     (snd (endpoint (with_payments stored seq w))) (snd (endpoint w))).
Proof.
  assert (Hstart : mirrors stored (D1.tbl_payments (DB w)) (with_payments stored seq w) w).
  { exists [], [], seq. rewrite !app_nil_r. repeat split; reflexivity. }
  split.
  - apply mirrors_payment_success. exact Hstart.
  - apply mirrors_onRequestPost. exact Hstart.
Qed.

(** C2 fails as stated: the same payment-made event delivered twice for
    the subscription of a stored user does not leave exactly one payment
    row for its reference: both deliveries are answered 500 and no row
    is stored. Nor does a reference that is already recorded stop the
    handler: it sets the subscription-active flag of the user all the
    same. *)
Lemma payment_replay_leaves_no_row :
  let webhookEvent := Scenario.payment_made_event "INV1" "S1" in
  let deliver := SquareWebhook.onRequestPost Scenario.strict (Scenario.notify webhookEvent) in
  let once := deliver (Scenario.world Scenario.subscribed_db []) in
  let twice := deliver (snd once) in
  let recorded :=
    with_payments
      [payments.mk 1 (SQLite.INTEGER 1) (SQLite.TEXT "S1") (SQLite.INTEGER 299)
         (SQLite.TEXT "GBP") (SQLite.TEXT "SUCCESS") (SQLite.TEXT "INV1") SQLite.NULL
         (SQLite.TEXT "2024-01-01 00:00:00")] 1
      (Scenario.world Scenario.subscribed_db []) in
  (local_subscriptions "S1" Scenario.subscribed_db = [Scenario.alice_subscription] /\
   status_of (fst once) = Some 500 /\
   status_of (fst twice) = Some 500 /\
   payments_for "INV1" (DB (snd twice)) = 0%nat /\
   payments_for "INV1" (DB (snd twice)) <> 1%nat) /\
  (payments_for "INV1" (DB recorded) = 1%nat /\
   map users.subscription_active (D1.tbl_users (DB recorded)) = [SQLite.FALSE] /\
   map users.subscription_active (D1.tbl_users (DB (snd (deliver recorded))))
   = [SQLite.TRUE]).
Proof. vm_compute. repeat split; try reflexivity. discriminate. Qed.

(* ================================================================== *)
(** ** Login: a password comparison that rejects *)
(* ================================================================== *)

Section LoginRejects.
Context (P : Platform).

Lemma login_unknown_email request email password w :
  login_request request email password -> quiet w -> unknown_email email w ->
  fst (Auth.handleUserLogin P request w) = Returns Auth.InvalidCredentials.
Proof.
  intros (data & Hb & He & Hn & Hp & Ht) Hq Hu.
  unfold Auth.handleUserLogin, try_catch.
  unfold request_json. rewrite Hb. cbv iota. rewrite bind_ret, He, bind_lift, Hp, bind_lift.
  rewrite truthy_nonempty, Ht by assumption. cbn [negb orb].
  cbn [JS.call_toLowerCase JS.get JS.and_then String.eqb].
  rewrite bind_lift.
  rewrite (bind_param P _ (SQLite.TEXT (JS.toLowerCase email))) by reflexivity.
  rewrite bind_first_quiet by exact Hq.
  rewrite select_login_registered, Hu. reflexivity.
Qed.

(** C5. The two failures of a login are told apart when bcrypt.compare
    rejects: for a known email whose stored hash bcrypt.compare refuses
    to compare with the password sent (a user row without password
    hash, a password that is not a string), the answer is 500 "Internal
    server error", where an unknown email is answered 401 "Invalid
    email or password". *)
Theorem login_failure_reveals_account
    (request : Request) (email : string) (password : JS.Value) (w : World)
    (user : users.row) (rest : list users.row) (error : JS.Error)
    (request0 : Request) (email0 : string) (password0 : JS.Value) (w0 : World) :
  login_request request email password -> quiet w ->
  registered email (DB w) = user :: rest ->
  bcrypt_compare P password (SQLite.to_js (users.password_hash user)) = Throws error ->
  login_request request0 email0 password0 -> quiet w0 -> unknown_email email0 w0 ->
  fst (Auth.handleUserLogin P request w) = Returns Auth.InternalServerError /\
  fst (Auth.handleUserLogin P request0 w0) = Returns Auth.InvalidCredentials /\
  fst (Auth.handleUserLogin P request w) <> fst (Auth.handleUserLogin P request0 w0).
Proof.
  intros (data & Hb & He & Hn & Hp & Ht) Hq Hr Hc Hreq0 Hq0 Hu0.
  assert (R : fst (Auth.handleUserLogin P request w) = Returns Auth.InternalServerError).
  { unfold Auth.handleUserLogin, try_catch.
    unfold request_json. rewrite Hb. cbv iota. rewrite bind_ret, He, bind_lift, Hp, bind_lift.
    rewrite truthy_nonempty, Ht by assumption. cbn [negb orb].
    cbn [JS.call_toLowerCase JS.get JS.and_then String.eqb].
    rewrite bind_lift.
    rewrite (bind_param P _ (SQLite.TEXT (JS.toLowerCase email))) by reflexivity.
    rewrite bind_first_quiet by exact Hq.
    rewrite select_login_registered, Hr.
    cbn [map hd JS.truthy negb JS.get JS.own String.eqb Ascii.eqb Bool.eqb].
    rewrite bind_lift, Hc, bind_lift_throws. reflexivity. }
  pose proof (login_unknown_email _ _ _ _ Hreq0 Hq0 Hu0) as R0.
  split; [exact R |]. split; [exact R0 |].
  rewrite R, R0. discriminate.
Qed.

End LoginRejects.

Lemma login_failure_reveals_account_witness :
  let subscribed :=
    CreateSubscription.onRequestPost Scenario.strict (Scenario.subscribe "a@x.com")
      (Scenario.world Scenario.empty []) in
  let login := fun request d =>
    fst (Auth.handleUserLogin Scenario.strict request (Scenario.world d [])) in
  (status_of (fst subscribed) = Some 201 /\ DB (snd subscribed) = Fixture.subscriber_db) /\
  (login (Scenario.login "a@x.com" "password1") Fixture.subscriber_db
   = Returns Auth.InternalServerError /\
   login (Scenario.login "nobody@x.com" "password1") Fixture.subscriber_db
   = Returns Auth.InvalidCredentials /\
   login (Scenario.login "a@x.com" "password1") Fixture.subscriber_db
   <> login (Scenario.login "nobody@x.com" "password1") Fixture.subscriber_db) /\
  (login (Fixture.login_with_number "a@x.com" 12345678) Scenario.registered_db
   = Returns Auth.InternalServerError /\
   login (Scenario.login "nobody@x.com" "password1") Scenario.registered_db
   = Returns Auth.InvalidCredentials /\
   login (Fixture.login_with_number "a@x.com" 12345678) Scenario.registered_db
   <> login (Scenario.login "nobody@x.com" "password1") Scenario.registered_db).
Proof.
  split; [split; reflexivity |]. split.
  - apply (login_failure_reveals_account Scenario.strict
             (Scenario.login "a@x.com" "password1") "a@x.com" (JS.Str "password1")
             (Scenario.world Fixture.subscriber_db []) Fixture.subscriber []
             (JS.PlainError "Illegal arguments")
             (Scenario.login "nobody@x.com" "password1") "nobody@x.com"
             (JS.Str "password1") (Scenario.world Fixture.subscriber_db [])).
    + eexists. repeat split; try reflexivity. discriminate.
    + reflexivity.
    + reflexivity.
    + reflexivity.
    + eexists. repeat split; try reflexivity. discriminate.
    + reflexivity.
    + reflexivity.
  - apply (login_failure_reveals_account Scenario.strict
             (Fixture.login_with_number "a@x.com" 12345678) "a@x.com" (JS.Num 12345678)
             (Scenario.world Scenario.registered_db []) Scenario.alice []
             (JS.PlainError "Illegal arguments")
             (Scenario.login "nobody@x.com" "password1") "nobody@x.com"
             (JS.Str "password1") (Scenario.world Scenario.registered_db [])).
    + eexists. repeat split; try reflexivity. discriminate.
    + reflexivity.
    + reflexivity.
    + reflexivity.
    + eexists. repeat split; try reflexivity. discriminate.
    + reflexivity.
    + reflexivity.
Defined.

(* ================================================================== *)
(** ** Create subscription: the user who is already subscribed *)
(* ================================================================== *)

Lemma undisturbed_tl n w :
  undisturbed (S n) w -> undisturbed n (with_store_script (tl (store_script w)) w).
Proof.
  unfold undisturbed. destruct w as [d ss sq calls en ns ni sec con].
  cbn [store_script with_store_script]. intros H.
  destruct ss as [| ev ss]; cbn [firstn tl] in *.
  - destruct n; constructor.
  - inversion H; assumption.
Qed.

Lemma bind_first_undisturbed {B} rows (k : JS.Value -> Async B) n w :
  undisturbed (S n) w ->
  bind (first rows) k w
  = k (hd JS.Null (rows (DB w))) (with_store_script (tl (store_script w)) w).
Proof.
  unfold undisturbed, bind, first, statement.
  destruct w as [d ss sq calls en ns ni sec con]. cbn [store_script now_sql DB].
  intros H. destruct ss as [| ev ss]; cbn [firstn hd tl] in *.
  - reflexivity.
  - inversion H; subst. reflexivity.
Qed.

Section AlreadySubscribed.
Context (P : Platform).

(** Lines 34-70 for a request that passes the validation, against a
    gateway with an active location. *)
Lemma validate_accepts request requestData reply replies location locationId w :
  req_body request = Some requestData ->
  valid_subscription_request requestData ->
  square_script w = reply :: replies ->
  lists_location reply location ->
  JS.get location "id" = Returns locationId ->
  exists planInfo,
    CreateSubscription.validate request w =
    (Returns (inr (requestData, planInfo, locationId)),
     with_square replies (square_calls w ++ [Square.ListLocations]) w).
Proof.
  intros Hb (Hall & planType & key & Hpt & Hkey & Hplan) Hs
         (result & locations & -> & Hlocs & Hfind) Hloc.
  assert (Hmiss : missing_fields requestData CreateSubscription.requiredFields = Returns []).
  { unfold CreateSubscription.requiredFields.
    assert (Hone : forall fields,
               (forall f, In f fields ->
                  exists v, JS.get requestData f = Returns v /\ JS.truthy v = true) ->
               missing_fields requestData fields = Returns []).
    { induction fields as [| f fields IH]; intros Hf; [reflexivity |].
      cbn [missing_fields].
      destruct (Hf f (or_introl eq_refl)) as (v & Hv & Tv).
      rewrite Hv, IH by (intros g I; apply Hf; right; exact I).
      cbn [JS.and_then]. rewrite Tv. reflexivity. }
    apply Hone. exact Hall. }
  exists (CreateSubscription.plan_lookup key).
  unfold CreateSubscription.validate, request_json. rewrite Hb, bind_ret.
  rewrite Hmiss, bind_lift. cbn [List.length Nat.eqb negb].
  rewrite Hpt, bind_lift, Hkey, bind_lift, Hplan. cbn [negb].
  erewrite bind_of_run; [| eapply getSquareLocation_resolves; eassumption].
  cbn [JS.get JS.own String.eqb Ascii.eqb Bool.eqb]. rewrite bind_lift.
  cbn [JS.truthy negb]. rewrite bind_lift, Hloc, bind_lift. reflexivity.
Qed.

(** C6. A create-subscription request that passes the validation
    (whatever plan it names), for which the gateway lists an active
    location and whose email, a string, is stored for a user that has a
    subscription row of status ACTIVE, is answered 409 AlreadyActive
    when the store answers the two lookups of the check. The database is
    then as it was and the only call made to the gateway is the listing
    of locations: no customer and no subscription is created. *)
Theorem active_subscriber_rejected
    (request : Request) (requestData : JS.Value) (email : string) (w : World)
    (user : users.row) (others : list users.row)
    (reply : Square.Reply) (replies : list Square.Reply)
    (location locationId : JS.Value) :
  req_body request = Some requestData ->
  valid_subscription_request requestData ->
  JS.get requestData "email" = Returns (JS.Str email) ->
  square_script w = reply :: replies ->
  lists_location reply location ->
  JS.get location "id" = Returns locationId ->
  undisturbed 2 w ->
  users_with_email email (DB w) = user :: others ->
  active_subscriptions (users.id user) (DB w) <> [] ->
  exists w',
    CreateSubscription.onRequestPost P request w
    = (Returns CreateSubscription.AlreadyActive, w') /\
    DB w' = DB w /\
    square_calls w' = (square_calls w ++ [Square.ListLocations])%list /\
    console w' = console w.
Proof.
  intros Hb Hvalid He Hs Hlists Hloc Hstore Huser Hactive.
  destruct (validate_accepts _ _ _ _ _ _ _ Hb Hvalid Hs Hlists Hloc) as (planInfo & Hval).
  set (w1 := with_square replies (square_calls w ++ [Square.ListLocations]) w) in *.
  assert (Hstore1 : undisturbed 2 w1) by exact Hstore.
  unfold CreateSubscription.onRequestPost, try_catch.
  unfold bind at 1. unfold CreateSubscription.upto_gateway.
  unfold bind at 1. rewrite Hval.
  unfold bind at 1. unfold CreateSubscription.check_existing_user, try_catch.
  rewrite He, bind_lift, (bind_param P _ (SQLite.TEXT email)) by reflexivity.
  rewrite (bind_first_undisturbed _ _ 1%nat) by exact Hstore1.
  pose proof (undisturbed_tl _ _ Hstore1) as Hstore2.
  set (w2 := with_store_script (tl (store_script w1)) w1) in *.
  unfold CreateSubscription.select_user_by_email.
  change (filter _ (D1.tbl_users (DB w1))) with (users_with_email email (DB w)).
  rewrite Huser.
  cbn [map hd JS.truthy JS.get JS.own String.eqb Ascii.eqb Bool.eqb].
  rewrite bind_lift.
  rewrite (bind_param P _ (SQLite.INTEGER (users.id user))) by reflexivity.
  rewrite (bind_param P _ (SQLite.TEXT "ACTIVE")) by reflexivity.
  rewrite (bind_first_undisturbed _ _ 0%nat) by exact Hstore2.
  unfold CreateSubscription.select_subscription_by_status.
  change (filter _ (D1.tbl_subscriptions (DB w2)))
    with (active_subscriptions (users.id user) (DB w)).
  destruct (active_subscriptions (users.id user) (DB w)) as [| s more];
    [contradiction |].
  cbn [map hd CreateSubscription.subscription_object JS.truthy].
  eexists. split; [reflexivity |]. repeat split; reflexivity.
Qed.

End AlreadySubscribed.

Lemma active_subscriber_rejected_witness :
  exists w',
    CreateSubscription.onRequestPost Scenario.strict (Scenario.subscribe "a@x.com")
      (Scenario.world Scenario.subscribed_db [])
    = (Returns CreateSubscription.AlreadyActive, w') /\
    DB w' = Scenario.subscribed_db /\
    square_calls w' = [Square.ListLocations] /\
    console w' = [].
Proof.
  eapply (active_subscriber_rejected Scenario.strict (Scenario.subscribe "a@x.com")
           (JS.Obj [("email", JS.Str "a@x.com"); ("firstName", JS.Str "A");
                    ("lastName", JS.Str "B"); ("planType", JS.Str "pro-monthly");
                    ("paymentToken", JS.Str "tok")])
           "a@x.com" (Scenario.world Scenario.subscribed_db [])
           (users.set_square_customer_id (SQLite.TEXT "C1") Scenario.alice) []
           _ _ Fixture.location (JS.Str "L1")).
  - reflexivity.
  - split.
    + intros field I. cbn in I.
      repeat (destruct I as [<- | I]; [eexists; split; reflexivity |]).
      destruct I.
    + exists (JS.Str "pro-monthly"), "pro-monthly". repeat split; reflexivity.
  - reflexivity.
  - reflexivity.
  - do 2 eexists. repeat split; reflexivity.
  - reflexivity.
  - constructor.
  - reflexivity.
  - discriminate.
Defined.

(** C6 fails as stated. The user a@x.com has an ACTIVE subscription and
    asks for another: when the store fails on the second lookup of the
    check, the failure is logged and the request goes on: a customer
    and a subscription are created at the gateway, a second ACTIVE row
    is stored for the user, and the answer is 201. When the gateway
    lists no location, the answer is 500. *)
Lemma active_subscriber_subscribed_again :
  let again :=
    CreateSubscription.onRequestPost Scenario.strict (Scenario.subscribe "a@x.com")
      (with_square Fixture.second_gateway []
         (Scenario.world Scenario.subscribed_db Fixture.lookup_lost)) in
  let nowhere :=
    CreateSubscription.onRequestPost Scenario.strict (Scenario.subscribe "a@x.com")
      (with_square [Square.Resolves (JS.Obj [("locations", JS.Arr [])])] []
         (Scenario.world Scenario.subscribed_db [])) in
  (map users.id (users_with_email "a@x.com" Scenario.subscribed_db) = [1] /\
   active_subscriptions 1 Scenario.subscribed_db = [Scenario.alice_subscription]) /\
  (status_of (fst again) = Some 201 /\
   map subscriptions.square_subscription_id (active_subscriptions 1 (DB (snd again)))
   = [SQLite.TEXT "S1"; SQLite.TEXT "S2"] /\
   map users.square_customer_id (D1.tbl_users (DB (snd again))) = [SQLite.TEXT "C2"] /\
   List.length (square_calls (snd again)) = 3%nat /\
   console (snd again)
   = ["Database error checking existing user: D1_ERROR: storage unavailable"]) /\
  (status_of (fst nowhere) = Some 500 /\
   status_of (fst again) <> Some 409 /\ status_of (fst nowhere) <> Some 409).
Proof. vm_compute. repeat split; try reflexivity; discriminate. Qed.

(* ================================================================== *)
(** ** The further theorems at concrete inputs *)
(* ================================================================== *)

Lemma verifyUserToken_sound_witness :
  exists resp w',
    AuthTokens.verifyUserToken Scenario.lenient Fixture.verification
      (Fixture.bearer Fixture.token) (Scenario.world Scenario.registered_db [])
    = (Returns resp, w') /\
    status resp = 200 /\
    JS.get (payload resp) "user" = Returns (profile Scenario.alice) /\
    DB w' = Scenario.registered_db.
Proof.
  destruct (AuthTokens.verifyUserToken Scenario.lenient Fixture.verification
              (Fixture.bearer Fixture.token) (Scenario.world Scenario.registered_db []))
    as [[resp | e] w'] eqn:Hrun; [| vm_compute in Hrun; discriminate Hrun].
  assert (S : status resp = 200) by (vm_compute in Hrun; inversion Hrun; reflexivity).
  destruct (verifyUserToken_sound Scenario.lenient Fixture.verification
              (Fixture.bearer Fixture.token) (Scenario.world Scenario.registered_db []))
    as [Hdb Hsound].
  rewrite Hrun in Hdb. cbn [snd] in Hdb.
  destruct (Hsound resp w' Hrun S) as (uid & u & _ & Hin & _ & Hu).
  rewrite (Hdb eq_refl) in Hin. destruct Hin as [<- | []].
  exists resp, w'. repeat split; [exact S | exact Hu | exact (Hdb eq_refl)].
Defined.

Lemma registration_stores_user_witness :
  exists resp w',
    Auth.handleUserRegistration Scenario.lenient (Scenario.register "A@x.COM")
      (Scenario.world Scenario.empty [])
    = (Returns resp, w') /\
    status resp = 201 /\
    D1.tbl_users (DB w') = [Scenario.alice] /\
    D1.tbl_user_sessions (DB w') = [Scenario.alice_session] /\
    returned_user_id resp = Returns (JS.Num 1) /\
    JS.get (payload resp) "token" = Returns (JS.Str Fixture.token).
Proof.
  destruct (registration_stores_user Scenario.lenient (Scenario.register "A@x.COM")
              "A@x.COM" "A" "B" "password1" (Scenario.world Scenario.empty [])
              "salt" "uuid-1" ["uuid-2"; "key-1"] "$2a$12$salt$password1")
    as (resp & w' & Hrun & S & Hu & Hs & _ & _ & Hid & _ & Htok).
  - eexists. repeat split; reflexivity.
  - repeat split; discriminate.
  - reflexivity.
  - reflexivity.
  - reflexivity.
  - reflexivity.
  - reflexivity.
  - exists resp, w'. repeat split; assumption.
Defined.

Lemma login_opens_session_witness :
  exists resp w',
    Auth.handleUserLogin Scenario.lenient (Scenario.login "A@x.com" "password1")
      (Scenario.world Scenario.registered_db [])
    = (Returns resp, w') /\
    status resp = 200 /\
    map users.last_login_at (D1.tbl_users (DB w')) = [SQLite.TEXT "2024-01-01 00:00:00"] /\
    map user_sessions.session_token (D1.tbl_user_sessions (DB w'))
    = [SQLite.TEXT "uuid-1"; SQLite.TEXT "salt"] /\
    JS.get (payload resp) "sessionToken" = Returns (JS.Str "salt").
Proof.
  destruct (login_opens_session Scenario.lenient (Scenario.login "A@x.com" "password1")
              "A@x.com" (JS.Str "password1") (Scenario.world Scenario.registered_db [])
              Scenario.alice [] "salt" ["uuid-1"; "uuid-2"; "key-1"])
    as (resp & w' & Hrun & S & Hu & Hs & _ & _ & _ & Htok).
  - eexists. repeat split; try reflexivity. discriminate.
  - reflexivity.
  - reflexivity.
  - reflexivity.
  - reflexivity.
  - reflexivity.
  - exists resp, w'. rewrite Hu, Hs. repeat split; assumption || reflexivity.
Defined.

Lemma registered_user_can_log_in_witness :
  exists resp1 resp2,
    fst (Auth.handleUserRegistration Scenario.lenient (Scenario.register "A@x.COM")
           (Scenario.world Scenario.empty []))
    = Returns resp1 /\ status resp1 = 201 /\
    fst (Auth.handleUserLogin Scenario.lenient (Scenario.login "a@X.com" "password1")
           (snd (Auth.handleUserRegistration Scenario.lenient (Scenario.register "A@x.COM")
                   (Scenario.world Scenario.empty []))))
    = Returns resp2 /\ status resp2 = 200 /\
    returned_user_id resp2 = returned_user_id resp1 /\
    returned_user_email resp2 = Returns (JS.Str "a@x.com").
Proof.
  apply (registered_user_can_log_in Scenario.lenient (Scenario.register "A@x.COM")
           (Scenario.login "a@X.com" "password1") "A@x.COM" "a@X.com" "A" "B" "password1"
           (Scenario.world Scenario.empty []) "salt" "uuid-1" "uuid-2" ["key-1"]
           "$2a$12$salt$password1").
  - eexists. repeat split; reflexivity.
  - repeat split; discriminate.
  - reflexivity.
  - reflexivity.
  - reflexivity.
  - reflexivity.
  - reflexivity.
  - reflexivity.
  - reflexivity.
  - discriminate.
  - eexists. repeat split; try reflexivity. discriminate.
  - reflexivity.
Defined.

Lemma login_email_case_insensitive_witness :
  Auth.handleUserLogin Scenario.lenient (Scenario.login "A@x.com" "password1")
    (Scenario.world Scenario.registered_db [])
  = Auth.handleUserLogin Scenario.lenient (Scenario.login "a@X.COM" "password1")
      (Scenario.world Scenario.registered_db []).
Proof.
  apply (login_email_case_insensitive Scenario.lenient
           (Scenario.login "A@x.com" "password1") (Scenario.login "a@X.COM" "password1")
           "A@x.com" "a@X.COM" (JS.Str "password1")).
  - eexists. repeat split; try reflexivity. discriminate.
  - eexists. repeat split; try reflexivity. discriminate.
  - reflexivity.
Defined.

Lemma registration_validation_witness :
  exists resp,
    Auth.handleUserRegistration Scenario.lenient (Scenario.register "a.x.com")
      (Scenario.world Scenario.registered_db Scenario.storage_lost)
    = (Returns resp, Scenario.world Scenario.registered_db Scenario.storage_lost) /\
    status resp = 400.
Proof.
  destruct (registration_validation Scenario.lenient (Scenario.register "a.x.com")
              "a.x.com" "A" "B" "password1"
              (Scenario.world Scenario.registered_db Scenario.storage_lost))
    as (resp & w' & Hrun & Hiff & Hsame & _).
  - eexists. repeat split; reflexivity.
  - assert (S : status resp = 400).
    { apply Hiff. intros (_ & _ & E & _). vm_compute in E. discriminate E. }
    pose proof (Hsame S) as E. subst w'.
    exists resp. split; [exact Hrun | exact S].
Defined.

Lemma login_token_verifies_witness :
  exists resp1 resp2,
    fst (Auth.handleUserLogin Scenario.lenient (Scenario.login "a@x.com" "password1")
           (Scenario.world Scenario.registered_db []))
    = Returns resp1 /\ status resp1 = 200 /\
    JS.get (payload resp1) "token" = Returns (JS.Str Fixture.token) /\
    fst (AuthTokens.verifyUserToken Scenario.lenient Fixture.verification
           (Fixture.bearer Fixture.token)
           (snd (Auth.handleUserLogin Scenario.lenient
                   (Scenario.login "a@x.com" "password1")
                   (Scenario.world Scenario.registered_db []))))
    = Returns resp2 /\ status resp2 = 200 /\
    JS.get (payload resp2) "user" = Returns (profile Scenario.alice).
Proof.
  destruct (login_token_verifies Scenario.lenient Fixture.verification
              (Scenario.login "a@x.com" "password1") (Fixture.bearer Fixture.token)
              "a@x.com" (JS.Str "password1") (Scenario.world Scenario.registered_db [])
              Scenario.alice [] "salt" ["uuid-1"; "uuid-2"; "key-1"]
              (JS.Obj [("userId", JS.Num 1); ("email", JS.Str "a@x.com")]))
    as (resp1 & resp2 & H1 & S1 & T1 & H2 & S2 & U2 & _).
  - eexists. repeat split; try reflexivity. discriminate.
  - reflexivity.
  - reflexivity.
  - reflexivity.
  - reflexivity.
  - reflexivity.
  - repeat constructor. intros [].
  - reflexivity.
  - reflexivity.
  - reflexivity.
  - exists resp1, resp2. repeat split; assumption.
Defined.
Lemma create_subscription_validation_witness :
  exists resp,
    CreateSubscription.onRequestPost Scenario.lenient
      (Scenario.post [("email", JS.Str "a@x.com"); ("planType", JS.Str "pro-weekly")])
      (Scenario.world Scenario.registered_db Scenario.storage_lost)
    = (Returns resp, Scenario.world Scenario.registered_db Scenario.storage_lost) /\
    status resp = 400.
Proof.
  destruct (create_subscription_validation Scenario.lenient
              (Scenario.post [("email", JS.Str "a@x.com");
                              ("planType", JS.Str "pro-weekly")])
              (JS.Obj [("email", JS.Str "a@x.com"); ("planType", JS.Str "pro-weekly")])
              (Scenario.world Scenario.registered_db Scenario.storage_lost))
    as (resp & w' & Hrun & Hiff & Hsame & _).
  - reflexivity.
  - apply truthy_readable. reflexivity.
  - intros planType E. vm_compute in E. inversion E. eexists. reflexivity.
  - assert (S : status resp = 400).
    { apply Hiff. intros (Hall & _).
      destruct (Hall "firstName") as (v & Hv & Tv).
      - right. left. reflexivity.
      - vm_compute in Hv. inversion Hv. subst v. discriminate Tv. }
    pose proof (Hsame S) as E. subst w'.
    exists resp. split; [exact Hrun | exact S].
Defined.

Lemma new_subscriber_created_witness :
  exists resp w',
    CreateSubscription.onRequestPost Scenario.lenient (Scenario.subscribe "a@x.com")
      (Scenario.world Scenario.empty [])
    = (Returns resp, w') /\
    status resp = 201 /\
    D1.tbl_users (DB w') = [Fixture.subscriber] /\
    D1.tbl_subscriptions (DB w') = [Scenario.alice_subscription] /\
    List.length (square_calls w') = 3%nat.
Proof.
  destruct (new_subscriber_created Scenario.lenient (Scenario.subscribe "a@x.com")
              "a@x.com" "A" "B" "pro-monthly" (JS.Str "tok") "Pro Plan" "MONTHLY" 299
              (Scenario.world Scenario.empty [])
              (Square.Resolves (JS.Obj [("locations", JS.Arr [Fixture.location])]))
              (Square.Resolves (JS.Obj [("customer", JS.Obj [("id", JS.Str "C1")])]))
              (Square.Resolves
                 (JS.Obj [("subscription",
                           JS.Obj [("id", JS.Str "S1"); ("status", JS.Str "ACTIVE");
                                   ("startDate", JS.Str "2024-01-01")])]))
              [] Fixture.location (JS.Str "L1") "C1" "S1" "2024-01-01" (JS.Str "ACTIVE")
              "salt" ["uuid-1"; "uuid-2"; "key-1"])
    as (w' & Hrun & Hu & Hs & _ & _ & Hc).
  - eexists. repeat split; try reflexivity; discriminate.
  - reflexivity.
  - reflexivity.
  - reflexivity.
  - reflexivity.
  - do 2 eexists. repeat split; reflexivity.
  - reflexivity.
  - do 2 eexists. repeat split; reflexivity.
  - do 2 eexists. repeat split; reflexivity.
  - reflexivity.
  - reflexivity.
  - reflexivity.
  - do 2 eexists. split; [exact Hrun |]. rewrite Hu, Hs, Hc. repeat split.
Defined.

Lemma returning_subscriber_created_witness :
  exists resp w',
    CreateSubscription.onRequestPost Scenario.lenient (Scenario.subscribe "a@x.com")
      (Scenario.world Scenario.registered_db [])
    = (Returns resp, w') /\
    status resp = 201 /\
    D1.tbl_users (DB w')
    = [users.set_square_customer_id (SQLite.TEXT "C1") Scenario.alice] /\
    D1.tbl_subscriptions (DB w') = [Scenario.alice_subscription].
Proof.
  destruct (returning_subscriber_created Scenario.lenient (Scenario.subscribe "a@x.com")
              "a@x.com" "A" "B" "pro-monthly" (JS.Str "tok") "Pro Plan" "MONTHLY" 299
              (Scenario.world Scenario.registered_db []) Scenario.alice []
              (Square.Resolves (JS.Obj [("locations", JS.Arr [Fixture.location])]))
              (Square.Resolves (JS.Obj [("customer", JS.Obj [("id", JS.Str "C1")])]))
              (Square.Resolves
                 (JS.Obj [("subscription",
                           JS.Obj [("id", JS.Str "S1"); ("status", JS.Str "ACTIVE");
                                   ("startDate", JS.Str "2024-01-01")])]))
              [] Fixture.location (JS.Str "L1") "C1" "S1" "2024-01-01" (JS.Str "ACTIVE")
              "salt" ["uuid-1"; "uuid-2"; "key-1"])
    as (w' & Hrun & Hu & Hs & _).
  - eexists. repeat split; try reflexivity; discriminate.
  - reflexivity.
  - reflexivity.
  - reflexivity.
  - discriminate.
  - reflexivity.
  - reflexivity.
  - do 2 eexists. repeat split; reflexivity.
  - reflexivity.
  - do 2 eexists. repeat split; reflexivity.
  - do 2 eexists. repeat split; reflexivity.
  - reflexivity.
  - reflexivity.
  - reflexivity.
  - do 2 eexists. split; [exact Hrun |]. rewrite Hu, Hs. repeat split.
Defined.

Lemma customer_failure_leaves_user_witness :
  exists resp w',
    CreateSubscription.onRequestPost Scenario.lenient (Scenario.subscribe "a@x.com")
      (with_square Fixture.declining [] (Scenario.world Scenario.empty []))
    = (Returns resp, w') /\
    status resp = 500 /\
    map users.email (D1.tbl_users (DB w')) = [SQLite.TEXT "a@x.com"] /\
    map users.square_customer_id (D1.tbl_users (DB w')) = [SQLite.NULL] /\
    D1.tbl_subscriptions (DB w') = [].
Proof.
  destruct (customer_failure_leaves_user Scenario.lenient (Scenario.subscribe "a@x.com")
              "a@x.com" "A" "B" "pro-monthly" (JS.Str "tok") "Pro Plan" "MONTHLY" 299
              (with_square Fixture.declining [] (Scenario.world Scenario.empty []))
              (Square.Resolves (JS.Obj [("locations", JS.Arr [Fixture.location])]))
              (JS.PlainError "customer declined") [] Fixture.location (JS.Str "L1"))
    as (resp & w' & Hrun & S & _ & Hu & Hs & _).
  - eexists. repeat split; try reflexivity; discriminate.
  - reflexivity.
  - reflexivity.
  - reflexivity.
  - reflexivity.
  - do 2 eexists. repeat split; reflexivity.
  - reflexivity.
  - exists resp, w'. split; [exact Hrun |]. rewrite Hu, Hs. repeat split. exact S.
Defined.

Lemma no_location_nothing_done_witness :
  exists resp w',
    CreateSubscription.onRequestPost Scenario.lenient (Scenario.subscribe "a@x.com")
      (with_square [Square.Rejects (JS.PlainError "UNAUTHORIZED")] []
         (Scenario.world Scenario.registered_db Scenario.storage_lost))
    = (Returns resp, w') /\
    status resp = 500 /\
    DB w' = Scenario.registered_db /\
    store_script w' = Scenario.storage_lost /\
    square_calls w' = [Square.ListLocations].
Proof.
  destruct (no_location_nothing_done Scenario.lenient (Scenario.subscribe "a@x.com")
              "a@x.com" "A" "B" "pro-monthly" (JS.Str "tok")
              (CreateSubscription.plan "Pro Plan" "MONTHLY" 299)
              (with_square [Square.Rejects (JS.PlainError "UNAUTHORIZED")] []
                 (Scenario.world Scenario.registered_db Scenario.storage_lost)))
    as (resp & w' & Hrun & S & _ & Hdb & Hst & _ & Hc).
  - eexists. repeat split; try reflexivity; discriminate.
  - reflexivity.
  - right. left. do 2 eexists. reflexivity.
  - exists resp, w'. repeat split; assumption.
Defined.
Lemma unprocessed_webhook_untouched_witness :
  exists w',
    SquareWebhook.onRequestPost Scenario.lenient
      (Scenario.notify Fixture.customer_created_event)
      (Scenario.world Scenario.subscribed_db Scenario.storage_lost)
    = (Returns (SquareWebhook.processed "Webhook received but not handled"), w') /\
    DB w' = Scenario.subscribed_db /\
    store_script w' = Scenario.storage_lost.
Proof.
  destruct (unprocessed_webhook_untouched Scenario.lenient
              (Scenario.notify Fixture.customer_created_event)
              (Scenario.world Scenario.subscribed_db Scenario.storage_lost))
    as (resp & w' & Hrun & [S | ->] & Hiff & Hdb & Hst & _).
  - right. right. do 3 eexists. repeat split; reflexivity.
  - exfalso. apply Hiff in S. destruct S as [S | S]; discriminate S.
  - exists w'. repeat split; assumption.
Defined.

Lemma subscription_created_applied_witness :
  exists w',
    SquareWebhook.handleSubscriptionCreatedWebhook Scenario.lenient
      (Fixture.subscription_created_event "C1" "S1")
      (Scenario.world Fixture.pending_db [])
    = (Returns (SquareWebhook.processed "Subscription created webhook processed"), w') /\
    map subscriptions.status (D1.tbl_subscriptions (DB w')) = [SQLite.TEXT "ACTIVE"].
Proof.
  destruct (subscription_created_applied Scenario.lenient
              (Fixture.subscription_created_event "C1" "S1") "C1" "S1"
              (Scenario.world Fixture.pending_db []))
    as (w' & Hrun & Hs & _).
  - eexists. repeat split; reflexivity.
  - reflexivity.
  - exists w'. split; [exact Hrun |]. rewrite Hs. reflexivity.
Defined.

Lemma payment_made_effects_witness :
  exists resp w',
    SquareWebhook.handlePaymentSuccessWebhook Scenario.lenient
      (Scenario.payment_made_event "I1" "S1") (Scenario.world Scenario.subscribed_db [])
    = (Returns resp, w') /\
    status resp = 200 /\
    map users.subscription_active (D1.tbl_users (DB w')) = [SQLite.TRUE] /\
    D1.tbl_payments (DB w')
    = [payment_row 1 (SQLite.INTEGER 1) 299 "GBP" "SUCCESS" "I1" "2024-01-01 00:00:00"].
Proof.
  destruct (payment_made_effects Scenario.lenient (Scenario.payment_made_event "I1" "S1")
              "S1" "I1" 299 "GBP" (Scenario.world Scenario.subscribed_db [])
              Scenario.alice_subscription [])
    as (resp & w' & Hrun & S & Hu & _ & Hp).
  - eexists. repeat split; reflexivity.
  - reflexivity.
  - reflexivity.
  - reflexivity.
  - exists resp, w'. split; [exact Hrun |]. rewrite Hu, Hp. repeat split. exact S.
Defined.

Lemma payment_failed_effects_witness :
  exists resp w',
    SquareWebhook.handlePaymentFailedWebhook Scenario.strict
      (Fixture.payment_failed_event "I1" "S1") (Scenario.world Scenario.subscribed_db [])
    = (Returns resp, w') /\
    status resp = 500 /\
    D1.tbl_users (DB w') = D1.tbl_users Scenario.subscribed_db /\
    D1.tbl_payments (DB w') = [].
Proof.
  destruct (payment_failed_effects Scenario.strict (Fixture.payment_failed_event "I1" "S1")
              "S1" "I1" 299 "GBP" (Scenario.world Scenario.subscribed_db [])
              Scenario.alice_subscription [])
    as (resp & w' & Hrun & S & Hu & _ & Hp).
  - eexists. repeat split; reflexivity.
  - reflexivity.
  - reflexivity.
  - reflexivity.
  - exists resp, w'. repeat split; assumption.
Defined.

Lemma updateSubscription_settles_witness :
  exists w',
    SquareClient.updateSubscription Fixture.client (JS.Str "S1") (JS.Str "upgrade")
      JS.Undefined (Scenario.world Scenario.subscribed_db [])
    = (Returns (JS.Obj [("success", JS.Bool false);
                        ("error", JS.Str "Invalid action: upgrade")]), w') /\
    only_logs (Scenario.world Scenario.subscribed_db []) w'.
Proof.
  destruct (updateSubscription_settles Fixture.client (JS.Str "S1") JS.Undefined "upgrade"
              (Scenario.world Scenario.subscribed_db []))
    as (v & w' & Hrun & _ & Hinv).
  destruct Hinv as [-> L]; try discriminate.
  exists w'. split; [exact Hrun | exact L].
Defined.

Lemma handleSquareWebhook_only_logs_witness :
  exists w',
    SquareClient.handleSquareWebhook (Some Fixture.customer_created_event)
      (Scenario.world Scenario.subscribed_db [])
    = (Returns (JS.Obj [("success", JS.Bool true);
                        ("message", JS.Str "Event not handled")]), w') /\
    only_logs (Scenario.world Scenario.subscribed_db []) w'.
Proof.
  destruct (handleSquareWebhook_only_logs (Some Fixture.customer_created_event)
              (Scenario.world Scenario.subscribed_db []))
    as (v & w' & Hrun & _ & L & Hun).
  rewrite (Hun Fixture.customer_created_event (JS.Str "customer.created")
             "customer.created" eq_refl eq_refl eq_refl eq_refl) in Hrun.
  exists w'. split; [exact Hrun | exact L].
Defined.

Lemma plans_endpoints_answer_witness :
  (exists w',
     PlansDebug.onRequestGet Fixture.empty_catalog (Scenario.world Scenario.empty [])
     = (Returns (plans_listed JS.Undefined), w')) /\
  JS.get (payload (plans_listed JS.Undefined)) "plans" = Returns (JS.Arr []) /\
  (exists w',
     PlansDirect.onRequestGet Fixture.one_plan (JS.Str "token")
       (Scenario.world Scenario.empty [])
     = (Returns (plans_listed (JS.Arr [JS.Obj [("id", JS.Str "pro-monthly")]])), w')) /\
  (exists w',
     PlansDirect.onRequestGet Fixture.unauthorized (JS.Str "expired")
       (Scenario.world Scenario.empty [])
     = (Returns (plans_failed "Square API error: 401 Unauthorized"), w')).
Proof.
  destruct plans_endpoints_answer as [Hdebug Hdirect].
  split; [| split; [reflexivity | split]].
  - destruct (Hdebug Fixture.empty_catalog (Scenario.world Scenario.empty []))
      as (resp & w' & Hrun & _ & Hok).
    destruct (Hok _ _ _ _ eq_refl eq_refl eq_refl) as [-> _].
    exists w'. exact Hrun.
  - destruct (Hdirect Fixture.one_plan "token" (Scenario.world Scenario.empty []))
      as (resp & w' & Hrun & _ & Hr).
    destruct (Hr _ _ eq_refl) as (_ & _ & Hok).
    rewrite (Hok _ _ eq_refl eq_refl eq_refl) in Hrun.
    exists w'. exact Hrun.
  - destruct (Hdirect Fixture.unauthorized "expired" (Scenario.world Scenario.empty []))
      as (resp & w' & Hrun & _ & Hr).
    destruct (Hr _ _ eq_refl) as (_ & Hno & _).
    rewrite (Hno eq_refl) in Hrun.
    exists w'. exact Hrun.
Defined.

Lemma simplified_endpoint_validates_witness :
  exists resp early,
    CreateSubscriptionSimplified.onRequestPost
      (Scenario.post [("email", JS.Str "a@x.com")]) (Scenario.world Scenario.empty [])
    = (Returns resp, Scenario.world Scenario.empty []) /\
    status resp = 400 /\
    CreateSubscription.onRequestPost Scenario.lenient
      (Scenario.post [("email", JS.Str "a@x.com")]) (Scenario.world Scenario.empty [])
    = (Returns early, Scenario.world Scenario.empty []) /\
    status early = 400.
Proof.
  destruct (simplified_endpoint_validates (Scenario.post [("email", JS.Str "a@x.com")])
              (Scenario.world Scenario.empty []))
    as (resp & Hrun & _ & Hjson).
  destruct (Hjson (JS.Obj [("email", JS.Str "a@x.com")]) eq_refl)
    as (_ & Hiff & Hfull).
  - apply truthy_readable. reflexivity.
  - assert (S : status resp = 400).
    { apply Hiff. intros Hall.
      destruct (Hall "firstName") as (v & Hv & Tv).
      - right. left. reflexivity.
      - vm_compute in Hv. inversion Hv. subst v. discriminate Tv. }
    destruct (Hfull S Scenario.lenient) as (early & Hearly & Se).
    exists resp, early. repeat split; assumption.
Defined.

Lemma getSquareLocation_first_active_witness :
  fst (SquareApi.getSquareLocation (Scenario.world Scenario.empty []))
  = Returns (JS.Obj [("success", JS.Bool true); ("location", Fixture.location)]).
Proof.
  rewrite (getSquareLocation_first_active (Scenario.world Scenario.empty [])
             (JS.Obj [("locations", JS.Arr [Fixture.location])])
             (JS.Arr [Fixture.location])
             [Square.Resolves (JS.Obj [("customer", JS.Obj [("id", JS.Str "C1")])]);
              Square.Resolves
                (JS.Obj [("subscription",
                          JS.Obj [("id", JS.Str "S1"); ("status", JS.Str "ACTIVE");
                                  ("startDate", JS.Str "2024-01-01")])])]).
  - reflexivity.
  - reflexivity.
  - reflexivity.
  - right. eexists. split; [reflexivity |].
    constructor; [| constructor]. apply truthy_readable. reflexivity.
Defined.
Lemma unknown_subscription_payment_dropped_witness :
  exists w1,
    SquareWebhook.handlePaymentSuccessWebhook Scenario.lenient
      (Scenario.payment_made_event "I1" "S9") (Scenario.world Scenario.subscribed_db [])
    = (Returns (SquareWebhook.processed "Payment success webhook processed"), w1) /\
    DB w1 = Scenario.subscribed_db.
Proof.
  destruct (unknown_subscription_payment_dropped Scenario.lenient
              (Scenario.payment_made_event "I1" "S9") "S9"
              (Scenario.world Scenario.subscribed_db []))
    as (w1 & w2 & H1 & _ & Hd1 & _).
  - eexists. split; reflexivity.
  - reflexivity.
  - reflexivity.
  - exists w1. split; assumption.
Defined.

Lemma resumed_subscription_stays_inactive_witness :
  let r1 := SquareWebhook.handleSubscriptionUpdatedWebhook Scenario.lenient
              (Scenario.subscription_updated_event "S1" "PAUSED")
              (Scenario.world Fixture.paid_db []) in
  let r2 := SquareWebhook.handleSubscriptionUpdatedWebhook Scenario.lenient
              (Scenario.subscription_updated_event "S1" "ACTIVE") (snd r1) in
  map users.subscription_active (D1.tbl_users Fixture.paid_db) = [SQLite.TRUE] /\
  status_of (fst r2) = Some 200 /\
  local_statuses "S1" (DB (snd r2)) = [SQLite.TEXT "ACTIVE"] /\
  map users.subscription_active (D1.tbl_users (DB (snd r2))) = [SQLite.FALSE].
Proof.
  destruct (resumed_subscription_stays_inactive Scenario.lenient
              (Scenario.subscription_updated_event "S1" "PAUSED")
              (Scenario.subscription_updated_event "S1" "ACTIVE")
              "S1" "PAUSED" "ACTIVE" (Scenario.world Fixture.paid_db [])
              Scenario.alice_subscription [])
    as (_ & S2 & Hst & Hu).
  - eexists. repeat split; reflexivity.
  - right. reflexivity.
  - eexists. repeat split; reflexivity.
  - discriminate.
  - discriminate.
  - reflexivity.
  - reflexivity.
  - split; [reflexivity |]. split; [exact S2 |]. split; [exact Hst |].
    rewrite Hu. reflexivity.
Defined.

Lemma rejected_credentials_leave_no_trace_witness :
  Auth.handleUserLogin Scenario.lenient (Scenario.login "a@x.com" "password2")
    (Scenario.world Scenario.registered_db [])
  = (Returns Auth.InvalidCredentials, Scenario.world Scenario.registered_db []).
Proof.
  destruct (Auth.handleUserLogin Scenario.lenient (Scenario.login "a@x.com" "password2")
              (Scenario.world Scenario.registered_db []))
    as [[resp | e] w'] eqn:Hrun; [| vm_compute in Hrun; discriminate Hrun].
  assert (E : resp = Auth.InvalidCredentials)
    by (vm_compute in Hrun; inversion Hrun; reflexivity).
  subst resp.
  rewrite (rejected_credentials_leave_no_trace Scenario.lenient
             (Scenario.login "a@x.com" "password2")
             (Scenario.world Scenario.registered_db []) Auth.InvalidCredentials w'
             eq_refl (or_intror (conj Hrun (or_intror eq_refl)))).
  reflexivity.
Defined.
